(* ===== verification/_CoqProject ===== *)
-Q . S2P
Prelude.v
Double.v
Fetch.v
Prog.v
Payments.v
JsObject.v
Commissions.v
Selection.v
BulkPay.v
CommissionPay.v
Session.v
Listing.v
CommissionsLoad.v
Expenses.v
Invoices.v
Dropdowns.v
Debounce.v
Dashboard.v
Reports.v
TeacherSalary.v
Forms.v
Exports.v
Settings.v
Router.v
Modals.v
Page.v
Sidebar.v
