(* ===== verification/Prelude.v ===== *)
(** * A verification library for the school accounting dashboard client

    The program is one browser script, [src/public/public/js/accouning.js]
    (2,895 lines): the view layer of a school accounting dashboard.  It
    keeps a little module-level state (the bearer token and user, two
    pairs of pagination counters, the set of selected payments, the
    chart), reacts to DOM events, and talks to a REST backend under
    [/api] with [fetch].  All business rules live on the server; what the
    client decides is which requests it sends, in which order, with which
    headers, query strings and bodies, how it groups and sums the records
    it receives, which actions it offers on them, and what it tells the
    user.

    ** How the program is modelled

    A handler is a program of the [prog] monad (Prog.v): it reads the
    answers of the network (a function from request to settled
    response), emits effects in order ([alert], [confirm], the loading
    overlay, modals, requests, section loads, downloads) and ends normally
    or with an exception of [exn].  Handlers that change module-level
    state run in [sprog], the same monad threading a state that survives a
    throw, as the script's variables do.  JSON bodies are values of [jval]
    whose numbers are integers (the amounts are whole dinars); the Number
    operations the script performs on them are those of IEEE doubles
    (Double.v); [toLocaleString] and [toLocaleDateString] are Section
    variables, since their text depends on the browser's locale.
    Where the script declares a function twice (renderTeacherCommissions
    three times, paySingleCommission, clearTeacherFilters and
    updateDashboardStats twice) the model is the last declaration, the one
    in force; the HTML around the values a template prints is not
    modelled, the values and the buttons offered are.  Proofs about long
    handlers run them forward one statement at a time
    ([Prog.srun_seq], [Prog.s_try_ok] and the tactics [srun_ret] and
    [srun_with]), so that no continuation is unfolded twice.

    ** Files, in dependency order

    - [Prelude]      exceptions and the [jsres] error monad, truthiness,
                     [===], [reduce] sums, hint databases [acc]/[acc_rw].
    - [Double]       Numbers as binary64 doubles: [round64] (round half
                     to even, overflow to an infinity), [*], [/], [+],
                     [-], [<] on them; [parseFloat] and [ToNumber] of a
                     string on their ECMAScript grammars.
    - [Fetch]        requests with the bearer header ([api_get],
                     [api_send]), responses, [response.ok], JSON bodies,
                     [Promise.allSettled] answers and the effects.
    - [Prog]         the [prog] and [sprog] monads, [try/catch/finally]
                     ([p_try], [s_try]), [showLoading]/[hideLoading],
                     [showModal]/[hideModal], [?.] and [=== 'lit'].
    - [Payments]     viewPayment, markAsPaid, submitPayment,
                     deleteExpense, submitExpense (lines 873-991, 2630-2711).
    - [JsObject]     plain objects as dictionaries: insertion order,
                     Object.prototype fall-through, Object.values order.
    - [Commissions]  the three renderTeacherCommissions and
                     renderTeacherCommissionsByClass (lines 1109-1462,
                     2092-2198, 2494-2580): grouping, subtotals, cards.
    - [Selection]    selectedPayments (line 16) behind the [PaymentSet]
                     interface, the row and select-all handlers, the count.
    - [BulkPay]      markSelectedAsPaid (lines 769-826).
    - [CommissionPay] paySingleCommission, submitCommissionPayment,
                     submitClassCommissionPayment, payAllTeachers,
                     payAllTeacherCommissions, calculateAllCommissions.
    - [Session]      handleLogin, handleLogout, showLogin, showApp,
                     getRoleName and the restoring part of initApp.
    - [Listing]      the query strings of loadPayments, loadExpenses,
                     loadTeacherCommissions and loadInvoices and what the
                     server reads from them; loadPayments, renderPayments,
                     getPaymentMethodName; both pagers and filter resets;
                     loadData, which nothing calls and which always
                     rejects.
    - [CommissionsLoad] loadTeacherCommissions (lines 1252-1285) in full,
                     with renderTeacherCommissionsByClass read on the
                     parsed JSON ([render_response]) and the encoders of
                     the answers the typed records represent.
    - [Expenses]     loadExpenses, renderExpenses and viewExpense
                     (lines 1047-1090, 2583-2628).
    - [Invoices]     loadInvoices, renderInvoices and viewInvoice (lines
                     1753-1880): the invoice modal's items, subtotal, tax
                     and total, over a map from element id to text.
    - [Dropdowns]    populateClasses, populateTeachers, populateStudents,
                     populateMonths and populateYears (lines 259-356,
                     580-633) over a map from select id to its options,
                     and the calls of loadInitialData as a step relation.
    - [Debounce]     debounce/executedFunction (lines 1893-1903) over the
                     browser's timers, for the student search (line 107).
    - [Dashboard]    loadDashboardData, updateDashboardStats (second
                     declaration), loadTransactions, renderTransactions,
                     loadChartData and renderChart.
    - [Reports]      generateReport, renderReport, renderReportChart
                     (lines 2319-2488) with [toFixed(2)] on the doubles
                     of the shares and [new Chart] refusing a canvas in
                     use; loadBudgets, createBudget and
                     generateBudgetReport (lines 2778-2821, 2876-2895).
    - [TeacherSalary] payTeacherCommissionsAndPrint and generateInvoice
                     (lines 1951-2056): the salary payment and the
                     printable invoice built from the paid commissions.
    - [Forms]        showPayCommissionModal, showPayClassCommissionModal
                     and calculateCommissionAmount (lines 1197-1250,
                     1466-1489) over the inputs' values, with [parseFloat]
                     and the double arithmetic of the amount;
                     the other form openers, addNewExpense, the invoice
                     placeholders and the print handlers.
    - [Exports]      exportData with encodeURIComponent, exportPayments,
                     exportExpenses, exportInvoices, exportToExcel,
                     exportClassCommissions, exportReport.
    - [Settings]     loadSettings and saveSettings over localStorage.
    - [Router]       showSection and the nav-link listener, over the
                     [RouterHost] interface; [dispatch] of an event to
                     the copies of its listener.
    - [Modals]       the modals' [style.display], showModal/hideModal
                     acting on it, and the close-button and window click
                     listeners of setupEventListeners (lines 75-89).
    - [Page]         initApp, setupEventListeners, the two
                     DOMContentLoaded listeners and event dispatch, with
                     [addEventListener] ignoring a second registration of
                     the named handlers; it implements [RouterHost].
    - [Sidebar]      the sidebar toggle and the document click listener
                     of the second DOMContentLoaded listener.

    ** What the theorems show (claim ids C1-C35)

    - C1-C7 (Commissions): the grouping loop refines its specification
      (first-occurrence keys, records in input order); card totals
      conserve the input amounts; the figures and buttons of a card; the
      exceptions of the renderers (a null student, an Object.prototype
      key).  renderTeacherCommissions (declared three times, the last in
      force) is called nowhere in the script; its theorems say what the
      function in force does when called.
    - C8 (Debounce): one debounced closure refines the debouncing
      specification (one call per input not followed by another within
      [wait]).  The page creates two such closures, since
      setupEventListeners runs twice; each clears only its own timer, so
      every call of the specification happens twice.  The timer loop's
      fuel and the last-input property are proved without a claim id.
    - C9, C20 (Listing): the payments page stays >= 1 in every
      reachable state (rule induction over [payments_reachable]); what
      the server reads from a loader's URL.
    - C25, C31 (CommissionsLoad): loadTeacherCommissions leaves exactly
      the cards of the typed renderer and alerts exactly when one threw;
      its failures (the alert on a failed request or a body that is not
      JSON, silence on a non-2xx answer, an empty container on an answer
      that is not an array).  That the renderer read on the parsed JSON
      is the typed renderer is a plain theorem.
    - C35 (Expenses): loadExpenses shows the whole table or the notice,
      never a partial table; Invoices.v proves the opposite of
      loadInvoices and the totals of the invoice modal (plain theorems).
    - C10 (Exports): the export query string round-trips through
      encodeURIComponent and the server's decoding.
    - C11, C13, C30 (Reports): a financial report fills one row per
      entry and draws its chart on a free canvas, while every later
      report ends in the alert of [new Chart]; every displayed share lies
      between 0.00% and 100.00%; generateBudgetReport alerts failure
      exactly on success.
    - C12, C14, C29 (Dropdowns): the clearing loop ends, with enough
      fuel exactly, leaving the first option; the two class selects stay
      in step over any run of the fillers (rule induction over
      [dd_reachable]); the month options are well formed.
    - C15 (Selection): the footer count stays in sync with the
      selection; that the Set refines a finite set is a plain theorem.
    - C16, C17 (BulkPay), C18, C19 (Payments), C22, C23 (CommissionPay):
      every branch of the state-changing handlers: requests, alerts,
      reloads, the overlay closed on every path, a [null] error body
      turned into the generic message; payAllTeacherCommissions never
      pays, [TeacherCommission] being undefined in the page.
    - C24 (TeacherSalary): the invoice printed after a salary payment
      (one numbered row per commission, the sum as total).
    - C26, C27 (Forms): the class payment modal writes the total and
      percentage and the amount [toFixed(2)] of the double
      [total * (percentage / 100)], read through [parseFloat]; for a
      safe-integer total the amount lies between 0.00 and the total.
    - C21 (Dashboard): the dashboard figures.
    - C34 (Modals): a click on a modal's backdrop or on its close button
      hides that modal and no other, however many times the listeners
      were added.
    - C28 (Session), C32 (Router), C33 (Page): login and reload round
      trip; the router's one-active invariant; the anonymous listeners
      added twice (a link click loads twice) while the named login
      handler runs once.
      Further theorems of these files and of Settings.v, Exports.v and
      Dropdowns.v (refused logins, a broken stored user, a click on a
      missing section, the sample chart, the stale selection count, the
      settings round trip, the dropped student filter, the number of
      month options) are proved without a claim id, as are the inert
      teachers pager (Listing.v), the messages after a salary payment
      (TeacherSalary.v), the unknown report type (Reports.v), the chart
      series taken by position (Dashboard.v), the numeric order of
      teacher ids (Commissions.v) and the total that payAllTeacherCommissions
      would report were [TeacherCommission] defined (CommissionPay.v).

    Each claim with hypotheses has a witness (a [Defined] lemma named
    [_witness]) that applies it to a concrete page, network and input.

    ** Bounds and fuel

    The Number arithmetic is that of doubles ([Double.round64]): each
    [*], [/], [+] and [-] the script performs on Numbers is the exact
    rational result rounded to the nearest double, ties to even, with an
    infinity from [2^1024 - 2^970] on and an infinity or [NaN] for a zero
    divisor.  [parseFloat] and [ToNumber] read a literal as the double
    nearest to its exact value; [Double.parseFloat_pretty] shows that
    [parseFloat(String(n))] is the double nearest to [n], which is [n]
    itself for a safe integer ([|n| <= 2^53 - 1], [Double.round64_int]).
    [toFixed(2)] follows its ECMAScript definition on the value of the
    double (the nearest hundredth, the larger on a tie); its text from
    [10^21] on is a Section variable.  The sums the script builds with
    [reduce] and [+=] over the amounts of the server (the dashboard
    figures, the card and report totals) are kept as exact integers:
    while a partial sum stays a safe integer the double sum is that
    integer ([Double.d_add_int]), and the theorems that bound such a sum
    state it (C27 requires a safe-integer total).  String amounts are
    modelled ([Dashboard.num]) because [+] concatenates them.
    The clearing loop of a select, [Dropdowns.remove_extra], runs with
    fuel and answers [None] while still running; C12 shows that it stops
    exactly when the fuel covers the options beyond the first, and
    [Dropdowns.clear_options] gives it the number of options.
    The other loop without a structural measure is the browser's timer
    loop [Debounce.run_timers]; it is given as fuel the number of active
    timers, and [Debounce.run_timers_done] proves that this fuel always
    leaves no timer due.
    The server's query parser ([Listing.server_params]) is modelled from
    the URL rules the backend applies ([&] splits, [=] separates, [+] is a
    space, [%XX] decodes, [#] ends the URL).

    ** Not modelled

    The Chart.js, XLSX and window.print libraries beyond the data handed
    to them (a report chart is the pair of its labels and data) and the
    refusal of a canvas in use, whose message (naming Chart.js's id of
    the old chart) is a Section variable; signed zero ([-0] is [0]) and
    white space outside ASCII in [parseFloat] and [ToNumber]; the
    dashboard sums of amounts that are strings of non-integers; the
    clock ([new Date()] is a parameter of populateMonths and
    populateYears, [Date.now()] of TeacherSalary); the markup the print
    handlers print, which is a string of the model; loadReports, whose
    body is empty; what renderTeacherCommissionsByClass shows for a
    commission whose amount is not a number ([sum + c.amount] then
    concatenates strings or gives [NaN]; the typed records hold numbers,
    and CommissionsLoad.v leaves that case as a Section variable); the
    [console.error] calls; the click listeners on the way between a
    close button and [window] other than the sidebar's;
    updateTeachersPagination, which nothing calls; the first declarations
    of renderTeacherCommissions and of paySingleCommission, whose bodies
    the generic renderer and the second declaration already model (the
    model is the last declaration, the one in force).  The first
    declarations that differ from the one in force, clearTeacherFilters
    and updateDashboardStats, are modelled beside it
    ([Listing.clearTeacherFilters_first],
    [Dashboard.updateDashboardStats_first]) and compared with it.
*)

From Stdlib Require Import ZArith.
From stdpp Require Import base list strings.

Declare Scope acc_scope.
Delimit Scope acc_scope with acc.

(** ** Exceptions and the error monad

    A handler of the script either finishes or throws.  The exceptions
    that the modelled code can raise are those the engine and the fetch
    API raise on their own: a [TypeError] when a property of
    [null]/[undefined] is read or when [fetch] fails on the network (the
    string names the expression), a [ReferenceError] when an identifier
    that no script defines is evaluated, and a [SyntaxError] when
    [response.json()] meets a body that is not JSON; [JsError] is a
    [throw new Error(message)] of the script itself. *)

Inductive exn : Type :=
| TypeError (what : string)
| ReferenceError (name : string)
| SyntaxError (what : string)
| JsError (message : string).

(** [error.message]: the script's own text for [JsError]; for the
    engine's errors the browser's text, which the model names by the
    expression that failed. *)
Definition exn_message (e : exn) : string :=
  match e with TypeError s | ReferenceError s | SyntaxError s | JsError s => s end.

Inductive jsres (A : Type) : Type :=
| Ret (a : A)
| Throw (e : exn).
Arguments Ret {A} a.
Arguments Throw {A} e.

#[export] Instance jsres_ret : MRet jsres := @Ret.
#[export] Instance jsres_bind : MBind jsres :=
  λ A B f m, match m with Ret a => f a | Throw e => Throw e end.

(** [x.f] where [x] may be [null]: the value or the [TypeError]. *)
Definition deref {A} (what : string) (o : option A) : jsres A :=
  match o with Some a => Ret a | None => Throw (TypeError what) end.

Lemma bind_Ret {A B} (m : jsres A) (f : A → jsres B) b :
  (m ≫= f) = Ret b ↔ ∃ a, m = Ret a ∧ f a = Ret b.
Proof. destruct m; simpl; split; [eauto|by intros (? & [= ->] & ?)|done|by intros (? & ? & ?)]. Qed.

Lemma bind_Throw {A B} (m : jsres A) (f : A → jsres B) e :
  m = Throw e → (m ≫= f) = Throw e.
Proof. by intros ->. Qed.

Lemma deref_Ret {A} w (o : option A) a : deref w o = Ret a ↔ o = Some a.
Proof. destruct o; simpl; split; congruence. Qed.

(** JavaScript's [===] on two strings. *)
Notation "a === b" := (String.eqb a b) (at level 70, no associativity) : acc_scope.

Local Open Scope acc_scope.
Local Open Scope string_scope.

(** Truthiness of a string ([""] is the only falsy string) and of a value
    that may be [null]/[undefined]. *)
Definition truthy (s : string) : bool := negb (s === "").


(** [x || d] on a string that may be missing: the fallback of the code's
    [settings.schoolName || 'default'] and [role] lookups. *)
Definition or_default (o : option string) (d : string) : string :=
  match o with Some s => if truthy s then s else d | None => d end.

(** ** Sums

    [arr.reduce((sum, x) => sum + f(x), 0)] is a left fold; [sumZ] is the
    right fold the proofs reason with. *)

Local Open Scope Z_scope.

Definition reduce_sum {A} (f : A → Z) (l : list A) : Z :=
  fold_left (λ s x, s + f x) l 0.

Definition sumZ {A} (f : A → Z) (l : list A) : Z :=
  foldr (λ x acc, f x + acc) 0 l.

(** [acc]: membership and list facts for [auto]; [acc_rw]: the
    normal form of sums (right folds, split over [++]). *)
Create HintDb acc discriminated.
Create Rewrite HintDb acc_rw.
#[export] Hint Resolve list_elem_of_here list_elem_of_further : acc.

Section Sums.
Context {A : Type}.
Implicit Types (f : A → Z) (l : list A) (p : A → bool).

Lemma fold_left_sum_shift f l s :
  fold_left (λ s x, s + f x) l s = s + sumZ f l.
Proof.
  revert s. induction l as [|x l IH]; intros s; simpl; [lia|].
  rewrite IH. lia.
Qed.

Lemma reduce_sum_sumZ f l : reduce_sum f l = sumZ f l.
Proof. unfold reduce_sum. rewrite fold_left_sum_shift. lia. Qed.

Lemma sumZ_nil f : sumZ f [] = 0.
Proof. reflexivity. Qed.

Lemma sumZ_cons f x l : sumZ f (x :: l) = f x + sumZ f l.
Proof. reflexivity. Qed.

Lemma sumZ_app f l1 l2 : sumZ f (l1 ++ l2) = sumZ f l1 + sumZ f l2.
Proof. induction l1; simpl; lia. Qed.

Lemma sumZ_ext f g l : (∀ x, x ∈ l → f x = g x) → sumZ f l = sumZ g l.
Proof.
  induction l as [|x l IH]; intros H; simpl; [done|].
  rewrite (H x), IH; [done| |]; auto with acc.
Qed.

Lemma sumZ_filter f p l :
  sumZ f (List.filter p l) = sumZ (λ x, if p x then f x else 0) l.
Proof. induction l as [|x l IH]; simpl; [done|]. destruct (p x); simpl; lia. Qed.

#[export] Instance sumZ_perm f : Proper ((≡ₚ) ==> eq) (sumZ f).
Proof. intros l1 l2 Hp. induction Hp; simpl; lia. Qed.

Lemma sumZ_concat f (ls : list (list A)) :
  sumZ f (concat ls) = sumZ (sumZ f) ls.
Proof. induction ls; simpl; [done|]. rewrite sumZ_app. lia. Qed.
Lemma sumZ_Forall2 {B} (R : A → B → Prop) (F : B → Z) (G : A → Z) l (l' : list B) :
  Forall2 R l l' → (∀ x y, R x y → F y = G x) → sumZ F l' = sumZ G l.
Proof. induction 1 as [|x y l l' Hxy _ IH]; intros HFG; simpl; [done|]. rewrite (HFG x y), IH; done. Qed.

Lemma sumZ_map {B} (f : B → Z) (h : A → B) l : sumZ f (map h l) = sumZ (λ x, f (h x)) l.
Proof. induction l; simpl; lia. Qed.

Lemma map_Forall2_eq {B C} (R : A → B → Prop) (F : B → C) (G : A → C) l (l' : list B) :
  Forall2 R l l' → (∀ x y, R x y → F y = G x) → map F l' = map G l.
Proof. induction 1 as [|x y l l' Hxy _ IH]; intros HFG; simpl; [done|]. rewrite (HFG x y), IH; done. Qed.

End Sums.

(** ** Counting *)

Definition count_if {A} (p : A → bool) (l : list A) : nat :=
  length (List.filter p l).

Lemma count_if_split {A} (p : A → bool) (l : list A) :
  (count_if p l + count_if (λ x, negb (p x)) l)%nat = length l.
Proof. apply filter_length. Qed.

(** ** Filters and keys

    Grouping records by a string key: the keys in order of first
    occurrence, and the fact that the per-key filters over all keys
    rearrange the input. *)

Section Keys.
Context {A : Type}.
Implicit Types (l : list A) (p : A → bool).

Lemma filter_split_perm p l :
  List.filter p l ++ List.filter (λ x, negb (p x)) l ≡ₚ l.
Proof.
  induction l as [|x l IH]; simpl; [done|].
  destruct (p x); simpl; [by rewrite IH|]. by rewrite <- Permutation_middle, IH.
Qed.

Lemma filter_filter_and p q l :
  List.filter p (List.filter q l) = List.filter (λ x, q x && p x) l.
Proof.
  induction l as [|x l IH]; simpl; [done|].
  destruct (q x); simpl; [destruct (p x); simpl|]; congruence.
Qed.

Lemma filter_ext_in p q l :
  (∀ x, x ∈ l → p x = q x) → List.filter p l = List.filter q l.
Proof.
  induction l as [|x l IH]; intros H; simpl; [done|].
  rewrite (H x) by apply list_elem_of_here.
  rewrite IH; [done|]. intros y Hy. apply H, list_elem_of_further, Hy.
Qed.

Lemma filter_nil_not_in (f : A → string) k l :
  k ∉ f <$> l → List.filter (λ x, f x === k) l = [].
Proof.
  induction l as [|x l IH]; intros Hk; simpl; [done|].
  rewrite fmap_cons, not_elem_of_cons in Hk. destruct Hk as [Hne Hk].
  destruct (String.eqb_spec (f x) k); [congruence|]. by apply IH.
Qed.

Lemma concat_filter_keys (f : A → string) (ks : list string) l :
  NoDup ks → (∀ x, x ∈ l → f x ∈ ks) →
  concat (map (λ k, List.filter (λ x, f x === k) l) ks) ≡ₚ l.
Proof.
  revert l. induction ks as [|k ks IH]; intros l Hnd Hin; simpl.
  - destruct l as [|x l]; [done|]. exfalso.
    apply (not_elem_of_nil (f x)), Hin, list_elem_of_here.
  - apply NoDup_cons in Hnd as [Hk Hnd].
    etrans; [|apply (filter_split_perm (λ x, f x === k) l)].
    apply Permutation_app_head.
    etrans; [|apply (IH (List.filter (λ x, negb (f x === k)) l) Hnd)].
    + erewrite map_ext_in; [reflexivity|]. intros k' Hk'%list_elem_of_In.
      cbv beta. rewrite filter_filter_and. apply filter_ext_in. intros x _.
      assert (k' ≠ k) by (intros ->; contradiction).
      destruct (String.eqb_spec (f x) k'), (String.eqb_spec (f x) k); simpl; congruence.
    + intros x Hx%list_elem_of_In. apply filter_In in Hx as [Hx%list_elem_of_In Hxk].
      apply Hin, elem_of_cons in Hx as [Heq|Hx]; [|done].
      cbv beta in Hxk. by rewrite Heq, String.eqb_refl in Hxk.
Qed.

Lemma filter_snoc_eq (f : A → string) k l x :
  f x = k → List.filter (λ y, f y === k) (l ++ [x])%list = (List.filter (λ y, f y === k) l ++ [x])%list.
Proof. intros <-. rewrite List.filter_app. simpl. by rewrite String.eqb_refl. Qed.

Lemma filter_snoc_ne (f : A → string) k l x :
  f x ≠ k → List.filter (λ y, f y === k) (l ++ [x])%list = List.filter (λ y, f y === k) l.
Proof.
  intros Hne. rewrite List.filter_app. simpl.
  destruct (String.eqb_spec (f x) k); [congruence|]. apply app_nil_r.
Qed.

(** The keys of [l] in order of first occurrence. *)
Definition dedup_step (acc : list string) (k : string) : list string :=
  if bool_decide (k ∈ acc) then acc else acc ++ [k].

Definition dedup_first (ks : list string) : list string := fold_left dedup_step ks [].

Lemma dedup_first_snoc ks k :
  dedup_first (ks ++ [k]) = dedup_step (dedup_first ks) k.
Proof. unfold dedup_first. by rewrite fold_left_app. Qed.

Lemma dedup_step_spec acc k :
  NoDup acc → NoDup (dedup_step acc k) ∧ ∀ k', k' ∈ dedup_step acc k ↔ k' ∈ acc ∨ k' = k.
Proof.
  intros Hnd. unfold dedup_step. case_bool_decide as Hk.
  - split; [done|]. intros k'. split; [by left|]. intros [?| ->]; done.
  - split.
    + apply NoDup_app. split; [done|]. split; [|apply NoDup_singleton].
      intros x Hx ->%list_elem_of_singleton. contradiction.
    + intros k'. rewrite elem_of_app, list_elem_of_singleton. tauto.
Qed.

Lemma fold_dedup_spec ks acc :
  NoDup acc →
  NoDup (fold_left dedup_step ks acc) ∧
  ∀ k, k ∈ fold_left dedup_step ks acc ↔ k ∈ acc ∨ k ∈ ks.
Proof.
  revert acc. induction ks as [|k ks IH]; intros acc Hnd; simpl.
  - split; [done|]. intros k. rewrite elem_of_nil. tauto.
  - destruct (dedup_step_spec acc k Hnd) as [Hnd' Hstep].
    destruct (IH _ Hnd') as [? Hin]. split; [done|].
    intros k'. rewrite Hin, Hstep, elem_of_cons. tauto.
Qed.

Lemma NoDup_dedup_first ks : NoDup (dedup_first ks).
Proof. apply fold_dedup_spec, NoDup_nil_2. Qed.

Lemma elem_of_dedup_first ks k : k ∈ dedup_first ks ↔ k ∈ ks.
Proof.
  unfold dedup_first. rewrite (proj2 (fold_dedup_spec ks [] (NoDup_nil_2))).
  rewrite elem_of_nil. tauto.
Qed.
End Keys.

(** ** Automation *)

#[export] Hint Rewrite @reduce_sum_sumZ @sumZ_app @sumZ_cons @sumZ_nil : acc_rw.

(** Case on the [===] tests left in the goal. *)
Ltac case_streq :=
  repeat match goal with
  | |- context [String.eqb ?a ?b] => destruct (String.eqb_spec a b); subst
  end.

(** Decompose a successful run [m ≫= f = Ret b] of the error monad. *)
Ltac inv_js :=
  repeat match goal with
  | H : (_ ≫= _) = Ret _ |- _ => apply bind_Ret in H as (? & ? & H)
  | H : deref _ _ = Ret _ |- _ => apply deref_Ret in H
  | H : Ret _ = Ret _ |- _ => injection H as H
  end; subst.


