(* ===== verification/Double.v ===== *)
(** * Numbers as the browser computes them: IEEE 754 binary64

    A JavaScript number is a double.  The model keeps the exact rational
    value of a finite double ([QFin]), the two infinities and [NaN], and
    rounds the exact result of every operation the script performs on
    them ([/], [*], [+], [-]) and every decimal literal it reads
    ([parseFloat], [ToNumber]) to the nearest double, ties to even, as
    IEEE 754 prescribes: [round64].  A value of at least [2^1024 - 2^970]
    in magnitude rounds to an infinity.  The sign of a zero is not kept
    (the script never divides by a negative zero).

    The lemmas give what the properties of the handlers need: integers of
    magnitude below [2^53] (the safe integers) are doubles, and a value
    between two such integers rounds to a double between them.

    The second half holds the grammar of decimal literals shared by
    [parseFloat] (its longest prefix) and [ToNumber] (the whole trimmed
    string), with the white space of [StrWhiteSpaceChar] restricted to
    ASCII. *)

From Stdlib Require Import ZArith QArith Qround Qreduction Qcanon Lqa Ascii.
From stdpp Require Import base list strings pretty.
From S2P Require Import Prelude.

Local Open Scope string_scope.
Local Open Scope acc_scope.
Local Open Scope list_scope.

(** ** Doubles *)

(** A number: a finite double by its exact value, an infinity, [NaN]. *)
Inductive qnum : Type := QFin (q : Q) | QInf (positive : bool) | QNaN.

(** [2^k] for an integer [k]. *)
Definition pow2 (k : Z) : Q :=
  if (0 <=? k)%Z then inject_Z (2 ^ k) else (1 # Z.to_pos (2 ^ (- k))).

(** [floor (log2 x)] of a positive rational: [x] lies between
    [2^(k-1)] and [2^(k+1)] for [k] the difference of the logarithms of
    its numerator and denominator. *)
Definition flog2 (x : Q) : Z :=
  let k := (Z.log2 (Qnum x) - Z.log2 (Zpos (Qden x)))%Z in
  if Qle_bool (pow2 k) x then k else (k - 1)%Z.

(** The integer nearest to [y], the even one on a tie. *)
Definition round_half_even (y : Q) : Z :=
  let f := Qfloor y in
  match Qcompare (y - inject_Z f) (1 # 2) with
  | Lt => f
  | Gt => (f + 1)%Z
  | Eq => if Z.even f then f else (f + 1)%Z
  end.

(** The exponent of the last digit of the 53-bit significand, no less
    than that of the smallest subnormal. *)
Definition emin : Z := -1074.

(** A positive value rounded: [x / 2^e] to the nearest integer [m], then
    [m * 2^e]; [2^1024] or more is an infinity. *)
Definition round_pos (x : Q) : qnum :=
  let e := Z.max emin (flog2 x - 52) in
  let v := Qred (inject_Z (round_half_even (x / pow2 e)) * pow2 e) in
  if Qle_bool (pow2 1024) v then QInf true else QFin v.

(** The double nearest to a rational. *)
Definition round64 (x : Q) : qnum :=
  let y := Qred x in
  match Qcompare y 0 with
  | Eq => QFin 0
  | Gt => round_pos y
  | Lt => match round_pos (Qred (- y)) with
          | QFin v => QFin (- v)
          | QInf _ => QInf false
          | QNaN => QNaN
          end
  end.

(** The double of an integer read from a literal or a sum. *)
Definition of_Z (z : Z) : qnum := round64 (inject_Z z).

(** [x * y]: [NaN] absorbs, an infinity times zero is [NaN]. *)
Definition d_mul (x y : qnum) : qnum :=
  match x, y with
  | QNaN, _ | _, QNaN => QNaN
  | QFin a, QFin b => round64 (a * b)
  | QInf s, QFin b | QFin b, QInf s =>
      if Qeq_bool b 0 then QNaN else QInf (if Qle_bool 0 b then s else negb s)
  | QInf s, QInf t => QInf (Bool.eqb s t)
  end.

(** [x / y]; a zero divisor is [+0]. *)
Definition d_div (x y : qnum) : qnum :=
  match x, y with
  | QNaN, _ | _, QNaN => QNaN
  | QFin a, QFin b =>
      if Qeq_bool b 0 then (if Qeq_bool a 0 then QNaN else QInf (Qle_bool 0 a)) else round64 (a / b)
  | QInf s, QFin b => QInf (if Qle_bool 0 b then s else negb s)
  | QFin _, QInf _ => QFin 0
  | QInf _, QInf _ => QNaN
  end.

(** [x + y]: infinities of opposite signs give [NaN]. *)
Definition d_add (x y : qnum) : qnum :=
  match x, y with
  | QNaN, _ | _, QNaN => QNaN
  | QFin a, QFin b => round64 (a + b)
  | QInf s, QInf t => if Bool.eqb s t then QInf s else QNaN
  | QInf s, QFin _ | QFin _, QInf s => QInf s
  end.

Definition d_opp (x : qnum) : qnum :=
  match x with QFin a => QFin (- a) | QInf s => QInf (negb s) | QNaN => QNaN end.

(** [x - y]. *)
Definition d_sub (x y : qnum) : qnum := d_add x (d_opp y).

(** [n < x] for an integer [n]: a comparison with [NaN] is [false]. *)
Definition d_lt_Z (n : Z) (x : qnum) : bool :=
  match x with
  | QFin q => negb (Qle_bool q (inject_Z n))
  | QInf s => s
  | QNaN => false
  end.

(** The safe integers: below [2^53] in magnitude. *)
Definition max_safe : Z := 2 ^ 53 - 1.

(** ** [parseFloat] *)

(** The ASCII white space of [StrWhiteSpaceChar]: tab, line feed,
    vertical tab, form feed, carriage return and space. *)
Definition is_space (c : ascii) : bool :=
  let n := nat_of_ascii c in (((9 <=? n) && (n <=? 13)) || (n =? 32))%nat.

Fixpoint skip_space (s : string) : string :=
  match s with
  | String c s' => if is_space c then skip_space s' else s
  | EmptyString => s
  end.

Definition digit_value (c : ascii) : option Z :=
  let n := nat_of_ascii c in if ((48 <=? n) && (n <=? 57))%nat then Some (Z.of_nat n - 48)%Z else None.

(** The [DecimalDigits] at the head of [s]: their value appended to
    [acc], their number added to [n], and the rest of [s]. *)
Fixpoint digits (s : string) (acc : Z) (n : nat) : Z * nat * string :=
  match s with
  | String c s' =>
      match digit_value c with
      | Some d => digits s' (acc * 10 + d) (S n)
      | None => (acc, n, s)
      end
  | EmptyString => (acc, n, s)
  end.

(** An [ExponentPart] at the head of [s] and the rest of [s]; [0] and
    [s] itself when none follows (an [e] without digits is not one). *)
Definition exponent_part (s : string) : Z * string :=
  match s with
  | String c s' =>
      if (c =? "e")%char || (c =? "E")%char then
        let '(sign, r) := match s' with
                          | String "+" r => (1%Z, r)
                          | String "-" r => ((-1)%Z, r)
                          | _ => (1%Z, s')
                          end in
        let '(e, k, r') := digits r 0 0 in if (k =? 0)%nat then (0%Z, s) else ((sign * e)%Z, r')
      else (0%Z, s)
  | EmptyString => (0%Z, s)
  end.

(** [m * 10^e] for an integer exponent. *)
Definition scale10 (m : Q) (e : Z) : Q :=
  if (0 <=? e)%Z then (m * inject_Z (10 ^ e))%Q else (m / inject_Z (10 ^ (- e)))%Q.

(** The [StrUnsignedDecimalLiteral] at the head of [s], its exact
    value and the rest of [s]; [None] when [s] does not start with one. *)
Definition decimal_literal (s : string) : option (Q * string) :=
  let '(ip, ni, r1) := digits s 0 0 in
  let '(fp, nf, r2) := match r1 with String "." r => digits r 0 0 | _ => (0%Z, 0%nat, r1) end in
  if ((ni =? 0) && (nf =? 0))%nat then None
  else let '(e, r3) := exponent_part r2 in
       Some (scale10 (inject_Z ip + inject_Z fp / inject_Z (10 ^ Z.of_nat nf)) e, r3).

Definition unsigned_literal (s : string) : option Q := fst <$> decimal_literal s.

(** The double of a literal's value with its sign. *)
Definition to_double (positive : bool) (q : Q) : qnum := round64 (if positive then q else - q)%Q.

(** An optional sign at the head of [s]. *)
Definition split_sign (s : string) : bool * string :=
  match s with
  | String "-" r => (false, r)
  | String "+" r => (true, r)
  | _ => (true, s)
  end.

Definition is_prefix (p s : string) : bool := String.prefix p s.

(** [parseFloat(string)]: the longest prefix that is a literal. *)
Definition parseFloat (str : string) : qnum :=
  let '(positive, r) := split_sign (skip_space str) in
  if is_prefix "Infinity" r then QInf positive
  else match unsigned_literal r with
       | Some q => to_double positive q
       | None => QNaN
       end.

(** ** [ToNumber] of a string *)

(** The string without its trailing white space. *)
Fixpoint trim_end (s : string) : string :=
  match s with
  | EmptyString => EmptyString
  | String c s' => let t := trim_end s' in if is_space c && (t =? "")%string then "" else String c t
  end.

(** A digit of base [radix] (2, 8 or 16). *)
Definition radix_digit (radix : Z) (c : ascii) : option Z :=
  let n := Z.of_nat (nat_of_ascii c) in
  let v := if ((48 <=? n) && (n <=? 57))%Z then Some (n - 48)%Z
           else if ((97 <=? n) && (n <=? 102))%Z then Some (n - 87)%Z
           else if ((65 <=? n) && (n <=? 70))%Z then Some (n - 55)%Z else None in
  match v with Some d => if (d <? radix)%Z then Some d else None | None => None end.

(** All of [s] read as digits of base [radix], [None] when [s] is empty
    or holds another character. *)
Fixpoint radix_value (radix : Z) (s : string) (acc : Z) (first : bool) : option Z :=
  match s with
  | EmptyString => if first then None else Some acc
  | String c s' => d ← radix_digit radix c; radix_value radix s' (acc * radix + d) false
  end.

(** [NonDecimalIntegerLiteral]: [0x..], [0o..], [0b..]. *)
Definition non_decimal (s : string) : option Z :=
  match s with
  | String "0" (String c r) =>
      if (c =? "x")%char || (c =? "X")%char then radix_value 16 r 0 true
      else if (c =? "o")%char || (c =? "O")%char then radix_value 8 r 0 true
      else if (c =? "b")%char || (c =? "B")%char then radix_value 2 r 0 true
      else None
  | _ => None
  end.

(** [ToNumber] of a string ([StringToNumber]): the trimmed string must be
    empty ([0]), a non-decimal integer literal, or a signed decimal
    literal or [Infinity] as a whole; anything else is [NaN]. *)
Definition str_to_number (str : string) : qnum :=
  let s := trim_end (skip_space str) in
  if (s =? "")%string then QFin 0
  else match non_decimal s with
       | Some z => of_Z z
       | None =>
           let '(positive, r) := split_sign s in
           if (r =? "Infinity")%string then QInf positive
           else match decimal_literal r with
                | Some (q, EmptyString) => to_double positive q
                | _ => QNaN
                end
       end.

(** ** Rounding lemmas *)

(** Equal rationals round alike. *)
Lemma round64_Qeq x y : (x == y)%Q → round64 x = round64 y.
Proof. intros H. unfold round64. by rewrite (Qred_complete x y H). Qed.

#[export] Instance round64_proper : Proper (Qeq ==> eq) round64.
Proof. intros x y H. by apply round64_Qeq. Qed.

(** Rounding gives a number or an infinity, never [NaN]. *)
Lemma round_pos_not_nan x : round_pos x ≠ QNaN.
Proof. unfold round_pos. by case_match. Qed.

Lemma round64_not_nan x : round64 x ≠ QNaN.
Proof.
  unfold round64. destruct (Qcompare _ _); [done| |apply round_pos_not_nan].
  pose proof (round_pos_not_nan (Qred (- Qred x))). by destruct (round_pos _).
Qed.

(** A division by a non-zero finite number is the rounded quotient. *)
Lemma d_div_fin a b : ¬ (b == 0)%Q → d_div (QFin a) (QFin b) = round64 (a / b).
Proof. intros Hb. unfold d_div. destruct (Qeq_bool b 0) eqn:E; [by apply Qeq_bool_iff in E|done]. Qed.

#[export] Instance round_half_even_proper : Proper (Qeq ==> eq) round_half_even.
Proof.
  intros x y H. unfold round_half_even. rewrite (Qfloor_comp x y H).
  assert (x - inject_Z (Qfloor y) == y - inject_Z (Qfloor y))%Q as H' by (apply Qplus_comp; [exact H|reflexivity]).
  by rewrite (Qcompare_comp _ _ H' (1 # 2) (1 # 2) (Qeq_refl _)).
Qed.

Lemma Qfloor_lt_Z (y : Q) (n : Z) : (inject_Z (Qfloor y) < y)%Q → (y <= inject_Z n)%Q → (Qfloor y < n)%Z.
Proof.
  intros H1 H2. rewrite Zlt_Qlt. eapply Qlt_le_trans; eassumption.
Qed.

(** Rounding to an integer stays between two integer bounds. *)
Lemma round_half_even_between (y : Q) (lo hi : Z) :
  (inject_Z lo <= y <= inject_Z hi)%Q → (lo ≤ round_half_even y ≤ hi)%Z.
Proof.
  intros [Hlo Hhi].
  assert (lo ≤ Qfloor y)%Z as Hf by (rewrite <- (Qfloor_Z lo); by apply Qfloor_resp_le).
  assert (Qfloor y ≤ hi)%Z as Hf' by (rewrite <- (Qfloor_Z hi); by apply Qfloor_resp_le).
  pose proof (Qfloor_le y) as Hle.
  unfold round_half_even. destruct (Qcompare _ _) eqn:Hc.
  - apply Qeq_alt in Hc. assert (Qfloor y < hi)%Z by (apply Qfloor_lt_Z; [lra|done]). destruct (Z.even _); lia.
  - lia.
  - apply Qgt_alt in Hc. assert (Qfloor y < hi)%Z by (apply Qfloor_lt_Z; [lra|done]). lia.
Qed.

(** Below [2^53], the exponent of the last significand digit is at most
    [0]. *)
Lemma flog2_lt (x : Q) : (0 < x)%Q → (x < inject_Z (2 ^ 53))%Q → (flog2 x ≤ 52)%Z.
Proof.
  destruct x as [a b]. intros Hpos Hlt. unfold Qlt in Hpos, Hlt. cbn in Hpos, Hlt.
  assert (0 < a)%Z as Ha by lia.
  pose proof (Z.log2_spec (Zpos b) ltac:(lia)) as [_ Hb].
  assert (a < 2 ^ (54 + Z.log2 (Zpos b)))%Z as Ha'.
  { rewrite Z.pow_add_r by (try lia; apply Z.log2_nonneg). rewrite Z.pow_succ_r in Hb by apply Z.log2_nonneg.
    replace (2 ^ 54)%Z with (2 * 2 ^ 53)%Z by reflexivity. nia. }
  apply Z.log2_lt_pow2 in Ha'; [|done].
  unfold flog2. cbn [Qnum Qden].
  destruct (Qle_bool _ _) eqn:Hq; [|lia].
  assert (Z.log2 a - Z.log2 (Zpos b) ≠ 53)%Z as Hne; [|lia].
  intros Heq. rewrite Heq in Hq. apply Qle_bool_iff in Hq. change (pow2 53) with (inject_Z (2 ^ 53)) in Hq.
  unfold Qle in Hq. cbn in Hq. lia.
Qed.

Lemma pow2_nonpos (e : Z) : (e ≤ 0)%Z → (pow2 e == / inject_Z (2 ^ (- e)))%Q.
Proof.
  intros He. unfold pow2. destruct (Z.leb_spec 0 e).
  - assert (e = 0)%Z as -> by lia. reflexivity.
  - assert (0 < 2 ^ (- e))%Z as Hp by (apply Z.pow_pos_nonneg; lia).
    unfold Qinv, inject_Z. cbn. destruct (2 ^ (- e))%Z eqn:E; [lia|reflexivity|lia].
Qed.

Lemma Qred_idem q : Qred (Qred q) = Qred q.
Proof. apply Qred_complete, Qred_correct. Qed.

(** A positive value below [2^53] between two integers rounds to a
    double between them. *)
Lemma round_pos_between (x : Q) (lo hi : Z) :
  (0 < x)%Q → (0 ≤ lo)%Z → (hi < 2 ^ 53)%Z → (inject_Z lo <= x <= inject_Z hi)%Q →
  ∃ v, round_pos x = QFin v ∧ Qred v = v ∧ (inject_Z lo <= v <= inject_Z hi)%Q.
Proof.
  intros Hx Hlo Hhi [Hl Hh].
  assert (x < inject_Z (2 ^ 53))%Q as Hx53 by (eapply Qle_lt_trans; [exact Hh|]; by rewrite <- Zlt_Qlt).
  pose proof (flog2_lt x Hx Hx53) as Hk.
  set (e := Z.max emin (flog2 x - 52)).
  assert (e ≤ 0)%Z as He by (unfold e, emin; lia).
  set (D := (2 ^ (- e))%Z).
  assert (0 < D)%Z as HD by (apply Z.pow_pos_nonneg; lia).
  assert (0 < inject_Z D)%Q as HD' by (change 0%Q with (inject_Z 0); rewrite <- Zlt_Qlt; exact HD).
  assert (x / pow2 e == x * inject_Z D)%Q as Hy.
  { rewrite (pow2_nonpos e He). fold D. field. intros H. rewrite H in HD'. lra. }
  assert (inject_Z (lo * D) <= x / pow2 e <= inject_Z (hi * D))%Q as Hb.
  { rewrite Hy, !inject_Z_mult. split; apply Qmult_le_compat_r; lra. }
  pose proof (round_half_even_between _ _ _ Hb) as [Hm1 Hm2].
  set (m := round_half_even (x / pow2 e)) in *.
  assert (inject_Z m * pow2 e == inject_Z m / inject_Z D)%Q as Hv.
  { rewrite (pow2_nonpos e He). fold D. reflexivity. }
  assert (inject_Z lo <= inject_Z m * pow2 e <= inject_Z hi)%Q as [Hv1 Hv2].
  { rewrite Hv. rewrite Zle_Qle, inject_Z_mult in Hm1, Hm2. split.
    - apply Qle_shift_div_l; lra.
    - apply Qle_shift_div_r; lra. }
  unfold round_pos. fold e. fold m.
  destruct (Qle_bool (pow2 1024) _) eqn:Hover.
  - exfalso. apply Qle_bool_iff in Hover. rewrite Qred_correct in Hover.
    change (pow2 1024) with (inject_Z (2 ^ 1024)) in Hover.
    assert (inject_Z (2 ^ 1024) <= inject_Z hi)%Q as H by lra. rewrite <- Zle_Qle in H.
    assert (2 ^ 53 < 2 ^ 1024)%Z by (apply Z.pow_lt_mono_r; lia). lia.
  - eexists. split; [reflexivity|]. split; [apply Qred_idem|]. rewrite Qred_correct. lra.
Qed.

(** A non-negative value between two safe integers rounds to a double
    between them. *)
Lemma round64_between (x : Q) (lo hi : Z) :
  (0 ≤ lo)%Z → (hi < 2 ^ 53)%Z → (inject_Z lo <= x <= inject_Z hi)%Q →
  ∃ v, round64 x = QFin v ∧ (inject_Z lo <= v <= inject_Z hi)%Q.
Proof.
  intros Hlo Hhi [Hl Hh]. unfold round64.
  assert (0 <= Qred x)%Q as H0.
  { rewrite Qred_correct. eapply Qle_trans; [|exact Hl]. rewrite <- (Qfloor_Z 0) at 1.
    change (inject_Z 0 <= inject_Z lo)%Q. by rewrite <- Zle_Qle. }
  destruct (Qcompare (Qred x) 0) eqn:Hc.
  - apply Qeq_alt in Hc. exists 0%Q. split; [done|]. rewrite Qred_correct in Hc. rewrite <- Hc. done.
  - apply Qlt_alt in Hc. lra.
  - apply Qgt_alt in Hc.
    destruct (round_pos_between (Qred x) lo hi) as (v & -> & _ & Hv); [done|done|done|rewrite Qred_correct; done|].
    by exists v.
Qed.

(** The safe integers are doubles. *)
Lemma round64_int (n : Z) : (Z.abs n ≤ max_safe)%Z → round64 (inject_Z n) = QFin (inject_Z n).
Proof.
  intros Hn. unfold max_safe in Hn. unfold round64.
  assert (Qred (inject_Z n) = inject_Z n) as Hr by (apply Qred_identity; cbn; apply Z.gcd_1_r).
  rewrite Hr. destruct (Z.compare_spec n 0) as [->|Hneg|Hpos].
  - done.
  - assert (Qcompare (inject_Z n) 0 = Lt) as ->.
    { unfold Qcompare. cbn. rewrite Z.mul_1_r. by apply Z.compare_lt_iff. }
    assert (- inject_Z n == inject_Z (- n))%Q as Hm by (by rewrite inject_Z_opp).
    rewrite (Qred_complete _ _ Hm), (Qred_identity (inject_Z (- n))) by (cbn; apply Z.gcd_1_r).
    destruct (round_pos_between (inject_Z (- n)) (- n) (- n)) as (v & -> & Hvr & Hv);
      [unfold Qlt; cbn; lia|lia|lia|lra|].
    assert (v = inject_Z (- n)) as ->.
    { rewrite <- Hvr, <- (Qred_identity (inject_Z (- n))) by (cbn; apply Z.gcd_1_r). apply Qred_complete. lra. }
    by rewrite <- inject_Z_opp, Z.opp_involutive.
  - assert (Qcompare (inject_Z n) 0 = Gt) as ->.
    { unfold Qcompare. cbn. rewrite Z.mul_1_r. by apply Z.compare_gt_iff. }
    destruct (round_pos_between (inject_Z n) n n) as (v & -> & Hvr & Hv);
      [unfold Qlt; cbn; lia|lia|lia|lra|].
    f_equal. rewrite <- Hvr, <- Hr. apply Qred_complete. lra.
Qed.

(** A sum of two integers whose result is a safe integer is exact. *)
Lemma d_add_int (a b : Z) :
  (Z.abs (a + b) ≤ max_safe)%Z → d_add (QFin (inject_Z a)) (QFin (inject_Z b)) = QFin (inject_Z (a + b)).
Proof.
  intros H. cbn [d_add]. rewrite <- round64_int by done. apply round64_Qeq. by rewrite inject_Z_plus.
Qed.

(** ** [parseFloat] reads back [String(n)] of an integer *)

Lemma digit_value_char (x : N) : (x < 10)%N → digit_value (pretty_N_char x) = Some (Z.of_N x).
Proof.
  intros Hx. assert (∃ m, m < 10 ∧ x = N.of_nat m)%nat as (m & Hm & ->) by (exists (N.to_nat x); lia).
  do 10 (destruct m as [|m]; [reflexivity|]). lia.
Qed.

(** The decimal text of a positive [x] starts with a digit. *)
Lemma pretty_N_go_head (x : N) s :
  (0 < x)%N → ∃ d s', pretty_N_go x s = String (pretty_N_char d) s' ∧ (d < 10)%N.
Proof.
  revert s. induction x as [x IH] using (well_founded_induction N.lt_wf_0). intros s Hx.
  rewrite pretty_N_go_step by done. destruct (decide (x `div` 10 = 0)%N) as [H0|H0].
  - rewrite H0, pretty_N_go_0. eexists _, _. split; [reflexivity|]. apply N.mod_lt. lia.
  - apply IH; [apply N.div_lt; lia|by apply N.neq_0_lt_0].
Qed.

(** Reading the digits of [x] continues the number being read. *)
Lemma digits_pretty_N_go (x : N) s acc n :
  ∃ k, digits (pretty_N_go x s) acc n = digits s (acc * 10 ^ Z.of_nat k + Z.of_N x) (n + k) ∧ ((0 < x)%N → k ≠ 0%nat).
Proof.
  revert s acc n. induction x as [x IH] using (well_founded_induction N.lt_wf_0). intros s acc n.
  destruct (decide (x = 0)%N) as [->|Hx].
  - exists 0%nat. rewrite pretty_N_go_0, Z.pow_0_r, Z.mul_1_r, Z.add_0_r, Nat.add_0_r. split; [done|lia].
  - rewrite pretty_N_go_step by lia.
    destruct (IH (x `div` 10)%N ltac:(apply N.div_lt; lia) (String (pretty_N_char (x `mod` 10)) s) acc n)
      as (k & Hk & _).
    exists (S k). split; [|lia]. rewrite Hk. cbn [digits]. rewrite digit_value_char by (apply N.mod_lt; lia).
    f_equal; [|lia]. rewrite Nat2Z.inj_succ, Z.pow_succ_r by lia.
    rewrite N2Z.inj_div, N2Z.inj_mod. set (a := (Z.of_N x / Z.of_N 10)%Z). set (b := (Z.of_N x `mod` Z.of_N 10)%Z).
    assert (Z.of_N x = 10 * a + b)%Z as -> by (apply Z.div_mod; lia). ring.
Qed.

Lemma unsigned_literal_pretty_N (x : N) :
  (0 < x)%N → ∃ q, unsigned_literal (pretty_N_go x "") = Some q ∧ (q == inject_Z (Z.of_N x))%Q.
Proof.
  intros Hx. destruct (digits_pretty_N_go x "" 0 0) as (k & Hk & Hk0).
  unfold unsigned_literal, decimal_literal. rewrite Hk.
  cbn [digits]. destruct k as [|k]; [by specialize (Hk0 Hx)|].
  eexists. split; [reflexivity|]. unfold scale10. cbn [exponent_part fst Z.leb Z.compare].
  rewrite Z.mul_0_l, Z.add_0_l.
  change (inject_Z (10 ^ 0)) with 1%Q. change (inject_Z (10 ^ Z.of_nat 0)) with 1%Q. change (inject_Z 0) with 0%Q.
  field.
Qed.

Lemma parseFloat_digits (x : N) (positive : bool) :
  (0 < x)%N →
  parseFloat ((if positive then "" else "-") +:+ pretty_N_go x "") =
    match unsigned_literal (pretty_N_go x "") with Some q => to_double positive q | None => QNaN end.
Proof.
  intros Hx. destruct (pretty_N_go_head x "" Hx) as (d & s' & -> & Hd).
  assert (∃ m, m < 10 ∧ d = N.of_nat m)%nat as (m & Hm & ->) by (exists (N.to_nat d); lia).
  destruct positive; do 10 (destruct m as [|m]; [reflexivity|]); lia.
Qed.

(** [parseFloat] reads the text [String(n)] of an integer as the double
    nearest to [n]: [n] itself when it is a safe integer
    ([round64_int]). *)
Lemma parseFloat_pretty (z : Z) : parseFloat (pretty z) = of_Z z.
Proof.
  unfold of_Z. destruct z as [|p|p]; [reflexivity| |].
  - destruct (unsigned_literal_pretty_N (Npos p) ltac:(lia)) as (q & Hq & Heq).
    change (pretty (Z.pos p)) with ((if true then "" else "-") +:+ pretty_N_go (Npos p) "").
    rewrite parseFloat_digits, Hq by lia. by apply round64_Qeq.
  - destruct (unsigned_literal_pretty_N (Npos p) ltac:(lia)) as (q & Hq & Heq).
    change (pretty (Z.neg p)) with ((if false then "" else "-") +:+ pretty_N_go (Npos p) "").
    rewrite parseFloat_digits, Hq by lia. apply round64_Qeq. rewrite Heq.
    change (Z.neg p) with (- Z.pos p)%Z. by rewrite inject_Z_opp.
Qed.

(** ** Concrete values *)

(** [ToNumber] of strings: white space around, a fraction, an exponent,
    a sign, a hexadecimal literal; a trailing letter or a signed
    hexadecimal literal is [NaN]; [parseFloat] reads the longest prefix
    instead.  [2^53 + 1] and [2^53 + 3] are not doubles and round to the
    even neighbour. *)
Example number_literals :
  str_to_number " 12.5 " = QFin (25 # 2) ∧ str_to_number "1e3" = QFin 1000 ∧
  str_to_number "-7" = QFin (-7) ∧ str_to_number "0x1F" = QFin 31 ∧ str_to_number "" = QFin 0 ∧
  str_to_number "3px" = QNaN ∧ str_to_number "-0x10" = QNaN ∧ str_to_number "+Infinity" = QInf true ∧
  parseFloat "3px" = QFin 3 ∧ parseFloat "1e" = QFin 1 ∧ parseFloat ".5." = QFin (1 # 2) ∧
  of_Z 9007199254740993 = QFin 9007199254740992 ∧ of_Z 9007199254740995 = QFin 9007199254740996.
Proof. split_and!; vm_compute; reflexivity. Qed.
