(* ===== verification/Fetch.v ===== *)
(** * The fetch gateway

    Every call of the script to the backend is a [fetch] of a URL under
    [API_BASE] with an [Authorization: Bearer ${authToken}] header (the
    login call excepted), an optional JSON body, and a promise that either
    rejects (network failure) or resolves to a response whose [ok] flag is
    the 2xx test.  This file holds that vocabulary: JSON values, requests,
    settled responses, the two request builders every handler uses, and
    the steps [await fetch(..)] and [await response.json()] in the
    [jsres] monad. *)

From Stdlib Require Import ZArith.
From stdpp Require Import base list strings.
From S2P Require Import Prelude.

#[local] Set Warnings "-register-all".
Local Open Scope string_scope.
Local Open Scope acc_scope.
Local Open Scope list_scope.

(** [const API_BASE = '/api'] (line 4). *)
Definition API_BASE : string := "/api".

(** JSON values as [JSON.stringify]/[JSON.parse] see them; numbers are
    integers (amounts in dinars, counts, percentages). *)
Inductive jval : Type :=
| JNull
| JBool (b : bool)
| JNum (z : Z)
| JStr (s : string)
| JArr (l : list jval)
| JObj (fs : list (string * jval)).

(** [v.k] on a parsed object: [JSON.parse] keeps the last of duplicate
    keys; [None] is [undefined]. *)
Definition jget (k : string) (v : jval) : option jval :=
  match v with
  | JObj fs => foldl (λ acc kv, if kv.1 === k then Some kv.2 else acc) None fs
  | _ => None
  end.

Inductive http_method : Type := GET | POST | PUT | DELETE.

(** A request: method, URL, whether the [Content-Type: application/json]
    header is set, the [Authorization] header if any, and the body. *)
Record request : Type := mkRequest {
  rq_method : http_method;
  rq_url : string;
  rq_json : bool;
  rq_auth : option string;
  rq_body : option jval
}.

(** [`${authToken}`] for a token that may be [null]. *)
Definition js_str_of (o : option string) : string :=
  match o with Some s => s | None => "null" end.

(** [`Bearer ${authToken}`]. *)
Definition bearer (authToken : option string) : string :=
  "Bearer " +:+ js_str_of authToken.

(** [fetch(`${API_BASE}${path}`, { headers: { 'Authorization': .. } })]. *)
Definition api_get (authToken : option string) (path : string) : request :=
  mkRequest GET (API_BASE +:+ path) false (Some (bearer authToken)) None.

(** [fetch(`${API_BASE}${path}`, { method, headers: { 'Content-Type':
    'application/json', 'Authorization': .. }, body: JSON.stringify(b) })]. *)
Definition api_send (m : http_method) (authToken : option string)
    (path : string) (b : jval) : request :=
  mkRequest m (API_BASE +:+ path) true (Some (bearer authToken)) (Some b).

(** A response: the status and the body, [None] when it is not JSON. *)
Record response : Type := mkResponse {
  status : Z;
  rbody : option jval
}.

(** [response.ok]. *)
Definition resp_ok (r : response) : bool := ((200 <=? status r) && (status r <=? 299))%Z.

(** A settled [fetch] promise. *)
Inductive settled : Type :=
| Fulfilled (r : response)
| Rejected (e : exn).

(** [await fetch(..)]: the response, or the rejection thrown. *)
Definition await_fetch (s : settled) : jsres response :=
  match s with Fulfilled r => Ret r | Rejected e => Throw e end.

(** [await response.json()]. *)
Definition await_json (r : response) : jsres jval :=
  match rbody r with Some v => Ret v | None => Throw (SyntaxError "response.json()") end.

(** [result.status === 'fulfilled' && result.value.ok] (line 805). *)
Definition settled_ok (s : settled) : bool :=
  match s with Fulfilled r => resp_ok r | Rejected _ => false end.

(** ** What a handler does

    A handler's run is the ordered list of its observable effects: the
    requests it sends, the dialogs it opens ([alert] and [confirm]), the
    loading overlay and the modals it shows and hides, and the loaders it starts without
    awaiting them.  The network is the environment's answer to each
    request. *)

(** The [load*] and [populate*] functions a handler or the router
    starts. *)
Inductive loader : Type :=
| LoadDashboardData
| LoadPayments
| LoadExpenses
| LoadReports
| LoadTeacherCommissions
| LoadInvoices
| PopulateMonths
| PopulateYears
| PopulateClasses
| PopulateTeachers
| PopulateStudents.

Inductive effect : Type :=
| EFetch (r : request)
| EAlert (msg : string)
| EConfirm (msg : string)
| ELoading (shown : bool)
| EModal (modalId : string) (shown : bool)
| ELoad (l : loader)
| EDownload (fileName : string).

(** The settled promise of every request the client may send. *)
Definition network : Type := request → settled.

(** The requests of an effect list, in order. *)
Definition requests_of (es : list effect) : list request :=
  omap (λ e, match e with EFetch r => Some r | _ => None end) es.

(** The alerts of an effect list, in order. *)
Definition alerts_of (es : list effect) : list string :=
  omap (λ e, match e with EAlert m => Some m | _ => None end) es.

Lemma requests_of_app es1 es2 : requests_of (es1 ++ es2) = requests_of es1 ++ requests_of es2.
Proof. apply omap_app. Qed.

Lemma alerts_of_app es1 es2 : alerts_of (es1 ++ es2) = alerts_of es1 ++ alerts_of es2.
Proof. apply omap_app. Qed.

Lemma requests_of_fetches rs : requests_of (EFetch <$> rs) = rs.
Proof. unfold requests_of. induction rs as [|r rs IH]; simpl; [done|]. f_equal. exact IH. Qed.

Lemma alerts_of_fetches rs : alerts_of (EFetch <$> rs) = [].
Proof. by induction rs. Qed.

Create Rewrite HintDb fetch_rw.
#[export] Hint Rewrite requests_of_app alerts_of_app requests_of_fetches alerts_of_fetches : fetch_rw.
