(* ===== verification/Prog.v ===== *)
(** * Handlers as programs: effects, exceptions and the network

    Every [async] handler of the script is a sequence of statements that
    emit effects ([alert], [showLoading], [fetch], ...), may throw, and
    catch at their own boundary with [try { .. } catch { .. } finally
    { .. }].  [prog A] is that computation: given the answers of the
    network it returns the effects emitted, in order, and either a value
    or the exception that escaped.  Its [bind] is stdpp's [≫=], so the
    handlers read [r ← p_fetch q; ..] line by line like the source.

    The file also holds the JavaScript string conversion of a parsed JSON
    value, used wherever the code writes [`${error.error}`] or
    [alert(result.message)]. *)

From Stdlib Require Import ZArith Ascii.
From stdpp Require Import base list strings pretty.
From S2P Require Import Prelude Fetch.

Local Open Scope string_scope.
Local Open Scope acc_scope.
Local Open Scope list_scope.

(** ** The monad *)

Definition prog (A : Type) : Type := network → list effect * jsres A.

#[export] Instance prog_ret : MRet prog := λ A a _, ([], Ret a).
#[export] Instance prog_bind : MBind prog := λ A B f p net,
  match p net with
  | (es, Ret a) => let r := f a net in (es ++ r.1, r.2)
  | (es, Throw e) => (es, Throw e)
  end.

(** [throw e]. *)
Definition p_throw {A} (e : exn) : prog A := λ _, ([], Throw e).

(** A statement with an observable effect and no result. *)
Definition p_emit (e : effect) : prog unit := λ _, ([e], Ret tt).

(** [await fetch(q)]: the request is sent, then the promise settles. *)
Definition p_fetch (q : request) : prog response := λ net, ([EFetch q], await_fetch (net q)).

(** A pure evaluation that may throw ([await response.json()], [x.y] on
    [null]). *)
Definition p_lift {A} (r : jsres A) : prog A := λ _, ([], r).

(** [try { body } catch (e) { handler(e) } finally { fin }]: the
    [finally] block runs whatever the outcome, and an exception it throws
    replaces the outcome. *)
Definition p_try {A} (body : prog A) (handler : exn → prog A) (fin : prog unit) : prog A := λ net,
  let r1 := body net in
  let r2 := match r1.2 with Ret a => ([], Ret a) | Throw e => handler e net end in
  let r3 := fin net in
  (r1.1 ++ r2.1 ++ r3.1, match r3.2 with Ret _ => r2.2 | Throw e => Throw e end).

(** The effects of a run and its outcome. *)
Definition effects {A} (p : prog A) (net : network) : list effect := (p net).1.
Definition outcome {A} (p : prog A) (net : network) : jsres A := (p net).2.

(** ** [String(v)] and [`${v}`] of a parsed JSON value *)

Fixpoint js_string (v : jval) : string :=
  match v with
  | JNull => "null"
  | JBool b => if b then "true" else "false"
  | JNum z => pretty z
  | JStr s => s
  | JArr l =>
      (* Array.prototype.join(','): null elements print as '' *)
      (fix go (l : list jval) (first : bool) : string :=
         match l with
         | [] => ""
         | x :: l' =>
             (if first then "" else ",") +:+
             (match x with JNull => "" | _ => js_string x end) +:+ go l' false
         end) l true
  | JObj _ => "[object Object]"
  end.

(** [`${o.k}`] where [o.k] may be [undefined]. *)
Definition js_template (v : option jval) : string :=
  match v with None => "undefined" | Some v => js_string v end.

(** ** Reading parsed values *)

(** [o.k] where [o] may be [undefined] or [null], which throw. *)
Definition js_get (k : string) (o : option jval) : jsres (option jval) :=
  match o with
  | None | Some JNull => Throw (TypeError ("." +:+ k))
  | Some v => Ret (jget k v)
  end.

Lemma js_get_obj k v : v ≠ JNull → js_get k (Some v) = Ret (jget k v).
Proof. by destruct v. Qed.

(** [o?.k]: [undefined] when [o] is [null] or [undefined]. *)
Definition js_opt_get (k : string) (o : option jval) : option jval :=
  match o with None | Some JNull => None | Some v => jget k v end.

(** [o.k === 'lit'] for a string literal. *)
Definition js_is (o : option jval) (lit : string) : bool :=
  match o with Some (JStr s) => s === lit | _ => false end.

(** Truthiness of [o.k] ([undefined] is [None]). *)
Definition js_truthy (o : option jval) : bool :=
  match o with
  | None | Some JNull => false
  | Some (JBool b) => b
  | Some (JNum z) => negb (z =? 0)%Z
  | Some (JStr s) => negb (s === "")
  | Some _ => true
  end.

(** The line feed, written [\n] in the script's strings. *)
Definition LF : string := String "010"%char EmptyString.

(** ** The statements every handler uses *)

Definition p_alert (msg : string) : prog unit := p_emit (EAlert msg).

(** [confirm(msg)], answered [answer] by the user. *)
Definition p_confirm (msg : string) (answer : bool) : prog bool := λ _, ([EConfirm msg], Ret answer).

(** [showLoading()] and [hideLoading()] (lines 238-247). *)
Definition showLoading : prog unit := p_emit (ELoading true).
Definition hideLoading : prog unit := p_emit (ELoading false).

(** [showModal(id)] and [hideModal(id)] (lines 227-236). *)
Definition showModal (modalId : string) : prog unit := p_emit (EModal modalId true).
Definition hideModal (modalId : string) : prog unit := p_emit (EModal modalId false).

(** [loadX()] called without [await]: the loader is started. *)
Definition p_load (l : loader) : prog unit := p_emit (ELoad l).

(** [await response.json()]. *)
Definition p_json (r : response) : prog jval := p_lift (await_json r).

(** [const error = await response.json(); alert(`خطأ: ${error.error}`)],
    the [else] branch of every handler (e.g. lines 914-917): a body
    [null] makes [error.error] throw a TypeError. *)
Definition alert_error (response : response) : prog unit :=
  error ← p_json response;
  msg ← p_lift (js_get "error" (Some error));
  p_alert ("خطأ: " +:+ js_template msg).

(** [s.split('T')[0]]: the part before the first [T]. *)
Fixpoint split_T_0 (s : string) : string :=
  match s with
  | EmptyString => EmptyString
  | String a s' => if (a =? "T")%char then EmptyString else String a (split_T_0 s')
  end.

(** ** Laws *)

Section Laws.
Context {A B : Type}.

Lemma run_ret (a : A) net : (mret a : prog A) net = ([], Ret a).
Proof. done. Qed.

Lemma run_bind (p : prog A) (f : A → prog B) net :
  (p ≫= f) net =
    match p net with
    | (es, Ret a) => ((es ++ (f a net).1), (f a net).2)
    | (es, Throw e) => (es, Throw e)
    end.
Proof. done. Qed.

Lemma run_emit e net : p_emit e net = ([e], Ret tt).
Proof. done. Qed.

Lemma run_fetch q net : p_fetch q net = ([EFetch q], await_fetch (net q)).
Proof. done. Qed.

Lemma run_lift (r : jsres A) net : p_lift r net = ([], r).
Proof. done. Qed.

Lemma run_throw e net : (p_throw e : prog A) net = ([], Throw e).
Proof. done. Qed.

Lemma run_try (body : prog A) h fin net :
  p_try body h fin net =
    let r1 := body net in
    let r2 := match r1.2 with Ret a => ([], Ret a) | Throw e => h e net end in
    let r3 := fin net in
    (r1.1 ++ r2.1 ++ r3.1, match r3.2 with Ret _ => r2.2 | Throw e => Throw e end).
Proof. done. Qed.

End Laws.

(** [prog_rw]: a run of a program, one step of the monad at a time. *)
Create Rewrite HintDb prog_rw.
#[export] Hint Rewrite @run_ret @run_bind @run_emit @run_fetch @run_lift @run_throw : prog_rw.

(** ** The shape of a guarded request

    [showLoading(); try { const response = await fetch(q); if
    (response.ok) { on_ok } else { alert_error } } catch (error) {
    alert(generic) } finally { hideLoading(); }]: the effects of a run, on
    every answer of the network, and the absence of an escaping
    exception. *)

Definition std_effects (q : request) (on_ok : response → prog unit) (generic : string)
    (net : network) : list effect :=
  [ELoading true; EFetch q] ++
  match net q with
  | Fulfilled r =>
      if resp_ok r then
        match on_ok r net with
        | (es, Ret _) => es
        | (es, Throw _) => es ++ [EAlert generic]
        end
      else match rbody r with
           | None | Some JNull => [EAlert generic]
           | Some v => [EAlert ("خطأ: " +:+ js_template (jget "error" v))]
           end
  | Rejected _ => [EAlert generic]
  end ++ [ELoading false].

Lemma std_handler_run (q : request) (on_ok : response → prog unit) (generic : string) net :
  (showLoading ;;
   p_try (response ← p_fetch q; if resp_ok response then on_ok response else alert_error response)
         (λ _, p_alert generic) hideLoading) net
  = (std_effects q on_ok generic net, Ret tt).
Proof.
  unfold std_effects. autorewrite with prog_rw. simpl. autorewrite with prog_rw. destruct (net q) as [r|e]; simpl; [|done].
  destruct (resp_ok r); simpl.
  - destruct (on_ok r net) as [es [[]|e]]; simpl; by rewrite ?app_nil_r, <- ?(assoc_L (++)).
  - unfold alert_error, p_json. autorewrite with prog_rw. unfold await_json.
    destruct (rbody r) as [[]|]; simpl; autorewrite with prog_rw; simpl; done.
Qed.

(** The overlay discipline of a guarded request: whatever the network
    answers, no exception escapes, the run opens with the dialogs [pre],
    [showLoading()] and the request, and closes with [hideLoading()], and
    in between there is no other request and no other change of the
    overlay. *)
Definition overlay_closed (pre : list effect) (p : prog unit) (q : request) : Prop :=
  ∀ net, outcome p net = Ret tt ∧
    ∃ es, effects p net = pre ++ [ELoading true; EFetch q] ++ es ++ [ELoading false] ∧
          requests_of es = [] ∧ (ELoading true ∉ es) ∧ (ELoading false ∉ es).

(** What the success branch of such a handler may do: alerts, modals and
    loaders, but no request and no overlay change. *)
Definition quiet (es : list effect) : Prop :=
  Forall (λ e, match e with EAlert _ | EConfirm _ | EModal _ _ | ELoad _ => True | _ => False end) es.

Ltac solve_quiet := intros; simpl; unfold quiet; repeat constructor.

Lemma quiet_app es1 es2 : quiet es1 → quiet es2 → quiet (es1 ++ es2).
Proof. apply Forall_app_2. Qed.

Lemma quiet_requests es : quiet es → requests_of es = [].
Proof. induction 1 as [|[] es He _ IH]; simpl in *; by try contradiction. Qed.

Lemma quiet_loading es b : quiet es → ELoading b ∉ es.
Proof. intros Hq Hin. eapply Forall_forall in Hq; [|exact Hin]. done. Qed.

Lemma std_overlay_closed q on_ok generic :
  (∀ r net, quiet (on_ok r net).1) →
  overlay_closed []
    (showLoading ;;
     p_try (response ← p_fetch q; if resp_ok response then on_ok response else alert_error response)
           (λ _, p_alert generic) hideLoading) q.
Proof.
  intros Hok net. unfold outcome, effects. rewrite std_handler_run. split; [done|].
  unfold std_effects.
  set (es := match net q with
             | Fulfilled r => _ | Rejected _ => _ end).
  assert (quiet es) as Hq.
  { subst es. destruct (net q) as [r|e]; [|solve_quiet].
    destruct (resp_ok r); [|destruct (rbody r) as [[]|]; solve_quiet].
    pose proof (Hok r net) as Hr. destruct (on_ok r net) as [es' [a|e]]; simpl in Hr; [done|].
    apply quiet_app; [done|solve_quiet]. }
  exists es. split; [done|]. split; [by apply quiet_requests|].
  split; by apply quiet_loading.
Qed.

(** [if (!confirm(msg)) return;] in front of a guarded request. *)
Lemma confirm_overlay_closed msg pre (p : prog unit) q :
  overlay_closed pre p q →
  overlay_closed (EConfirm msg :: pre) (ok ← p_confirm msg true; if negb ok then mret () else p) q.
Proof.
  intros Hp net. destruct (Hp net) as [Ho [es [He Hes]]].
  unfold outcome, effects in *. rewrite run_bind. simpl.
  split; [done|]. exists es. rewrite He. done.
Qed.

(** ** Handlers that change the page

    The session, router and settings handlers also assign module-level
    variables, the DOM and [localStorage].  [sprog S A] threads that
    state [S] alongside the effects; an exception keeps the changes made
    before it, as in JavaScript. *)

Definition sprog (S A : Type) : Type := S → network → list effect * S * jsres A.

Section StateMonad.
Context {S : Type}.

#[export] Instance sprog_ret : MRet (sprog S) := λ A a s _, ([], s, Ret a).
#[export] Instance sprog_bind : MBind (sprog S) := λ A B f p s net,
  match p s net with
  | (es, s1, Ret a) => let r := f a s1 net in (es ++ r.1.1, r.1.2, r.2)
  | (es, s1, Throw e) => (es, s1, Throw e)
  end.

Definition s_get : sprog S S := λ s _, ([], s, Ret s).
Definition s_modify (f : S → S) : sprog S unit := λ s _, ([], f s, Ret tt).

(** A statement that does not touch the state. *)
Definition s_lift {A} (p : prog A) : sprog S A := λ s net, let r := p net in (r.1, s, r.2).

(** [try { body } catch (e) { handler(e) } finally { fin }]. *)
Definition s_try {A} (body : sprog S A) (handler : exn → sprog S A) (fin : sprog S unit) : sprog S A :=
  λ s net,
  let r1 := body s net in
  let r2 := match r1.2 with Ret a => ([], r1.1.2, Ret a) | Throw e => handler e r1.1.2 net end in
  let r3 := fin r2.1.2 net in
  (r1.1.1 ++ r2.1.1 ++ r3.1.1, r3.1.2, match r3.2 with Ret _ => r2.2 | Throw e => Throw e end).

Lemma srun_bind {A B} (p : sprog S A) (f : A → sprog S B) s net :
  (p ≫= f) s net =
    match p s net with
    | (es, s1, Ret a) => (es ++ (f a s1 net).1.1, (f a s1 net).1.2, (f a s1 net).2)
    | (es, s1, Throw e) => (es, s1, Throw e)
    end.
Proof. done. Qed.

(** A state update followed by [k] is [k] on the updated state. *)
Lemma srun_modify {B} (f : S → S) (k : sprog S B) s net : (s_modify f ;; k) s net = k (f s) net.
Proof. unfold mbind, sprog_bind. simpl. by destruct (k (f s) net) as [[]]. Qed.

Lemma srun_lift {A} (p : prog A) s net : s_lift p s net = ((p net).1, s, (p net).2).
Proof. done. Qed.

(** Forward execution of a statement sequence: each step fixes the
    result of one statement, so the continuation is never duplicated. *)
Lemma srun_seq {A B} (p : sprog S A) (f : A → sprog S B) s net es s1 a es2 s2 o :
  p s net = (es, s1, Ret a) → f a s1 net = (es2, s2, o) → (p ≫= f) s net = (es ++ es2, s2, o).
Proof. intros H1 H2. unfold mbind, sprog_bind. by rewrite H1, H2. Qed.

Lemma s_try_ok {A} (body : sprog S A) h fin s net es1 s1 a es3 s3 :
  body s net = (es1, s1, Ret a) → fin s1 net = (es3, s3, Ret tt) →
  s_try body h fin s net = (es1 ++ es3, s3, Ret a).
Proof. intros H1 H3. unfold s_try. by rewrite H1; simpl; rewrite H3. Qed.

Lemma srun_throw {A B} (p : sprog S A) (f : A → sprog S B) s net es s1 e :
  p s net = (es, s1, Throw e) → (p ≫= f) s net = (es, s1, Throw e).
Proof. intros H. unfold mbind, sprog_bind. by rewrite H. Qed.

Lemma s_try_err {A} (body : sprog S A) h fin s net es1 s1 e es2 s2 o es3 s3 :
  body s net = (es1, s1, Throw e) → h e s1 net = (es2, s2, o) → fin s2 net = (es3, s3, Ret tt) →
  s_try body h fin s net = (es1 ++ es2 ++ es3, s3, o).
Proof. intros H1 H2 H3. unfold s_try. rewrite H1; simpl. rewrite H2; simpl. by rewrite H3. Qed.

(** A [try] whose [catch] and [finally] do nothing leaves the state the
    body left, whether it threw or not. *)
Lemma s_try_quiet {A} (body : sprog S A) (a : A) s net :
  (s_try body (λ _, mret a) (mret ()) s net).1.2 = (body s net).1.2.
Proof. unfold s_try. by destruct (body s net) as [[es s1] []]. Qed.

Lemma srun_fetch q s net r :
  net q = Fulfilled r → s_lift (p_fetch q) s net = ([EFetch q], s, Ret r).
Proof. intros H. unfold s_lift, p_fetch. by rewrite H. Qed.

Lemma srun_json (r : response) v s net :
  rbody r = Some v → s_lift (p_json r) s net = ([], s, Ret v).
Proof. intros H. unfold s_lift, p_json, p_lift, await_json. by rewrite H. Qed.

Lemma srun_get k v s net :
  v ≠ JNull → s_lift (p_lift (js_get k (Some v))) s net = ([], s, Ret (jget k v)).
Proof. intros H. unfold s_lift, p_lift, js_get. by destruct v. Qed.

Lemma srun_pure {A} (r : jsres A) a s net : r = Ret a → s_lift (p_lift r) s net = ([], s, Ret a).
Proof. by intros ->. Qed.
End StateMonad.

(** One statement of a sequence: [srun_ret] for a statement that runs
    by computation, [srun_with H] for one whose result lemma [H] gives. *)
Ltac srun_ret := eapply srun_seq; [reflexivity|]; cbv beta zeta.
Ltac srun_with H := eapply srun_seq; [by eapply H|]; cbv beta zeta.
