(* ===== verification/Payments.v ===== *)
(** * Single-record handlers: payments and expenses

    The handlers behind the buttons of one payment or one expense:
    [viewPayment] (line 873), [markAsPaid] (line 894), [submitPayment]
    (line 950), [deleteExpense] (line 2630) and [submitExpense] (line
    2669).  Each sends one request and reports the
    outcome in an alert; the ones that change data show the loading
    overlay first and hide it in [finally].  They are written in the
    [prog] monad of [Prog], statement by statement; the form fields they
    read are records of strings, the values of the inputs. *)

From Stdlib Require Import ZArith Ascii.
From stdpp Require Import base list strings pretty.
From S2P Require Import Prelude Fetch Prog.

Local Open Scope string_scope.
Local Open Scope acc_scope.
Local Open Scope list_scope.

(** ** Paying one payment *)

(** [JSON.stringify({ paymentDate, paymentMethod: 'cash' })]. *)
Definition pay_body (paymentDate : string) : jval :=
  JObj [("paymentDate", JStr paymentDate); ("paymentMethod", JStr "cash")].

(** [fetch(`${API_BASE}/payments/${paymentId}/pay`, { method: 'PUT', .. })]
    (lines 898-908, and 786-796 in the bulk handler). *)
Definition pay_request (authToken : option string) (paymentDate paymentId : string) : request :=
  api_send PUT authToken ("/payments/" +:+ paymentId +:+ "/pay") (pay_body paymentDate).

(** [markAsPaid(paymentId)] (lines 894-924); [now] is
    [new Date().toISOString()], sent whole as the payment date. *)
Definition markAsPaid (authToken : option string) (now : string) (paymentId : string) : prog unit :=
  showLoading ;;
  p_try
    (response ← p_fetch (pay_request authToken now paymentId);
     if resp_ok response then
       p_alert "تم تسديد الدفعة بنجاح" ;;
       p_load LoadPayments ;;
       p_load LoadDashboardData
     else alert_error response)
    (λ _, p_alert "حدث خطأ أثناء تسديد الدفعة")
    hideLoading.

(** ** Viewing a payment *)

(** The text of the alert of [viewPayment] (line 884). *)
Definition payment_details (payment : jval) : jsres string :=
  student ← js_get "student" (Some payment);
  sname ← js_get "name" student;
  cls ← js_get "class" (Some payment);
  cname ← js_get "name" cls;
  mret ("تفاصيل الدفعة:" +:+ LF +:+ "الطالب: " +:+ js_template sname +:+
        LF +:+ "الحصة: " +:+ js_template cname +:+
        LF +:+ "المبلغ: " +:+ js_template (jget "amount" payment) +:+ " د.ج" +:+
        LF +:+ "الشهر: " +:+ js_template (jget "month" payment) +:+
        LF +:+ "الحالة: " +:+ js_template (jget "status" payment)).

(** [viewPayment(paymentId)] (lines 873-890): no overlay, nothing on a
    non-2xx answer. *)
Definition viewPayment (authToken : option string) (paymentId : string) : prog unit :=
  p_try
    (response ← p_fetch (api_get authToken ("/payments/" +:+ paymentId));
     if resp_ok response then
       payment ← p_json response;
       text ← p_lift (payment_details payment);
       p_alert text
     else mret ())
    (λ _, p_alert "حدث خطأ أثناء تحميل تفاصيل الدفعة")
    (mret ()).

(** ** Adding a payment *)




(** ** Expenses *)





(** ** Properties *)

Definition pay_failed_alert : string := "حدث خطأ أثناء تسديد الدفعة".

(** C18 (functional).  [markAsPaid] sends one authenticated [PUT
    /api/payments/<id>/pay]; on a 2xx answer it confirms and starts the
    reload of the payments and of the dashboard; on another answer with a
    JSON body other than [null] it shows [خطأ: ] followed by the body's
    [error] field; when the request fails, the body is not JSON or is
    [null] ([error.error] throws) it shows the generic message.  No exception escapes, and the overlay is shown first and
    hidden last. *)
Theorem markAsPaid_run tok now paymentId net :
  let q := pay_request tok now paymentId in
  outcome (markAsPaid tok now paymentId) net = Ret tt ∧
  effects (markAsPaid tok now paymentId) net =
    [ELoading true; EFetch q] ++
    match net q with
    | Fulfilled r =>
        if resp_ok r then [EAlert "تم تسديد الدفعة بنجاح"; ELoad LoadPayments; ELoad LoadDashboardData]
        else match rbody r with
             | None | Some JNull => [EAlert pay_failed_alert]
             | Some v => [EAlert ("خطأ: " +:+ js_template (jget "error" v))]
             end
    | Rejected _ => [EAlert pay_failed_alert]
    end ++ [ELoading false].
Proof.
  unfold outcome, effects, markAsPaid. rewrite std_handler_run. split; [done|].
  unfold std_effects. by destruct (net _) as [[]|].
Qed.


(** A non-2xx answer whose JSON body has no [error] field
    is reported as [خطأ: undefined]: the handler does not fall back to its
    generic message, which it shows only when the request fails or the
    body is not JSON or is [null]. *)
Theorem markAsPaid_error_undefined tok now paymentId net code v :
  net (pay_request tok now paymentId) = Fulfilled (mkResponse code (Some v)) →
  resp_ok (mkResponse code (Some v)) = false →
  v ≠ JNull → jget "error" v = None →
  alerts_of (effects (markAsPaid tok now paymentId) net) = ["خطأ: undefined"].
Proof.
  intros Hnet Hok Hv Herr. unfold effects, markAsPaid. rewrite std_handler_run. simpl.
  unfold std_effects. rewrite Hnet, Hok. simpl. destruct v; try done; by rewrite Herr.
Qed.

Definition view_failed_alert : string := "حدث خطأ أثناء تحميل تفاصيل الدفعة".

(** [viewPayment] sends one authenticated [GET
    /api/payments/<id>]; on a 2xx answer it shows the details of the
    payment, or the generic message when the body is not JSON or the
    payment has no student or no class ([payment.student.name] throws);
    it shows nothing on another answer and the generic message when the
    request fails.  No exception escapes. *)
Theorem viewPayment_run tok paymentId net :
  let q := api_get tok ("/payments/" +:+ paymentId) in
  outcome (viewPayment tok paymentId) net = Ret tt ∧
  effects (viewPayment tok paymentId) net =
    EFetch q ::
    match net q with
    | Fulfilled r =>
        if resp_ok r then
          match await_json r ≫= payment_details with
          | Ret text => [EAlert text]
          | Throw _ => [EAlert view_failed_alert]
          end
        else []
    | Rejected _ => [EAlert view_failed_alert]
    end.
Proof.
  unfold outcome, effects, viewPayment. rewrite run_try. simpl.
  unfold p_json. autorewrite with prog_rw. destruct (net _) as [r|e]; simpl; [|done].
  destruct (resp_ok r); simpl; [|done].
  autorewrite with prog_rw.
  destruct (await_json r) as [payment|e]; simpl; [|done].
  autorewrite with prog_rw. by destruct (payment_details payment).
Qed.

(** ** Concrete runs *)

(** The server refuses with a body that names the problem [message]. *)
Definition ex_refusal : jval := JObj [("message", JStr "already paid")].

Definition ex_net_refuse : network := λ q, Fulfilled (mkResponse 400 (Some ex_refusal)).

Lemma markAsPaid_error_undefined_witness :
  ex_net_refuse (pay_request (Some "tok") "2024-05-01T09:30:00.000Z" "p1")
    = Fulfilled (mkResponse 400 (Some ex_refusal)) ∧
  resp_ok (mkResponse 400 (Some ex_refusal)) = false ∧
  jget "error" ex_refusal = None ∧
  alerts_of (effects (markAsPaid (Some "tok") "2024-05-01T09:30:00.000Z" "p1") ex_net_refuse)
    = ["خطأ: undefined"].
Proof.
  assert (ex_net_refuse (pay_request (Some "tok") "2024-05-01T09:30:00.000Z" "p1")
            = Fulfilled (mkResponse 400 (Some ex_refusal))) as H1 by reflexivity.
  assert (resp_ok (mkResponse 400 (Some ex_refusal)) = false) as H2 by reflexivity.
  assert (jget "error" ex_refusal = None) as H3 by reflexivity.
  split; [exact H1|split; [exact H2|split; [exact H3|]]].
  exact (markAsPaid_error_undefined _ _ _ _ _ _ H1 H2 ltac:(discriminate) H3).
Defined.

(** A refusal whose body is [null]: [error.error] throws, and the
    [catch] shows the generic message. *)
Example markAsPaid_null_body :
  alerts_of (effects (markAsPaid (Some "tok") "2024-05-01T09:30:00.000Z" "p1")
                     (λ _, Fulfilled (mkResponse 500 (Some JNull)))) = [pay_failed_alert].
Proof. reflexivity. Qed.

(** A payment whose student was deleted: [payment.student] is [null]. *)
Definition ex_orphan_payment : jval :=
  JObj [("_id", JStr "p1"); ("student", JNull); ("class", JObj [("name", JStr "رياضيات")]);
        ("amount", JNum 1500); ("month", JStr "2024-05"); ("status", JStr "pending")].

Definition ex_payment : jval :=
  JObj [("_id", JStr "p2"); ("student", JObj [("name", JStr "ياسين")]);
        ("class", JObj [("name", JStr "رياضيات")]);
        ("amount", JNum 1500); ("month", JStr "2024-05"); ("status", JStr "paid")].

Definition ex_net_view : network := λ q,
  if rq_url q === "/api/payments/p1" then Fulfilled (mkResponse 200 (Some ex_orphan_payment))
  else Fulfilled (mkResponse 200 (Some ex_payment)).

Example viewPayment_orphan :
  effects (viewPayment (Some "tok") "p1") ex_net_view
    = [EFetch (api_get (Some "tok") "/payments/p1"); EAlert view_failed_alert] ∧
  alerts_of (effects (viewPayment (Some "tok") "p2") ex_net_view)
    = ["تفاصيل الدفعة:" +:+ LF +:+ "الطالب: ياسين" +:+ LF +:+ "الحصة: رياضيات" +:+ LF +:+
       "المبلغ: 1500 د.ج" +:+ LF +:+ "الشهر: 2024-05" +:+ LF +:+ "الحالة: paid"].
Proof. split; vm_compute; reflexivity. Qed.
