(* ===== verification/JsObject.v ===== *)
(** * Plain JavaScript objects used as dictionaries

    The commission renderers group records in an object literal
    ([const commissionsByTeacher = {}]), test [if (!obj[key])], assign
    [obj[key] = {...}] and finally iterate [Object.values(obj)]; the role
    and payment-method names are looked up as [roles[role] || role].
    Two properties of ordinary objects matter there and are modelled:
    - a key missing from the object is still found on [Object.prototype]
      when it is one of that object's property names ([constructor],
      [toString], ...), and the value found is a function, hence truthy;
    - [Object.values] lists the keys that are array indices (canonical
      decimal numbers below 2^32 - 1) first, in ascending numeric order,
      and then the other string keys in insertion order.
    An object is its list of own properties in insertion order. *)

From Stdlib Require Import ZArith NArith Ascii.
From stdpp Require Import base list strings.
From S2P Require Import Prelude.

Local Open Scope string_scope.
Local Open Scope acc_scope.
Local Open Scope list_scope.

(** The property names of [Object.prototype]. *)
Definition object_prototype_keys : list string :=
  ["constructor"; "__proto__"; "hasOwnProperty"; "isPrototypeOf";
   "propertyIsEnumerable"; "toString"; "valueOf"; "toLocaleString";
   "__defineGetter__"; "__defineSetter__"; "__lookupGetter__"; "__lookupSetter__"].

Definition is_proto_key (k : string) : bool :=
  existsb (λ p, p === k) object_prototype_keys.

(** What [obj[k]] evaluates to. *)
Inductive prop {V : Type} : Type :=
| Own (v : V)              (* an own property *)
| Inherited (k : string)   (* a method of Object.prototype: truthy *)
| Undefined.
Arguments prop : clear implicits.

Definition jsobj (V : Type) : Type := list (string * V).

Section Obj.
Context {V : Type}.
Implicit Types (o : jsobj V) (k : string) (v : V).

Fixpoint own_get k o : option V :=
  match o with
  | [] => None
  | (k', v) :: o' => if k' === k then Some v else own_get k o'
  end.

Definition obj_get k o : prop V :=
  match own_get k o with
  | Some v => Own v
  | None => if is_proto_key k then Inherited k else Undefined
  end.

(** [obj[k] = v] for a key other than [__proto__]: an own property
    keeps its position, a new one goes last. *)
Fixpoint obj_set k v o : jsobj V :=
  match o with
  | [] => [(k, v)]
  | (k', v') :: o' => if k' === k then (k, v) :: o' else (k', v') :: obj_set k v o'
  end.
End Obj.

(** ** Array indices and the order of [Object.values] *)

Definition digit_val (a : ascii) : option N :=
  let n := N_of_ascii a in
  if ((48 <=? n) && (n <=? 57))%N then Some (n - 48)%N else None.

Fixpoint digits_from (acc : N) (s : string) : option N :=
  match s with
  | EmptyString => Some acc
  | String a s' =>
      match digit_val a with
      | Some d => digits_from (acc * 10 + d)%N s'
      | None => None
      end
  end.

(** A canonical numeric string below 2^32 - 1 is an array index. *)
Definition array_index (s : string) : option N :=
  match s with
  | EmptyString => None
  | String a s' =>
      if (a =? "0")%char then (if s' === "" then Some 0%N else None)
      else match digits_from 0 s with
           | Some n => if (n <? 4294967295)%N then Some n else None
           | None => None
           end
  end.

Definition is_index (k : string) : bool :=
  match array_index k with Some _ => true | None => false end.

Section Values.
Context {V : Type}.
Implicit Types (o : jsobj V).

(** Insert an index-keyed property into a list sorted by index. *)
Fixpoint ins_index (n : N) (v : V) (l : list (N * V)) : list (N * V) :=
  match l with
  | [] => [(n, v)]
  | (m, w) :: l' => if (n <? m)%N then (n, v) :: l else (m, w) :: ins_index n v l'
  end.

Fixpoint index_props o : list (N * V) :=
  match o with
  | [] => []
  | (k, v) :: o' =>
      match array_index k with
      | Some n => ins_index n v (index_props o')
      | None => index_props o'
      end
  end.

(** [Object.values(o)]. *)
Definition obj_values o : list V :=
  map snd (index_props o) ++ map snd (List.filter (λ kv, negb (is_index kv.1)) o).
End Values.

(** ** Lemmas *)

Section ObjLemmas.
Context {V : Type}.
Implicit Types (o : jsobj V) (k : string) (v : V).

Lemma is_index_array_index k : is_index k = true ↔ ∃ n, array_index k = Some n.
Proof.
  unfold is_index. destruct (array_index k) as [n|]; split; try done; eauto.
  by intros [? ?].
Qed.

Lemma ins_index_perm n v (l : list (N * V)) : ins_index n v l ≡ₚ (n, v) :: l.
Proof.
  induction l as [|[m w] l IH]; simpl; [done|].
  destruct (n <? m)%N; [done|]. rewrite IH. constructor.
Qed.

(** [Object.values] lists every own value exactly once. *)
Lemma obj_values_perm o : obj_values o ≡ₚ map snd o.
Proof.
  unfold obj_values. induction o as [|[k v] o IH]; simpl; [done|].
  unfold is_index at 1. destruct (array_index k) as [n|]; simpl.
  - rewrite ins_index_perm. simpl. by rewrite IH.
  - rewrite <- Permutation_middle. by rewrite IH.
Qed.

Lemma index_props_no_index o :
  Forall (λ kv, is_index kv.1 = false) o → index_props o = [].
Proof.
  induction 1 as [|[k v] o Hk _ IH]; [done|]. simpl in *.
  unfold is_index in Hk. by destruct (array_index k).
Qed.

(** Without array-index keys, [Object.values] is insertion order. *)
Lemma obj_values_no_index o :
  Forall (λ kv, is_index kv.1 = false) o → obj_values o = map snd o.
Proof.
  intros H. unfold obj_values. rewrite index_props_no_index by done. simpl.
  induction H as [|[k v] o Hk _ IH]; [done|]. simpl in Hk |- *.
  rewrite Hk. simpl. congruence.
Qed.

Lemma own_get_set_eq k v o : own_get k (obj_set k v o) = Some v.
Proof.
  induction o as [|[k' v'] o IH]; simpl; [by rewrite String.eqb_refl|].
  destruct (String.eqb_spec k' k); simpl; [by rewrite String.eqb_refl|].
  destruct (String.eqb_spec k' k); [congruence|done].
Qed.

Lemma own_get_set_ne k k' v o : k ≠ k' → own_get k' (obj_set k v o) = own_get k' o.
Proof.
  intros Hne. induction o as [|[k0 v0] o IH]; simpl.
  - destruct (String.eqb_spec k k'); [congruence|done].
  - destruct (String.eqb_spec k0 k); simpl; subst.
    + destruct (String.eqb_spec k k'); [congruence|done].
    + by rewrite IH.
Qed.

Lemma map_fst_obj_set_new k v o :
  own_get k o = None → map fst (obj_set k v o) = (map fst o ++ [k])%list.
Proof.
  induction o as [|[k' v'] o IH]; simpl; [done|]. case_streq; [done|].
  intros H. simpl. by rewrite IH.
Qed.

Lemma map_fst_obj_set_old k v o :
  own_get k o ≠ None → map fst (obj_set k v o) = map fst o.
Proof.
  induction o as [|[k' v'] o IH]; simpl; [done|]. case_streq; [done|].
  intros H. simpl. by rewrite IH.
Qed.
Lemma own_get_Some_in k v o : own_get k o = Some v → k ∈ map fst o.
Proof.
  induction o as [|[k' v'] o IH]; simpl; [done|].
  destruct (String.eqb_spec k' k) as [->|]; intros H; [apply list_elem_of_here|].
  apply list_elem_of_further, IH, H.
Qed.

Lemma own_get_None_not_in k o : own_get k o = None → k ∉ map fst o.
Proof.
  induction o as [|[k' v'] o IH]; simpl; [intros _; apply not_elem_of_nil|].
  destruct (String.eqb_spec k' k) as [->|Hne]; [done|]. intros H.
  rewrite not_elem_of_cons. split; [congruence|]. by apply IH.
Qed.

Lemma own_get_elem_of k v o : NoDup (map fst o) → (k, v) ∈ o → own_get k o = Some v.
Proof.
  induction o as [|[k' v'] o IH]; simpl; intros Hnd Hin; [by apply not_elem_of_nil in Hin|].
  apply NoDup_cons in Hnd as [Hk' Hnd].
  apply elem_of_cons in Hin as [[= -> ->]|Hin]; [by rewrite String.eqb_refl|].
  destruct (String.eqb_spec k' k) as [->|]; [|by apply IH].
  exfalso. apply Hk'. apply (list_elem_of_fmap_2 fst) in Hin. done.
Qed.

End ObjLemmas.

#[export] Hint Rewrite @own_get_set_eq : acc_rw.

(** ** Keys with a dash

    The compound keys [`${teacherId}-${classId}`] and
    [`${teacherId}-${month}`] contain a dash, which neither an array index
    nor a property name of [Object.prototype] does. *)

Fixpoint has_dash (s : string) : bool :=
  match s with
  | EmptyString => false
  | String a s' => (a =? "-")%char || has_dash s'
  end.

Lemma has_dash_compound a b : has_dash (a +:+ "-" +:+ b) = true.
Proof. induction a as [|x a IH]; simpl; [done|]. by rewrite IH, orb_true_r. Qed.

Lemma digits_from_dash acc a b : digits_from acc (a +:+ "-" +:+ b) = None.
Proof.
  revert acc. induction a as [|x a IH]; intros acc; simpl; [done|].
  destruct (digit_val x); [apply IH|done].
Qed.

Lemma array_index_compound a b : array_index (a +:+ "-" +:+ b) = None.
Proof.
  destruct a as [|x a]; simpl; [done|].
  destruct (x =? "0")%char.
  - destruct (String.eqb_spec (a +:+ "-" +:+ b) ""); [|done].
    apply (f_equal has_dash) in e. by rewrite has_dash_compound in e.
  - destruct (digit_val x); [|done]. by rewrite digits_from_dash.
Qed.

Lemma is_index_compound a b : is_index (a +:+ "-" +:+ b) = false.
Proof. unfold is_index. by rewrite array_index_compound. Qed.

Lemma is_proto_key_dash k : has_dash k = true → is_proto_key k = false.
Proof.
  intros Hd. unfold is_proto_key. apply not_true_is_false. intros [p [Hp Hpk]]%existsb_exists.
  apply String.eqb_eq in Hpk as ->.
  repeat (destruct Hp as [<-|Hp]; [done|]). done.
Qed.

Lemma is_proto_key_compound a b : is_proto_key (a +:+ "-" +:+ b) = false.
Proof. apply is_proto_key_dash, has_dash_compound. Qed.

