(* ===== verification/Commissions.v ===== *)
(** * Teacher commissions: grouping, subtotals and the rendered cards

    Four renderers of the script turn commission records into cards:
    - [renderTeacherCommissions] exists three times (lines 1365, 2092 and
      2494); each groups a flat list in an object keyed by the teacher id,
      by [`${teacherId}-${classId}`], or by [`${teacherId}-${month}`], and
      renders [Object.values] of that object;
    - [renderTeacherCommissionsByClass] (line 1109) renders groups that
      the server already formed.
    Each card shows the pending, paid and total amounts of its group, one
    line per commission, and the buttons the user may press.  The model
    keeps the decisions: which group a record joins, the order of the
    cards, the three amounts, the badge and the button of every line, the
    bulk buttons of the card, and where the code throws.  The HTML around
    these values is not modelled. *)

From Stdlib Require Import ZArith.
From stdpp Require Import base list strings.
From S2P Require Import Prelude Fetch JsObject.

Local Open Scope string_scope.
Local Open Scope acc_scope.
Local Open Scope list_scope.

(** ** Records *)

(** A populated reference [{ _id, name }] (teacher, student, class). *)
Record ref : Type := mkRef { r_id : string; r_name : string }.

(** A commission record as the server returns it; a reference is [None]
    when the field is [null] or missing. *)
Record commission : Type := mkCommission {
  c_id : string;
  c_teacher : option ref;
  c_student : option ref;
  c_class : option ref;
  c_month : string;
  c_amount : Z;
  c_percentage : Z;
  c_status : string
}.

(** [c.status === 'pending'] and [c.status === 'paid']. *)
Definition is_pending (c : commission) : bool := c_status c === "pending".
Definition is_paid (c : commission) : bool := c_status c === "paid".

(** [commission.student?.name || 'غير معروف']. *)
Definition student_label (c : commission) : string :=
  or_default (r_name <$> c_student c) "غير معروف".

(** ** The three grouping keys *)

Inductive grouping : Type := ByTeacher | ByTeacherClass | ByTeacherMonth.

(** A group object: [{ teacher, commissions: [] }] with [class] or
    [month] in the second and third variant. *)
Record group : Type := mkGroup {
  g_teacher : ref;
  g_class : option ref;
  g_month : option string;
  g_commissions : list commission
}.

(** The key of a record and the fresh group the code would create for it:
    lines 1377-1383, 2105-2115 and 2507-2517. *)
Definition key_of (g : grouping) (c : commission) : jsres (string * group) :=
  t ← deref "commission.teacher._id" (c_teacher c);
  match g with
  | ByTeacher => Ret (r_id t, mkGroup t None None [])
  | ByTeacherClass =>
      cl ← deref "commission.class._id" (c_class c);
      Ret (r_id t +:+ "-" +:+ r_id cl, mkGroup t (Some cl) None [])
  | ByTeacherMonth =>
      Ret (r_id t +:+ "-" +:+ c_month c, mkGroup t None (Some (c_month c)) [])
  end.

(** [obj[key].commissions.push(commission)]. *)
Definition push (grp : group) (c : commission) : group :=
  mkGroup (g_teacher grp) (g_class grp) (g_month grp) (g_commissions grp ++ [c]).

(** One iteration of [commissions.forEach(commission => { .. })]:
    [if (!obj[key]) obj[key] = fresh; obj[key].commissions.push(c)].
    A key inherited from [Object.prototype] is truthy, so no group is
    created and [.commissions.push] reads a property of [undefined]. *)
Definition group_step (g : grouping) (o : jsobj group) (c : commission)
    : jsres (jsobj group) :=
  kf ← key_of g c;
  match obj_get kf.1 o with
  | Own grp => Ret (obj_set kf.1 (push grp c) o)
  | Inherited _ => Throw (TypeError "obj[key].commissions.push")
  | Undefined => Ret (obj_set kf.1 (push kf.2 c) o)
  end.

Fixpoint group_into (g : grouping) (o : jsobj group) (l : list commission)
    : jsres (jsobj group) :=
  match l with
  | [] => Ret o
  | c :: l' => o' ← group_step g o c; group_into g o' l'
  end.

(** The grouping object built from the empty literal [{}]. *)
Definition group_commissions (g : grouping) (l : list commission) : jsres (jsobj group) :=
  group_into g [] l.

(** ** Cards *)

(** The buttons the rendered HTML wires to handlers of the script. *)
Inductive action : Type :=
| ShowPayCommissionModal (commissionId : string)
| PaySingleCommission (commissionId : string)
| PayAllTeacherCommissions (teacherId : string) (classId : option string)
| PayTeacherCommissionsAndPrint (teacherId month : string)
| ShowPayClassCommissionModal (teacherId classId month : string) (pendingAmount : Z)
| ExportClassCommissions (teacherId classId month : string).

(** What closes a commission line: a button, the "paid on" date line, or
    nothing. *)
Inductive tail : Type := TailButton (a : action) | TailPaidOn | TailNone.

Record item : Type := mkItem {
  it_id : string;          (* the commission shown *)
  it_student : string;     (* the student name shown *)
  it_badge_paid : bool;    (* badge "مدفوع" rather than "معلق" *)
  it_tail : tail
}.

Record card : Type := mkCard {
  cd_title : string;
  cd_total : Z;
  cd_pending : Z;
  cd_paid : Z;
  cd_items : list item;
  cd_summary : list string;   (* ids listed in the pending summary *)
  cd_actions : list action    (* the card's bulk buttons *)
}.

(** [pendingAmount], [paidAmount] and [totalAmount] of a group
    (e.g. lines 1396-1401). *)
Definition pending_amount (cs : list commission) : Z :=
  reduce_sum c_amount (List.filter is_pending cs).
Definition paid_amount (cs : list commission) : Z :=
  reduce_sum c_amount (List.filter is_paid cs).
Definition total_amount (cs : list commission) : Z :=
  (pending_amount cs + paid_amount cs)%Z.

(** [`${x}`] for a value that may be [undefined]. *)
Definition tmpl_opt (o : option string) : string :=
  match o with Some s => s | None => "undefined" end.

(** The line of one commission in each variant: lines 1414-1437,
    2152-2173 and 2562-2574. *)
Definition item_of (g : grouping) (c : commission) : item :=
  mkItem (c_id c) (student_label c) (is_paid c)
    (match g with
     | ByTeacher =>
         if is_pending c then TailButton (ShowPayCommissionModal (c_id c)) else TailPaidOn
     | ByTeacherClass =>
         if is_pending c then TailButton (PaySingleCommission (c_id c)) else TailPaidOn
     | ByTeacherMonth => TailNone
     end).

(** [pendingCommissions.length > 0 ? ... : ''] *)
Definition has_pending (cs : list commission) : bool :=
  negb (bool_decide (List.filter is_pending cs = [])).

(** One card of [Object.values(..).forEach(group => { .. })]:
    lines 1388-1461, 2121-2197 and 2523-2578. *)
Definition card_of (g : grouping) (grp : group) : jsres card :=
  let t := g_teacher grp in
  let cs := g_commissions grp in
  let pend := List.filter is_pending cs in
  let summary := if has_pending cs then c_id <$> pend else [] in
  match g with
  | ByTeacher =>
      Ret (mkCard (r_name t) (total_amount cs) (pending_amount cs) (paid_amount cs)
             (item_of g <$> cs) summary
             (if has_pending cs then [PayAllTeacherCommissions (r_id t) None] else []))
  | ByTeacherClass =>
      cl ← deref "classObj.name" (g_class grp);
      Ret (mkCard (r_name t +:+ " - " +:+ r_name cl)
             (total_amount cs) (pending_amount cs) (paid_amount cs)
             (item_of g <$> cs) summary
             (if has_pending cs then [PayAllTeacherCommissions (r_id t) (Some (r_id cl))] else []))
  | ByTeacherMonth =>
      let month := tmpl_opt (g_month grp) in
      Ret (mkCard (r_name t +:+ " - " +:+ month)
             (total_amount cs) (pending_amount cs) (paid_amount cs)
             (item_of g <$> cs) []
             (if has_pending cs then [PayTeacherCommissionsAndPrint (r_id t) month] else []))
  end.

(** ** The container

    [container.innerHTML = ''] empties it; the placeholder line replaces
    an empty result; every card is appended as soon as it is built, so a
    card that throws leaves the earlier cards in place. *)
Inductive node : Type := NoCommissionsNode | CardNode (c : card).

Fixpoint append_cards {A} (f : A → jsres card) (l : list A) : list node * option exn :=
  match l with
  | [] => ([], None)
  | x :: l' =>
      match f x with
      | Throw e => ([], Some e)
      | Ret c => let r := append_cards f l' in (CardNode c :: r.1, r.2)
      end
  end.

(** [renderTeacherCommissions(commissions)] in each variant; [None] is a
    [null]/[undefined] argument.  The result is the container's children
    and the exception the call ends with, if any. *)
Definition renderTeacherCommissions (g : grouping) (commissions : option (list commission))
    : list node * option exn :=
  match commissions with
  | None | Some [] => ([NoCommissionsNode], None)
  | Some l =>
      match group_commissions g l with
      | Throw e => ([], Some e)
      | Ret o => append_cards (card_of g) (obj_values o)
      end
  end.

(** ** The server-grouped renderer *)

(** A group of [/accounting/teacher-commissions-by-class]. *)
Record class_group : Type := mkClassGroup {
  sg_teacher : option ref;
  sg_class : option ref;
  sg_month : string;
  sg_commissions : list commission
}.

(** One card of [renderTeacherCommissionsByClass] (lines 1118-1195): the
    amounts first, then the template, read left to right. *)
Definition card_of_class (cc : class_group) : jsres card :=
  let cs := sg_commissions cc in
  let pend := List.filter is_pending cs in
  let pa := pending_amount cs in
  t ← deref "classCommission.teacher.name" (sg_teacher cc);
  cl ← deref "classCommission.class.name" (sg_class cc);
  items ← mapM (λ c, s ← deref "commission.student.name" (c_student c);
                     Ret (mkItem (c_id c) (r_name s) (is_paid c)
                                 (if is_paid c then TailPaidOn else TailNone))) cs;
  summary ← (if has_pending cs
             then mapM (λ c, _ ← deref "commission.student.name" (c_student c); Ret (c_id c)) pend
             else Ret []);
  Ret (mkCard (r_name t +:+ " - " +:+ r_name cl) (total_amount cs) pa (paid_amount cs)
         items summary
         (if has_pending cs
          then [ShowPayClassCommissionModal (r_id t) (r_id cl) (sg_month cc) pa;
                ExportClassCommissions (r_id t) (r_id cl) (sg_month cc)]
          else [])).

Definition renderTeacherCommissionsByClass (commissionsByClass : option (list class_group))
    : list node * option exn :=
  match commissionsByClass with
  | None | Some [] => ([NoCommissionsNode], None)
  | Some l => append_cards card_of_class l
  end.

(** ** Grouping: the abstract specification and the simulation

    What a grouping promises: the object's keys are the records' keys in
    order of first occurrence, and the group under a key holds exactly
    the records with that key, in input order.  [group_inv] is that
    promise for the prefix of the input already processed; every
    iteration of the [forEach] preserves it. *)

(** The key a record is grouped under (the empty string when a field the
    key reads is missing). *)
Definition gkey (g : grouping) (c : commission) : string :=
  match key_of g c with Ret kf => kf.1 | Throw _ => "" end.

(** A record the grouping accepts: the fields its key reads are present
    and the key is not a property name of [Object.prototype]. *)
Definition groupable (g : grouping) (c : commission) : bool :=
  match key_of g c with Ret kf => negb (is_proto_key kf.1) | Throw _ => false end.

(** The group header the card reads is there. *)
Definition header_ok (g : grouping) (grp : group) : Prop :=
  match g with ByTeacherClass => is_Some (g_class grp) | _ => True end.

Definition group_inv (g : grouping) (p : list commission) (o : jsobj group) : Prop :=
  map fst o = dedup_first (map (gkey g) p) ∧
  ∀ k grp, own_get k o = Some grp →
    g_commissions grp = List.filter (λ c, gkey g c === k) p ∧ header_ok g grp.

Section GroupingProofs.
Context (g : grouping).

Lemma key_of_groupable c :
  groupable g c = true →
  ∃ fresh, key_of g c = Ret (gkey g c, fresh) ∧ g_commissions fresh = [] ∧
           header_ok g fresh ∧ is_proto_key (gkey g c) = false.
Proof.
  unfold groupable, gkey.
  destruct (key_of g c) as [[k fresh]|] eqn:Hk; [|done]. simpl.
  intros Hp%negb_true_iff. exists fresh.
  enough (g_commissions fresh = [] ∧ header_ok g fresh) as [Hf Hh] by (repeat split; done).
  destruct g, c as [? [t|] ? [cl|] ? ? ? ?]; cbn in Hk; simplify_eq;
    split; try done; by eexists.
Qed.

Lemma header_ok_push grp c : header_ok g grp → header_ok g (push grp c).
Proof. by destruct g. Qed.

(** The entries other than the key just pushed keep their meaning. *)
Lemma group_inv_other p o c grp k' v :
  group_inv g p o → k' ≠ gkey g c →
  own_get k' (obj_set (gkey g c) v o) = Some grp →
  g_commissions grp = List.filter (λ x, gkey g x === k') (p ++ [c])%list ∧ header_ok g grp.
Proof.
  intros [_ Hent] Hne Hget. rewrite own_get_set_ne in Hget by congruence.
  rewrite filter_snoc_ne by congruence. by apply Hent.
Qed.

Lemma group_step_inv p o c :
  group_inv g p o → groupable g c = true →
  ∃ o', group_step g o c = Ret o' ∧ group_inv g (p ++ [c]) o'.
Proof.
  intros Hinv Hc. destruct (key_of_groupable c Hc) as (fresh & Hk & Hf & Hh & Hp).
  pose proof Hinv as [Hkeys Hent].
  unfold group_step. rewrite Hk. simpl. unfold obj_get.
  destruct (own_get (gkey g c) o) as [grp|] eqn:Hget.
  - eexists. split; [done|]. split.
    + rewrite map_fst_obj_set_old by congruence. rewrite map_app. cbn [map]. rewrite dedup_first_snoc.
      unfold dedup_step. rewrite bool_decide_true; [done|].
      rewrite <- Hkeys. by eapply own_get_Some_in.
    + intros k grp' Hget'. destruct (decide (k = gkey g c)) as [->|Hne];
        [|by eapply group_inv_other].
      rewrite own_get_set_eq in Hget'. simplify_eq.
      destruct (Hent _ _ Hget) as [Hcs Hhd]. simpl.
      rewrite filter_snoc_eq, Hcs by done. split; [done|]. by apply header_ok_push.
  - rewrite Hp. eexists. split; [done|].
    assert (gkey g c ∉ map (gkey g) p) as Hnew.
    { rewrite <- elem_of_dedup_first, <- Hkeys. by apply own_get_None_not_in. }
    split.
    + rewrite map_fst_obj_set_new by done. rewrite map_app. cbn [map]. rewrite dedup_first_snoc, Hkeys.
      unfold dedup_step. rewrite bool_decide_false; [done|].
      by rewrite elem_of_dedup_first.
    + intros k grp' Hget'. destruct (decide (k = gkey g c)) as [->|Hne];
        [|by eapply group_inv_other].
      rewrite own_get_set_eq in Hget'. simplify_eq. simpl.
      rewrite filter_snoc_eq, filter_nil_not_in, Hf by done.
      split; [done|]. by apply header_ok_push.
Qed.

Lemma group_into_inv p o l :
  group_inv g p o → Forall (λ c, groupable g c = true) l →
  ∃ o', group_into g o l = Ret o' ∧ group_inv g (p ++ l) o'.
Proof.
  intros Hinv Hl. revert p o Hinv.
  induction Hl as [|c l Hc _ IH]; intros p o Hinv; simpl.
  - exists o. by rewrite app_nil_r.
  - destruct (group_step_inv p o c Hinv Hc) as (o1 & -> & Hinv1). simpl.
    destruct (IH _ _ Hinv1) as (o2 & Ho2 & Hinv2). exists o2.
    by rewrite <- app_assoc in Hinv2.
Qed.
End GroupingProofs.

(** ** Cards and their amounts *)

(** The amount a record contributes to a card's total: its amount when
    it is pending or paid, nothing otherwise. *)
Definition counted_amount (c : commission) : Z :=
  if is_pending c || is_paid c then c_amount c else 0%Z.

Lemma pending_paid_exclusive c : is_pending c = true → is_paid c = false.
Proof. unfold is_pending, is_paid. destruct (String.eqb_spec (c_status c) "pending") as [->|]; done. Qed.

Lemma total_amount_sumZ cs : total_amount cs = sumZ counted_amount cs.
Proof.
  unfold total_amount, pending_amount, paid_amount. autorewrite with acc_rw. rewrite !sumZ_filter.
  induction cs as [|c cs IH]; simpl; [done|]. unfold counted_amount at 1.
  destruct (is_pending c) eqn:Hp; [rewrite (pending_paid_exclusive c Hp)|]; simpl; lia.
Qed.

Lemma card_of_amounts g grp cd :
  card_of g grp = Ret cd →
  cd_pending cd = pending_amount (g_commissions grp) ∧
  cd_paid cd = paid_amount (g_commissions grp) ∧
  cd_total cd = total_amount (g_commissions grp).
Proof. destruct g; cbn; [|destruct (g_class grp)|]; cbn; intros; simplify_eq; cbn; done. Qed.

Lemma card_of_header g grp : header_ok g grp → ∃ cd, card_of g grp = Ret cd.
Proof. destruct g; simpl; [| intros [cl ->]|]; eauto. Qed.

Lemma append_cards_ok {A} (f : A → jsres card) l :
  Forall (λ x, ∃ cd, f x = Ret cd) l →
  ∃ cds, append_cards f l = (CardNode <$> cds, None) ∧ Forall2 (λ x cd, f x = Ret cd) l cds.
Proof.
  induction 1 as [|x l [cd Hx] _ (cds & Hl & Hall)]; simpl; [by exists []|].
  exists (cd :: cds). rewrite Hx, Hl. split; [done|]. by constructor.
Qed.

(** The groups of an object satisfying the invariant are the per-key
    filters of the input, in key order. *)
Lemma group_inv_groups g l o :
  group_inv g l o →
  map (λ kv, g_commissions kv.2) o = map (λ k, List.filter (λ c, gkey g c === k) l) (map fst o).
Proof.
  intros [Hkeys Hent]. assert (NoDup (map fst o)) as Hnd by (rewrite Hkeys; apply NoDup_dedup_first).
  rewrite map_map. apply map_ext_in. intros [k grp] Hin%list_elem_of_In. simpl.
  apply Hent, own_get_elem_of; done.
Qed.

Lemma group_inv_concat g l o :
  group_inv g l o → concat (map (λ kv, g_commissions kv.2) o) ≡ₚ l.
Proof.
  intros Hinv. rewrite (group_inv_groups g l o Hinv). destruct Hinv as [Hkeys _].
  apply concat_filter_keys; rewrite Hkeys; [apply NoDup_dedup_first|].
  intros c Hc. apply elem_of_dedup_first, list_elem_of_fmap_2, Hc.
Qed.

Lemma group_inv_headers g l o :
  group_inv g l o → Forall (λ grp, header_ok g grp) (map snd o).
Proof.
  intros Hinv. destruct Hinv as [Hkeys Hent]. assert (NoDup (map fst o)) as Hnd by (rewrite Hkeys; apply NoDup_dedup_first).
  apply Forall_forall. intros grp Hin%list_elem_of_In.
  apply in_map_iff in Hin as [[k grp'] [<- Hin%list_elem_of_In]].
  eapply Hent, own_get_elem_of; done.
Qed.

Lemma group_inv_nil g : group_inv g [] [].
Proof. split; [done|]. by intros k grp. Qed.

(** On accepted records the grouped renderer appends one card per group
    of [Object.values] and ends without an exception. *)
Lemma render_grouped_ok g l :
  l ≠ [] → Forall (λ c, groupable g c = true) l →
  ∃ o cds, group_inv g l o ∧ renderTeacherCommissions g (Some l) = (CardNode <$> cds, None) ∧
           Forall2 (λ grp cd, card_of g grp = Ret cd) (obj_values o) cds.
Proof.
  intros Hne Hl. destruct (group_into_inv g [] [] l (group_inv_nil g) Hl) as (o & Ho & Hinv).
  destruct (append_cards_ok (card_of g) (obj_values o)) as (cds & Hr & Hall).
  { apply Forall_forall. intros grp Hin. apply card_of_header.
    apply list_elem_of_In, (Permutation_in _ (obj_values_perm o)), list_elem_of_In in Hin.
    eapply Forall_forall; [apply (group_inv_headers g l o Hinv)|done]. }
  exists o, cds. split; [done|]. split; [|done].
  unfold renderTeacherCommissions, group_commissions. destruct l; [done|]. by rewrite Ho.
Qed.

(** ** Properties of the grouped renderers *)

(** C1 (refinement).  The grouping of [renderTeacherCommissions] implements
    its abstract specification: on records whose key fields are present
    (and whose key is not an [Object.prototype] name), the object has one
    key per distinct record key, in order of first occurrence, and the
    group under a key holds exactly the records with that key, in input
    order. *)
Theorem group_commissions_spec g l :
  Forall (λ c, groupable g c = true) l →
  ∃ o, group_commissions g l = Ret o ∧
       map fst o = dedup_first (map (gkey g) l) ∧
       ∀ k grp, own_get k o = Some grp →
         g_commissions grp = List.filter (λ c, gkey g c === k) l.
Proof.
  intros Hl. destruct (group_into_inv g [] [] l (group_inv_nil g) Hl) as (o & Ho & Hkeys & Hent).
  exists o. split; [done|]. split; [done|]. intros k grp Hget. apply Hent, Hget.
Qed.

(** C2 (invariant).  Rendering preserves the money: the totals of the
    cards add up to the sum of the pending and paid amounts of the input
    records, whatever the grouping key and the card order. *)
Theorem render_total_conserved g l :
  l ≠ [] → Forall (λ c, groupable g c = true) l →
  ∃ cards, renderTeacherCommissions g (Some l) = (CardNode <$> cards, None) ∧
           sumZ cd_total cards = sumZ counted_amount l.
Proof.
  intros Hne Hl. destruct (render_grouped_ok g l Hne Hl) as (o & cds & Hinv & Hr & Hall).
  exists cds. split; [done|].
  rewrite (sumZ_Forall2 _ cd_total (λ grp, total_amount (g_commissions grp)) _ _ Hall)
    by (intros grp cd Hc; apply card_of_amounts in Hc; tauto).
  rewrite (obj_values_perm o), sumZ_map, <- (group_inv_concat g l o Hinv).
  rewrite sumZ_concat, sumZ_map. apply sumZ_ext. intros kv _. apply total_amount_sumZ.
Qed.

(** ** Card order and failures of the grouped renderers *)

Lemma gkey_compound g c :
  g ≠ ByTeacher → groupable g c = true → ∃ a b, gkey g c = a +:+ "-" +:+ b.
Proof.
  intros Hg Hc. destruct (key_of_groupable g c Hc) as (fresh & Hk & _).
  revert Hk. unfold key_of. destruct (c_teacher c) as [t|]; cbn; [|done].
  destruct g; [done| |]; [destruct (c_class c) as [cl|]; cbn; [|done]|];
    intros [= <- _]; eauto.
Qed.

Lemma card_of_items g grp cd :
  card_of g grp = Ret cd → it_id <$> cd_items cd = c_id <$> g_commissions grp.
Proof.
  destruct g; cbn; [|destruct (g_class grp)|]; cbn; intros; simplify_eq; cbn;
    rewrite <- list_fmap_compose; done.
Qed.

(** C6 (functional).  With the compound keys of the teacher+class and
    teacher+month variants, the cards come in the order in which their
    key first occurs in the input, and each card lists exactly the records
    with its key, in input order. *)
Theorem render_compound_order g l :
  g ≠ ByTeacher → l ≠ [] → Forall (λ c, groupable g c = true) l →
  ∃ cards, renderTeacherCommissions g (Some l) = (CardNode <$> cards, None) ∧
    map (λ cd, it_id <$> cd_items cd) cards =
    map (λ k, c_id <$> List.filter (λ c, gkey g c === k) l) (dedup_first (map (gkey g) l)).
Proof.
  intros Hg Hne Hl. destruct (group_into_inv g [] [] l (group_inv_nil g) Hl) as (o & Ho & Hinv).
  cbn [app] in Hinv. assert (obj_values o = map snd o) as Hvals.
  { apply obj_values_no_index, Forall_forall. intros [k grp] Hin. simpl.
    destruct Hinv as [Hkeys _].
    assert (k ∈ map (gkey g) l) as Hk.
    { rewrite <- elem_of_dedup_first, <- Hkeys. by apply (list_elem_of_fmap_2 fst) in Hin. }
    apply list_elem_of_fmap in Hk as [c [-> Hc]].
    assert (groupable g c = true) as Hgc by (by apply (proj1 (Forall_forall _ _) Hl)).
    destruct (gkey_compound g c Hg Hgc) as (a & b & ->). apply is_index_compound. }
  destruct (append_cards_ok (card_of g) (obj_values o)) as (cds & Hr & Hall).
  { rewrite Hvals. eapply Forall_impl; [apply (group_inv_headers g l o Hinv)|].
    intros grp. apply card_of_header. }
  exists cds. split.
  { unfold renderTeacherCommissions, group_commissions. destruct l; [done|]. by rewrite Ho. }
  rewrite (map_Forall2_eq _ _ (λ grp, c_id <$> g_commissions grp) _ _ Hall)
    by (intros grp cd; apply card_of_items).
  rewrite Hvals, map_map.
  transitivity (map (fmap c_id) (map (λ kv, g_commissions kv.2) o)); [by rewrite map_map|].
  rewrite (group_inv_groups g l o Hinv), map_map. destruct Hinv as [-> _]. done.
Qed.

Definition keys_ok (o : jsobj group) : Prop :=
  Forall (λ k, is_proto_key k = false) (map fst o).

Lemma group_step_keys_ok g o c o' :
  keys_ok o → group_step g o c = Ret o' → keys_ok o'.
Proof.
  unfold group_step, obj_get, keys_ok. intros Hok.
  destruct (key_of g c) as [[k fresh]|]; cbn [fst snd mbind jsres_bind]; [|done].
  destruct (own_get k o) eqn:Hget; [|destruct (is_proto_key k) eqn:Hp]; intros H;
    try discriminate; injection H as <-.
  - by rewrite map_fst_obj_set_old by congruence.
  - rewrite map_fst_obj_set_new by done. apply Forall_app. by split; [|constructor].
Qed.

Lemma group_step_throws g o c :
  keys_ok o → groupable g c = false → ∃ e, group_step g o c = Throw e.
Proof.
  unfold group_step, groupable, obj_get, keys_ok. intros Hok.
  destruct (key_of g c) as [[k fresh]|e]; cbn [fst snd mbind jsres_bind]; [|eauto].
  intros Hp%negb_false_iff. destruct (own_get k o) eqn:Hget.
  - exfalso. apply own_get_Some_in in Hget.
    rewrite Forall_forall in Hok. rewrite (Hok k Hget) in Hp. done.
  - rewrite Hp. eauto.
Qed.

Lemma group_into_throws g o l :
  keys_ok o → Exists (λ c, groupable g c = false) l → ∃ e, group_into g o l = Throw e.
Proof.
  intros Hok Hex. revert o Hok. induction Hex as [c l Hc|c l _ IH]; intros o Hok; simpl.
  - destruct (group_step_throws g o c Hok Hc) as [e ->]. eauto.
  - destruct (group_step g o c) as [o'|e] eqn:Hs; cbn; [|eauto].
    apply IH. by eapply group_step_keys_ok.
Qed.

(** C7 (error).  The grouped renderers fail exactly on the inputs the
    grouping does not accept: a non-empty input renders without an
    exception if and only if every record has the fields its key reads
    and no key is a property name of [Object.prototype]; otherwise the
    container is left empty. *)
Theorem render_grouped_error g l :
  l ≠ [] →
  ((renderTeacherCommissions g (Some l)).2 = None ↔ Forall (λ c, groupable g c = true) l) ∧
  (¬ Forall (λ c, groupable g c = true) l →
   ∃ e, renderTeacherCommissions g (Some l) = ([], Some e)).
Proof.
  intros Hne.
  assert (¬ Forall (λ c, groupable g c = true) l →
          ∃ e, renderTeacherCommissions g (Some l) = ([], Some e)) as Hbad.
  { intros Hnot. apply not_Forall_Exists in Hnot; [|intros c; apply _].
    assert (Exists (λ c, groupable g c = false) l) as Hex.
    { eapply Exists_impl; [exact Hnot|]. intros c Hc. unfold compose in Hc.
      destruct (groupable g c); [by exfalso|done]. }
    destruct (group_into_throws g [] l (Forall_nil_2 _) Hex) as [e He].
    exists e. unfold renderTeacherCommissions, group_commissions.
    destruct l; [done|]. by rewrite He. }
  split; [|done]. split.
  - intros Hok. destruct (decide (Forall (λ c, groupable g c = true) l)) as [|Hnot]; [done|].
    destruct (Hbad Hnot) as [e He]. by rewrite He in Hok.
  - intros Hl. destruct (render_grouped_ok g l Hne Hl) as (o & cds & _ & -> & _). done.
Qed.

(** A record whose status is neither ['pending'] nor
    ['paid'] adds nothing to any figure of its card, yet the teacher and
    teacher+class variants show it with the "معلق" (pending) badge and the
    "تم الدفع في" (paid on) line at the same time. *)
Theorem other_status_item g c cs :
  is_pending c = false → is_paid c = false →
  pending_amount (cs ++ [c]) = pending_amount cs ∧
  paid_amount (cs ++ [c]) = paid_amount cs ∧
  (g ≠ ByTeacherMonth → item_of g c = mkItem (c_id c) (student_label c) false TailPaidOn).
Proof.
  intros Hp Hd. unfold pending_amount, paid_amount.
  rewrite !List.filter_app. simpl. rewrite Hp, Hd, !app_nil_r.
  split; [done|]. split; [done|]. intros Hg. unfold item_of. rewrite Hd, Hp. by destruct g.
Qed.

(** ** Properties of the server-grouped renderer

    [loadTeacherCommissions] passes the response of
    [/accounting/teacher-commissions-by-class] to
    [renderTeacherCommissionsByClass]: this is the renderer the dashboard
    runs. *)

Lemma has_pending_spec cs :
  has_pending cs = true ↔ ∃ c, c ∈ cs ∧ is_pending c = true.
Proof.
  unfold has_pending. rewrite negb_true_iff, bool_decide_eq_false.
  split.
  - intros Hne. destruct (List.filter is_pending cs) as [|c l] eqn:Hf; [done|].
    exists c. assert (In c (List.filter is_pending cs)) as Hin by (rewrite Hf; left; done).
    apply filter_In in Hin as [Hin Hp]. split; [by apply list_elem_of_In|done].
  - intros (c & Hin%list_elem_of_In & Hp) Hnil.
    assert (In c (List.filter is_pending cs)) as Hc by (apply filter_In; done).
    rewrite Hnil in Hc. done.
Qed.

Lemma mapM_deref_student_throw {B} (h : commission → ref → B) cs c :
  c ∈ cs → c_student c = None →
  mapM (λ x, s ← deref "commission.student.name" (c_student x); Ret (h x s)) cs
  = Throw (TypeError "commission.student.name").
Proof.
  induction cs as [|x cs IH]; intros Hin Hc; [by apply not_elem_of_nil in Hin|].
  apply elem_of_cons in Hin as [->|Hin]; cbn; [by rewrite Hc|].
  destruct (c_student x); cbn; [|done]. by rewrite IH.
Qed.

Lemma append_cards_app {A} (f : A → jsres card) l1 x l2 cds e :
  Forall2 (λ y cd, f y = Ret cd) l1 cds → f x = Throw e →
  append_cards f (l1 ++ x :: l2)%list = (CardNode <$> cds, Some e).
Proof. induction 1 as [|y cd l1 cds Hy _ IH]; intros Hx; simpl; [by rewrite Hx|]. by rewrite Hy, IH. Qed.

(** C3 (functional).  The amounts of a card of the live renderer: the
    pending figure is the sum of the pending records of the group, the
    paid figure the sum of the paid ones, the total their sum; so the
    total counts every pending or paid record and nothing else. *)
Theorem card_of_class_amounts cc cd :
  card_of_class cc = Ret cd →
  cd_pending cd = sumZ c_amount (List.filter is_pending (sg_commissions cc)) ∧
  cd_paid cd = sumZ c_amount (List.filter is_paid (sg_commissions cc)) ∧
  cd_total cd = (cd_pending cd + cd_paid cd)%Z ∧
  cd_total cd = sumZ counted_amount (sg_commissions cc).
Proof.
  unfold card_of_class. intros H. inv_js. simpl.
  rewrite <- total_amount_sumZ. unfold total_amount, pending_amount, paid_amount.
  by autorewrite with acc_rw.
Qed.

(** C4 (functional).  A card of the live renderer offers the class
    payment exactly when its group has a pending record, and the amount
    it passes to [showPayClassCommissionModal] is the card's pending
    figure. *)
Theorem card_of_class_actions cc cd :
  card_of_class cc = Ret cd →
  ∃ t cl, sg_teacher cc = Some t ∧ sg_class cc = Some cl ∧
  ((cd_actions cd = [ShowPayClassCommissionModal (r_id t) (r_id cl) (sg_month cc) (cd_pending cd);
                     ExportClassCommissions (r_id t) (r_id cl) (sg_month cc)] ∧
    ∃ c, c ∈ sg_commissions cc ∧ is_pending c = true)
   ∨ (cd_actions cd = [] ∧ Forall (λ c, is_pending c = false) (sg_commissions cc))).
Proof.
  unfold card_of_class. intros H. inv_js.
  do 2 eexists. split; [eassumption|split; [eassumption|]]. simpl.
  pose proof (has_pending_spec (sg_commissions cc)) as Hs.
  destruct (has_pending (sg_commissions cc)).
  - left. split; [done|]. by apply Hs.
  - right. split; [done|]. apply Forall_forall. intros c Hc.
    destruct (is_pending c) eqn:Hp; [|done]. exfalso.
    assert (false = true) by (apply Hs; eauto). done.
Qed.

(** C5 (error).  A group with a commission whose student is [null]
    stops the live renderer with a [TypeError] (line 1151 reads
    [commission.student.name] without the [?.] guard the other renderers
    use); the cards of the groups before it stay in the container. *)
Theorem render_by_class_missing_student l1 cc l2 cds t cl c :
  Forall2 (λ x cd, card_of_class x = Ret cd) l1 cds →
  sg_teacher cc = Some t → sg_class cc = Some cl →
  c ∈ sg_commissions cc → c_student c = None →
  renderTeacherCommissionsByClass (Some (l1 ++ cc :: l2)%list)
  = (CardNode <$> cds, Some (TypeError "commission.student.name")).
Proof.
  intros Hl1 Ht Hcl Hc Hs. unfold renderTeacherCommissionsByClass.
  destruct (l1 ++ cc :: l2)%list eqn:Hl; [by destruct l1|]. rewrite <- Hl.
  apply append_cards_app; [done|]. unfold card_of_class. rewrite Ht, Hcl.
  cbn [deref mbind jsres_bind]. apply bind_Throw.
  apply (mapM_deref_student_throw
           (λ x s, mkItem (c_id x) (r_name s) (is_paid x) (if is_paid x then TailPaidOn else TailNone))
           _ c); done.
Qed.

(** ** Concrete runs *)

Definition tAmina : ref := mkRef "64f1a0" "Amina".
Definition tKarim : ref := mkRef "64f1b7" "Karim".
Definition clMath : ref := mkRef "65aa01" "Math".
Definition sYacine : ref := mkRef "66bb02" "Yacine".

Definition ex_commissions : list commission :=
  [mkCommission "k1" (Some tAmina) (Some sYacine) (Some clMath) "2025-01" 1000 70 "pending";
   mkCommission "k2" (Some tKarim) (Some sYacine) (Some clMath) "2025-01" 500 70 "paid";
   mkCommission "k3" (Some tAmina) None (Some clMath) "2025-01" 300 70 "paid";
   mkCommission "k4" (Some tAmina) (Some sYacine) (Some clMath) "2025-02" 200 70 "cancelled"].

Definition ex_class_ok : class_group :=
  mkClassGroup (Some tAmina) (Some clMath) "2025-01"
    [mkCommission "k1" (Some tAmina) (Some sYacine) (Some clMath) "2025-01" 1000 70 "pending";
     mkCommission "k5" (Some tAmina) (Some sYacine) (Some clMath) "2025-01" 400 70 "paid"].

Definition ex_class_bad : class_group :=
  mkClassGroup (Some tKarim) (Some clMath) "2025-01"
    [mkCommission "k6" (Some tKarim) None (Some clMath) "2025-01" 250 70 "pending"].

Definition card_titles (ns : list node) : list string :=
  (λ n, match n with CardNode cd => cd_title cd | NoCommissionsNode => "" end) <$> ns.

Lemma group_commissions_spec_witness :
  Forall (λ c, groupable ByTeacherClass c = true) ex_commissions ∧
  ∃ o, group_commissions ByTeacherClass ex_commissions = Ret o ∧
       map fst o = dedup_first (map (gkey ByTeacherClass) ex_commissions) ∧
       ∀ k grp, own_get k o = Some grp →
         g_commissions grp = List.filter (λ c, gkey ByTeacherClass c === k) ex_commissions.
Proof.
  assert (Forall (λ c, groupable ByTeacherClass c = true) ex_commissions) as H
    by repeat constructor.
  split; [exact H|exact (group_commissions_spec ByTeacherClass ex_commissions H)].
Defined.

Lemma render_total_conserved_witness :
  ex_commissions ≠ [] ∧ Forall (λ c, groupable ByTeacherMonth c = true) ex_commissions ∧
  ∃ cards, renderTeacherCommissions ByTeacherMonth (Some ex_commissions) = (CardNode <$> cards, None) ∧
           sumZ cd_total cards = sumZ counted_amount ex_commissions.
Proof.
  assert (ex_commissions ≠ []) as H1 by discriminate.
  assert (Forall (λ c, groupable ByTeacherMonth c = true) ex_commissions) as H2
    by repeat constructor.
  split; [exact H1|split; [exact H2|exact (render_total_conserved ByTeacherMonth _ H1 H2)]].
Defined.

Lemma card_of_class_amounts_witness :
  ∃ cd, card_of_class ex_class_ok = Ret cd ∧
  cd_pending cd = sumZ c_amount (List.filter is_pending (sg_commissions ex_class_ok)) ∧
  cd_paid cd = sumZ c_amount (List.filter is_paid (sg_commissions ex_class_ok)) ∧
  cd_total cd = (cd_pending cd + cd_paid cd)%Z ∧
  cd_total cd = sumZ counted_amount (sg_commissions ex_class_ok).
Proof.
  eexists. split; [vm_compute; reflexivity|]. apply card_of_class_amounts. vm_compute. reflexivity.
Defined.

Lemma card_of_class_actions_witness :
  ∃ cd, card_of_class ex_class_ok = Ret cd ∧
  ∃ t cl, sg_teacher ex_class_ok = Some t ∧ sg_class ex_class_ok = Some cl ∧
  ((cd_actions cd = [ShowPayClassCommissionModal (r_id t) (r_id cl) (sg_month ex_class_ok) (cd_pending cd);
                     ExportClassCommissions (r_id t) (r_id cl) (sg_month ex_class_ok)] ∧
    ∃ c, c ∈ sg_commissions ex_class_ok ∧ is_pending c = true)
   ∨ (cd_actions cd = [] ∧ Forall (λ c, is_pending c = false) (sg_commissions ex_class_ok))).
Proof.
  eexists. split; [vm_compute; reflexivity|]. apply card_of_class_actions. vm_compute. reflexivity.
Defined.

Lemma render_by_class_missing_student_witness :
  ∃ cds, Forall2 (λ x cd, card_of_class x = Ret cd) [ex_class_ok] cds ∧
  renderTeacherCommissionsByClass (Some ([ex_class_ok] ++ ex_class_bad :: [ex_class_ok])%list)
  = (CardNode <$> cds, Some (TypeError "commission.student.name")).
Proof.
  eexists. split; [constructor; [vm_compute; reflexivity|constructor]|].
  eapply (render_by_class_missing_student _ _ _ _ tKarim clMath
            (mkCommission "k6" (Some tKarim) None (Some clMath) "2025-01" 250 70 "pending")).
  - constructor; [vm_compute; reflexivity|constructor].
  - reflexivity.
  - reflexivity.
  - apply list_elem_of_here.
  - reflexivity.
Defined.

Lemma render_compound_order_witness :
  ByTeacherClass ≠ ByTeacher ∧ ex_commissions ≠ [] ∧
  Forall (λ c, groupable ByTeacherClass c = true) ex_commissions ∧
  ∃ cards, renderTeacherCommissions ByTeacherClass (Some ex_commissions) = (CardNode <$> cards, None) ∧
    map (λ cd, it_id <$> cd_items cd) cards =
    map (λ k, c_id <$> List.filter (λ c, gkey ByTeacherClass c === k) ex_commissions)
        (dedup_first (map (gkey ByTeacherClass) ex_commissions)).
Proof.
  assert (ByTeacherClass ≠ ByTeacher) as H0 by discriminate.
  assert (ex_commissions ≠ []) as H1 by discriminate.
  assert (Forall (λ c, groupable ByTeacherClass c = true) ex_commissions) as H2
    by repeat constructor.
  split; [exact H0|split; [exact H1|split; [exact H2|]]].
  exact (render_compound_order ByTeacherClass ex_commissions H0 H1 H2).
Defined.

(** The teacher variant does not list its cards in
    the order in which teachers first occur: [Object.values] puts the
    teachers whose id is an array index first, in ascending numeric
    order.  Here Amina ("20") comes first in the input and second on
    screen, after Karim ("3"); Nadia's ObjectId-like id keeps its place
    after them. *)
Example render_by_teacher_numeric_order :
  card_titles (renderTeacherCommissions ByTeacher (Some
    [mkCommission "k1" (Some (mkRef "20" "Amina")) None None "2025-01" 100 70 "pending";
     mkCommission "k2" (Some (mkRef "64f1c9" "Nadia")) None None "2025-01" 70 70 "pending";
     mkCommission "k3" (Some (mkRef "3" "Karim")) None None "2025-01" 50 70 "pending"])).1
  = ["Karim"; "Amina"; "Nadia"].
Proof. vm_compute. reflexivity. Qed.

Lemma render_grouped_error_witness :
  [mkCommission "k7" (Some (mkRef "constructor" "X")) None None "2025-01" 10 70 "pending"] ≠ [] ∧
  ((renderTeacherCommissions ByTeacher (Some
      [mkCommission "k7" (Some (mkRef "constructor" "X")) None None "2025-01" 10 70 "pending"])).2 = None
   ↔ Forall (λ c, groupable ByTeacher c = true)
      [mkCommission "k7" (Some (mkRef "constructor" "X")) None None "2025-01" 10 70 "pending"]) ∧
  (¬ Forall (λ c, groupable ByTeacher c = true)
      [mkCommission "k7" (Some (mkRef "constructor" "X")) None None "2025-01" 10 70 "pending"] →
   ∃ e, renderTeacherCommissions ByTeacher (Some
      [mkCommission "k7" (Some (mkRef "constructor" "X")) None None "2025-01" 10 70 "pending"])
      = ([], Some e)).
Proof.
  assert ([mkCommission "k7" (Some (mkRef "constructor" "X")) None None "2025-01" 10 70 "pending"] ≠ [])
    as H by discriminate.
  split; [exact H|exact (render_grouped_error ByTeacher _ H)].
Defined.

Lemma other_status_item_witness :
  is_pending (mkCommission "k4" (Some tAmina) (Some sYacine) (Some clMath) "2025-02" 200 70 "cancelled") = false ∧
  is_paid (mkCommission "k4" (Some tAmina) (Some sYacine) (Some clMath) "2025-02" 200 70 "cancelled") = false ∧
  pending_amount (ex_commissions ++ [mkCommission "k4" (Some tAmina) (Some sYacine) (Some clMath) "2025-02" 200 70 "cancelled"]) = pending_amount ex_commissions ∧
  paid_amount (ex_commissions ++ [mkCommission "k4" (Some tAmina) (Some sYacine) (Some clMath) "2025-02" 200 70 "cancelled"]) = paid_amount ex_commissions ∧
  (ByTeacher ≠ ByTeacherMonth →
   item_of ByTeacher (mkCommission "k4" (Some tAmina) (Some sYacine) (Some clMath) "2025-02" 200 70 "cancelled")
   = mkItem "k4" "Yacine" false TailPaidOn).
Proof.
  assert (Hp : is_pending (mkCommission "k4" (Some tAmina) (Some sYacine) (Some clMath) "2025-02" 200 70 "cancelled") = false) by reflexivity.
  assert (Hd : is_paid (mkCommission "k4" (Some tAmina) (Some sYacine) (Some clMath) "2025-02" 200 70 "cancelled") = false) by reflexivity.
  split; [exact Hp|split; [exact Hd|]]. exact (other_status_item ByTeacher _ ex_commissions Hp Hd).
Defined.
