(* ===== verification/Selection.v ===== *)
(** * The selection of payments for bulk operations

    [let selectedPayments = new Set()] (line 16) holds the ids of the
    payments whose row checkbox the user ticked.  Three handlers change
    it: [togglePaymentSelection] (line 742, the [onchange] of a row
    checkbox), the [change] listener of [#selectAllPayments] (lines
    92-104), and [markSelectedAsPaid], which clears it (line 815);
    [updateSelectedPaymentsCount] (line 755) writes its size into the
    footer.  [renderPayments] rebuilds the rows with unticked boxes and
    leaves the set alone.

    The bulk-pay handler needs four things of the set: add, delete, size
    and [Array.from] order.  They form the interface [PaymentSet] with
    its laws [PaymentSetLaws]; the JavaScript [Set] (insertion order, no
    duplicates) is its implementation [jsset], and every lawful set
    refines a finite set of ids ([gset]). *)

From Stdlib Require Import ZArith.
From stdpp Require Import base list strings gmap.
From S2P Require Import Prelude Fetch.

Local Open Scope string_scope.
Local Open Scope acc_scope.
Local Open Scope list_scope.

(** ** The interface *)

Class PaymentSet (S : Type) := {
  ps_empty : S;
  ps_add : string → S → S;
  ps_delete : string → S → S;
  ps_size : S → nat;
  ps_elements : S → list string   (* Array.from(set) *)
}.

Class PaymentSetLaws (S : Type) `{PaymentSet S} := {
  ps_elements_NoDup s : NoDup (ps_elements s);
  ps_size_spec s : ps_size s = length (ps_elements s);
  ps_elements_empty : ps_elements ps_empty = [];
  ps_elem_add x y s : y ∈ ps_elements (ps_add x s) ↔ y = x ∨ y ∈ ps_elements s;
  ps_elem_delete x y s : y ∈ ps_elements (ps_delete x s) ↔ y ≠ x ∧ y ∈ ps_elements s
}.

(** ** The JavaScript [Set] of strings

    Its elements in insertion order, without duplicates: [add] of a
    present element keeps its position, [delete] removes it. *)

Record jsset : Type := MkJsSet {
  js_elems : list string;
  js_nodup : bool_decide (NoDup js_elems) = true
}.

Lemma nodup_snoc (l : list string) x :
  bool_decide (NoDup l) = true → x ∉ l → bool_decide (NoDup (l ++ [x])) = true.
Proof.
  intros Hl%bool_decide_eq_true Hx. apply bool_decide_eq_true, NoDup_app.
  split; [done|]. split; [|apply NoDup_singleton].
  intros y Hy ->%list_elem_of_singleton. contradiction.
Qed.

Lemma nodup_filter (l : list string) p :
  bool_decide (NoDup l) = true → bool_decide (NoDup (List.filter p l)) = true.
Proof.
  intros Hl%bool_decide_eq_true. apply bool_decide_eq_true.
  apply NoDup_ListNoDup, List.NoDup_filter, NoDup_ListNoDup, Hl.
Qed.

Definition jsset_empty : jsset := MkJsSet [] eq_refl.

(** [set.add(x)]. *)
Definition jsset_add (x : string) (s : jsset) : jsset :=
  match decide (x ∈ js_elems s) with
  | left _ => s
  | right Hx => MkJsSet (js_elems s ++ [x]) (nodup_snoc _ _ (js_nodup s) Hx)
  end.

(** [set.delete(x)]. *)
Definition jsset_delete (x : string) (s : jsset) : jsset :=
  MkJsSet (List.filter (λ y, negb (y === x)) (js_elems s)) (nodup_filter _ _ (js_nodup s)).

#[export] Instance jsset_ops : PaymentSet jsset := {
  ps_empty := jsset_empty;
  ps_add := jsset_add;
  ps_delete := jsset_delete;
  ps_size s := length (js_elems s);
  ps_elements := js_elems
}.

#[export] Instance jsset_laws : PaymentSetLaws jsset.
Proof.
  split.
  - intros s. exact (proj1 (bool_decide_eq_true _) (js_nodup s)).
  - done.
  - done.
  - intros x y s. simpl. unfold jsset_add. destruct (decide (x ∈ js_elems s)); simpl.
    + split; [by right|]. by intros [->|].
    + rewrite elem_of_app, list_elem_of_singleton. tauto.
  - intros x y s. simpl. rewrite !list_elem_of_In, filter_In, negb_true_iff.
    destruct (String.eqb_spec y x); simpl; intuition congruence.
Qed.

(** ** Refinement of a finite set

    The abstraction of a lawful set is the finite set of its elements;
    every operation commutes with it. *)

Section Abstraction.
Context {Sel : Type} `{PaymentSetLaws Sel}.

Definition abs (s : Sel) : gset string := list_to_set (ps_elements s).

Lemma elem_of_abs x s : x ∈ abs s ↔ x ∈ ps_elements s.
Proof. unfold abs. by rewrite elem_of_list_to_set. Qed.

Lemma abs_add x s : abs (ps_add x s) = {[x]} ∪ abs s.
Proof. apply set_eq. intros y. rewrite elem_of_union, elem_of_singleton, !elem_of_abs. apply ps_elem_add. Qed.

Lemma abs_delete x s : abs (ps_delete x s) = abs s ∖ {[x]}.
Proof.
  apply set_eq. intros y. rewrite elem_of_difference, elem_of_singleton, !elem_of_abs.
  rewrite ps_elem_delete. tauto.
Qed.

Lemma abs_empty : abs ps_empty = ∅.
Proof. unfold abs. by rewrite ps_elements_empty. Qed.

Lemma size_abs s : ps_size s = size (abs s).
Proof. unfold abs. rewrite ps_size_spec, size_list_to_set; [done|apply ps_elements_NoDup]. Qed.
End Abstraction.

(** The set operations the handlers perform, and their effect on a
    lawful set and on a finite set. *)
Inductive set_op : Type := OpAdd (x : string) | OpDelete (x : string).

Section Runs.
Context {Sel : Type} `{PaymentSet Sel}.

Definition ops_run (ops : list set_op) (s : Sel) : Sel :=
  fold_left (λ s op, match op with OpAdd x => ps_add x s | OpDelete x => ps_delete x s end) ops s.
End Runs.

Definition gset_run (ops : list set_op) (g : gset string) : gset string :=
  fold_left (λ g op, match op with OpAdd x => {[x]} ∪ g | OpDelete x => g ∖ {[x]} end) ops g.

(** ** The handlers *)

(** A checkbox of [#paymentsTable]: its [data-id] and whether it is
    ticked. *)
Record row : Type := mkRow { row_id : string; row_checked : bool }.

(** The part of the page the selection handlers read and write. *)
Record sel_state (Sel : Type) : Type := mkSel {
  selected : Sel;        (* selectedPayments *)
  select_all : bool;     (* #selectAllPayments.checked *)
  rows : list row;       (* the row checkboxes, in table order *)
  count_shown : nat      (* the number written into #selectedCount *)
}.
Arguments mkSel {Sel}.
Arguments selected {Sel}.
Arguments select_all {Sel}.
Arguments rows {Sel}.
Arguments count_shown {Sel}.

(** The user's actions on the selection, and [renderPayments] and
    [markSelectedAsPaid] as far as they touch it. *)
Inductive sel_event : Type :=
| ClickRow (i : nat)
| ClickSelectAll
| Render (ids : list string)
| BulkClear.

Section Handlers.
Context {Sel : Type} `{PaymentSet Sel}.
Implicit Types (st : sel_state Sel).

(** [updateSelectedPaymentsCount()] (lines 755-758). *)
Definition updateSelectedPaymentsCount st : sel_state Sel :=
  mkSel (selected st) (select_all st) (rows st) (ps_size (selected st)).

(** [togglePaymentSelection(paymentId, isChecked)] (lines 742-750). *)
Definition togglePaymentSelection (paymentId : string) (isChecked : bool) st : sel_state Sel :=
  updateSelectedPaymentsCount
    (if isChecked
     then mkSel (ps_add paymentId (selected st)) (select_all st) (rows st) (count_shown st)
     else mkSel (ps_delete paymentId (selected st)) false (rows st) (count_shown st)).

(** A click on the checkbox of row [i]: the browser flips it, then its
    [onchange="togglePaymentSelection('${payment._id}', this.checked)"]
    runs (line 713). *)
Definition click_row (i : nat) st : sel_state Sel :=
  match rows st !! i with
  | Some r =>
      let r' := mkRow (row_id r) (negb (row_checked r)) in
      togglePaymentSelection (row_id r) (row_checked r')
        (mkSel (selected st) (select_all st) (<[i:=r']> (rows st)) (count_shown st))
  | None => st
  end.

(** A click on [#selectAllPayments]: the browser flips it, then the
    [change] listener (lines 92-104) ticks every row like it and adds or
    deletes its id. *)
Definition select_all_change st : sel_state Sel :=
  let c := negb (select_all st) in
  updateSelectedPaymentsCount
    (mkSel (fold_left (λ s r, if c then ps_add (row_id r) s else ps_delete (row_id r) s)
                      (rows st) (selected st))
           c ((λ r, mkRow (row_id r) c) <$> rows st) (count_shown st)).

(** [renderPayments(payments)] (lines 684-738) on the selection: fresh,
    unticked rows; the count is rewritten only when there is a row (the
    empty case returns at line 691). *)
Definition render_rows (ids : list string) st : sel_state Sel :=
  match ids with
  | [] => mkSel (selected st) (select_all st) [] (count_shown st)
  | _ => updateSelectedPaymentsCount
           (mkSel (selected st) (select_all st) ((λ id, mkRow id false) <$> ids) (count_shown st))
  end.

(** [selectedPayments.clear(); selectAll.checked = false] (lines 815-816);
    the count is left to the reload. *)
Definition bulk_clear st : sel_state Sel :=
  mkSel ps_empty false (rows st) (count_shown st).

Definition sel_apply (ev : sel_event) st : sel_state Sel :=
  match ev with
  | ClickRow i => click_row i st
  | ClickSelectAll => select_all_change st
  | Render ids => render_rows ids st
  | BulkClear => bulk_clear st
  end.

Definition sel_run (evs : list sel_event) st : sel_state Sel :=
  fold_left (λ st ev, sel_apply ev st) evs st.

(** The footer shows the size of the set. *)
Definition synced st : Prop := count_shown st = ps_size (selected st).
End Handlers.

(** ** Properties *)

Section SelectionProofs.
Context {Sel : Type} `{PaymentSetLaws Sel}.
Implicit Types (st : sel_state Sel).

Lemma synced_update st : synced (updateSelectedPaymentsCount st).
Proof. done. Qed.

Lemma sel_apply_synced ev st : ev ≠ BulkClear → synced st → synced (sel_apply ev st).
Proof.
  intros Hev Hs. destruct ev as [i| |ids|]; simpl; [|done| |done].
  - unfold click_row. destruct (rows st !! i); [|done]. unfold togglePaymentSelection.
    apply synced_update.
  - destruct ids; [done|apply synced_update].
Qed.

Lemma abs_fold_add (rs : list row) (s : Sel) :
  abs (fold_left (λ s r, ps_add (row_id r) s) rs s) = abs s ∪ list_to_set (row_id <$> rs).
Proof.
  revert s. induction rs as [|r rs IH]; intros s; simpl; [set_solver|].
  rewrite IH, abs_add. set_solver.
Qed.

Lemma insert_insert_same {A} (l : list A) i (x y : A) :
  l !! i = Some x → <[i:=x]> (<[i:=y]> l) = l.
Proof. intros Hx. rewrite list_insert_insert, decide_True by done. by apply list_insert_id. Qed.

(** C15 (invariant).  The footer count stays equal to the size of the
    selection through any sequence of row clicks, select-all clicks and
    re-renders of the table. *)
Theorem count_synced evs st :
  Forall (λ ev, ev ≠ BulkClear) evs → synced st → synced (sel_run evs st).
Proof.
  intros Hevs. revert st. induction Hevs as [|ev evs Hev _ IH]; intros st Hs; [done|].
  simpl. apply IH. by apply sel_apply_synced.
Qed.

(** Ticking then unticking the checkbox of a row
    restores the rows and removes the row's id from the selection: the
    selection is unchanged when the id was not selected before, and the
    footer shows its size. *)
Theorem click_row_twice st i r :
  rows st !! i = Some r → row_checked r = false →
  let st' := click_row i (click_row i st) in
  abs (selected st') = abs (selected st) ∖ {[row_id r]} ∧
  (row_id r ∉ ps_elements (selected st) → ps_size (selected st') = ps_size (selected st)) ∧
  synced st' ∧ rows st' = rows st ∧ select_all st' = false.
Proof.
  intros Hr Hc. destruct r as [id checked]. simpl in Hc. subst checked.
  unfold click_row. rewrite Hr. simpl.
  rewrite list_lookup_insert_eq by (eapply lookup_lt_Some; eauto). simpl.
  assert (abs (ps_delete id (ps_add id (selected st))) = abs (selected st) ∖ {[id]}) as Habs
    by (rewrite abs_delete, abs_add; set_solver).
  split; [done|]. split; [|split; [done|split; [by apply insert_insert_same|done]]].
  intros Hnot. rewrite !size_abs, Habs. f_equal. apply set_eq. intros y.
  rewrite elem_of_difference, elem_of_singleton, elem_of_abs. split; [tauto|].
  intros Hy. split; [done|]. intros ->. contradiction.
Qed.

(** "Select all" followed by unticking one row leaves
    one id fewer than the union of the page's ids with what was selected
    before; when everything selected is on the page, that is the number
    of rows minus one. *)
Theorem select_all_then_deselect st i r :
  select_all st = false → rows st !! i = Some r →
  let st' := click_row i (select_all_change st) in
  ps_size (selected st') = size (abs (selected st) ∪ list_to_set (row_id <$> rows st)) - 1 ∧
  synced st' ∧
  (NoDup (row_id <$> rows st) → abs (selected st) ⊆ list_to_set (row_id <$> rows st) →
   ps_size (selected st') = length (rows st) - 1).
Proof.
  intros Hsa Hr. unfold select_all_change. rewrite Hsa. simpl.
  unfold click_row. simpl. rewrite list_lookup_fmap, Hr. simpl.
  set (ids := list_to_set (row_id <$> rows st) : gset string).
  assert (row_id r ∈ ids) as Hin.
  { apply elem_of_list_to_set, list_elem_of_fmap_2, list_elem_of_lookup_2 with i, Hr. }
  assert (ps_size (ps_delete (row_id r) (fold_left (λ s r, ps_add (row_id r) s) (rows st) (selected st)))
          = size (abs (selected st) ∪ ids) - 1) as Hsize.
  { rewrite size_abs, abs_delete, abs_fold_add, size_difference by set_solver.
    by rewrite size_singleton. }
  split; [done|]. split; [done|]. intros Hnd Hsub. rewrite Hsize.
  replace (abs (selected st) ∪ ids) with ids by set_solver.
  unfold ids. rewrite size_list_to_set, length_fmap by done. done.
Qed.

(** The exception to C10: after [markSelectedAsPaid]
    clears the set, a reload that finds no payment takes the early return
    of [renderPayments], so the footer keeps showing the old count while
    the set is empty. *)
Theorem count_stale_after_bulk_clear st :
  synced st → ps_size (selected st) ≠ 0 →
  let st' := sel_run [BulkClear; Render []] st in
  count_shown st' = ps_size (selected st) ∧ ps_size (selected st') = 0 ∧ ¬ synced st'.
Proof.
  intros Hs Hne. unfold synced in *. simpl.
  assert (ps_size (ps_empty : Sel) = 0) as Hempty by (rewrite ps_size_spec, ps_elements_empty; done).
  rewrite Hempty. lia.
Qed.
End SelectionProofs.

(** Every lawful payment set, the JavaScript [Set]
    among them, refines a finite set of ids: after any sequence of [add]
    and [delete] its elements are those of the finite set obtained by the
    same operations, and its [size] is the number of those ids. *)
Theorem jsset_refines_gset `{PaymentSetLaws Sel} (ops : list set_op) (s : Sel) :
  abs (ops_run ops s) = gset_run ops (abs s) ∧
  ps_size (ops_run ops s) = size (gset_run ops (abs s)).
Proof.
  assert (abs (ops_run ops s) = gset_run ops (abs s)) as Habs.
  { revert s. induction ops as [|[x|x] ops IH]; intros s; simpl; [done| |];
      rewrite IH; [by rewrite abs_add|by rewrite abs_delete]. }
  split; [done|]. by rewrite size_abs, Habs.
Qed.

(** ** Concrete runs, with the JavaScript [Set] *)

(** One payment ("p9") selected on an earlier page; two unticked rows. *)
Definition ex_sel : sel_state jsset :=
  mkSel (jsset_add "p9" jsset_empty) false [mkRow "p1" false; mkRow "p2" false] 1.

Lemma count_synced_witness :
  Forall (λ ev, ev ≠ BulkClear) [ClickRow 0; ClickSelectAll; Render ["p3"]; ClickRow 0] ∧
  synced ex_sel ∧
  synced (sel_run [ClickRow 0; ClickSelectAll; Render ["p3"]; ClickRow 0] ex_sel).
Proof.
  assert (Forall (λ ev, ev ≠ BulkClear) [ClickRow 0; ClickSelectAll; Render ["p3"]; ClickRow 0]) as H1
    by (repeat constructor; discriminate).
  assert (synced ex_sel) as H2 by reflexivity.
  split; [exact H1|split; [exact H2|exact (count_synced _ _ H1 H2)]].
Defined.

Lemma click_row_twice_witness :
  rows ex_sel !! 1 = Some (mkRow "p2" false) ∧ row_checked (mkRow "p2" false) = false ∧
  let st' := click_row 1 (click_row 1 ex_sel) in
  abs (selected st') = abs (selected ex_sel) ∖ {[row_id (mkRow "p2" false)]} ∧
  (row_id (mkRow "p2" false) ∉ ps_elements (selected ex_sel) →
   ps_size (selected st') = ps_size (selected ex_sel)) ∧
  synced st' ∧ rows st' = rows ex_sel ∧ select_all st' = false.
Proof.
  assert (rows ex_sel !! 1 = Some (mkRow "p2" false)) as H1 by reflexivity.
  assert (row_checked (mkRow "p2" false) = false) as H2 by reflexivity.
  split; [exact H1|split; [exact H2|exact (click_row_twice ex_sel 1 _ H1 H2)]].
Defined.

Lemma select_all_then_deselect_witness :
  select_all ex_sel = false ∧ rows ex_sel !! 0 = Some (mkRow "p1" false) ∧
  let st' := click_row 0 (select_all_change ex_sel) in
  ps_size (selected st') = size (abs (selected ex_sel) ∪ list_to_set (row_id <$> rows ex_sel)) - 1 ∧
  synced st' ∧
  (NoDup (row_id <$> rows ex_sel) → abs (selected ex_sel) ⊆ list_to_set (row_id <$> rows ex_sel) →
   ps_size (selected st') = length (rows ex_sel) - 1).
Proof.
  assert (select_all ex_sel = false) as H1 by reflexivity.
  assert (rows ex_sel !! 0 = Some (mkRow "p1" false)) as H2 by reflexivity.
  split; [exact H1|split; [exact H2|exact (select_all_then_deselect ex_sel 0 _ H1 H2)]].
Defined.

(** The stale "p9" stays selected: two ids remain although one row of
    two is ticked. *)
Example select_all_then_deselect_stale :
  ps_size (selected (click_row 0 (select_all_change ex_sel))) = 2.
Proof. reflexivity. Qed.

Lemma count_stale_after_bulk_clear_witness :
  synced ex_sel ∧ ps_size (selected ex_sel) ≠ 0 ∧
  let st' := sel_run [BulkClear; Render []] ex_sel in
  count_shown st' = ps_size (selected ex_sel) ∧ ps_size (selected st') = 0 ∧ ¬ synced st'.
Proof.
  assert (synced ex_sel) as H1 by reflexivity.
  assert (ps_size (selected ex_sel) ≠ 0) as H2 by (simpl; lia).
  split; [exact H1|split; [exact H2|exact (count_stale_after_bulk_clear ex_sel H1 H2)]].
Defined.

Lemma jsset_refines_gset_witness :
  abs (ops_run [OpAdd "p1"; OpAdd "p2"; OpAdd "p1"; OpDelete "p1"] jsset_empty)
    = gset_run [OpAdd "p1"; OpAdd "p2"; OpAdd "p1"; OpDelete "p1"] (abs jsset_empty) ∧
  ps_size (ops_run [OpAdd "p1"; OpAdd "p2"; OpAdd "p1"; OpDelete "p1"] jsset_empty)
    = size (gset_run [OpAdd "p1"; OpAdd "p2"; OpAdd "p1"; OpDelete "p1"] (abs jsset_empty)).
Proof. exact (jsset_refines_gset [OpAdd "p1"; OpAdd "p2"; OpAdd "p1"; OpDelete "p1"] jsset_empty). Defined.
