(* ===== verification/BulkPay.v ===== *)
(** * Paying payments and commissions: single and bulk handlers

    [markSelectedAsPaid] (line 769) pays every selected payment at once:
    it dispatches one [PUT /payments/:id/pay] per id of the selection,
    waits for all of them with [Promise.allSettled], counts successes and
    failures, reports both, clears the selection and reloads the list and
    the dashboard whatever the outcome.  It is written here against the
    [PaymentSet] interface of [Selection]; its properties hold for every
    lawful set and so for the JavaScript [Set] the script uses.

    [payAllTeacherCommissions] (line 1533) is the sequential variant for
    commissions; [markAsPaid] (line 894) and [paySingleCommission]
    (lines 1006 and 2059) pay one record. *)

From Stdlib Require Import ZArith.
From stdpp Require Import base list strings gmap pretty.
From S2P Require Import Prelude Fetch Prog Payments Selection.

Local Open Scope string_scope.
Local Open Scope acc_scope.
Local Open Scope list_scope.

(** ** [markSelectedAsPaid] *)

(** [results.forEach(result => { if (fulfilled && ok) successCount++;
    else errorCount++; })] (lines 801-810). *)
Definition tally (results : list settled) : nat * nat :=
  fold_left (λ acc r, if settled_ok r then (S acc.1, acc.2) else (acc.1, S acc.2)) results (0, 0).

Definition bulk_alert (successCount errorCount : nat) : string :=
  "تم تسديد " +:+ pretty successCount +:+ " مدفوعات بنجاح. فشل " +:+ pretty errorCount +:+ " مدفوعات.".

Definition bulk_confirm (n : nat) : string :=
  "هل تريد بالتأكيد تسديد " +:+ pretty n +:+ " مدفوعات؟".

Definition nothing_selected_alert : string := "يرجى تحديد مدفوعات لتسديدها".

Section MarkSelected.
Context {Sel : Type} `{PaymentSet Sel}.

(** [markSelectedAsPaid()] (lines 769-826): [now] is
    [new Date().toISOString()], of which the date part is sent
    ([paymentDate] of line 782), [confirmed] is the answer to
    the [confirm] dialog, [net] the answers of the server.  All requests
    are dispatched before the first is awaited; the loaders are started,
    not awaited, before [finally] hides the overlay. *)
Definition markSelectedAsPaid (authToken : option string) (now : string) (confirmed : bool)
    (net : network) (st : sel_state Sel) : list effect * sel_state Sel :=
  let n := ps_size (selected st) in
  if decide (n = 0) then ([EAlert nothing_selected_alert], st)
  else if negb confirmed then ([EConfirm (bulk_confirm n)], st)
  else
    let paymentDate := split_T_0 now in
    let reqs := pay_request authToken paymentDate <$> ps_elements (selected st) in
    let counts := tally (net <$> reqs) in
    ([EConfirm (bulk_confirm n); ELoading true] ++ (EFetch <$> reqs) ++
     [EAlert (bulk_alert counts.1 counts.2); ELoad LoadPayments; ELoad LoadDashboardData;
      ELoading false],
     bulk_clear st).
End MarkSelected.

(** ** Properties of [markSelectedAsPaid] *)

Lemma tally_shift (results : list settled) a b :
  fold_left (λ acc r, if settled_ok r then (S acc.1, acc.2) else (acc.1, S acc.2)) results (a, b)
  = (a + count_if settled_ok results, b + count_if (λ r, negb (settled_ok r)) results)%nat.
Proof.
  unfold count_if. revert a b. induction results as [|r rs IH]; intros a b; simpl; [f_equal; lia|].
  destruct (settled_ok r); simpl; rewrite IH; f_equal; lia.
Qed.

(** The loop of lines 801-810 counts the fulfilled [ok] answers and the
    others. *)
Lemma tally_spec (results : list settled) :
  tally results = (count_if settled_ok results, length results - count_if settled_ok results)%nat.
Proof.
  unfold tally. rewrite tally_shift. f_equal.
  pose proof (count_if_split settled_ok results). lia.
Qed.

Section MarkSelectedProofs.
Context {Sel : Type} `{PaymentSetLaws Sel}.

(** C16 (functional).  When the user confirms, [markSelectedAsPaid]
    sends exactly one authenticated [PUT /api/payments/<id>/pay] per
    selected id, in the set's order; its only alert reports as succeeded
    the fulfilled [ok] answers and as failed all the others (the two add
    up to the size of the selection); it reloads the payments and the
    dashboard and leaves the selection empty and "select all" unticked,
    whatever the answers. *)
Theorem markSelectedAsPaid_confirmed tok now net (st : sel_state Sel) :
  ps_size (selected st) ≠ 0 →
  let r := markSelectedAsPaid tok now true net st in
  let reqs := pay_request tok (split_T_0 now) <$> ps_elements (selected st) in
  let ok := count_if settled_ok (net <$> reqs) in
  requests_of r.1 = reqs ∧
  Forall (λ q, rq_method q = PUT ∧ rq_auth q = Some (bearer tok)) (requests_of r.1) ∧
  alerts_of r.1 = [bulk_alert ok (ps_size (selected st) - ok)] ∧
  (ok ≤ ps_size (selected st))%nat ∧
  ELoad LoadPayments ∈ r.1 ∧ ELoad LoadDashboardData ∈ r.1 ∧
  abs (selected r.2) = ∅ ∧ select_all r.2 = false.
Proof.
  intros Hn. unfold markSelectedAsPaid. rewrite decide_False by done. simpl.
  autorewrite with fetch_rw. simpl. rewrite tally_spec. simpl. rewrite !app_nil_r.
  rewrite !length_fmap, !ps_size_spec.
  assert (count_if settled_ok (net <$> (pay_request tok (split_T_0 now) <$> ps_elements (selected st)))
          ≤ length (ps_elements (selected st)))%nat as Hle.
  { unfold count_if. etrans; [apply filter_length_le|]. by rewrite !length_fmap. }
  split; [done|]. split.
  { apply Forall_forall. intros q Hq%list_elem_of_fmap. by destruct Hq as (id & -> & _). }
  split; [done|]. split; [done|]. split; [set_solver|]. split; [set_solver|].
  split; [apply abs_empty|done].
Qed.

(** C17 (error).  With nothing selected the handler shows one alert and
    stops; when the user cancels the confirmation it stops after the
    dialog; in both cases no request is sent and the selection is kept. *)
Theorem markSelectedAsPaid_guards tok now confirmed net (st : sel_state Sel) :
  (ps_size (selected st) = 0 →
   markSelectedAsPaid tok now confirmed net st = ([EAlert nothing_selected_alert], st)) ∧
  (ps_size (selected st) ≠ 0 →
   markSelectedAsPaid tok now false net st = ([EConfirm (bulk_confirm (ps_size (selected st)))], st)).
Proof.
  split; intros Hn; unfold markSelectedAsPaid; [by rewrite decide_True|by rewrite decide_False].
Qed.
End MarkSelectedProofs.

(** ** A concrete run: three payments selected, the second refused *)

Definition ex_sel3 : sel_state jsset :=
  mkSel (jsset_add "p3" (jsset_add "p2" (jsset_add "p1" jsset_empty))) false
    [mkRow "p1" true; mkRow "p2" true; mkRow "p3" true] 3.

Definition ex_net : network := λ q,
  if rq_url q === "/api/payments/p2/pay" then Fulfilled (mkResponse 404 None)
  else Fulfilled (mkResponse 200 None).

Example markSelectedAsPaid_two_of_three :
  alerts_of (markSelectedAsPaid (Some "tok") "2024-05-01T09:30:00.000Z" true ex_net ex_sel3).1
    = ["تم تسديد 2 مدفوعات بنجاح. فشل 1 مدفوعات."] ∧
  map rq_url (requests_of (markSelectedAsPaid (Some "tok") "2024-05-01T09:30:00.000Z" true ex_net ex_sel3).1)
    = ["/api/payments/p1/pay"; "/api/payments/p2/pay"; "/api/payments/p3/pay"].
Proof. split; vm_compute; reflexivity. Qed.

Lemma markSelectedAsPaid_confirmed_witness :
  ps_size (selected ex_sel3) ≠ 0 ∧
  let r := markSelectedAsPaid (Some "tok") "2024-05-01T09:30:00.000Z" true ex_net ex_sel3 in
  let reqs := pay_request (Some "tok") (split_T_0 "2024-05-01T09:30:00.000Z") <$> ps_elements (selected ex_sel3) in
  let ok := count_if settled_ok (ex_net <$> reqs) in
  requests_of r.1 = reqs ∧
  Forall (λ q, rq_method q = PUT ∧ rq_auth q = Some (bearer (Some "tok"))) (requests_of r.1) ∧
  alerts_of r.1 = [bulk_alert ok (ps_size (selected ex_sel3) - ok)] ∧
  (ok ≤ ps_size (selected ex_sel3))%nat ∧
  ELoad LoadPayments ∈ r.1 ∧ ELoad LoadDashboardData ∈ r.1 ∧
  abs (selected r.2) = ∅ ∧ select_all r.2 = false.
Proof.
  assert (ps_size (selected ex_sel3) ≠ 0) as H1 by (vm_compute; discriminate).
  split; [exact H1|exact (markSelectedAsPaid_confirmed _ _ _ _ H1)].
Defined.

Lemma markSelectedAsPaid_guards_witness :
  ((ps_size (selected ex_sel) = 0 →
    markSelectedAsPaid (Some "tok") "2024-05-01T09:30:00.000Z" true ex_net ex_sel = ([EAlert nothing_selected_alert], ex_sel)) ∧
   (ps_size (selected ex_sel) ≠ 0 →
    markSelectedAsPaid (Some "tok") "2024-05-01T09:30:00.000Z" false ex_net ex_sel
      = ([EConfirm (bulk_confirm (ps_size (selected ex_sel)))], ex_sel))) ∧
  ps_size (selected ex_sel) ≠ 0 ∧
  markSelectedAsPaid (Some "tok") "2024-05-01T09:30:00.000Z" false ex_net ex_sel
    = ([EConfirm (bulk_confirm 1)], ex_sel).
Proof.
  assert (ps_size (selected ex_sel) ≠ 0) as H1 by (vm_compute; discriminate).
  split; [exact (markSelectedAsPaid_guards (Some "tok") "2024-05-01T09:30:00.000Z" true ex_net ex_sel)|].
  split; [exact H1|].
  exact (proj2 (markSelectedAsPaid_guards (Some "tok") "2024-05-01T09:30:00.000Z" true ex_net ex_sel) H1).
Defined.

(** The two ways of paying "p1" at the same instant send different
    payment dates: the bulk handler the day, [markAsPaid] the full
    timestamp. *)
Example paymentDate_formats :
  requests_of (markSelectedAsPaid (Some "tok") "2024-05-01T09:30:00.000Z" true ex_net ex_sel3).1 !! 0
    = Some (pay_request (Some "tok") "2024-05-01" "p1") ∧
  requests_of (effects (markAsPaid (Some "tok") "2024-05-01T09:30:00.000Z" "p1") ex_net)
    = [pay_request (Some "tok") "2024-05-01T09:30:00.000Z" "p1"].
Proof. split; vm_compute; reflexivity. Qed.
