(* ===== verification/CommissionPay.v ===== *)
(** * Paying and computing teacher commissions

    The handlers of the commissions section that change data:
    [paySingleCommission] (declared twice, lines 1006 and 2059, with the
    same body; the second declaration is the one in force),
    [submitCommissionPayment] (line 1493),
    [submitClassCommissionPayment] (line 1286), [payAllTeachers] (line
    1686), the sequential bulk handler [payAllTeacherCommissions] (line
    1533) and [calculateAllCommissions] (line 1596), which creates one
    commission per paid payment.

    [payAllTeacherCommissions] calls [TeacherCommission.find(..)], a
    server-side model that the page never defines: the global binding is
    a parameter of the model, [None] in the browser. *)

From Stdlib Require Import ZArith.
From stdpp Require Import base list sets strings pretty.
From S2P Require Import Prelude Fetch Prog Payments Commissions.

Local Open Scope string_scope.
Local Open Scope acc_scope.
Local Open Scope list_scope.

(** ** One commission, one class, all teachers *)

(** The request of lines 2063-2074 (and 1010-1021). *)
Definition pay_single_request (authToken : option string) (commissionId today : string) : request :=
  api_send POST authToken "/accounting/teacher-commissions/pay-single"
    (JObj [("commissionId", JStr commissionId); ("paymentMethod", JStr "cash");
           ("paymentDate", JStr today)]).

(** [paySingleCommission(commissionId)] (lines 2059-2091); [now] is
    [new Date().toISOString()]. *)
Definition paySingleCommission (authToken : option string) (now : string) (commissionId : string) : prog unit :=
  showLoading ;;
  p_try
    (response ← p_fetch (pay_single_request authToken commissionId (split_T_0 now));
     if resp_ok response then
       result ← p_json response;
       p_alert (js_template (jget "message" result)) ;;
       p_load LoadTeacherCommissions ;;
       p_load LoadDashboardData
     else alert_error response)
    (λ _, p_alert "حدث خطأ أثناء دفع العمولة")
    hideLoading.

(** [submitCommissionPayment()] (lines 1493-1529): the three inputs of
    [#payCommissionModal]. *)
Definition submitCommissionPayment (authToken : option string)
    (commissionId paymentMethod paymentDate : string) : prog unit :=
  showLoading ;;
  p_try
    (response ← p_fetch (api_send POST authToken "/accounting/teacher-commissions/pay"
                           (JObj [("commissionId", JStr commissionId);
                                  ("paymentMethod", JStr paymentMethod);
                                  ("paymentDate", JStr paymentDate)]));
     if resp_ok response then
       p_alert "تم دفع العمولة بنجاح" ;;
       hideModal "payCommissionModal" ;;
       p_load LoadTeacherCommissions ;;
       p_load LoadDashboardData
     else alert_error response)
    (λ _, p_alert "حدث خطأ أثناء دفع العمولة")
    hideLoading.

(** The inputs of [#payClassCommissionModal]; [percentage] is
    [parseFloat] of its input as [JSON.stringify] writes it. *)
Record class_payment_form : Type := mkClassPaymentForm {
  commissionTeacherId : string;
  commissionClassId : string;
  commissionMonth : string;
  commissionPaymentMethod : string;
  commissionPaymentDate : string;
  commissionPercentage : jval
}.

(** [submitClassCommissionPayment()] (lines 1286-1328). *)
Definition submitClassCommissionPayment (authToken : option string) (f : class_payment_form) : prog unit :=
  showLoading ;;
  p_try
    (response ← p_fetch (api_send POST authToken "/accounting/teacher-commissions/pay-by-class"
                           (JObj [("teacherId", JStr (commissionTeacherId f));
                                  ("classId", JStr (commissionClassId f));
                                  ("month", JStr (commissionMonth f));
                                  ("paymentMethod", JStr (commissionPaymentMethod f));
                                  ("paymentDate", JStr (commissionPaymentDate f));
                                  ("percentage", commissionPercentage f)]));
     if resp_ok response then
       result ← p_json response;
       p_alert (js_template (jget "message" result)) ;;
       hideModal "payClassCommissionModal" ;;
       p_load LoadTeacherCommissions ;;
       p_load LoadDashboardData
     else alert_error response)
    (λ _, p_alert "حدث خطأ أثناء دفع عمولة الحصة")
    hideLoading.

(** [payAllTeachers()] (lines 1686-1721); the date sent is the whole
    timestamp [now]. *)
Definition payAllTeachers (authToken : option string) (now : string) (confirmed : bool) : prog unit :=
  ok ← p_confirm "هل تريد بالتأكيد دفع جميع مستحقات الأساتذة؟" confirmed;
  if negb ok then mret () else
  showLoading ;;
  p_try
    (response ← p_fetch (api_send POST authToken "/teachers/pay-all-salaries"
                           (JObj [("paymentMethod", JStr "cash"); ("paymentDate", JStr now)]));
     if resp_ok response then
       result ← p_json response;
       p_alert (js_template (jget "message" result)) ;;
       p_load LoadTeacherCommissions ;;
       p_load LoadDashboardData
     else alert_error response)
    (λ _, p_alert "حدث خطأ أثناء دفع مستحقات الأساتذة")
    hideLoading.

(** ** [payAllTeacherCommissions]: one request after the other *)

(** [{ student: commission.student.name, amount, month }] (lines
    1575-1579). *)
Record paid_entry : Type := mkPaidEntry { pe_student : string; pe_amount : Z; pe_month : string }.

(** [commission.student.name], a [TypeError] when the student is [null]. *)
Definition student_name (c : commission) : jsres string :=
  match c_student c with
  | Some s => Ret (r_name s)
  | None => Throw (TypeError "commission.student.name")
  end.

Section PayAll.
(** [Number.prototype.toLocaleString] of the browser's locale. *)
Variable toLocaleString : Z → string.

(** The loop of lines 1558-1581: [totalAmount += commission.amount] comes
    before the request, whatever its answer; an [ok] answer records the
    commission; a rejected request or a missing student leaves the loop
    by an exception. *)
Fixpoint pay_loop (authToken : option string) (today : string) (commissions : list commission)
    (totalAmount : Z) (paidCommissions : list paid_entry) : prog (Z * list paid_entry) :=
  match commissions with
  | [] => mret (totalAmount, paidCommissions)
  | c :: cs =>
      let totalAmount' := (totalAmount + c_amount c)%Z in
      response ← p_fetch (pay_single_request authToken (c_id c) today);
      if resp_ok response then
        name ← p_lift (student_name c);
        pay_loop authToken today cs totalAmount' (paidCommissions ++ [mkPaidEntry name (c_amount c) (c_month c)])
      else pay_loop authToken today cs totalAmount' paidCommissions
  end.

Definition pay_all_alert (n : nat) (totalAmount : Z) : string :=
  "تم دفع " +:+ pretty n +:+ " عمولة بإجمالي " +:+ toLocaleString totalAmount +:+ " د.ج".

Definition pay_all_failed_alert : string := "حدث خطأ أثناء دفع العمولات".
Definition pay_all_confirm : string := "هل تريد بالتأكيد دفع جميع عمولات هذا الأستاذ لهذه الحصة؟".
Definition pay_all_none_alert : string := "لا توجد عمولات معلقة لهذا الأستاذ في هذه الحصة".

(** [payAllTeacherCommissions(teacherId, classId)] (lines 1533-1593).
    [TeacherCommission] is the global of that name: [Some find] where
    [find teacherId classId] is what [TeacherCommission.find({ teacher,
    class, status: 'pending' }).populate(..)] resolves to, and [None]
    where no such global exists, which makes the call throw a
    [ReferenceError]. *)
Definition payAllTeacherCommissions (TeacherCommission : option (string → string → list commission))
    (authToken : option string) (now : string) (confirmed : bool) (teacherId classId : string) : prog unit :=
  ok ← p_confirm pay_all_confirm confirmed;
  if negb ok then mret () else
  showLoading ;;
  p_try
    (commissions ← p_lift (match TeacherCommission with
                           | Some find => Ret (find teacherId classId)
                           | None => Throw (ReferenceError "TeacherCommission")
                           end);
     if decide (length commissions = 0) then
       p_alert pay_all_none_alert ;; hideLoading
     else
       '(totalAmount, paidCommissions) ← pay_loop authToken (split_T_0 now) commissions 0 [];
       p_alert (pay_all_alert (length paidCommissions) totalAmount) ;;
       p_load LoadTeacherCommissions ;;
       p_load LoadDashboardData)
    (λ _, p_alert pay_all_failed_alert)
    hideLoading.
End PayAll.

(** ** Properties of [payAllTeacherCommissions] *)

Section PayAllProofs.
Variable toLocaleString : Z → string.

(** C23 (error).  In the page, where no global [TeacherCommission]
    exists (the script, the page and the server code the client loads
    never define one), the button "pay all" of a class card never pays
    anything: when the confirmation is accepted, the call to
    [TeacherCommission.find] throws a [ReferenceError] before any
    request, the handler reports it as the generic failure between
    [showLoading()] and [hideLoading()], and no loader is started;
    refused, the handler stops after the dialog.  This holds whatever
    the network, the token, the teacher and the class. *)
Theorem payAllTeacherCommissions_in_browser tok now confirmed teacherId classId net :
  payAllTeacherCommissions toLocaleString None tok now confirmed teacherId classId net =
    if confirmed then ([EConfirm pay_all_confirm; ELoading true; EAlert pay_all_failed_alert; ELoading false], Ret tt)
    else ([EConfirm pay_all_confirm], Ret tt).
Proof. by destruct confirmed. Qed.

(** The entry recorded for a commission whose payment succeeded. *)
Definition paid_entry_of (net : network) tok today (c : commission) : option paid_entry :=
  if settled_ok (net (pay_single_request tok (c_id c) today))
  then (λ s, mkPaidEntry (r_name s) (c_amount c) (c_month c)) <$> c_student c
  else None.

(** The loop, when every request settles and every commission has its
    student: one request per commission in order, the total of all the
    amounts, and an entry per successful payment. *)
Lemma pay_loop_run tok today net (cs : list commission) totalAmount paid :
  Forall (λ c, c_student c ≠ None ∧ ∃ r, net (pay_single_request tok (c_id c) today) = Fulfilled r) cs →
  pay_loop tok today cs totalAmount paid net =
    (EFetch <$> ((λ c, pay_single_request tok (c_id c) today) <$> cs),
     Ret ((totalAmount + sumZ c_amount cs)%Z, paid ++ omap (paid_entry_of net tok today) cs)).
Proof.
  intros Hcs. revert totalAmount paid.
  induction Hcs as [|c cs [Hs [r Hr]] _ IH]; intros totalAmount paid; simpl.
  - by rewrite Z.add_0_r, app_nil_r.
  - assert (paid_entry_of net tok today c =
            if resp_ok r then (λ s, mkPaidEntry (r_name s) (c_amount c) (c_month c)) <$> c_student c
            else None) as He by (unfold paid_entry_of; by rewrite Hr).
    rewrite run_bind, run_fetch, Hr. simpl. rewrite He.
    destruct (resp_ok r); simpl.
    + rewrite run_bind, run_lift. unfold student_name.
      destruct (c_student c) as [s|]; [|done]. simpl. rewrite IH, Z.add_assoc.
      by rewrite <- (assoc_L (++)).
    + by rewrite IH, Z.add_assoc.
Qed.

Lemma length_omap_paid_entry net tok today (cs : list commission) :
  Forall (λ c, c_student c ≠ None) cs →
  length (omap (paid_entry_of net tok today) cs)
  = count_if (λ c, settled_ok (net (pay_single_request tok (c_id c) today))) cs.
Proof.
  unfold count_if, paid_entry_of. induction 1 as [|c cs Hs _ IH]; [done|]. simpl.
  destruct (settled_ok _); simpl; [|exact IH].
  destruct (c_student c); [|done]. simpl. f_equal. exact IH.
Qed.

(** Were [TeacherCommission] defined, a confirmed run
    over a non-empty list of pending commissions, all with a student and
    all answered, would send one [pay-single] request per commission in
    order, and its only alert would count the successful payments but
    report as total the sum of all the amounts, the refused ones
    included. *)
Theorem payAllTeacherCommissions_total find tok now teacherId classId net :
  let cs := find teacherId classId in
  let today := split_T_0 now in
  cs ≠ [] →
  Forall (λ c, c_student c ≠ None ∧ ∃ r, net (pay_single_request tok (c_id c) today) = Fulfilled r) cs →
  let r := payAllTeacherCommissions toLocaleString (Some find) tok now true teacherId classId net in
  requests_of r.1 = (λ c, pay_single_request tok (c_id c) today) <$> cs ∧
  alerts_of r.1 =
    [pay_all_alert toLocaleString
       (count_if (λ c, settled_ok (net (pay_single_request tok (c_id c) today))) cs)
       (sumZ c_amount cs)] ∧
  r.2 = Ret tt.
Proof.
  intros cs today Hne Hcs. unfold payAllTeacherCommissions. rewrite run_bind. simpl.
  rewrite decide_False by (by destruct (find teacherId classId)).
  rewrite run_bind, pay_loop_run by done. simpl.
  rewrite length_omap_paid_entry
    by (eapply Forall_impl; [exact Hcs|]; by intros ? []).
  autorewrite with fetch_rw. simpl. by rewrite !app_nil_r.
Qed.
End PayAllProofs.

(** ** A concrete run: two pending commissions, the second refused *)

Definition ex_pending : list commission :=
  [mkCommission "c1" (Some tAmina) (Some sYacine) (Some clMath) "2024-05" 1000 70 "pending";
   mkCommission "c2" (Some tAmina) (Some sYacine) (Some clMath) "2024-05" 500 70 "pending"].

Definition ex_find : string → string → list commission := λ _ _, ex_pending.

Definition ex_net_c2 : network := λ q,
  match rq_body q ≫= jget "commissionId" with
  | Some (JStr "c2") => Fulfilled (mkResponse 409 (Some (JObj [("error", JStr "already paid")])))
  | _ => Fulfilled (mkResponse 200 (Some (JObj [("message", JStr "ok")])))
  end.

Lemma payAllTeacherCommissions_total_witness :
  let cs := ex_find "64f1a0" "65aa01" in
  let today := split_T_0 "2024-05-01T09:30:00.000Z" in
  cs ≠ [] ∧
  Forall (λ c, c_student c ≠ None ∧ ∃ r, ex_net_c2 (pay_single_request (Some "tok") (c_id c) today) = Fulfilled r) cs ∧
  let r := payAllTeacherCommissions pretty (Some ex_find) (Some "tok") "2024-05-01T09:30:00.000Z" true
             "64f1a0" "65aa01" ex_net_c2 in
  requests_of r.1 = (λ c, pay_single_request (Some "tok") (c_id c) today) <$> cs ∧
  alerts_of r.1 =
    [pay_all_alert pretty
       (count_if (λ c, settled_ok (ex_net_c2 (pay_single_request (Some "tok") (c_id c) today))) cs)
       (sumZ c_amount cs)] ∧
  r.2 = Ret tt.
Proof.
  assert (ex_find "64f1a0" "65aa01" ≠ []) as H1 by discriminate.
  assert (Forall (λ c, c_student c ≠ None ∧ ∃ r, ex_net_c2 (pay_single_request (Some "tok") (c_id c)
            (split_T_0 "2024-05-01T09:30:00.000Z")) = Fulfilled r) (ex_find "64f1a0" "65aa01")) as H2
    by (repeat constructor; try discriminate; eexists; reflexivity).
  split; [exact H1|split; [exact H2|]].
  exact (payAllTeacherCommissions_total pretty ex_find _ _ _ _ _ H1 H2).
Defined.

(** One commission of 1000 paid, one of 500 refused: the alert says one
    commission was paid, for a total of 1500. *)
Example payAllTeacherCommissions_overstated :
  alerts_of (payAllTeacherCommissions pretty (Some ex_find) (Some "tok") "2024-05-01T09:30:00.000Z" true
               "64f1a0" "65aa01" ex_net_c2).1
  = ["تم دفع 1 عمولة بإجمالي 1500 د.ج"].
Proof. vm_compute. reflexivity. Qed.

(** ** [calculateAllCommissions]: one commission per paid payment *)

(** An object literal under [JSON.stringify]: [undefined] members are
    left out. *)
Definition json_obj (fs : list (string * option jval)) : jval :=
  JObj (omap (λ kv, pair kv.1 <$> kv.2) fs).

(** [payments.length === 0] on the parsed body: [null.length] throws,
    arrays and strings compare their length, an object its [length]
    member, other values have none. *)
Definition js_length_zero (v : jval) : jsres bool :=
  match v with
  | JNull => Throw (TypeError "payments.length")
  | JArr l => Ret (bool_decide (l = []))
  | JStr s => Ret (s === "")
  | JObj _ => Ret (match jget "length" v with Some (JNum 0) => true | _ => false end)
  | _ => Ret false
  end.

(** [for (const payment of payments)]: arrays yield their elements,
    strings their characters (one-character strings, whose [.class] is
    [undefined]); other values are not iterable. *)
Definition js_iter (v : jval) : jsres (list jval) :=
  match v with
  | JArr l => Ret l
  | JStr s => Ret ((λ a, JStr (String a EmptyString)) <$> String.list_ascii_of_string s)
  | _ => Throw (TypeError "payments is not iterable")
  end.

(** The outcome of one iteration of the loop of lines 1627-1671. *)
Inductive item_result : Type := Processed | Failed | Skipped.

Section Calculate.
(** [JSON.stringify] of [payment.amount * (commissionPercentage / 100)],
    a floating-point product. *)
Variable mul_percent : option jval → jval → jval.

(** [payment.class.teacher.salaryPercentage || 70] (line 1630). *)
Definition commission_percentage (teacher : option jval) : jval :=
  match teacher ≫= jget "salaryPercentage" with
  | Some v => if js_truthy (Some v) then v else JNum 70
  | None => JNum 70
  end.

(** The commission created for a payment (lines 1630-1647). *)
Definition commission_request (authToken : option string) (payment : jval)
    (cls teacher studentId : option jval) : request :=
  let pct := commission_percentage teacher in
  api_send POST authToken "/accounting/teacher-commissions"
    (json_obj [("teacherId", teacher ≫= jget "_id"); ("studentId", studentId);
               ("classId", cls ≫= jget "_id"); ("month", jget "month" payment);
               ("amount", Some (mul_percent (jget "amount" payment) pct));
               ("percentage", Some pct)]).

(** [fetch(`${API_BASE}/payments/${payment._id}`, { method: 'PUT', ..
    commissionRecorded: true })] (lines 1651-1660). *)
Definition mark_recorded_request (authToken : option string) (payment : jval) : request :=
  api_send PUT authToken ("/payments/" +:+ js_template (jget "_id" payment))
    (JObj [("commissionRecorded", JBool true)]).

(** The body of one iteration, inside its own [try]: a payment without
    class or teacher is skipped; the answer to the [PUT] is not read. *)
Definition process_payment (authToken : option string) (payment : jval) : prog item_result :=
  p_try
    (cls ← p_lift (js_get "class" (Some payment));
     let teacher := cls ≫= jget "teacher" in
     if js_truthy cls && js_truthy teacher then
       studentId ← p_lift (js_get "_id" (jget "student" payment));
       commissionResponse ← p_fetch (commission_request authToken payment cls teacher studentId);
       if resp_ok commissionResponse then
         _ ← p_fetch (mark_recorded_request authToken payment);
         mret Processed
       else mret Failed
     else mret Skipped)
    (λ _, mret Failed)
    (mret ()).

Fixpoint calc_loop (authToken : option string) (payments : list jval) (processedCount errorCount : nat)
    : prog (nat * nat) :=
  match payments with
  | [] => mret (processedCount, errorCount)
  | payment :: ps =>
      res ← process_payment authToken payment;
      match res with
      | Processed => calc_loop authToken ps (S processedCount) errorCount
      | Failed => calc_loop authToken ps processedCount (S errorCount)
      | Skipped => calc_loop authToken ps processedCount errorCount
      end
  end.

Definition calc_alert (processedCount errorCount : nat) : string :=
  "تم معالجة " +:+ pretty processedCount +:+ " مدفوعات بنجاح. حدثت أخطاء في " +:+
  pretty errorCount +:+ " مدفوعات.".

Definition calc_confirm : string := "هل تريد بالتأكيد حساب جميع العمولات للأساتذة؟".
Definition calc_none_alert : string := "لا توجد مدفوعات جديدة تحتاج إلى حساب عمولات".
Definition calc_failed_alert : string := "حدث خطأ أثناء حساب العمولات".

Definition unrecorded_request (authToken : option string) : request :=
  api_get authToken "/payments?status=paid&commissionRecorded=false".

(** [calculateAllCommissions()] (lines 1596-1682). *)
Definition calculateAllCommissions (authToken : option string) (confirmed : bool) : prog unit :=
  ok ← p_confirm calc_confirm confirmed;
  if negb ok then mret () else
  showLoading ;;
  p_try
    (paymentsResponse ← p_fetch (unrecorded_request authToken);
     if resp_ok paymentsResponse then
       payments ← p_json paymentsResponse;
       isEmpty ← p_lift (js_length_zero payments);
       if (isEmpty : bool) then p_alert calc_none_alert ;; hideLoading
       else
         items ← p_lift (js_iter payments);
         '(processedCount, errorCount) ← calc_loop authToken items 0 0;
         p_alert (calc_alert processedCount errorCount) ;;
         p_load LoadTeacherCommissions
     else mret ())
    (λ _, p_alert calc_failed_alert)
    hideLoading.
End Calculate.

(** ** Properties of [calculateAllCommissions] *)

(** The payments the loop counts, as processed or as failed: those with
    a class and a teacher, and [null] entries (whose [.class] throws). *)
Definition item_counted (payment : jval) : bool :=
  match payment with
  | JNull => true
  | _ => js_truthy (jget "class" payment) && js_truthy (jget "class" payment ≫= jget "teacher")
  end.

Section CalculateProofs.
Variable mul_percent : option jval → jval → jval.

#[local] Arguments jget : simpl never.

Local Ltac res_is r := exists r; split; [reflexivity|split; [reflexivity|split; intros; congruence]].

Lemma process_payment_result tok payment net :
  ∃ res, outcome (process_payment mul_percent tok payment) net = Ret res ∧
         alerts_of (effects (process_payment mul_percent tok payment) net) = [] ∧
         (res = Skipped ↔ item_counted payment = false).
Proof.
  unfold outcome, effects, process_payment. rewrite run_try. simpl.
  rewrite run_bind, run_lift.
  destruct payment as [|b|z|s|l|fs]; [simpl; res_is Failed|simpl; res_is Skipped..|].
  set (student := jget "student" (JObj fs)). simpl.
  destruct (js_truthy _ && js_truthy _); simpl; [|res_is Skipped].
  rewrite run_bind, run_lift.
  destruct (js_get "_id" student) as [sid|e]; simpl; [|res_is Failed].
  rewrite run_bind, run_fetch. destruct (net _) as [r|e]; simpl; [|res_is Failed].
  destruct (resp_ok r); simpl; [|res_is Failed].
  rewrite run_bind, run_fetch. destruct (net _) as [r'|e]; simpl; [res_is Processed|res_is Failed].
Qed.
(** The loop never throws, and it counts every payment it does not
    skip exactly once. *)
Lemma calc_loop_counts tok payments net processedCount errorCount :
  ∃ p e, outcome (calc_loop mul_percent tok payments processedCount errorCount) net = Ret (p, e) ∧
         alerts_of (effects (calc_loop mul_percent tok payments processedCount errorCount) net) = [] ∧
         (p + e = processedCount + errorCount + count_if item_counted payments)%nat.
Proof.
  unfold count_if. revert processedCount errorCount.
  induction payments as [|payment ps IH]; intros pc ec; simpl; [exists pc, ec; split; [done|split; [done|lia]]|].
  destruct (process_payment_result tok payment net) as [res [Hres [Hal Hskip]]].
  unfold outcome, effects in *. rewrite run_bind.
  destruct (process_payment mul_percent tok payment net) as [es r]. simpl in Hres, Hal. subst r.
  destruct res; simpl; [destruct (IH (S pc) ec) as (p & e & Hr & Ha & Hpe)
                       |destruct (IH pc (S ec)) as (p & e & Hr & Ha & Hpe)
                       |destruct (IH pc ec) as (p & e & Hr & Ha & Hpe)];
    exists p, e; (split; [done|split; [by rewrite alerts_of_app, Hal, Ha|]]).
  - destruct (item_counted payment); [simpl; lia|discriminate (proj2 Hskip eq_refl)].
  - destruct (item_counted payment); [simpl; lia|discriminate (proj2 Hskip eq_refl)].
  - by rewrite (proj1 Hskip eq_refl).
Qed.
(** C22 (invariant).  When the server lists a non-empty array of paid
    payments, a confirmed [calculateAllCommissions] lets no exception
    escape, reloads the commissions, and its only alert reports [p]
    payments processed and [e] failed where [p + e] is the number of
    payments that have a class and a teacher (or are [null]): payments
    without a teacher are silently skipped and appear in neither count. *)
Theorem calculateAllCommissions_counts tok net code payments :
  net (unrecorded_request tok) = Fulfilled (mkResponse code (Some (JArr payments))) →
  resp_ok (mkResponse code (Some (JArr payments))) = true →
  payments ≠ [] →
  let r := calculateAllCommissions mul_percent tok true net in
  r.2 = Ret tt ∧ ELoad LoadTeacherCommissions ∈ r.1 ∧
  ∃ p e, alerts_of r.1 = [calc_alert p e] ∧ (p + e = count_if item_counted payments)%nat.
Proof.
  intros Hnet Hok Hne. destruct (calc_loop_counts tok payments net 0 0) as (p & e & Hr & Ha & Hpe).
  unfold outcome, effects in Hr, Ha. destruct (calc_loop mul_percent tok payments 0 0 net) as [les lr] eqn:Hc.
  simpl in Hr, Ha. subst lr.
  unfold calculateAllCommissions. simpl. rewrite run_bind, run_fetch, Hnet. simpl. rewrite Hok.
  simpl. rewrite bool_decide_false by done. simpl. rewrite run_bind, Hc. simpl.
  split; [done|]. split; [set_solver|]. exists p, e. split; [|done].
  rewrite !alerts_of_app, Ha. done.
Qed.
(** For a payment with a class, a teacher and a
    student, one iteration creates the commission and, when that request
    succeeds, marks the payment with a second request; it counts the
    payment as processed as soon as the second request settles, even when
    the server refuses it, so that the payment stays unmarked and a later
    run creates its commission again. *)
Theorem process_payment_run tok fs sid net :
  let payment := JObj fs in
  let cls := jget "class" payment in
  let teacher := cls ≫= jget "teacher" in
  js_truthy cls = true → js_truthy teacher = true →
  js_get "_id" (jget "student" payment) = Ret sid →
  let q1 := commission_request mul_percent tok payment cls teacher sid in
  let q2 := mark_recorded_request tok payment in
  requests_of (effects (process_payment mul_percent tok payment) net)
    = q1 :: (if settled_ok (net q1) then [q2] else []) ∧
  outcome (process_payment mul_percent tok payment) net
    = Ret (if settled_ok (net q1)
           then match net q2 with Fulfilled _ => Processed | Rejected _ => Failed end
           else Failed).
Proof.
  intros payment cls teacher Hc Ht Hs q1 q2.
  unfold outcome, effects, process_payment. rewrite run_try. simpl.
  fold cls teacher. rewrite Hc, Ht. simpl. rewrite Hs. simpl. fold q1.
  rewrite run_bind, run_fetch. destruct (net q1) as [r|e]; simpl; [|done].
  destruct (resp_ok r); simpl; [|done].
  rewrite run_bind, run_fetch. fold q2. by destruct (net q2).
Qed.
End CalculateProofs.

(** ** A concrete run of [calculateAllCommissions] *)

(** A teacher whose percentage is recorded as 0, and a class without a
    teacher. *)
Definition ex_pay_fields : list (string * jval) :=
  [("_id", JStr "p1"); ("student", JObj [("_id", JStr "s1")]);
   ("class", JObj [("_id", JStr "k1");
                   ("teacher", JObj [("_id", JStr "t1"); ("salaryPercentage", JNum 0)])]);
   ("month", JStr "2024-05"); ("amount", JNum 1500)].

Definition ex_pay_no_teacher : jval :=
  JObj [("_id", JStr "p2"); ("student", JObj [("_id", JStr "s2")]);
        ("class", JObj [("_id", JStr "k2")]); ("month", JStr "2024-05"); ("amount", JNum 2000)].

Definition ex_paid : list jval := [JObj ex_pay_fields; ex_pay_no_teacher].

(** The server lists the two payments, creates commissions and refuses
    to update payments. *)
Definition ex_net_calc : network := λ q,
  if rq_url q === "/api/payments?status=paid&commissionRecorded=false"
  then Fulfilled (mkResponse 200 (Some (JArr ex_paid)))
  else match rq_method q with
       | PUT => Fulfilled (mkResponse 500 (Some (JObj [("error", JStr "read-only")])))
       | _ => Fulfilled (mkResponse 201 (Some (JObj [])))
       end.

(** An exact product for integer amounts and percentages. *)
Definition ex_mul (a : option jval) (p : jval) : jval :=
  match a, p with
  | Some (JNum x), JNum y => JNum (x * y / 100)
  | _, _ => JNull
  end.

Lemma calculateAllCommissions_counts_witness :
  ex_net_calc (unrecorded_request (Some "tok")) = Fulfilled (mkResponse 200 (Some (JArr ex_paid))) ∧
  resp_ok (mkResponse 200 (Some (JArr ex_paid))) = true ∧ ex_paid ≠ [] ∧
  let r := calculateAllCommissions ex_mul (Some "tok") true ex_net_calc in
  r.2 = Ret tt ∧ ELoad LoadTeacherCommissions ∈ r.1 ∧
  ∃ p e, alerts_of r.1 = [calc_alert p e] ∧ (p + e = count_if item_counted ex_paid)%nat.
Proof.
  assert (ex_net_calc (unrecorded_request (Some "tok")) = Fulfilled (mkResponse 200 (Some (JArr ex_paid))))
    as H1 by reflexivity.
  assert (resp_ok (mkResponse 200 (Some (JArr ex_paid))) = true) as H2 by reflexivity.
  assert (ex_paid ≠ []) as H3 by discriminate.
  split; [exact H1|split; [exact H2|split; [exact H3|]]].
  exact (calculateAllCommissions_counts ex_mul _ _ _ _ H1 H2 H3).
Defined.

(** Two payments, one processed, none failed: the payment of the class
    without a teacher is in neither count. *)
Example calculateAllCommissions_skipped :
  alerts_of (calculateAllCommissions ex_mul (Some "tok") true ex_net_calc).1
  = ["تم معالجة 1 مدفوعات بنجاح. حدثت أخطاء في 0 مدفوعات."].
Proof. vm_compute. reflexivity. Qed.

(** A recorded percentage of 0 is replaced by 70: [0 || 70]. *)
Example commission_percentage_zero :
  commission_percentage (jget "class" (JObj ex_pay_fields) ≫= jget "teacher") = JNum 70.
Proof. reflexivity. Qed.

Lemma process_payment_run_witness :
  let payment := JObj ex_pay_fields in
  let cls := jget "class" payment in
  let teacher := cls ≫= jget "teacher" in
  js_truthy cls = true ∧ js_truthy teacher = true ∧
  js_get "_id" (jget "student" payment) = Ret (Some (JStr "s1")) ∧
  let q1 := commission_request ex_mul (Some "tok") payment cls teacher (Some (JStr "s1")) in
  let q2 := mark_recorded_request (Some "tok") payment in
  requests_of (effects (process_payment ex_mul (Some "tok") payment) ex_net_calc)
    = q1 :: (if settled_ok (ex_net_calc q1) then [q2] else []) ∧
  outcome (process_payment ex_mul (Some "tok") payment) ex_net_calc
    = Ret (if settled_ok (ex_net_calc q1)
           then match ex_net_calc q2 with Fulfilled _ => Processed | Rejected _ => Failed end
           else Failed).
Proof.
  assert (js_truthy (jget "class" (JObj ex_pay_fields)) = true) as H1 by reflexivity.
  assert (js_truthy (jget "class" (JObj ex_pay_fields) ≫= jget "teacher") = true) as H2 by reflexivity.
  assert (js_get "_id" (jget "student" (JObj ex_pay_fields)) = Ret (Some (JStr "s1"))) as H3 by reflexivity.
  split; [exact H1|split; [exact H2|split; [exact H3|]]].
  exact (process_payment_run ex_mul _ _ _ ex_net_calc H1 H2 H3).
Defined.

(** The payment is counted as processed although its update was refused. *)
Example process_payment_refused_update :
  outcome (process_payment ex_mul (Some "tok") (JObj ex_pay_fields)) ex_net_calc = Ret Processed ∧
  ex_net_calc (mark_recorded_request (Some "tok") (JObj ex_pay_fields))
    = Fulfilled (mkResponse 500 (Some (JObj [("error", JStr "read-only")]))).
Proof. split; vm_compute; reflexivity. Qed.
