(* ===== verification/Session.v ===== *)
(** * The session: login, logout, and the session kept in [localStorage]

    Module-level [authToken] and [currentUser] (lines 2-3), the two
    screens [loginSection] and [appContainer], the user name and role
    shown in the header, and the [localStorage] keys [authToken] and
    [user].  The handlers are [handleLogin] (line 109), [handleLogout]
    (line 150), [showLogin], [showApp] and [getRoleName] (lines 159-187),
    and the restoring part of [initApp] (lines 32-41).

    [localStorage] holds strings.  The script writes [authToken] with
    [String(authToken)] and [user] and [accountingSettings] with
    [JSON.stringify]; a stored entry is modelled by the value it was made
    from, so that [JSON.parse] of it is that value again, except for
    [JSON.stringify(undefined)], stored as the text ["undefined"], which
    [JSON.parse] rejects.

    The in-memory [authToken] is modelled by its text [`${authToken}`]:
    every use of it outside [initApp] is a template or [setItem], which
    both convert it to that text, and [initApp] only reads it at load,
    when it is [null] or a stored string. *)

From Stdlib Require Import ZArith.
From stdpp Require Import base list strings.
From S2P Require Import Prelude Fetch Prog JsObject.

Local Open Scope string_scope.
Local Open Scope acc_scope.
Local Open Scope list_scope.

(** ** State *)

(** The entries of [localStorage] the script uses: [None] when the key
    is absent; the [user] entry is [Some None] when it holds the text
    ["undefined"] that [setItem('user', JSON.stringify(undefined))]
    writes; the settings entry is always the JSON of an object. *)
Record storage : Type := mkStorage {
  ls_authToken : option string;
  ls_user : option (option jval);
  ls_settings : option jval
}.

Inductive screen : Type := LoginScreen | AppScreen.

Record session : Type := mkSession {
  authToken : option string;     (* [None] is [null] *)
  currentUser : option jval;     (* [None] is [undefined]; [null] is [Some JNull] *)
  store : storage;
  shown : option screen;         (* [None] before [showLogin]/[showApp] *)
  userNameText : option string;  (* [None]: the text of the HTML *)
  userRoleText : option string
}.

Definition set_shown (x : screen) (s : session) : session :=
  mkSession (authToken s) (currentUser s) (store s) (Some x) (userNameText s) (userRoleText s).
Definition set_user_texts (name role : string) (s : session) : session :=
  mkSession (authToken s) (currentUser s) (store s) (shown s) (Some name) (Some role).

(** ** [getRoleName] *)

(** [const roles = { admin: .., accountant: .., secretary: .., teacher: .. }]. *)
Definition roles : jsobj string :=
  [("admin", "مدير النظام"); ("accountant", "محاسب"); ("secretary", "سكرتير"); ("teacher", "أستاذ")].

(** What [roles[role] || role] evaluates to. *)
Inductive role_value : Type :=
| RLabel (s : string)           (* an own property of [roles] *)
| RInherited (k : string)       (* a member of [Object.prototype] *)
| RRole (role : option jval).   (* the role itself *)

(** [getRoleName(role)] (lines 177-185): the property key is
    [String(role)]. *)
Definition getRoleName (role : option jval) : role_value :=
  match obj_get (js_template role) roles with
  | Own s => if truthy s then RLabel s else RRole role
  | Inherited k => RInherited k
  | Undefined => RRole role
  end.

(** [String(f)] of a member of [Object.prototype]: [__proto__] is
    [Object.prototype] itself, [constructor] is [Object], the others are
    native methods. *)
Definition native_text (k : string) : string :=
  if k === "__proto__" then "[object Object]"
  else if k === "constructor" then "function Object() { [native code] }"
  else "function " +:+ k +:+ "() { [native code] }".

(** [el.textContent = v]: [null] and [undefined] clear the text. *)
Definition dom_text (v : option jval) : string :=
  match v with None | Some JNull => "" | Some v => js_string v end.

Definition role_text (r : role_value) : string :=
  match r with
  | RLabel s => s
  | RInherited k => native_text k
  | RRole v => dom_text v
  end.

(** ** The screens *)

(** [showLogin()] (lines 159-162). *)
Definition showLogin : sprog session unit := s_modify (set_shown LoginScreen).

(** [showApp()] (lines 166-174): the screens switch before the user is
    read, so a missing user leaves the application screen shown and
    throws. *)
Definition showApp : sprog session unit :=
  s_modify (set_shown AppScreen) ;;
  s ← s_get;
  fullName ← s_lift (p_lift (js_get "fullName" (currentUser s)));
  let name := if js_truthy fullName then fullName else currentUser s ≫= jget "username" in
  s_modify (set_user_texts (dom_text name) (role_text (getRoleName (currentUser s ≫= jget "role")))).

(** [loadInitialData()] (lines 249-256). *)
Definition loadInitialData : prog unit :=
  p_load LoadDashboardData ;; p_load PopulateMonths ;; p_load PopulateYears ;;
  p_load PopulateClasses ;; p_load PopulateTeachers ;; p_load PopulateStudents.

(** ** [handleLogin] and [handleLogout] *)

(** [fetch(`${API_BASE}/auth/login`, ..)] (lines 118-124): no
    [Authorization] header. *)
Definition login_request (username password : string) : request :=
  mkRequest POST (API_BASE +:+ "/auth/login") true None
    (Some (JObj [("username", JStr username); ("password", JStr password)])).

(** [authToken = data.token; currentUser = data.user;] and the two
    [localStorage.setItem] calls (lines 129-134). *)
Definition set_login (token : string) (user : option jval) (s : session) : session :=
  mkSession (Some token) user
    (mkStorage (Some token) (Some user) (ls_settings (store s)))
    (shown s) (userNameText s) (userRoleText s).

Definition login_failed_alert : string := "حدث خطأ أثناء الاتصال بالخادم".

(** [handleLogin(e)] (lines 109-147) with the two inputs. *)
Definition handleLogin (username password : string) : sprog session unit :=
  s_lift showLoading ;;
  s_try
    (response ← s_lift (p_fetch (login_request username password));
     data ← s_lift (p_json response);
     if resp_ok response then
       token ← s_lift (p_lift (js_get "token" (Some data)));
       s_modify (set_login (js_template token) (jget "user" data)) ;;
       showApp ;;
       s_lift loadInitialData
     else
       msg ← s_lift (p_lift (js_get "error" (Some data)));
       s_lift (p_alert ("خطأ في تسجيل الدخول: " +:+ js_template msg)))
    (λ _, s_lift (p_alert login_failed_alert))
    (s_lift hideLoading).

(** [handleLogout()] (lines 150-156). *)
Definition handleLogout : sprog session unit :=
  s_modify (λ s, mkSession None (Some JNull)
                   (mkStorage None None (ls_settings (store s)))
                   (shown s) (userNameText s) (userRoleText s)) ;;
  showLogin.

(** ** Restoring the session at load *)

(** [JSON.parse(localStorage.getItem('user'))] of a stored entry. *)
Definition parse_stored (x : option jval) : jsres jval :=
  match x with Some v => Ret v | None => Throw (SyntaxError "JSON.parse") end.

(** Lines 32-41 of [initApp()]. *)
Definition restoreSession : sprog session unit :=
  s ← s_get;
  match ls_authToken (store s), ls_user (store s) with
  | Some savedToken, Some savedUser =>
      if truthy savedToken then
        s_modify (λ s, mkSession (Some savedToken) (currentUser s) (store s)
                          (shown s) (userNameText s) (userRoleText s)) ;;
        u ← s_lift (p_lift (parse_stored savedUser));
        s_modify (λ s, mkSession (authToken s) (Some u) (store s)
                          (shown s) (userNameText s) (userRoleText s)) ;;
        showApp
      else showLogin
  | _, _ => showLogin
  end.

(** The page as a reload finds it: the module-level variables are back
    to their initial values, [localStorage] is kept. *)
Definition fresh_session (st : storage) : session :=
  mkSession None (Some JNull) st None None None.

(** ** Properties *)


(** The header texts [showApp] writes for a user object. *)
Definition header_texts (u : jval) : string * string :=
  let fullName := jget "fullName" u in
  (dom_text (if js_truthy fullName then fullName else jget "username" u),
   role_text (getRoleName (jget "role" u))).

Lemma showApp_ok s u net :
  currentUser s = Some u → u ≠ JNull →
  showApp s net = ([], set_user_texts (header_texts u).1 (header_texts u).2 (set_shown AppScreen s), Ret tt).
Proof.
  intros Hu Hnn. unfold showApp. rewrite srun_bind. simpl. rewrite Hu.
  destruct u; simpl; done.
Qed.

Lemma showApp_quiet s net : (showApp s net).1.1 = [].
Proof. unfold showApp. rewrite srun_bind. simpl. by destruct (currentUser s) as [[]|]. Qed.

Lemma showApp_no_user s net :
  (currentUser s = None ∨ currentUser s = Some JNull) →
  showApp s net = ([], set_shown AppScreen s, Throw (TypeError ".fullName")).
Proof. unfold showApp. intros [Hu|Hu]; rewrite srun_bind; simpl; by rewrite Hu. Qed.

Lemma restoreSession_stored token u s net :
  ls_authToken (store s) = Some token → ls_user (store s) = Some (Some u) →
  truthy token = true → u ≠ JNull →
  restoreSession s net =
    ([], set_user_texts (header_texts u).1 (header_texts u).2
           (set_shown AppScreen (mkSession (Some token) (Some u) (store s) (shown s)
                                   (userNameText s) (userRoleText s))), Ret tt).
Proof.
  intros Ht Hu Htr Hnn. unfold restoreSession. rewrite srun_bind. simpl.
  rewrite Ht, Hu, Htr. repeat (rewrite srun_bind; cbn -[showApp]). by rewrite (showApp_ok _ u).
Qed.

(** C28 (roundtrip).  A successful login followed by a reload restores
    the session: when the server accepts the credentials and returns a
    non-empty token and a user object, [handleLogin] stores both and
    shows the application; after a reload, which resets the module-level
    variables and keeps [localStorage], [initApp] restores the same
    token and user and writes the same name and role into the header. *)
Theorem login_then_reload username password s net net' r data user :
  net (login_request username password) = Fulfilled r → resp_ok r = true → rbody r = Some data →
  jget "user" data = Some user → user ≠ JNull → js_template (jget "token" data) ≠ "" →
  let s1 := (handleLogin username password s net).1.2 in
  let s2 := (restoreSession (fresh_session (store s1)) net').1.2 in
  (handleLogin username password s net).2 = Ret tt ∧
  authToken s1 = Some (js_template (jget "token" data)) ∧ currentUser s1 = Some user ∧
  shown s1 = Some AppScreen ∧
  authToken s2 = authToken s1 ∧ currentUser s2 = currentUser s1 ∧ shown s2 = Some AppScreen ∧
  userNameText s2 = userNameText s1 ∧ userRoleText s2 = userRoleText s1.
Proof.
  intros Hnet Hok Hbody Huser Hnn Htok.
  assert (data ≠ JNull) as Hd by (intros ->; discriminate Huser).
  assert (handleLogin username password s net =
          ([ELoading true; EFetch (login_request username password)] ++
           [ELoad LoadDashboardData; ELoad PopulateMonths; ELoad PopulateYears;
            ELoad PopulateClasses; ELoad PopulateTeachers; ELoad PopulateStudents; ELoading false],
           set_user_texts (header_texts user).1 (header_texts user).2
             (set_shown AppScreen (set_login (js_template (jget "token" data)) (Some user) s)),
           Ret tt)) as Hrun.
  { unfold handleLogin. repeat (rewrite srun_bind; cbn -[showApp js_get]).
    rewrite Hnet. cbn -[showApp js_get]. unfold p_json, await_json. rewrite Hbody, Hok.
    repeat (rewrite srun_bind; cbn -[showApp js_get]). rewrite js_get_obj by exact Hd.
    repeat (rewrite srun_bind; cbn -[showApp]). rewrite Huser.
    rewrite (showApp_ok _ user) by done. done. }
  rewrite Hrun. cbn -[restoreSession].
  rewrite restoreSession_stored with (token := js_template (jget "token" data)) (u := user); try done.
  - unfold truthy. by destruct (String.eqb_spec (js_template (jget "token" data)) "").
Qed.

(** The role label of the header: the four roles of
    the school get their Arabic name, a property name of
    [Object.prototype] gets the source text of the inherited member, and
    any other role is shown as it is. *)
Theorem getRoleName_text (r : string) :
  role_text (getRoleName (Some (JStr r))) =
    if r === "admin" then "مدير النظام"
    else if r === "accountant" then "محاسب"
    else if r === "secretary" then "سكرتير"
    else if r === "teacher" then "أستاذ"
    else if is_proto_key r then native_text r
    else r.
Proof.
  unfold getRoleName, obj_get, roles. cbn [own_get js_template js_string].
  rewrite !(String.eqb_sym _ r).
  destruct (r === "admin"); [done|]. destruct (r === "accountant"); [done|].
  destruct (r === "secretary"); [done|]. destruct (r === "teacher"); [done|].
  by destruct (is_proto_key r).
Qed.

(** [handleLogout] forgets the token and the user in
    memory and in [localStorage], keeps the stored settings and shows the
    login screen; a reload then stays on the login screen. *)
Theorem logout_then_reload s net net' :
  let s1 := (handleLogout s net).1.2 in
  let s2 := (restoreSession (fresh_session (store s1)) net').1.2 in
  (handleLogout s net).2 = Ret tt ∧
  authToken s1 = None ∧ currentUser s1 = Some JNull ∧ shown s1 = Some LoginScreen ∧
  ls_authToken (store s1) = None ∧ ls_user (store s1) = None ∧
  ls_settings (store s1) = ls_settings (store s) ∧
  authToken s2 = None ∧ shown s2 = Some LoginScreen.
Proof. repeat split. Qed.

(** A refused login (a non-2xx answer) changes nothing but
    shows the server's [error] field, or the generic message when the body
    is not JSON or is [null] ([data.error] throws); a request that fails
    shows the generic message.  In both
    cases the session, the screen and [localStorage] are unchanged. *)
Theorem handleLogin_refused username password s net :
  (∀ r, net (login_request username password) = Fulfilled r → resp_ok r = false →
   (handleLogin username password s net).1.2 = s ∧
   (handleLogin username password s net).2 = Ret tt ∧
   alerts_of (handleLogin username password s net).1.1 =
     [match rbody r with
      | None | Some JNull => login_failed_alert
      | Some data => "خطأ في تسجيل الدخول: " +:+ js_template (jget "error" data)
      end]) ∧
  (∀ e, net (login_request username password) = Rejected e →
   (handleLogin username password s net).1.2 = s ∧
   alerts_of (handleLogin username password s net).1.1 = [login_failed_alert]).
Proof.
  split.
  - intros r Hnet Hok. unfold handleLogin. repeat (rewrite srun_bind; cbn -[showApp]).
    rewrite Hnet. cbn -[showApp]. unfold p_json, await_json.
    destruct (rbody r) as [[]|]; cbn -[showApp]; rewrite ?Hok; done.
  - intros e Hnet. unfold handleLogin. repeat (rewrite srun_bind; cbn -[showApp]).
    by rewrite Hnet.
Qed.

(** An accepted login whose answer has no [user] stores the
    token and the text ["undefined"] as the user, switches to the
    application screen, then fails in [showApp]: the user is told the
    server could not be reached, the initial data is never loaded, and
    every later load of the page stops in [initApp] with a
    [SyntaxError]. *)
Theorem login_without_user username password s net net' r data :
  net (login_request username password) = Fulfilled r → resp_ok r = true → rbody r = Some data →
  data ≠ JNull → jget "user" data = None → truthy (js_template (jget "token" data)) = true →
  let s1 := (handleLogin username password s net).1.2 in
  alerts_of (handleLogin username password s net).1.1 = [login_failed_alert] ∧
  Forall (λ e, ∀ l, e ≠ ELoad l) (handleLogin username password s net).1.1 ∧
  shown s1 = Some AppScreen ∧ ls_user (store s1) = Some None ∧
  (restoreSession (fresh_session (store s1)) net').2 = Throw (SyntaxError "JSON.parse").
Proof.
  intros Hnet Hok Hbody Hd Huser Htok.
  assert (handleLogin username password s net =
          ([ELoading true; EFetch (login_request username password); EAlert login_failed_alert;
            ELoading false],
           set_shown AppScreen (set_login (js_template (jget "token" data)) None s),
           Ret tt)) as Hrun.
  { unfold handleLogin. repeat (rewrite srun_bind; cbn -[showApp js_get]).
    rewrite Hnet. cbn -[showApp js_get]. unfold p_json, await_json. rewrite Hbody, Hok.
    repeat (rewrite srun_bind; cbn -[showApp js_get]). rewrite js_get_obj by exact Hd.
    repeat (rewrite srun_bind; cbn -[showApp]). rewrite Huser.
    rewrite showApp_no_user by (by left). done. }
  rewrite Hrun. split; [done|]. split; [repeat constructor; discriminate|].
  split; [done|]. split; [done|].
  unfold restoreSession. rewrite srun_bind. cbn. by rewrite Htok.
Qed.

(** ** Concrete runs *)

Definition ex_user : jval :=
  JObj [("fullName", JStr "Amina B."); ("username", JStr "amina"); ("role", JStr "teacher")].

Definition ex_login_body : jval := JObj [("token", JStr "eyJhbGciOi"); ("user", ex_user)].

Definition ex_net_login : network := λ _, Fulfilled (mkResponse 200 (Some ex_login_body)).

Definition ex_session : session := fresh_session (mkStorage None None None).

(** The scenario of the specification: a teacher logs in; the header
    shows the role "أستاذ", and so does the page after a reload. *)
Example login_teacher_scenario :
  userRoleText (handleLogin "amina" "secret" ex_session ex_net_login).1.2 = Some "أستاذ" ∧
  userRoleText (restoreSession (fresh_session (store (handleLogin "amina" "secret" ex_session ex_net_login).1.2))
                  ex_net_login).1.2 = Some "أستاذ".
Proof. split; vm_compute; reflexivity. Qed.

Lemma login_then_reload_witness :
  ex_net_login (login_request "amina" "secret") = Fulfilled (mkResponse 200 (Some ex_login_body)) ∧
  resp_ok (mkResponse 200 (Some ex_login_body)) = true ∧
  rbody (mkResponse 200 (Some ex_login_body)) = Some ex_login_body ∧
  jget "user" ex_login_body = Some ex_user ∧ ex_user ≠ JNull ∧
  js_template (jget "token" ex_login_body) ≠ "" ∧
  let s1 := (handleLogin "amina" "secret" ex_session ex_net_login).1.2 in
  let s2 := (restoreSession (fresh_session (store s1)) ex_net_login).1.2 in
  (handleLogin "amina" "secret" ex_session ex_net_login).2 = Ret tt ∧
  authToken s1 = Some (js_template (jget "token" ex_login_body)) ∧ currentUser s1 = Some ex_user ∧
  shown s1 = Some AppScreen ∧
  authToken s2 = authToken s1 ∧ currentUser s2 = currentUser s1 ∧ shown s2 = Some AppScreen ∧
  userNameText s2 = userNameText s1 ∧ userRoleText s2 = userRoleText s1.
Proof.
  assert (ex_net_login (login_request "amina" "secret") = Fulfilled (mkResponse 200 (Some ex_login_body)))
    as H1 by reflexivity.
  assert (resp_ok (mkResponse 200 (Some ex_login_body)) = true) as H2 by reflexivity.
  assert (rbody (mkResponse 200 (Some ex_login_body)) = Some ex_login_body) as H3 by reflexivity.
  assert (jget "user" ex_login_body = Some ex_user) as H4 by reflexivity.
  assert (ex_user ≠ JNull) as H5 by discriminate.
  assert (js_template (jget "token" ex_login_body) ≠ "") as H6 by discriminate.
  do 6 (split; [assumption|]).
  exact (login_then_reload "amina" "secret" ex_session ex_net_login ex_net_login _ _ _ H1 H2 H3 H4 H5 H6).
Defined.

Definition ex_net_refuse_login : network := λ _,
  Fulfilled (mkResponse 401 (Some (JObj [("error", JStr "كلمة المرور غير صحيحة")]))).

Lemma handleLogin_refused_witness :
  ex_net_refuse_login (login_request "amina" "wrong")
    = Fulfilled (mkResponse 401 (Some (JObj [("error", JStr "كلمة المرور غير صحيحة")]))) ∧
  resp_ok (mkResponse 401 (Some (JObj [("error", JStr "كلمة المرور غير صحيحة")]))) = false ∧
  (handleLogin "amina" "wrong" ex_session ex_net_refuse_login).1.2 = ex_session ∧
  (handleLogin "amina" "wrong" ex_session ex_net_refuse_login).2 = Ret tt ∧
  alerts_of (handleLogin "amina" "wrong" ex_session ex_net_refuse_login).1.1 =
    ["خطأ في تسجيل الدخول: " +:+ js_template (jget "error" (JObj [("error", JStr "كلمة المرور غير صحيحة")]))].
Proof.
  assert (ex_net_refuse_login (login_request "amina" "wrong")
    = Fulfilled (mkResponse 401 (Some (JObj [("error", JStr "كلمة المرور غير صحيحة")])))) as H1 by reflexivity.
  assert (resp_ok (mkResponse 401 (Some (JObj [("error", JStr "كلمة المرور غير صحيحة")]))) = false)
    as H2 by reflexivity.
  split; [exact H1|split; [exact H2|]].
  exact (proj1 (handleLogin_refused "amina" "wrong" ex_session ex_net_refuse_login) _ H1 H2).
Defined.

Definition ex_net_no_user : network := λ _, Fulfilled (mkResponse 200 (Some (JObj [("token", JStr "t0k")]))).

Lemma login_without_user_witness :
  ex_net_no_user (login_request "amina" "secret") = Fulfilled (mkResponse 200 (Some (JObj [("token", JStr "t0k")]))) ∧
  resp_ok (mkResponse 200 (Some (JObj [("token", JStr "t0k")]))) = true ∧
  rbody (mkResponse 200 (Some (JObj [("token", JStr "t0k")]))) = Some (JObj [("token", JStr "t0k")]) ∧
  jget "user" (JObj [("token", JStr "t0k")]) = None ∧
  truthy (js_template (jget "token" (JObj [("token", JStr "t0k")]))) = true ∧
  let s1 := (handleLogin "amina" "secret" ex_session ex_net_no_user).1.2 in
  alerts_of (handleLogin "amina" "secret" ex_session ex_net_no_user).1.1 = [login_failed_alert] ∧
  Forall (λ e, ∀ l, e ≠ ELoad l) (handleLogin "amina" "secret" ex_session ex_net_no_user).1.1 ∧
  shown s1 = Some AppScreen ∧ ls_user (store s1) = Some None ∧
  (restoreSession (fresh_session (store s1)) ex_net_no_user).2 = Throw (SyntaxError "JSON.parse").
Proof.
  assert (ex_net_no_user (login_request "amina" "secret")
    = Fulfilled (mkResponse 200 (Some (JObj [("token", JStr "t0k")])))) as H1 by reflexivity.
  assert (resp_ok (mkResponse 200 (Some (JObj [("token", JStr "t0k")]))) = true) as H2 by reflexivity.
  assert (rbody (mkResponse 200 (Some (JObj [("token", JStr "t0k")]))) = Some (JObj [("token", JStr "t0k")]))
    as H3 by reflexivity.
  assert (jget "user" (JObj [("token", JStr "t0k")]) = None) as H4 by reflexivity.
  assert (truthy (js_template (jget "token" (JObj [("token", JStr "t0k")]))) = true) as H5 by reflexivity.
  do 5 (split; [assumption|]).
  exact (login_without_user "amina" "secret" ex_session ex_net_no_user ex_net_no_user _ _ H1 H2 H3 ltac:(discriminate) H4 H5).
Defined.
