(* ===== verification/Listing.v ===== *)
(** * The listings: query strings, the payments table and the pagers

    The four list loaders [loadPayments] (lines 635-680),
    [loadExpenses] (lines 1047-1090), [loadTeacherCommissions] (lines
    1252-1285) and [loadInvoices] (lines 1753-1786) read the filter
    inputs, push [`k=${v}`] for every non-empty one, and fetch the list
    with [?${queryParams.join('&')}] appended; nothing is URL-encoded.
    [renderPayments] (lines 684-738) fills the payments table;
    [changePaymentsPage] / [changeTeachersPage] (lines 836-846 and
    1731-1741) move the page and reload, [clearPaymentFilters] /
    [clearTeacherFilters] (lines 849-858 and 1745-1752) reset the filters
    and the page.

    What the server reads back is stated with [parse_query], the split
    that [URLSearchParams] performs on a query without percent signs,
    plus signs or [#]. *)

From Stdlib Require Import ZArith QArith Ascii.
From stdpp Require Import base list sets strings pretty.
From S2P Require Import Prelude Double Fetch Prog JsObject Session.

Local Open Scope string_scope.
Local Open Scope acc_scope.
Local Open Scope list_scope.

(** ** Query strings *)

(** [`${k}=${v}`]. *)
Definition param (k v : string) : string := k +:+ "=" +:+ v.

(** [if (v) queryParams.push(`k=${v}`);] *)
Definition push_if (queryParams : list string) (kv : string * string) : list string :=
  if truthy kv.2 then queryParams ++ [param kv.1 kv.2] else queryParams.

(** The [if] statements of a loader, in source order. *)
Definition push_filters (queryParams : list string) (filters : list (string * string)) : list string :=
  foldl push_if queryParams filters.

(** [queryParams.length > 0 ? `?${queryParams.join('&')}` : '']. *)
Definition query_string (queryParams : list string) : string :=
  if (0 <? length queryParams)%nat then "?" +:+ String.concat "&" queryParams else "".

(** The filter inputs of the payments section, by the key each one is
    sent under. *)
Record payment_filters : Type := mkPaymentFilters {
  paymentStatusFilter : string;
  paymentMonthFilter : string;
  paymentMethodFilter : string;
  paymentClassFilter : string;
  paymentStudentFilter : string
}.

Definition payment_filter_list (f : payment_filters) : list (string * string) :=
  [("status", paymentStatusFilter f); ("month", paymentMonthFilter f);
   ("paymentMethod", paymentMethodFilter f); ("class", paymentClassFilter f);
   ("student", paymentStudentFilter f)].

(** The parameters of [loadPayments] (lines 646-655): the page and the
    page size first. *)
Definition payments_params (page limit : Z) (f : payment_filters) : list string :=
  push_filters [param "page" (js_string (JNum page)); param "limit" (js_string (JNum limit))]
               (payment_filter_list f).

(** [loadExpenses] (lines 1056-1061). *)
Definition expenses_params (typeFilter categoryFilter startDate endDate : string) : list string :=
  push_filters [] [("type", typeFilter); ("category", categoryFilter);
                   ("startDate", startDate); ("endDate", endDate)].

(** [loadTeacherCommissions] (lines 1261-1265). *)
Definition teachers_params (teacherFilter monthFilter statusFilter classFilter : string) : list string :=
  push_filters [] [("teacher", teacherFilter); ("month", monthFilter);
                   ("status", statusFilter); ("class", classFilter)].

(** [loadInvoices] (lines 1762-1767). *)
Definition invoices_params (typeFilter statusFilter startDate endDate : string) : list string :=
  push_filters [] [("type", typeFilter); ("status", statusFilter);
                   ("startDate", startDate); ("endDate", endDate)].

(** ** What the server reads *)

(** [s] holds none of the characters [cs]. *)
Fixpoint avoids (cs : list ascii) (s : string) : bool :=
  match s with
  | EmptyString => true
  | String a s' => negb (bool_decide (a ∈ cs)) && avoids cs s'
  end.

(** A value the server reads as written: no separator, no escape and no
    fragment; a key has no [=] either. *)
Definition val_seps : list ascii := ["&"; "#"; "%"; "+"]%char.
Definition key_seps : list ascii := "="%char :: val_seps.

Fixpoint split_on (c : ascii) (s : string) : list string :=
  match s with
  | EmptyString => [""]
  | String a s' =>
      if bool_decide (a = c) then "" :: split_on c s'
      else match split_on c s' with
           | [] => [String a ""]
           | x :: xs => String a x :: xs
           end
  end.

(** A pair [k=v] split at its first [=]. *)
Fixpoint break_eq (s : string) : string * string :=
  match s with
  | EmptyString => ("", "")
  | String a s' =>
      if bool_decide (a = "="%char) then ("", s')
      else let kv := break_eq s' in (String a kv.1, kv.2)
  end.

(** The pairs of a query string: the [?] dropped, split at [&], empty
    pieces skipped, each split at its first [=]. *)
Definition parse_query (qs : string) : list (string * string) :=
  let body := match qs with
              | String a r => if bool_decide (a = "?"%char) then r else qs
              | EmptyString => qs
              end in
  break_eq <$> List.filter (λ p, negb (p === "")) (split_on "&" body).

(** [fetch] sends the URL up to its first [#]: the rest is a fragment. *)
Fixpoint before_hash (s : string) : string :=
  match s with
  | EmptyString => EmptyString
  | String a s' => if bool_decide (a = "#"%char) then EmptyString else String a (before_hash s')
  end.

Definition hex_val (a : ascii) : option nat :=
  let n := nat_of_ascii a in
  (if (48 <=? n) && (n <=? 57) then Some (n - 48)
   else if (65 <=? n) && (n <=? 70) then Some (n - 55)
   else if (97 <=? n) && (n <=? 102) then Some (n - 87)
   else None)%nat.

(** The decoding [URLSearchParams] applies to keys and values: [+] is a
    space and [%XX] the byte [XX]; a [%] not followed by two hex digits
    stays.  (Bytes are decoded one by one; on the UTF-8 encodings the
    script produces this is the browser's decoding.) *)
Fixpoint percent_decode (s : string) : string :=
  match s with
  | EmptyString => EmptyString
  | String a s' =>
      if bool_decide (a = "%"%char) then
        match s' with
        | String h1 (String h2 s'') =>
            match hex_val h1, hex_val h2 with
            | Some x, Some y => String (ascii_of_nat (16 * x + y)%nat) (percent_decode s'')
            | _, _ => String a (percent_decode s')
            end
        | _ => String a (percent_decode s')
        end
      else if bool_decide (a = "+"%char) then String " " (percent_decode s')
      else String a (percent_decode s')
  end.

(** The parameters the server reads from a query string. *)
Definition server_params (qs : string) : list (string * string) :=
  (λ kv, (percent_decode kv.1, percent_decode kv.2)) <$> parse_query (before_hash qs).

(** ** The payments table *)

(** [const methods = {..}] of [getPaymentMethodName] (lines 864-868). *)
Definition payment_methods : jsobj string :=
  [("cash", "نقدي"); ("bank", "تحويل بنكي"); ("online", "دفع إلكتروني")].

(** [getPaymentMethodName(method)] (lines 863-870): [methods[method] ||
    method], the key being [String(method)]; the result is of the same
    three kinds as the one of [getRoleName]. *)
Definition getPaymentMethodName (method : option jval) : role_value :=
  match obj_get (js_template method) payment_methods with
  | Own s => if truthy s then RLabel s else RRole method
  | Inherited k => RInherited k
  | Undefined => RRole method
  end.

(** [`${v}`] of that result. *)
Definition tmpl_value (r : role_value) : string :=
  match r with RLabel s => s | RInherited k => native_text k | RRole v => js_template v end.

(** The badge of [payment.status] (lines 697-704). *)
Inductive badge : Type := BadgePaid | BadgePending | BadgeLate | NoBadge.

Definition status_badge (status : option jval) : badge :=
  if js_is status "paid" then BadgePaid
  else if js_is status "pending" then BadgePending
  else if js_is status "late" then BadgeLate else NoBadge.

(** A row: the id its checkbox and buttons carry, its cells, and whether
    it has the [تسديد] button. *)
Record prow : Type := mkPRow {
  pr_id : string; pr_student : string; pr_class : string; pr_month : string;
  pr_amount : string; pr_method : string; pr_badge : badge; pr_date : string; pr_pay : bool
}.

(** The [tbody]: the notice [لا توجد مدفوعات], or rows. *)
Inductive ptable : Type := PNotice | PRows (rows : list prow).

(** The table and whether the footer is displayed. *)
Record payments_view : Type := mkPaymentsView { pv_table : ptable; pv_footer : bool }.

(** [${o?.name || 'غير معروف'}]. *)
Definition name_or_unknown (o : option jval) : string :=
  let n := js_opt_get "name" o in if js_truthy n then js_template n else "غير معروف".

(** The [length] of a JavaScript string, in UTF-16 code units, of the
    string held as its UTF-8 bytes: a continuation byte ([0x80]-[0xBF])
    adds nothing, the lead byte of a four-byte sequence ([0xF0] and
    above, a character outside the Basic Multilingual Plane) adds two (a
    surrogate pair), any other byte one. *)
Fixpoint utf16_length (s : string) : nat :=
  match s with
  | EmptyString => 0
  | String c s' =>
      let b := nat_of_ascii c in
      ((if Nat.leb 128 b && Nat.ltb b 192 then 0 else if Nat.leb 240 b then 2 else 1) + utf16_length s')%nat
  end.

(** [v.length]. *)
Definition js_length (v : jval) : jsres (option jval) :=
  match v with
  | JNull => Throw (TypeError ".length")
  | JArr l => Ret (Some (JNum (Z.of_nat (length l))))
  | JStr s => Ret (Some (JNum (Z.of_nat (utf16_length s))))
  | JObj _ => Ret (jget "length" v)
  | _ => Ret None
  end.

Section PaymentsTable.
(** [n.toLocaleString()] and [new Date(d).toLocaleDateString('ar-EG')]
    are the browser's locale formatting. *)
Variable toLocaleString : jval → string.
Variable toLocaleDateString : jval → string.

Definition amount_text (a : option jval) : jsres string :=
  match a with
  | None | Some JNull => Throw (TypeError ".toLocaleString")
  | Some v => Ret (toLocaleString v)
  end.

(** [payment.paymentDate ? new Date(..).toLocaleDateString('ar-EG') : '---']. *)
Definition date_text (d : option jval) : string :=
  match d with Some v => if js_truthy d then toLocaleDateString v else "---" | None => "---" end.

(** One row (lines 695-733): [payment.status] throws on a [null]
    element, [payment.amount.toLocaleString()] on a missing amount. *)
Definition payment_row (payment : jval) : jsres prow :=
  status ← js_get "status" (Some payment);
  amount ← amount_text (jget "amount" payment);
  mret (mkPRow (js_template (jget "_id" payment))
               (name_or_unknown (jget "student" payment))
               (name_or_unknown (jget "class" payment))
               (js_template (jget "month" payment))
               amount
               (tmpl_value (getPaymentMethodName (jget "paymentMethod" payment)))
               (status_badge status)
               (date_text (jget "paymentDate" payment))
               (negb (js_is status "paid"))).

(** [payments.forEach(..)]: the rows appended before an exception stay. *)
Fixpoint payment_rows (ps : list jval) : list prow * jsres unit :=
  match ps with
  | [] => ([], Ret tt)
  | p :: ps' =>
      match payment_row p with
      | Ret r => let rest := payment_rows ps' in (r :: rest.1, rest.2)
      | Throw e => ([], Throw e)
      end
  end.

(** [renderPayments(payments)] (lines 684-738): the table is emptied
    first; [length === 0] shows the notice and hides the footer; rows
    show the footer once all of them are appended. *)
Definition renderPayments (payments : jval) (v : payments_view) : payments_view * jsres unit :=
  match js_length payments with
  | Throw e => (mkPaymentsView (PRows []) (pv_footer v), Throw e)
  | Ret (Some (JNum 0)) => (mkPaymentsView PNotice false, Ret tt)
  | Ret _ =>
      match payments with
      | JArr ps =>
          let r := payment_rows ps in
          match r.2 with
          | Ret _ => (mkPaymentsView (PRows r.1) true, Ret tt)
          | Throw e => (mkPaymentsView (PRows r.1) (pv_footer v), Throw e)
          end
      | _ => (mkPaymentsView (PRows []) (pv_footer v), Throw (TypeError "payments.forEach"))
      end
  end.
End PaymentsTable.

(** ** The payments section and its pager *)

(** The globals [currentPaymentsPage], [totalPaymentsPages] and
    [paymentsPerPage] (lines 7-9), the filter inputs, the table and the
    text of [#paymentsPageInfo]. *)
Record listing : Type := mkListing {
  currentPaymentsPage : Z;
  totalPaymentsPages : jval;
  paymentsPerPage : Z;
  paymentFilters : payment_filters;
  paymentsView : payments_view;
  paymentsPageInfo : string
}.

Definition set_page (p : Z) (st : listing) : listing :=
  mkListing p (totalPaymentsPages st) (paymentsPerPage st) (paymentFilters st) (paymentsView st) (paymentsPageInfo st).
Definition set_total (t : jval) (st : listing) : listing :=
  mkListing (currentPaymentsPage st) t (paymentsPerPage st) (paymentFilters st) (paymentsView st) (paymentsPageInfo st).
Definition set_filters (f : payment_filters) (st : listing) : listing :=
  mkListing (currentPaymentsPage st) (totalPaymentsPages st) (paymentsPerPage st) f (paymentsView st) (paymentsPageInfo st).
Definition set_view (v : payments_view) (st : listing) : listing :=
  mkListing (currentPaymentsPage st) (totalPaymentsPages st) (paymentsPerPage st) (paymentFilters st) v (paymentsPageInfo st).
Definition set_info (i : string) (st : listing) : listing :=
  mkListing (currentPaymentsPage st) (totalPaymentsPages st) (paymentsPerPage st) (paymentFilters st) (paymentsView st) i.

(** The page loaded at first (lines 7-9). *)
Definition initial_listing (f : payment_filters) (v : payments_view) (info : string) : listing :=
  mkListing 1 (JNum 1) 20 f v info.

(** [o] if truthy. *)
Definition truthy_val (o : option jval) : option jval :=
  match o with Some v => if js_truthy o then Some v else None | None => None end.

(** [updatePaymentsPagination()] (lines 829-832). *)
Definition updatePaymentsPagination : sprog listing unit :=
  s_modify (λ st, set_info ("الصفحة " +:+ js_string (JNum (currentPaymentsPage st)) +:+ " من " +:+
                            js_string (totalPaymentsPages st)) st).

(** The request of [loadPayments] in a state. *)
Definition payments_request (authToken : option string) (st : listing) : request :=
  api_get authToken ("/payments" +:+
    query_string (payments_params (currentPaymentsPage st) (paymentsPerPage st) (paymentFilters st))).

Section LoadPayments.
Variable toLocaleString : jval → string.
Variable toLocaleDateString : jval → string.

Definition s_renderPayments (payments : jval) : sprog listing unit := λ st _,
  let r := renderPayments toLocaleString toLocaleDateString payments (paymentsView st) in
  ([], set_view r.1 st, r.2).

(** [loadPayments()] (lines 635-680): any exception, the ones of
    [renderPayments] included, is only logged. *)
Definition loadPayments (authToken : option string) : sprog listing unit :=
  s_lift showLoading ;;
  s_try
    (st ← s_get;
     response ← s_lift (p_fetch (payments_request authToken st));
     if resp_ok response then
       data ← s_lift (p_json response);
       payments ← s_lift (p_lift (js_get "payments" (Some data)));
       s_renderPayments (default data (truthy_val payments)) ;;
       match truthy_val (jget "totalPages" data) with
       | Some t => s_modify (set_total t) ;; updatePaymentsPagination
       | None => mret ()
       end
     else mret ())
    (λ _, mret ())
    (s_lift hideLoading).

(** [ToNumber] of a parsed value: a number is itself, [true] is [1],
    [null] is [0], an array is read through its text
    ([Array.prototype.join]) and an object through ["[object Object]"],
    which is [NaN]; a string is read by [Double.str_to_number]. *)
Definition js_number (v : jval) : qnum :=
  match v with
  | JNum z => QFin (inject_Z z)
  | JBool b => QFin (if b then 1 else 0)%Q
  | JNull => QFin 0
  | JStr s => str_to_number s
  | JArr _ => str_to_number (js_string v)
  | JObj _ => QNaN
  end.

(** [ToNumber] of a property that may be [undefined] ([NaN]). *)
Definition val_number (o : option jval) : qnum := default QNaN (js_number <$> o).

(** [n < v] for a number [n]; a comparison with [NaN] is [false]. *)
Definition js_lt (n : Z) (v : jval) : bool := d_lt_Z n (js_number v).

(** The [if] of [changePaymentsPage] and [changeTeachersPage]: the new
    page, or [None] for [return]. *)
Definition change_page (direction : string) (cur : Z) (total : jval) : option Z :=
  if (direction === "next") && js_lt cur total then Some (cur + 1)%Z
  else if (direction === "prev") && (1 <? cur)%Z then Some (cur - 1)%Z
  else None.

(** [changePaymentsPage(direction)] (lines 836-846). *)
Definition changePaymentsPage (authToken : option string) (direction : string) : sprog listing unit :=
  st ← s_get;
  match change_page direction (currentPaymentsPage st) (totalPaymentsPages st) with
  | None => mret ()
  | Some p => s_modify (set_page p) ;; loadPayments authToken
  end.

(** [clearPaymentFilters()] (lines 849-858). *)
Definition clearPaymentFilters (authToken : option string) : sprog listing unit :=
  s_modify (set_filters (mkPaymentFilters "" "" "" "" "")) ;;
  s_modify (set_page 1) ;;
  loadPayments authToken.
End LoadPayments.

(** ** The teachers section and its pager *)

Record teacher_filters : Type := mkTeacherFilters {
  teacherFilter : string;
  teacherMonthFilter : string;
  teacherStatusFilter : string;
  teacherClassFilter : string
}.

(** The globals [currentTeachersPage], [totalTeachersPages] and
    [teachersPerPage] (lines 11-13) and the filter inputs.  No statement
    of the script assigns [totalTeachersPages]. *)
Record teachers_listing : Type := mkTeachersListing {
  currentTeachersPage : Z;
  totalTeachersPages : jval;
  teachersPerPage : Z;
  teacherFilters : teacher_filters
}.

Definition initial_teachers (f : teacher_filters) : teachers_listing :=
  mkTeachersListing 1 (JNum 1) 10 f.

(** The request of [loadTeacherCommissions()] (lines 1256-1273): the
    page is not part of it. *)
Definition teachers_request (authToken : option string) (st : teachers_listing) : request :=
  let f := teacherFilters st in
  api_get authToken ("/accounting/teacher-commissions-by-class" +:+
    query_string (teachers_params (teacherFilter f) (teacherMonthFilter f)
                                  (teacherStatusFilter f) (teacherClassFilter f))).

(** [changeTeachersPage(direction)] (lines 1731-1741). *)
Definition changeTeachersPage (direction : string) : sprog teachers_listing unit :=
  st ← s_get;
  match change_page direction (currentTeachersPage st) (totalTeachersPages st) with
  | None => mret ()
  | Some p =>
      s_modify (λ st, mkTeachersListing p (totalTeachersPages st) (teachersPerPage st) (teacherFilters st)) ;;
      s_lift (p_load LoadTeacherCommissions)
  end.

(** [clearTeacherFilters()] as the page runs it: the second declaration
    (lines 1745-1752) replaces the first (lines 1355-1363) and, unlike
    it, leaves [#teacherClassFilter] as it is. *)
Definition clearTeacherFilters : sprog teachers_listing unit :=
  s_modify (λ st, mkTeachersListing (currentTeachersPage st) (totalTeachersPages st) (teachersPerPage st)
                    (mkTeacherFilters "" "" "" (teacherClassFilter (teacherFilters st)))) ;;
  s_modify (λ st, mkTeachersListing 1 (totalTeachersPages st) (teachersPerPage st) (teacherFilters st)) ;;
  s_lift (p_load LoadTeacherCommissions).

(** The first [clearTeacherFilters] (lines 1356-1363), which the second
    declaration replaces when the script is parsed: it clears all four
    filters and leaves the page as it is. *)
Definition clearTeacherFilters_first : sprog teachers_listing unit :=
  s_modify (λ st, mkTeachersListing (currentTeachersPage st) (totalTeachersPages st) (teachersPerPage st)
                    (mkTeacherFilters "" "" "" "")) ;;
  s_lift (p_load LoadTeacherCommissions).

(** The requests of [loadExpenses] (lines 1051-1068) and [loadInvoices]
    (lines 1757-1775). *)
Definition expenses_request (authToken : option string) (typeFilter categoryFilter startDate endDate : string) : request :=
  api_get authToken ("/accounting/expenses" +:+
    query_string (expenses_params typeFilter categoryFilter startDate endDate)).
Definition invoices_request (authToken : option string) (typeFilter statusFilter startDate endDate : string) : request :=
  api_get authToken ("/accounting/invoices" +:+
    query_string (invoices_params typeFilter statusFilter startDate endDate)).

(** [loadData()] (lines 1092-1108), which nothing calls: [url] and
    [options] name no binding of the script (the page defines no such
    globals), so [fetch(url, options)] throws a [ReferenceError] before
    any request; the [catch] logs it and calls [showErrorToast], which
    the script does not define either, so the promise rejects. *)
Definition loadData : prog (option jval) :=
  p_try
    (p_throw (ReferenceError "url"))
    (λ _, p_throw (ReferenceError "showErrorToast"))
    (mret ()).

(** ** Lemmas on query strings *)

Lemma push_filters_spec base fl :
  push_filters base fl = base ++ (uncurry param <$> List.filter (λ kv, truthy kv.2) fl).
Proof.
  revert base. induction fl as [|[k v] fl IH]; intros base; simpl; [by rewrite app_nil_r|].
  unfold push_filters in *. simpl. rewrite IH. unfold push_if. simpl.
  destruct (truthy v); simpl; [by rewrite <- (assoc_L (++))|done].
Qed.

Lemma avoids_app cs s1 s2 : avoids cs (s1 +:+ s2) = avoids cs s1 && avoids cs s2.
Proof. induction s1 as [|a s1 IH]; simpl; [done|]. by rewrite IH, andb_assoc. Qed.

Lemma avoids_weaken cs cs' s : cs' ⊆ cs → avoids cs s = true → avoids cs' s = true.
Proof.
  intros Hsub. induction s as [|a s IH]; simpl; [done|].
  rewrite !andb_true_iff, !negb_true_iff, !bool_decide_eq_false. intros [Ha Hs].
  split; [set_solver|auto].
Qed.

Lemma split_on_avoids c s : (avoids [c] s = true) → split_on c s = [s].
Proof.
  induction s as [|a s IH]; simpl; [done|].
  rewrite andb_true_iff, negb_true_iff, bool_decide_eq_false. intros [Ha Hs].
  rewrite bool_decide_false by set_solver. by rewrite IH.
Qed.

Lemma split_on_app c s1 s2 :
  (avoids [c] s1 = true) → split_on c (s1 +:+ String c s2) = s1 :: split_on c s2.
Proof.
  induction s1 as [|a s1 IH]; simpl.
  - intros _. by rewrite bool_decide_true.
  - rewrite andb_true_iff, negb_true_iff, bool_decide_eq_false. intros [Ha Hs].
    rewrite bool_decide_false by set_solver. by rewrite IH.
Qed.

Lemma split_concat xs :
  xs ≠ [] → Forall (λ x, (avoids ["&"%char] x = true)) xs → split_on "&" (String.concat "&" xs) = xs.
Proof.
  induction xs as [|x xs IH]; intros Hne Hf; [done|]. inversion Hf as [|? ? Hx Hxs]; subst.
  destruct xs as [|y ys]; simpl; [by apply split_on_avoids|].
  change ("&" +:+ ?r) with (String "&" r).
  rewrite (split_on_app "&" x) by done. f_equal. apply IH; [done|exact Hxs].
Qed.

Lemma break_eq_param k v : (avoids ["="%char] k = true) → break_eq (param k v) = (k, v).
Proof.
  unfold param. induction k as [|a k IH]; simpl.
  - intros _. reflexivity.
  - rewrite andb_true_iff, negb_true_iff, bool_decide_eq_false. intros [Ha Hk].
    rewrite bool_decide_false by set_solver. by rewrite IH.
Qed.

Lemma param_nonempty k v : (param k v === "") = false.
Proof. unfold param. by destruct k. Qed.

Lemma parse_query_q s :
  parse_query ("?" +:+ s) = break_eq <$> List.filter (λ p, negb (p === "")) (split_on "&" s).
Proof. reflexivity. Qed.

(** A pair whose key has no [&] or [=] and whose value has no [&]. *)
Definition splits_back (kv : string * string) : Prop :=
  avoids ["&"; "="]%char kv.1 = true ∧ avoids ["&"%char] kv.2 = true.

Lemma param_safe k v : splits_back (k, v) → avoids ["&"%char] (param k v) = true.
Proof.
  intros [Hk Hv]. unfold param. rewrite !avoids_app. simpl in *.
  rewrite (avoids_weaken ["&"; "="]%char ["&"%char] k), Hv; [done|set_solver|done].
Qed.

Lemma parse_pieces ps :
  Forall splits_back ps →
  break_eq <$> List.filter (λ p, negb (p === "")) (uncurry param <$> ps) = ps.
Proof.
  induction 1 as [|[k v] ps [Hk _] _ IH]; [done|].
  rewrite fmap_cons. cbn [List.filter uncurry]. rewrite param_nonempty. cbn [negb].
  rewrite fmap_cons, IH, break_eq_param; [done|]. eapply avoids_weaken; [|exact Hk]. set_solver.
Qed.

(** Pairs written as a query string split back into the same pairs. *)
Lemma parse_query_string ps :
  Forall splits_back ps →
  parse_query (query_string (uncurry param <$> ps)) = ps.
Proof.
  intros Hps. unfold query_string. rewrite length_fmap.
  destruct ps as [|kv ps]; [done|].
  replace (0 <? length (kv :: ps))%nat with true by done. rewrite parse_query_q.
  rewrite split_concat; [by apply parse_pieces|done|].
  apply Forall_fmap, (Forall_impl _ _ _ Hps). intros [k v] Hkv. by apply param_safe.
Qed.

Lemma concat_avoids cs xs :
  "&"%char ∉ cs → Forall (λ x, avoids cs x = true) xs → avoids cs (String.concat "&" xs) = true.
Proof.
  intros Hamp. induction 1 as [|x xs Hx _ IH]; [done|].
  destruct xs as [|y ys]; [done|].
  change (String.concat "&" (x :: y :: ys)) with (x +:+ "&" +:+ String.concat "&" (y :: ys)).
  rewrite !avoids_app, Hx, IH. simpl.
  by rewrite bool_decide_false.
Qed.

Lemma query_string_avoids cs xs :
  "&"%char ∉ cs → "?"%char ∉ cs → Forall (λ x, avoids cs x = true) xs → avoids cs (query_string xs) = true.
Proof.
  intros Hamp Hq Hxs. unfold query_string. destruct (0 <? length xs)%nat; [|done].
  rewrite avoids_app, concat_avoids by done. simpl. by rewrite bool_decide_false.
Qed.

Lemma before_hash_id s : avoids ["#"%char] s = true → before_hash s = s.
Proof.
  induction s as [|a s IH]; simpl; [done|].
  rewrite andb_true_iff, negb_true_iff, bool_decide_eq_false. intros [Ha Hs].
  rewrite bool_decide_false by set_solver. by rewrite IH.
Qed.

Lemma percent_decode_id s : avoids ["%"; "+"]%char s = true → percent_decode s = s.
Proof.
  induction s as [|a s IH]; simpl; [done|].
  rewrite andb_true_iff, negb_true_iff, bool_decide_eq_false. intros [Ha Hs].
  rewrite !bool_decide_false by set_solver. by rewrite IH.
Qed.

(** A value or key the server reads as written. *)
Definition plain_key (k : string) : Prop := avoids key_seps k = true.
Definition plain_val (v : string) : Prop := avoids val_seps v = true.

Lemma plain_pair_splits k v : plain_key k → plain_val v → splits_back (k, v).
Proof.
  unfold plain_key, plain_val, key_seps, val_seps. intros Hk Hv. split; simpl.
  - eapply avoids_weaken; [|exact Hk]. set_solver.
  - eapply avoids_weaken; [|exact Hv]. set_solver.
Qed.

(** Plain pairs written as a query string reach the server as they were. *)
Lemma server_params_plain ps :
  Forall (λ kv, plain_key kv.1 ∧ plain_val kv.2) ps →
  server_params (query_string (uncurry param <$> ps)) = ps.
Proof.
  intros Hps. unfold server_params. rewrite before_hash_id.
  - rewrite parse_query_string.
    + rewrite <- (list_fmap_id ps) at 2. apply list_fmap_ext. intros i [k v] Hi. simpl.
      eapply Forall_lookup_1 in Hps; [|exact Hi]. destruct Hps as [Hk Hv].
      rewrite !percent_decode_id; [done| |]; eapply avoids_weaken; try eassumption;
        unfold key_seps, val_seps; set_solver.
    + eapply Forall_impl; [exact Hps|]. intros [k v] [Hk Hv]. by apply plain_pair_splits.
  - apply query_string_avoids; [set_solver|set_solver|].
    apply Forall_fmap, (Forall_impl _ _ _ Hps). intros [k v] [Hk Hv]. simpl.
    unfold param. rewrite !avoids_app. simpl.
    rewrite (avoids_weaken key_seps ["#"%char] k), (avoids_weaken val_seps ["#"%char] v); try done;
      unfold key_seps, val_seps; set_solver.
Qed.

Lemma Forall_List_filter {A} (P : A → Prop) (f : A → bool) l :
  Forall P l → Forall P (List.filter f l).
Proof. induction 1 as [|x l Hx _ IH]; simpl; [constructor|]. destruct (f x); auto. Qed.

(** A number printed by [`${n}`] has no separator in it. *)
Lemma pretty_N_go_avoids x s : avoids key_seps s = true → avoids key_seps (pretty_N_go x s) = true.
Proof.
  revert s. induction (N.lt_wf_0 x) as [x _ IH]; intros s Hs.
  destruct (decide (x = 0)%N) as [->|?]; [by rewrite pretty_N_go_0|].
  rewrite pretty_N_go_step by lia. apply IH; [apply N.div_lt; lia|].
  simpl. rewrite Hs, andb_true_r. unfold pretty_N_char. by repeat case_match.
Qed.

Lemma pretty_Z_avoids (z : Z) : avoids key_seps (pretty z) = true.
Proof.
  assert (∀ p, avoids key_seps (pretty (Npos p)) = true) as Hp.
  { intros p. unfold pretty, pretty_N. rewrite decide_False by done. by apply pretty_N_go_avoids. }
  destruct z as [|p|p]; [done|apply Hp|].
  change (pretty (Z.neg p)) with ("-" +:+ pretty (Npos p)). rewrite avoids_app, Hp. done.
Qed.

Lemma pretty_Z_val_safe (z : Z) : avoids val_seps (pretty z) = true.
Proof. apply (avoids_weaken key_seps); [unfold key_seps; set_solver|apply pretty_Z_avoids]. Qed.

Lemma payment_filter_keys f : Forall (λ kv, plain_key kv.1) (payment_filter_list f).
Proof. repeat constructor. Qed.

(** ** Properties of the query strings *)

(** C20 (roundtrip).  What the server reads from the URL of
    [loadPayments]: the page, the page size, then every non-empty filter
    under its key with its value as typed, in source order, provided no
    filter value holds [&], [#], [%] or [+]. *)
Theorem loadPayments_query_roundtrip page limit f :
  Forall (λ kv, plain_val kv.2) (payment_filter_list f) →
  server_params (query_string (payments_params page limit f)) =
    ("page", pretty page) :: ("limit", pretty limit) ::
      List.filter (λ kv, truthy kv.2) (payment_filter_list f).
Proof.
  intros Hf. unfold payments_params. rewrite push_filters_spec.
  change [param "page" (js_string (JNum page)); param "limit" (js_string (JNum limit))]
    with (uncurry param <$> [("page", pretty page); ("limit", pretty limit)]).
  rewrite <- fmap_app. apply server_params_plain.
  do 2 (constructor; [split; [done|apply pretty_Z_val_safe]|]).
  apply Forall_List_filter, Forall_and. split; [apply payment_filter_keys|exact Hf].
Qed.

(** A search text with [&] in it is cut there, and the rest reaches the
    server as parameters of their own; a [+] reads as a space, and a [#]
    ends the URL. *)
Example student_filter_injection :
  server_params (query_string (payments_params 1 20 (mkPaymentFilters "" "" "" "" "Ali&status=paid"))) =
    [("page", "1"); ("limit", "20"); ("student", "Ali"); ("status", "paid")] ∧
  server_params (query_string (payments_params 1 20 (mkPaymentFilters "" "" "" "" "C++"))) =
    [("page", "1"); ("limit", "20"); ("student", "C  ")] ∧
  server_params (query_string (payments_params 1 20 (mkPaymentFilters "late" "" "" "" "#3"))) =
    [("page", "1"); ("limit", "20"); ("status", "late"); ("student", "")].
Proof. split_and!; reflexivity. Qed.

(** ** The teachers pager *)

(** What the user does in the teachers section: a pager button, the
    clear button, or a change of the filter inputs. *)
Inductive teachers_event : Type :=
| TChange (direction : string)
| TClear
| TEdit (f : teacher_filters).

Definition teachers_step (ev : teachers_event) : sprog teachers_listing unit :=
  match ev with
  | TChange d => changeTeachersPage d
  | TClear => clearTeacherFilters
  | TEdit f => s_modify (λ st, mkTeachersListing (currentTeachersPage st) (totalTeachersPages st)
                                                  (teachersPerPage st) f)
  end.

Inductive teachers_reachable (f0 : teacher_filters) : teachers_listing → Prop :=
| t_init : teachers_reachable f0 (initial_teachers f0)
| t_step st ev net : teachers_reachable f0 st → teachers_reachable f0 (teachers_step ev st net).1.2.

Lemma change_page_first_of_one d : change_page d 1 (JNum 1) = None.
Proof. unfold change_page. by destruct (d === "next"), (d === "prev"). Qed.

(** The teachers pager never moves: in every state the
    section reaches, the page is 1 of 1, and a click on either pager
    button does nothing (no state change, no reload). *)
Theorem teachers_pager_inert f0 st :
  teachers_reachable f0 st →
  currentTeachersPage st = 1%Z ∧ totalTeachersPages st = JNum 1 ∧
  ∀ d net, changeTeachersPage d st net = ([], st, Ret tt).
Proof.
  assert (∀ st : teachers_listing, currentTeachersPage st = 1%Z → totalTeachersPages st = JNum 1 →
          ∀ d net, changeTeachersPage d st net = ([], st, Ret tt)) as Hinert.
  { intros [p t n f] Hp Ht d net. simpl in *. subst. unfold changeTeachersPage. rewrite srun_bind.
    simpl. by rewrite change_page_first_of_one. }
  induction 1 as [|st ev net _ (Hp & Ht & _)]; [by split_and!; [..|apply Hinert]|].
  assert (currentTeachersPage (teachers_step ev st net).1.2 = 1%Z ∧
          totalTeachersPages (teachers_step ev st net).1.2 = JNum 1) as [Hp' Ht'].
  { destruct ev as [d| |f]; [|done|done]. unfold teachers_step. by rewrite Hinert. }
  split_and!; [done|done|]. by apply Hinert.
Qed.

(** [clearTeacherFilters] resets the page and three of
    the filters but keeps the class filter: the reload it starts still
    asks for that class only. *)
Theorem clearTeacherFilters_keeps_class authToken st net :
  let r := clearTeacherFilters st net in
  let c := teacherClassFilter (teacherFilters st) in
  r.1.1 = [ELoad LoadTeacherCommissions] ∧ currentTeachersPage r.1.2 = 1%Z ∧ r.2 = Ret tt ∧
  teachers_request authToken r.1.2 =
    api_get authToken ("/accounting/teacher-commissions-by-class" +:+
                       (if truthy c then "?class=" +:+ c else "")).
Proof.
  simpl. split_and!; [done..|]. unfold teachers_request, teachers_params, push_filters. simpl.
  unfold push_if. simpl. by destruct (truthy _).
Qed.

(** Had the first declaration stayed in force, in every state the
    section reaches the reset would differ only in the class filter: the
    same reload, and the page is already 1 (the pager never moves). *)
Theorem clearTeacherFilters_declarations f0 st net :
  teachers_reachable f0 st →
  let r1 := clearTeacherFilters_first st net in
  let r2 := clearTeacherFilters st net in
  r1.1.1 = r2.1.1 ∧ r1.2 = r2.2 ∧
  r1.1.2 = mkTeachersListing (currentTeachersPage r2.1.2) (totalTeachersPages r2.1.2)
             (teachersPerPage r2.1.2) (mkTeacherFilters "" "" "" "").
Proof.
  intros Hr. destruct (teachers_pager_inert f0 st Hr) as (Hp & _ & _).
  destruct st as [p t n f]. cbn in Hp |- *. by subst.
Qed.

(** [loadData] sends nothing and always rejects, from inside its own
    [catch]. *)
Theorem loadData_rejects net : loadData net = ([], Throw (ReferenceError "showErrorToast")).
Proof. reflexivity. Qed.

(** ** The payments pager *)

Section PaymentsPager.
Variable toLocaleString : jval → string.
Variable toLocaleDateString : jval → string.

(** Whatever the network answers, [loadPayments] sends the one request of
    its state, returns normally, and keeps the page and the filters. *)
Lemma loadPayments_run authToken st net :
  let r := loadPayments toLocaleString toLocaleDateString authToken st net in
  requests_of r.1.1 = [payments_request authToken st] ∧ r.2 = Ret tt ∧
  currentPaymentsPage r.1.2 = currentPaymentsPage st ∧ paymentFilters r.1.2 = paymentFilters st.
Proof.
  unfold loadPayments, s_try, mbind, sprog_bind, mret, sprog_ret. simpl.
  destruct (net (payments_request authToken st)) as [resp|e]; simpl; [|done].
  destruct (resp_ok resp); simpl; [|done].
  destruct (await_json resp) as [data|e]; simpl; [|done].
  repeat case_match; simplify_eq/=; split_and!; try done; by destruct select ().
Qed.

Lemma change_page_cases d cur total p :
  change_page d cur total = Some p →
  (p = cur + 1 ∧ js_lt cur total = true)%Z ∨ (p = cur - 1 ∧ 1 < cur)%Z.
Proof.
  unfold change_page. destruct (d === "next"), (js_lt cur total) eqn:Hlt; simpl;
    try (intros; simplify_eq; by left);
    destruct (d === "prev"), (1 <? cur)%Z eqn:H1; simpl; intros; simplify_eq; right; lia.
Qed.

(** One click on a pager button: nothing at all when the [if] returns,
    otherwise the page moves and exactly the request of the new page is
    sent. *)
Lemma changePaymentsPage_run authToken d st net :
  let r := changePaymentsPage toLocaleString toLocaleDateString authToken d st net in
  match change_page d (currentPaymentsPage st) (totalPaymentsPages st) with
  | None => r = ([], st, Ret tt)
  | Some p => requests_of r.1.1 = [payments_request authToken (set_page p st)] ∧
              currentPaymentsPage r.1.2 = p ∧ r.2 = Ret tt
  end.
Proof.
  unfold changePaymentsPage. rewrite srun_bind. simpl.
  destruct (change_page _ _ _) as [p|]; [|done]. rewrite srun_bind. cbn -[loadPayments].
  destruct (loadPayments_run authToken (set_page p st) net) as (Hq & Ho & Hp & _).
  destruct (loadPayments _ _ _ _ _) as [[es st'] o]. simpl in *. by subst.
Qed.

(** What the user does in the payments section: a pager button, the
    clear button, a change of the filters, or a reload (the search box,
    a click on the section's link). *)
Inductive payments_event : Type :=
| PChange (direction : string)
| PClear
| PEdit (f : payment_filters)
| PLoad.

Definition payments_step (authToken : option string) (ev : payments_event) : sprog listing unit :=
  match ev with
  | PChange d => changePaymentsPage toLocaleString toLocaleDateString authToken d
  | PClear => clearPaymentFilters toLocaleString toLocaleDateString authToken
  | PEdit f => s_modify (set_filters f)
  | PLoad => loadPayments toLocaleString toLocaleDateString authToken
  end.

Inductive payments_reachable (authToken : option string) (st0 : listing) : listing → Prop :=
| p_init : payments_reachable authToken st0 st0
| p_step st ev net : payments_reachable authToken st0 st →
    payments_reachable authToken st0 (payments_step authToken ev st net).1.2.

Lemma payments_step_page authToken ev st net :
  (1 <= currentPaymentsPage st)%Z →
  (1 <= currentPaymentsPage (payments_step authToken ev st net).1.2)%Z ∧
  Forall (λ q, ∃ st', q = payments_request authToken st' ∧ (1 <= currentPaymentsPage st')%Z)
         (requests_of (payments_step authToken ev st net).1.1).
Proof.
  intros H1. destruct ev as [d| |f|]; unfold payments_step.
  - pose proof (changePaymentsPage_run authToken d st net) as Hr.
    destruct (change_page _ _ _) as [p|] eqn:Hc.
    + destruct Hr as (-> & -> & _). apply change_page_cases in Hc. split; [lia|].
      repeat constructor. eexists; split; [done|]. simpl. lia.
    + rewrite Hr. simpl. by split.
  - unfold clearPaymentFilters. rewrite !srun_modify.
    destruct (loadPayments_run authToken (set_page 1 (set_filters (mkPaymentFilters "" "" "" "" "") st)) net)
      as (Hq & _ & Hp & _).
    destruct (loadPayments _ _ _ _ _) as [[es st'] o]. simpl in *. rewrite Hq, Hp.
    split; [done|]. repeat constructor. eexists; split; [done|]. simpl. lia.
  - by split.
  - destruct (loadPayments_run authToken st net) as (Hq & _ & Hp & _). rewrite Hq, Hp.
    split; [done|]. repeat constructor. by eexists.
Qed.

(** C9 (invariant).  However the user pages, clears, edits the filters
    and reloads, the payments page never drops below 1, and every request
    the section sends asks for a page of at least 1. *)
Theorem payments_page_positive authToken st0 st :
  (1 <= currentPaymentsPage st0)%Z → payments_reachable authToken st0 st →
  (1 <= currentPaymentsPage st)%Z ∧
  ∀ ev net, Forall (λ q, ∃ st', q = payments_request authToken st' ∧ (1 <= currentPaymentsPage st')%Z)
                   (requests_of (payments_step authToken ev st net).1.1).
Proof.
  intros H0. induction 1 as [|st ev net _ [IH _]].
  - split; [done|]. intros ev net. by apply payments_step_page.
  - split; [by apply payments_step_page|]. intros ev' net'. apply payments_step_page, payments_step_page, IH.
Qed.
End PaymentsPager.

(** ** The payments table *)

Section TableProofs.
Variable toLocaleString : jval → string.
Variable toLocaleDateString : jval → string.

(** A payment the row template renders without exception: not [null],
    with an amount. *)
Definition payment_ok (p : jval) : bool :=
  match p with
  | JNull => false
  | _ => match jget "amount" p with None | Some JNull => false | Some _ => true end
  end.

Lemma payment_row_ok p :
  payment_ok p = true →
  ∃ r, payment_row toLocaleString toLocaleDateString p = Ret r ∧
       pr_id r = js_template (jget "_id" p) ∧ pr_pay r = negb (js_is (jget "status" p) "paid") ∧
       pr_badge r = status_badge (jget "status" p).
Proof.
  unfold payment_ok, payment_row, amount_text. intros Hp.
  destruct p; cbn -[jget] in *; try discriminate; destruct (jget "amount" _) as [[]|]; try discriminate; by eexists.
Qed.

Lemma payment_row_bad p :
  payment_ok p = false → ∃ e, payment_row toLocaleString toLocaleDateString p = Throw e.
Proof.
  unfold payment_ok, payment_row, amount_text. intros Hp.
  destruct p; cbn -[jget] in *; try (by eexists); destruct (jget "amount" _) as [[]|]; try discriminate; by eexists.
Qed.

Lemma payment_row_fields p r :
  payment_row toLocaleString toLocaleDateString p = Ret r →
  pr_id r = js_template (jget "_id" p) ∧ pr_badge r = status_badge (jget "status" p) ∧
  pr_pay r = negb (js_is (jget "status" p) "paid").
Proof.
  unfold payment_row. destruct p; simpl; try (by intros [= <-]);
    destruct (amount_text _ _); simpl; by intros [= <-].
Qed.

Lemma rows_fields ps rows :
  Forall2 (λ p r, payment_row toLocaleString toLocaleDateString p = Ret r) ps rows →
  pr_id <$> rows = (λ p, js_template (jget "_id" p)) <$> ps ∧
  pr_badge <$> rows = (λ p, status_badge (jget "status" p)) <$> ps ∧
  pr_pay <$> rows = (λ p, negb (js_is (jget "status" p) "paid")) <$> ps.
Proof.
  induction 1 as [|p r ps rs Hr _ (IH1 & IH2 & IH3)]; [done|].
  rewrite !fmap_cons. destruct (payment_row_fields p r Hr) as (-> & -> & ->). by rewrite IH1, IH2, IH3.
Qed.

Lemma payment_rows_all ps :
  Forall (λ p, payment_ok p = true) ps →
  ∃ rows, payment_rows toLocaleString toLocaleDateString ps = (rows, Ret tt) ∧
          Forall2 (λ p r, payment_row toLocaleString toLocaleDateString p = Ret r) ps rows.
Proof.
  induction 1 as [|p ps Hp _ (rows & Hrows & H2)]; [by exists []|].
  destruct (payment_row_ok p Hp) as (r & Hr & _). exists (r :: rows). simpl. rewrite Hr, Hrows. auto.
Qed.

Lemma payment_rows_stop pre p post :
  Forall (λ p, payment_ok p = true) pre → payment_ok p = false →
  ∃ e, payment_rows toLocaleString toLocaleDateString (pre ++ p :: post) =
         ((payment_rows toLocaleString toLocaleDateString pre).1, Throw e).
Proof.
  intros Hpre Hp. destruct (payment_row_bad p Hp) as [e He]. exists e.
  induction Hpre as [|q pre Hq _ IH]; simpl; [by rewrite He|].
  destruct (payment_row_ok q Hq) as (r & Hr & _). rewrite Hr. simpl. by rewrite IH.
Qed.

(** A non-empty array of payments that all have an
    amount is rendered as one row per payment, in order, with the
    payment's id, the badge of its status, and the [تسديد] button exactly
    when its status is not [paid]; the footer is shown and nothing is
    thrown. *)
Theorem renderPayments_rows ps v :
  ps ≠ [] → Forall (λ p, payment_ok p = true) ps →
  ∃ rows, renderPayments toLocaleString toLocaleDateString (JArr ps) v =
            (mkPaymentsView (PRows rows) true, Ret tt) ∧
          pr_id <$> rows = (λ p, js_template (jget "_id" p)) <$> ps ∧
          pr_badge <$> rows = (λ p, status_badge (jget "status" p)) <$> ps ∧
          pr_pay <$> rows = (λ p, negb (js_is (jget "status" p) "paid")) <$> ps.
Proof.
  intros Hne Hok. destruct (payment_rows_all ps Hok) as (rows & Hrows & H2).
  exists rows. unfold renderPayments. destruct ps as [|p ps']; [done|]. cbn -[payment_rows].
  rewrite Hrows. simpl. split; [done|]. exact (rows_fields _ _ H2).
Qed.

(** A payment without an amount, or a [null] element, stops the
    rendering there: the rows before it stay, the footer is left as it
    was, and the exception reaches [loadPayments], which skips the page
    count update. *)
Theorem renderPayments_stops pre p post v :
  Forall (λ p, payment_ok p = true) pre → payment_ok p = false →
  ∃ rows e, renderPayments toLocaleString toLocaleDateString (JArr (pre ++ p :: post)) v =
              (mkPaymentsView (PRows rows) (pv_footer v), Throw e) ∧ length rows = length pre.
Proof.
  intros Hpre Hp. destruct (payment_rows_stop pre p post Hpre Hp) as [e He].
  destruct (payment_rows_all pre Hpre) as (rows & Hrows & H2).
  exists rows, e. unfold renderPayments. destruct (pre ++ p :: post) as [|x l] eqn:E.
  { by destruct pre. }
  cbn -[payment_rows]. rewrite He, Hrows. simpl. split; [done|].
  by rewrite (Forall2_length _ _ _ H2).
Qed.
End TableProofs.

(** ** Concrete runs *)

(** Locale formatting as plain [String(v)]. *)
Definition plain_text : jval → string := js_string.

Definition ex_pfilters : payment_filters := mkPaymentFilters "pending" "2024-05" "" "" "".
Definition ex_listing : listing := mkListing 2 (JNum 3) 20 ex_pfilters (mkPaymentsView PNotice false) "".

(** A server that always answers with an empty page out of one. *)
Definition ex_net_pay : network := λ _,
  Fulfilled (mkResponse 200 (Some (JObj [("payments", JArr []); ("totalPages", JNum 1)]))).

Lemma loadPayments_query_roundtrip_witness :
  Forall (λ kv, avoids val_seps kv.2 = true) (payment_filter_list ex_pfilters) ∧
  parse_query (query_string (payments_params 2 20 ex_pfilters)) =
    [("page", "2"); ("limit", "20"); ("status", "pending"); ("month", "2024-05")].
Proof.
  assert (Forall (λ kv, avoids val_seps kv.2 = true) (payment_filter_list ex_pfilters)) as H
    by repeat constructor.
  split; [exact H|]. exact (loadPayments_query_roundtrip 2 20 ex_pfilters H).
Defined.

Definition ex_tfilters : teacher_filters := mkTeacherFilters "64f1a0" "" "" "65aa01".

Lemma teachers_pager_inert_witness :
  let st := (teachers_step (TChange "next") (initial_teachers ex_tfilters) ex_net_pay).1.2 in
  teachers_reachable ex_tfilters st ∧ currentTeachersPage st = 1%Z.
Proof.
  assert (teachers_reachable ex_tfilters
            (teachers_step (TChange "next") (initial_teachers ex_tfilters) ex_net_pay).1.2) as H
    by (apply t_step, t_init).
  split; [exact H|]. exact (proj1 (teachers_pager_inert _ _ H)).
Defined.

(** The class filter survives the clear button. *)
Example clear_keeps_class :
  (teachers_request (Some "tok") (clearTeacherFilters (initial_teachers ex_tfilters) ex_net_pay).1.2).(rq_url) =
    "/api/accounting/teacher-commissions-by-class?class=65aa01".
Proof. reflexivity. Qed.

Lemma payments_page_positive_witness :
  let st := (payments_step plain_text plain_text (Some "tok") (PChange "next") ex_listing ex_net_pay).1.2 in
  (1 <= currentPaymentsPage ex_listing)%Z ∧ payments_reachable plain_text plain_text (Some "tok") ex_listing st ∧
  (1 <= currentPaymentsPage st)%Z.
Proof.
  assert ((1 <= currentPaymentsPage ex_listing)%Z) as H0 by (simpl; lia).
  assert (payments_reachable plain_text plain_text (Some "tok") ex_listing
            (payments_step plain_text plain_text (Some "tok") (PChange "next") ex_listing ex_net_pay).1.2) as H
    by (apply p_step, p_init).
  split; [exact H0|]. split; [exact H|].
  exact (proj1 (payments_page_positive plain_text plain_text _ _ _ H0 H)).
Defined.

(** A reload that reports fewer pages leaves the page past the last one:
    on page 2 of 3, the server now answers one page, and the pager reads
    "page 2 of 1"; "next" then does nothing and "prev" goes back to 1. *)
Example page_beyond_total :
  let st := (payments_step plain_text plain_text (Some "tok") PLoad ex_listing ex_net_pay).1.2 in
  currentPaymentsPage st = 2%Z ∧ totalPaymentsPages st = JNum 1 ∧
  paymentsPageInfo st = "الصفحة 2 من 1" ∧
  change_page "next" (currentPaymentsPage st) (totalPaymentsPages st) = None ∧
  change_page "prev" (currentPaymentsPage st) (totalPaymentsPages st) = Some 1%Z.
Proof. split_and!; reflexivity. Qed.

Definition ex_pay1 : jval :=
  JObj [("_id", JStr "p1"); ("status", JStr "pending"); ("amount", JNum 1500); ("paymentMethod", JStr "cash")].
Definition ex_pay2 : jval :=
  JObj [("_id", JStr "p2"); ("status", JStr "paid"); ("amount", JNum 2000); ("paymentMethod", JStr "constructor")].

Lemma renderPayments_rows_witness :
  Forall (λ p, payment_ok p = true) [ex_pay1; ex_pay2] ∧
  ∃ rows, renderPayments plain_text plain_text (JArr [ex_pay1; ex_pay2]) (mkPaymentsView PNotice false) =
            (mkPaymentsView (PRows rows) true, Ret tt) ∧
          pr_pay <$> rows = [true; false].
Proof.
  assert (Forall (λ p, payment_ok p = true) [ex_pay1; ex_pay2]) as H by repeat constructor.
  split; [exact H|].
  destruct (renderPayments_rows plain_text plain_text [ex_pay1; ex_pay2] (mkPaymentsView PNotice false)
              ltac:(done) H) as (rows & Hr & _ & _ & Hpay).
  exists rows. split; [exact Hr|]. rewrite Hpay. reflexivity.
Defined.

(** The method cell of a payment whose method is [constructor] shows the
    source text of [Object]. *)
Example method_constructor :
  tmpl_value (getPaymentMethodName (Some (JStr "constructor"))) = "function Object() { [native code] }".
Proof. reflexivity. Qed.

(** [length] counts UTF-16 code units: seven Arabic letters (two bytes
    each) count 7, and an emoji outside the Basic Multilingual Plane
    (four bytes) counts 2. *)
Example js_length_strings :
  js_length (JStr "مدفوعات") = Ret (Some (JNum 7)) ∧ js_length (JStr "a😀") = Ret (Some (JNum 3)).
Proof. split; reflexivity. Qed.
