(* ===== verification/CommissionsLoad.v ===== *)
(** * Loading the server-grouped commissions

    [loadTeacherCommissions()] (lines 1252-1285) sends the filters, parses
    the answer and hands it to [renderTeacherCommissionsByClass] (lines
    1109-1196).  [Commissions.v] models that renderer on typed records;
    this file models the renderer on the parsed JSON value itself, reading
    the fields in the order the code reads them, and the loader around it.

    - [decode_ref], [decode_commission] read a populated reference and a
      commission the way the template and the [filter]/[reduce] calls read
      them; a commission whose [amount] is not a number is outside the
      typed records ([sum + c.amount] then concatenates strings or gives
      [NaN]), and the decoder answers [None] for it;
    - [card_json] and [render_response] are the renderer on JSON: the
      placeholder test, the [forEach], and the [TypeError]s of a missing
      [commissions] array or a [null] commission;
    - [loadTeacherCommissions] is the handler: overlay, request, [json()],
      render, and the [catch] that alerts.

    The theorems show that on every answer the typed records represent
    (the image of the encoders [encode_group]) the JSON renderer is the
    typed one, and what the loader leaves in the container on every
    answer of the network. *)

From Stdlib Require Import ZArith.
From stdpp Require Import base list strings.
From S2P Require Import Prelude Fetch Prog Commissions Listing.

Local Open Scope string_scope.
Local Open Scope acc_scope.
Local Open Scope list_scope.

(** ** Reading the answer *)

(** [x.teacher] read through [`${x.teacher._id}`] and
    [`${x.teacher.name}`]: [null] and [undefined] are the references the
    renderer throws on; any other value reads its two fields, [undefined]
    printing as ["undefined"]. *)
Definition decode_ref (o : option jval) : option ref :=
  match o with
  | None | Some JNull => None
  | Some v => Some (mkRef (js_template (jget "_id" v)) (js_template (jget "name" v)))
  end.

(** [c.status === 'pending'] and [c.status === 'paid'] hold of a string
    only: a status that is not a string reads as [""], which is neither. *)
Definition status_of (o : option jval) : string :=
  match o with Some (JStr s) => s | _ => "" end.

(** A commission as lines 1126-1164 read it: [status] for the filters,
    [amount] for the sums, [student] for the lines.  The percentage is
    only printed, and the card keeps no printed text of it. *)
Definition decode_commission (v : jval) : option commission :=
  match jget "amount" v with
  | Some (JNum a) =>
      Some (mkCommission (js_template (jget "_id" v))
              (decode_ref (jget "teacher" v)) (decode_ref (jget "student" v))
              (decode_ref (jget "class" v)) (js_template (jget "month" v)) a
              (match jget "percentage" v with Some (JNum p) => p | _ => 0%Z end)
              (status_of (jget "status" v)))
  | _ => None
  end.

Definition is_null (v : jval) : bool := match v with JNull => true | _ => false end.

(** [classCommission.commissions.filter(c => c.status === ...)] (line
    1126): [classCommission] itself may be [null]; a value that is not an
    array has no [filter]; a [null] element has no [status]. *)
Definition commissions_of (g : jval) : jsres (list jval) :=
  cs ← js_get "commissions" (Some g);
  match cs with
  | Some (JArr l) => if existsb is_null l then Throw (TypeError "c.status") else Ret l
  | _ => Throw (TypeError "classCommission.commissions.filter")
  end.

(** One iteration of [commissionsByClass.forEach] (lines 1118-1195):
    the card of the typed group the element reads as, [None] when a
    commission of it is outside the typed records. *)
Definition card_json (g : jval) : option (jsres card) :=
  match commissions_of g with
  | Throw e => Some (Throw e)
  | Ret l =>
      (λ cs, card_of_class (mkClassGroup (decode_ref (jget "teacher" g)) (decode_ref (jget "class" g))
                              (js_template (jget "month" g)) cs)) <$> mapM decode_commission l
  end.

(** The cards appended one after the other until one throws. *)
Fixpoint append_json (l : list jval) : option (list node * option exn) :=
  match l with
  | [] => Some ([], None)
  | g :: l' =>
      match card_json g with
      | None => None
      | Some (Throw e) => Some ([], Some e)
      | Some (Ret c) => (λ r, (CardNode c :: r.1, r.2)) <$> append_json l'
      end
  end.

(** [commissionsByClass.length === 0]: an array without elements, or an
    object whose [length] field is the number [0]; the [length] of a
    non-empty string is not [0], and a number or a boolean has none. *)
Definition length_is_zero (v : jval) : bool :=
  match v with
  | JArr [] => true
  | JObj _ => match jget "length" v with Some (JNum 0) => true | _ => false end
  | _ => false
  end.

(** [renderTeacherCommissionsByClass(commissionsByClass)] on the parsed
    answer (lines 1109-1196): the container's children and the exception
    the call ends with; [None] when a commission is outside the typed
    records. *)
Definition render_response (v : jval) : option (list node * option exn) :=
  if negb (js_truthy (Some v)) || length_is_zero v then Some ([NoCommissionsNode], None)
  else match v with
       | JArr l => append_json l
       | _ => Some ([], Some (TypeError "commissionsByClass.forEach"))
       end.

(** ** The loader *)

(** The alert of the [catch] (line 1281). *)
Definition load_commissions_failed : string := "حدث خطأ أثناء تحميل بيانات العمولات".

Section Loader.
(** What the renderer does with an answer outside the typed records; the
    model leaves it open. *)
Variable render_other : jval → list node * option exn.

(** The renderer as a step on the container. *)
Definition s_renderByClass (commissionsByClass : jval) : sprog (list node) unit := λ _ _,
  let r := default (render_other commissionsByClass) (render_response commissionsByClass) in
  ([], r.1, match r.2 with None => Ret tt | Some e => Throw e end).

(** [loadTeacherCommissions()] (lines 1252-1285) with the filter inputs
    of [st]: a failed request, a body that is not JSON and an exception
    of the renderer all end in the alert; [console.error] is not
    modelled. *)
Definition loadTeacherCommissions (authToken : option string) (st : teachers_listing)
    : sprog (list node) unit :=
  s_lift showLoading ;;
  s_try
    (response ← s_lift (p_fetch (teachers_request authToken st));
     if resp_ok response then
       commissionsByClass ← s_lift (p_json response);
       s_renderByClass commissionsByClass
     else mret ())
    (λ _, s_lift (p_alert load_commissions_failed))
    (s_lift hideLoading).
End Loader.

(** ** The answers the typed records represent *)

Definition encode_ref (o : option ref) : jval :=
  match o with
  | None => JNull
  | Some r => JObj [("_id", JStr (r_id r)); ("name", JStr (r_name r))]
  end.

Definition encode_commission (c : commission) : jval :=
  JObj [("_id", JStr (c_id c)); ("teacher", encode_ref (c_teacher c));
        ("student", encode_ref (c_student c)); ("class", encode_ref (c_class c));
        ("month", JStr (c_month c)); ("amount", JNum (c_amount c));
        ("percentage", JNum (c_percentage c)); ("status", JStr (c_status c))].

Definition encode_group (g : class_group) : jval :=
  JObj [("teacher", encode_ref (sg_teacher g)); ("class", encode_ref (sg_class g));
        ("month", JStr (sg_month g));
        ("commissions", JArr (encode_commission <$> sg_commissions g))].

(** ** Decoding the encoded records *)

Lemma decode_encode_ref o : decode_ref (Some (encode_ref o)) = o.
Proof. by destruct o as [[i n]|]. Qed.

Lemma decode_encode_commission c : decode_commission (encode_commission c) = Some c.
Proof.
  destruct c as [i t s cl m a p st]. unfold decode_commission, encode_commission. cbn -[decode_ref encode_ref].
  by rewrite !decode_encode_ref.
Qed.

Lemma mapM_decode_encode cs : mapM decode_commission (encode_commission <$> cs) = Some cs.
Proof.
  induction cs as [|c cs IH]; [done|]. cbn [fmap list_fmap mapM].
  by rewrite decode_encode_commission, IH.
Qed.

Lemma commissions_of_encode g :
  commissions_of (encode_group g) = Ret (encode_commission <$> sg_commissions g).
Proof.
  unfold commissions_of. cbn.
  assert (existsb is_null (encode_commission <$> sg_commissions g) = false) as ->; [|done].
  by induction (sg_commissions g).
Qed.

#[local] Hint Rewrite decode_encode_ref decode_encode_commission mapM_decode_encode
  commissions_of_encode : acc_rw.

Lemma card_json_encode g : card_json (encode_group g) = Some (card_of_class g).
Proof.
  unfold card_json. autorewrite with acc_rw. cbn -[decode_ref encode_ref]. rewrite !decode_encode_ref.
  by destruct g.
Qed.

Lemma append_json_encode l :
  append_json (encode_group <$> l) = Some (append_cards card_of_class l).
Proof.
  induction l as [|g l IH]; [done|]. cbn [fmap list_fmap append_json append_cards].
  rewrite card_json_encode. destruct (card_of_class g); [|done]. by rewrite IH.
Qed.

(** On every answer the typed records represent, the
    renderer read on the parsed JSON is the typed renderer of
    [Commissions.v]: the same cards, in the same order, and the same
    exception, also for an empty list (the placeholder). *)
Theorem render_response_encode l :
  render_response (JArr (encode_group <$> l)) = Some (renderTeacherCommissionsByClass (Some l)).
Proof. destruct l as [|g l]; [done|]. apply append_json_encode. Qed.

(** ** Runs of the loader *)

Section LoaderProofs.
Variable render_other : jval → list node * option exn.

(** The alert the [catch] adds after an exception. *)
Definition alert_if (o : option exn) : list effect :=
  match o with Some _ => [EAlert load_commissions_failed] | None => [] end.

(** [loadTeacherCommissions] on every answer of the network: one request
    under the overlay; the container is rewritten only on a 2xx JSON
    answer; a failed request and a body that is not JSON alert and keep
    the old cards. *)
Lemma loadTeacherCommissions_run tok st cont net :
  let q := teachers_request tok st in
  loadTeacherCommissions render_other tok st cont net =
    match net q with
    | Fulfilled r =>
        if resp_ok r then
          match rbody r with
          | Some v =>
              let x := default (render_other v) (render_response v) in
              ([ELoading true; EFetch q] ++ alert_if x.2 ++ [ELoading false], x.1, Ret tt)
          | None => ([ELoading true; EFetch q; EAlert load_commissions_failed; ELoading false], cont, Ret tt)
          end
        else ([ELoading true; EFetch q; ELoading false], cont, Ret tt)
    | Rejected _ => ([ELoading true; EFetch q; EAlert load_commissions_failed; ELoading false], cont, Ret tt)
    end.
Proof.
  cbv zeta. unfold loadTeacherCommissions, s_try, mbind, sprog_bind, mret, sprog_ret.
  cbn -[s_renderByClass render_response].
  destruct (net _) as [r|e]; cbn -[s_renderByClass render_response]; [|done].
  destruct (resp_ok r); cbn -[s_renderByClass render_response]; [|done].
  unfold await_json. destruct (rbody r) as [v|]; cbn -[render_response]; [|done].
  by destruct (default _ _) as [ns [e|]].
Qed.

(** C25 (functional).  [loadTeacherCommissions] composed with the
    renderer: on a 2xx answer carrying groups of commissions, the
    container holds exactly the cards the typed renderer builds for them,
    the overlay opens and closes around the one request, and the alert is
    shown exactly when a card threw (a missing teacher, class or
    student). *)
Theorem loadTeacherCommissions_cards tok st cont net r l :
  net (teachers_request tok st) = Fulfilled r →
  resp_ok r = true →
  rbody r = Some (JArr (encode_group <$> l)) →
  let cards := renderTeacherCommissionsByClass (Some l) in
  loadTeacherCommissions render_other tok st cont net =
    ([ELoading true; EFetch (teachers_request tok st)] ++ alert_if cards.2 ++ [ELoading false],
     cards.1, Ret tt).
Proof.
  intros Hnet Hok Hbody. cbv zeta. rewrite loadTeacherCommissions_run. cbv zeta.
  by rewrite Hnet, Hok, Hbody, render_response_encode.
Qed.

(** C31 (error).  The failures of [loadTeacherCommissions]: a rejected
    request or a 2xx body that is not JSON shows the alert and leaves the
    old cards; a non-2xx answer shows nothing at all and leaves the old
    cards, although the client is meant to report every non-2xx answer;
    a 2xx answer that is truthy but neither an array nor an object with
    [length: 0] empties the container and shows the alert. *)
Theorem loadTeacherCommissions_failures tok st cont net :
  let q := teachers_request tok st in
  (∀ e, net q = Rejected e →
     loadTeacherCommissions render_other tok st cont net =
       ([ELoading true; EFetch q; EAlert load_commissions_failed; ELoading false], cont, Ret tt)) ∧
  (∀ r, net q = Fulfilled r → resp_ok r = false →
     loadTeacherCommissions render_other tok st cont net =
       ([ELoading true; EFetch q; ELoading false], cont, Ret tt)) ∧
  (∀ r, net q = Fulfilled r → resp_ok r = true → rbody r = None →
     loadTeacherCommissions render_other tok st cont net =
       ([ELoading true; EFetch q; EAlert load_commissions_failed; ELoading false], cont, Ret tt)) ∧
  (∀ r v, net q = Fulfilled r → resp_ok r = true → rbody r = Some v →
     js_truthy (Some v) = true → length_is_zero v = false → (∀ l, v ≠ JArr l) →
     loadTeacherCommissions render_other tok st cont net =
       ([ELoading true; EFetch q; EAlert load_commissions_failed; ELoading false], [], Ret tt)).
Proof.
  cbv zeta. split_and!.
  - intros e He. rewrite loadTeacherCommissions_run. by rewrite He.
  - intros r Hr Hok. rewrite loadTeacherCommissions_run. by rewrite Hr, Hok.
  - intros r Hr Hok Hb. rewrite loadTeacherCommissions_run. by rewrite Hr, Hok, Hb.
  - intros r v Hr Hok Hb Ht Hz Hv. rewrite loadTeacherCommissions_run. rewrite Hr, Hok, Hb.
    unfold render_response. rewrite Ht, Hz. destruct v; try done. by destruct (Hv l).
Qed.
End LoaderProofs.

(** ** Concrete runs *)

Definition ex_teachers : teachers_listing := initial_teachers (mkTeacherFilters "64f1a0" "2024-05" "" "").

Definition ex_net_body (code : Z) (body : jval) : network := λ _, Fulfilled (mkResponse code (Some body)).

Definition ex_no_render : jval → list node * option exn := λ _, ([], None).

Lemma loadTeacherCommissions_cards_witness :
  let r := mkResponse 200 (Some (JArr (encode_group <$> [ex_class_ok; ex_class_bad]))) in
  ex_net_body 200 (JArr (encode_group <$> [ex_class_ok; ex_class_bad])) (teachers_request (Some "tok") ex_teachers) = Fulfilled r ∧
  resp_ok r = true ∧
  loadTeacherCommissions ex_no_render (Some "tok") ex_teachers [] (ex_net_body 200 (JArr (encode_group <$> [ex_class_ok; ex_class_bad]))) =
    ([ELoading true; EFetch (teachers_request (Some "tok") ex_teachers)] ++
       alert_if (renderTeacherCommissionsByClass (Some [ex_class_ok; ex_class_bad])).2 ++ [ELoading false],
     (renderTeacherCommissionsByClass (Some [ex_class_ok; ex_class_bad])).1, Ret tt).
Proof.
  cbv zeta. split_and!; [reflexivity|reflexivity|].
  apply (loadTeacherCommissions_cards ex_no_render _ _ _ _ (mkResponse 200 (Some (JArr (encode_group <$> [ex_class_ok; ex_class_bad]))))); reflexivity.
Defined.

Lemma loadTeacherCommissions_failures_witness :
  let v := JObj [("message", JStr "ok")] in
  loadTeacherCommissions ex_no_render None ex_teachers [NoCommissionsNode] (ex_net_body 200 v) =
    ([ELoading true; EFetch (teachers_request None ex_teachers); EAlert load_commissions_failed; ELoading false], [], Ret tt).
Proof.
  cbv zeta.
  apply (proj2 (proj2 (proj2 (loadTeacherCommissions_failures ex_no_render None ex_teachers [NoCommissionsNode]
                         (ex_net_body 200 (JObj [("message", JStr "ok")])))))
           (mkResponse 200 (Some (JObj [("message", JStr "ok")]))) (JObj [("message", JStr "ok")]));
    try reflexivity.
  intros l; discriminate.
Defined.

(** The second group has no teacher: its card throws after the first
    card is in place, and the [catch] alerts. *)
Example one_card_then_alert :
  let r := loadTeacherCommissions ex_no_render None ex_teachers []
             (ex_net_body 200 (JArr (encode_group <$> [ex_class_ok; ex_class_bad]))) in
  length r.1.2 = 1%nat ∧ EAlert load_commissions_failed ∈ r.1.1.
Proof. vm_compute. split; [reflexivity|]. repeat constructor. Qed.
