(* ===== verification/Expenses.v ===== *)
(** * The expenses section: its table, its loader and the details alert

    [loadExpenses] (lines 1047-1090) reads the four filter inputs, sends
    [GET /api/accounting/expenses?..] (the query string of
    [Listing.expenses_params]) under the loading overlay, and hands the
    answer to [renderExpenses] (lines 2583-2611) when it is a JSON array.
    Unlike the other loaders it renders an empty table ([renderExpenses([])])
    on a non-2xx answer, on a body that is not an array, and in its
    [catch], which also receives the exceptions of [renderExpenses]
    itself.  [viewExpense] (lines 2612-2628) fetches one expense and
    shows its details in an alert.

    The table is the notice row or the list of rows; a row keeps the
    texts the template prints and the id its two buttons carry. *)

From Stdlib Require Import ZArith.
From stdpp Require Import base list strings.
From S2P Require Import Prelude Fetch Prog Session Listing.

Local Open Scope string_scope.
Local Open Scope acc_scope.
Local Open Scope list_scope.

(** ** Rendering a list with [forEach] *)

(** [l.forEach(x => { ..; tbody.appendChild(row) })] where building the
    row may throw: the rows appended before the exception stay. *)
Fixpoint js_forEach_rows {R} (f : jval → jsres R) (l : list jval) : list R * jsres unit :=
  match l with
  | [] => ([], Ret tt)
  | x :: l' =>
      match f x with
      | Ret r => let rest := js_forEach_rows f l' in (r :: rest.1, rest.2)
      | Throw e => ([], Throw e)
      end
  end.

(** ** The expenses table *)

(** One row of [#expensesTable] (lines 2596-2607). *)
Record erow : Type := mkERow {
  er_date : string;
  er_description : string;
  er_category : string;
  er_recipient : string;
  er_amount : string;
  er_method : string;
  er_id : string          (* the argument of viewExpense and deleteExpense *)
}.

Inductive etable : Type := ENotice | ERows (rows : list erow).

(** [${expense.recipient?.name || 'غير محدد'}]. *)
Definition recipient_text (o : option jval) : string :=
  let n := js_opt_get "name" o in if js_truthy n then js_template n else "غير محدد".

(** [Array.isArray(v)]. *)
Definition js_isArray (v : jval) : bool := match v with JArr _ => true | _ => false end.

Section ExpensesTable.
Variable toLocaleString : jval → string.
Variable toLocaleDateString : option jval → string.

(** One row (lines 2593-2609): [expense.date] throws on a [null]
    element, [expense.amount.toLocaleString()] on a missing amount. *)
Definition expense_row (expense : jval) : jsres erow :=
  date ← js_get "date" (Some expense);
  amount ← amount_text toLocaleString (jget "amount" expense);
  mret (mkERow (toLocaleDateString date)
               (js_template (jget "description" expense))
               (js_template (jget "category" expense))
               (recipient_text (jget "recipient" expense))
               amount
               (tmpl_value (getPaymentMethodName (jget "paymentMethod" expense)))
               (js_template (jget "_id" expense))).

(** [renderExpenses(expenses)] (lines 2583-2611): the table is emptied,
    [length === 0] shows the notice. *)
Definition renderExpenses (expenses : jval) : etable * jsres unit :=
  match js_length expenses with
  | Throw e => (ERows [], Throw e)
  | Ret (Some (JNum 0)) => (ENotice, Ret tt)
  | Ret _ =>
      match expenses with
      | JArr es => let r := js_forEach_rows expense_row es in (ERows r.1, r.2)
      | _ => (ERows [], Throw (TypeError "expenses.forEach"))
      end
  end.

Definition s_renderExpenses (expenses : jval) : sprog etable unit := λ _ _,
  let r := renderExpenses expenses in ([], r.1, r.2).

(** [loadExpenses()] (lines 1047-1090). *)
Definition loadExpenses (authToken : option string) (typeFilter categoryFilter startDate endDate : string)
    : sprog etable unit :=
  s_lift showLoading ;;
  s_try
    (response ← s_lift (p_fetch (expenses_request authToken typeFilter categoryFilter startDate endDate));
     if resp_ok response then
       expenses ← s_lift (p_json response);
       if js_isArray expenses then s_renderExpenses expenses else s_renderExpenses (JArr [])
     else s_renderExpenses (JArr []))
    (λ _, s_renderExpenses (JArr []))
    (s_lift hideLoading).

(** The text of the alert of [viewExpense] (line 2622). *)
Definition expense_details (expense : jval) : jsres string :=
  description ← js_get "description" (Some expense);
  mret ("تفاصيل المصروف:" +:+ LF +:+ "الوصف: " +:+ js_template description +:+
        LF +:+ "المبلغ: " +:+ js_template (jget "amount" expense) +:+ " د.ج" +:+
        LF +:+ "التصنيف: " +:+ js_template (jget "category" expense) +:+
        LF +:+ "النوع: " +:+ js_template (jget "type" expense) +:+
        LF +:+ "التاريخ: " +:+ toLocaleDateString (jget "date" expense)).

Definition view_expense_failed : string := "حدث خطأ أثناء تحميل تفاصيل المصروف".

(** [viewExpense(expenseId)] (lines 2612-2628): no overlay, nothing on a
    non-2xx answer. *)
Definition viewExpense (authToken : option string) (expenseId : string) : prog unit :=
  p_try
    (response ← p_fetch (api_get authToken ("/accounting/expenses/" +:+ expenseId));
     if resp_ok response then
       expense ← p_json response;
       text ← p_lift (expense_details expense);
       p_alert text
     else mret ())
    (λ _, p_alert view_expense_failed)
    (mret ()).
End ExpensesTable.

(** ** Properties *)

Lemma forEach_rows_ret {R} (f : jval → jsres R) l rows :
  mapM f l = Ret rows → js_forEach_rows f l = (rows, Ret tt).
Proof.
  revert rows. induction l as [|x l IH]; intros rows H; cbn in H |- *; [by injection H as <-|].
  destruct (f x) as [r|e]; [|done]. cbn in H.
  destruct (mapM f l) as [rs|e]; cbn in H; [|done]. injection H as <-. by rewrite (IH rs).
Qed.

Lemma forEach_rows_throw {R} (f : jval → jsres R) l e :
  mapM f l = Throw e → (js_forEach_rows f l).2 = Throw e.
Proof.
  induction l as [|x l IH]; intros H; cbn in H |- *; [done|].
  destruct (f x) as [r|e']; cbn in H |- *; [|congruence].
  destruct (mapM f l) as [rs|e']; cbn in H; [done|]. by apply IH.
Qed.

(** Every element renders: one row each, in order, and no exception. *)
Lemma forEach_rows_all {R} (f : jval → jsres R) l :
  Forall (λ x, ∃ r, f x = Ret r) l → ∃ rows, js_forEach_rows f l = (rows, Ret tt) ∧ length rows = length l.
Proof.
  induction 1 as [|x l [r Hr] _ (rows & Hrows & Hlen)]; [by exists []|].
  exists (r :: rows). simpl. rewrite Hr, Hrows. simpl. auto.
Qed.

(** The first element that throws stops the loop: the rows of the
    elements before it stay. *)
Lemma forEach_rows_stop {R} (f : jval → jsres R) pre x post e :
  Forall (λ y, ∃ r, f y = Ret r) pre → f x = Throw e →
  js_forEach_rows f (pre ++ x :: post) = ((js_forEach_rows f pre).1, Throw e).
Proof.
  intros Hpre Hx. induction Hpre as [|y pre [r Hr] _ IH]; simpl; [by rewrite Hx|].
  rewrite Hr. simpl. by rewrite IH.
Qed.

Section ExpensesProofs.
Variable toLocaleString : jval → string.
Variable toLocaleDateString : option jval → string.

(** What the table shows for an array answer: the notice, or one row
    per expense when every row renders. *)
Definition expenses_table (es : list jval) : etable :=
  match es with
  | [] => ENotice
  | _ => match mapM (expense_row toLocaleString toLocaleDateString) es with
         | Ret rows => ERows rows
         | Throw _ => ENotice
         end
  end.

Definition expenses_shown (s : settled) : etable :=
  match s with
  | Fulfilled r =>
      if resp_ok r then match rbody r with Some (JArr es) => expenses_table es | _ => ENotice end
      else ENotice
  | Rejected _ => ENotice
  end.

Lemma renderExpenses_arr es :
  renderExpenses toLocaleString toLocaleDateString (JArr es) =
    match es with
    | [] => (ENotice, Ret tt)
    | _ => let r := js_forEach_rows (expense_row toLocaleString toLocaleDateString) es in (ERows r.1, r.2)
    end.
Proof. by destruct es. Qed.

(** The [catch] of [loadExpenses] after [renderExpenses(expenses)]. *)
Lemma render_then_catch es t net :
  (let r1 := s_renderExpenses toLocaleString toLocaleDateString (JArr es) t net in
   match r1.2 with
   | Ret a => ([], r1.1.2, Ret a)
   | Throw _ => s_renderExpenses toLocaleString toLocaleDateString (JArr []) r1.1.2 net
   end) = ([], expenses_table es, Ret tt).
Proof.
  unfold s_renderExpenses. rewrite renderExpenses_arr. destruct es as [|x l]; [done|].
  unfold expenses_table. destruct (mapM _ (x :: l)) as [rows|e] eqn:Hm.
  - by rewrite (forEach_rows_ret _ _ _ Hm).
  - by rewrite (forEach_rows_throw _ _ _ Hm).
Qed.

(** C35 (functional).  [loadExpenses] never leaves a partial table: on
    every answer of the network it sends one request under the overlay,
    throws nothing, and shows either one row per expense of a 2xx JSON
    array whose rows all render, or the notice row ("no expenses") on a
    failed request, a non-2xx answer, a body that is not an array, or an
    expense whose row throws. *)
Theorem loadExpenses_whole_table tok a b c d t net :
  let q := expenses_request tok a b c d in
  loadExpenses toLocaleString toLocaleDateString tok a b c d t net =
    ([ELoading true; EFetch q; ELoading false], expenses_shown (net q), Ret tt).
Proof.
  cbv zeta. unfold loadExpenses, s_try, mbind, sprog_bind, mret, sprog_ret, expenses_shown.
  cbn -[s_renderExpenses].
  destruct (net _) as [r|e]; cbn -[s_renderExpenses]; [|done].
  destruct (resp_ok r); cbn -[s_renderExpenses]; [|done].
  unfold await_json. destruct (rbody r) as [v|]; cbn -[s_renderExpenses]; [|done].
  destruct v as [| | | |es|]; cbn -[s_renderExpenses]; try done.
  pose proof (render_then_catch es t net) as H. cbv zeta in H.
  destruct (s_renderExpenses _ _ (JArr es) t net) as [[es1 t1] o] eqn:Hr.
  assert (es1 = []) as -> by (unfold s_renderExpenses in Hr; congruence).
  simpl in *. by rewrite H.
Qed.

(** [viewExpense] sends one authenticated [GET
    /api/accounting/expenses/<id>]; on a 2xx answer it shows the details
    of the expense, or the generic message when the body is not JSON or
    is [null]; nothing on another answer, the generic message when the
    request fails.  No exception escapes. *)
Theorem viewExpense_run tok expenseId net :
  let q := api_get tok ("/accounting/expenses/" +:+ expenseId) in
  outcome (viewExpense toLocaleDateString tok expenseId) net = Ret tt ∧
  effects (viewExpense toLocaleDateString tok expenseId) net =
    EFetch q ::
    match net q with
    | Fulfilled r =>
        if resp_ok r then
          match await_json r ≫= expense_details toLocaleDateString with
          | Ret text => [EAlert text]
          | Throw _ => [EAlert view_expense_failed]
          end
        else []
    | Rejected _ => [EAlert view_expense_failed]
    end.
Proof.
  unfold viewExpense, outcome, effects. rewrite run_try. autorewrite with prog_rw. simpl.
  destruct (net _) as [r|e]; simpl; [|done].
  destruct (resp_ok r); simpl; [|done]. unfold p_json. autorewrite with prog_rw. unfold await_json.
  destruct (rbody r) as [v|]; simpl; [|done].
  autorewrite with prog_rw. by destruct (expense_details _ v).
Qed.
End ExpensesProofs.

(** ** Concrete runs *)

Definition ex_expense (id : string) (amount : option Z) : jval :=
  JObj ([("_id", JStr id); ("date", JStr "2024-05-02"); ("description", JStr "أقلام");
         ("category", JStr "supplies"); ("paymentMethod", JStr "cash")] ++
        match amount with Some z => [("amount", JNum z)] | None => [] end).

Definition ex_net_expenses (es : list jval) : network := λ _, Fulfilled (mkResponse 200 (Some (JArr es))).

(** Two good expenses give two rows; one expense without an amount
    among them replaces the whole table by the notice "no expenses". *)
Example one_bad_expense_hides_all :
  let go es := (loadExpenses js_string js_template None "" "" "" "" ENotice (ex_net_expenses es)).1.2 in
  (∃ r1 r2, go [ex_expense "e1" (Some 1500%Z); ex_expense "e2" (Some 300%Z)] = ERows [r1; r2] ∧
            er_id r1 = "e1" ∧ er_amount r2 = "300" ∧ er_method r1 = "نقدي") ∧
  go [ex_expense "e1" (Some 1500%Z); ex_expense "e2" None; ex_expense "e3" (Some 300%Z)] = ENotice.
Proof.
  cbv zeta. split; [|reflexivity].
  eexists _, _. split; [reflexivity|]. split_and!; reflexivity.
Qed.
