(* ===== verification/Invoices.v ===== *)
(** * The invoices section: its table, its loader and the invoice modal

    [loadInvoices] (lines 1753-1786) sends [GET /api/accounting/invoices?..]
    (the query string of [Listing.invoices_params]) under the loading
    overlay and hands a 2xx JSON body to [renderInvoices] (lines
    1789-1826); its [catch] only logs, so an exception of the renderer
    leaves the rows appended before it.  [viewInvoice] (lines 1827-1880)
    fills the invoice modal from one invoice, recomputes its subtotal,
    tax and total from the items, and shows the modal.

    The page is modelled as the text and class of the elements these
    handlers write ([textContent], [className]) in two finite maps from
    element id, with the invoices table and the items table beside them.
    The arithmetic of the modal is that of doubles ([Double]): each
    product [item.quantity * item.amount], each step of the [reduce], and
    [subtotal * rate / 100] are rounded to the nearest double; the
    totals theorem needs the products and their sum to be safe integers,
    where the double sum is the exact one. *)

From Stdlib Require Import ZArith QArith.
From stdpp Require Import base list strings gmap pretty.
From S2P Require Import Prelude Double Fetch Prog Session Listing Expenses.

Local Open Scope string_scope.
Local Open Scope acc_scope.
Local Open Scope list_scope.

(** ** The invoices table *)

(** One row of [#invoicesTable] (lines 1811-1822). *)
Record irow : Type := mkIRow {
  ir_number : string;
  ir_type : string;
  ir_recipient : string;
  ir_date : string;
  ir_amount : string;
  ir_badge : badge;
  ir_id : string          (* the argument of viewInvoice and printInvoice *)
}.

Inductive itable : Type := INotice | IRows (rows : list irow).

(** The badge of [invoice.status] (lines 1802-1809): [overdue], not
    [late], is the red one. *)
Definition invoice_badge (status : option jval) : badge :=
  if js_is status "paid" then BadgePaid
  else if js_is status "pending" then BadgePending
  else if js_is status "overdue" then BadgeLate else NoBadge.

Section InvoicesTable.
Variable toLocaleString : jval → string.
Variable toLocaleDateString : option jval → string.

(** One row (lines 1798-1825): [invoice.date] throws on a [null]
    element, [invoice.totalAmount.toLocaleString()] on a missing total. *)
Definition invoice_row (invoice : jval) : jsres irow :=
  date ← js_get "date" (Some invoice);
  status ← js_get "status" (Some invoice);
  amount ← amount_text toLocaleString (jget "totalAmount" invoice);
  mret (mkIRow (js_template (jget "invoiceNumber" invoice))
               (js_template (jget "type" invoice))
               (name_or_unknown (jget "recipient" invoice))
               (toLocaleDateString date)
               amount
               (invoice_badge status)
               (js_template (jget "_id" invoice))).

(** [renderInvoices(invoices)] (lines 1789-1826). *)
Definition renderInvoices (invoices : jval) : itable * jsres unit :=
  match js_length invoices with
  | Throw e => (IRows [], Throw e)
  | Ret (Some (JNum 0)) => (INotice, Ret tt)
  | Ret _ =>
      match invoices with
      | JArr l => let r := js_forEach_rows invoice_row l in (IRows r.1, r.2)
      | _ => (IRows [], Throw (TypeError "invoices.forEach"))
      end
  end.

Definition s_renderInvoices (invoices : jval) : sprog itable unit := λ _ _,
  let r := renderInvoices invoices in ([], r.1, r.2).

(** [loadInvoices()] (lines 1753-1786): the [catch] only logs. *)
Definition loadInvoices (authToken : option string) (typeFilter statusFilter startDate endDate : string)
    : sprog itable unit :=
  s_lift showLoading ;;
  s_try
    (response ← s_lift (p_fetch (invoices_request authToken typeFilter statusFilter startDate endDate));
     if resp_ok response then
       invoices ← s_lift (p_json response);
       s_renderInvoices invoices
     else mret ())
    (λ _, mret ())
    (s_lift hideLoading).
End InvoicesTable.

(** ** The invoice modal *)

(** One row of [#invoiceItems] (lines 1853-1859). *)
Record itemrow : Type := mkItemRow {
  it_description : string;
  it_quantity : string;
  it_amount : string;
  it_line : string        (* (item.quantity * item.amount).toLocaleString() *)
}.

(** The part of the page [viewInvoice] writes: [textContent] and
    [className] by element id, and the rows of [#invoiceItems]. *)
Record invoice_page : Type := mkInvoicePage {
  dom_texts : gmap string string;
  dom_classes : gmap string string;
  invoiceItems : list itemrow
}.

Definition set_text (id v : string) (p : invoice_page) : invoice_page :=
  mkInvoicePage (<[id := v]> (dom_texts p)) (dom_classes p) (invoiceItems p).
Definition set_class (id v : string) (p : invoice_page) : invoice_page :=
  mkInvoicePage (dom_texts p) (<[id := v]> (dom_classes p)) (invoiceItems p).
Definition set_items (l : list itemrow) (p : invoice_page) : invoice_page :=
  mkInvoicePage (dom_texts p) (dom_classes p) l.

(** [item.quantity * item.amount]: [ToNumber] of both, a double
    product. *)
Definition item_product (item : jval) : qnum :=
  d_mul (val_number (jget "quantity" item)) (val_number (jget "amount" item)).

(** [items.reduce((sum, item) => sum + (item.quantity * item.amount), 0)]
    (line 1864): the product is a number, so [+] adds. *)
Definition invoice_subtotal (items : list jval) : qnum :=
  foldl (λ sum item, d_add sum (item_product item)) (QFin 0) items.

(** [invoice.taxRate || 0]. *)
Definition tax_rate (invoice : jval) : qnum :=
  let r := jget "taxRate" invoice in if js_truthy r then val_number r else QFin 0.

(** [subtotal * rate / 100] and [subtotal + tax] (lines 1865-1866). *)
Definition invoice_tax (subtotal rate : qnum) : qnum := d_div (d_mul subtotal rate) (QFin 100).
Definition invoice_total (subtotal tax : qnum) : qnum := d_add subtotal tax.

(** The class of [#invoiceStatus] (line 1846). *)
Definition status_class (status : option jval) : string :=
  "badge " +:+ (if js_is status "paid" then "badge-success"
                else if js_is status "pending" then "badge-warning" else "badge-danger").

Definition default_notes : string := "شكراً لتعاملكم معنا".
Definition view_invoice_failed : string := "حدث خطأ أثناء تحميل الفاتورة".

Section InvoiceModal.
Variable toLocaleString : jval → string.
Variable toLocaleDateString : option jval → string.
(** [x.toLocaleString()] of a number; [None] is [NaN]. *)
Variable numLocale : qnum → string.

(** One item row: [item.description] throws on a [null] item,
    [item.amount.toLocaleString()] on a missing amount. *)
Definition item_row (item : jval) : jsres itemrow :=
  description ← js_get "description" (Some item);
  amount ← amount_text toLocaleString (jget "amount" item);
  mret (mkItemRow (js_template description) (js_template (jget "quantity" item)) amount
                  (numLocale (item_product item))).

(** [itemsTable.innerHTML = ''; invoice.items.forEach(..)]: the rows
    appended before an exception stay. *)
Definition s_itemRows (items : option jval) : sprog invoice_page (list jval) := λ p _,
  match items with
  | Some (JArr l) =>
      let r := js_forEach_rows item_row l in
      ([], set_items r.1 p, match r.2 with Ret _ => Ret l | Throw e => Throw e end)
  | _ => ([], set_items [] p, Throw (TypeError "invoice.items.forEach"))
  end.

Definition s_text (id v : string) : sprog invoice_page unit := s_modify (set_text id v).

(** [viewInvoice(invoiceId)] (lines 1827-1880). *)
Definition viewInvoice (authToken : option string) (invoiceId : string) : sprog invoice_page unit :=
  s_try
    (response ← s_lift (p_fetch (api_get authToken ("/accounting/invoices/" +:+ invoiceId)));
     if resp_ok response then
       invoice ← s_lift (p_json response);
       number ← s_lift (p_lift (js_get "invoiceNumber" (Some invoice)));
       s_text "invoiceNumber" (dom_text number) ;;
       s_text "invoiceDate" (toLocaleDateString (jget "date" invoice)) ;;
       s_text "invoiceDueDate" (toLocaleDateString (jget "dueDate" invoice)) ;;
       rname ← s_lift (p_lift (js_get "name" (jget "recipientDetails" invoice)));
       s_text "invoiceRecipientName" (dom_text rname) ;;
       phone ← s_lift (p_lift (js_get "phone" (jget "recipientDetails" invoice)));
       email ← s_lift (p_lift (js_get "email" (jget "recipientDetails" invoice)));
       s_text "invoiceRecipientDetails" ("هاتف: " +:+ js_template phone +:+ " | بريد: " +:+ js_template email) ;;
       s_text "invoiceType" (dom_text (jget "type" invoice)) ;;
       s_text "invoiceStatus" (dom_text (jget "status" invoice)) ;;
       s_modify (set_class "invoiceStatus" (status_class (jget "status" invoice))) ;;
       items ← s_itemRows (jget "items" invoice);
       let subtotal := invoice_subtotal items in
       let tax := invoice_tax subtotal (tax_rate invoice) in
       s_text "invoiceSubtotal" (numLocale subtotal +:+ " د.ج") ;;
       s_text "invoiceTax" (numLocale tax +:+ " د.ج") ;;
       s_text "invoiceTotal" (numLocale (invoice_total subtotal tax) +:+ " د.ج") ;;
       s_text "invoiceNotes" (let n := jget "notes" invoice in if js_truthy n then dom_text n else default_notes) ;;
       s_lift (showModal "viewInvoiceModal")
     else mret ())
    (λ _, s_lift (p_alert view_invoice_failed))
    (mret ()).
End InvoiceModal.

(** ** Properties of the invoices table *)

Section TableProofs.
Variable toLocaleString : jval → string.
Variable toLocaleDateString : option jval → string.

(** [loadInvoices] on every answer: one request under the overlay, no
    exception, and the table re-rendered from a 2xx JSON body; on a
    failed request, a non-2xx answer or a body that is not JSON the table
    keeps the rows of the previous load. *)
Theorem loadInvoices_run tok a b c d t net :
  let q := invoices_request tok a b c d in
  loadInvoices toLocaleString toLocaleDateString tok a b c d t net =
    ([ELoading true; EFetch q; ELoading false],
     match net q with
     | Fulfilled r =>
         if resp_ok r then
           match rbody r with Some v => (renderInvoices toLocaleString toLocaleDateString v).1 | None => t end
         else t
     | Rejected _ => t
     end, Ret tt).
Proof.
  cbv zeta. unfold loadInvoices, s_try, mbind, sprog_bind, mret, sprog_ret.
  cbn -[renderInvoices].
  destruct (net _) as [r|e]; cbn -[renderInvoices]; [|done].
  destruct (resp_ok r); cbn -[renderInvoices]; [|done].
  unfold await_json. destruct (rbody r) as [v|]; cbn -[renderInvoices]; [|done].
  unfold s_renderInvoices. by destruct (renderInvoices _ _ v) as [tb [[]|]].
Qed.

Lemma renderInvoices_cons x l :
  renderInvoices toLocaleString toLocaleDateString (JArr (x :: l)) =
    (IRows (js_forEach_rows (invoice_row toLocaleString toLocaleDateString) (x :: l)).1,
     (js_forEach_rows (invoice_row toLocaleString toLocaleDateString) (x :: l)).2).
Proof. done. Qed.

Lemma invoice_row_ok inv :
  inv ≠ JNull → (∃ a, jget "totalAmount" inv = Some a ∧ a ≠ JNull) →
  ∃ r, invoice_row toLocaleString toLocaleDateString inv = Ret r.
Proof.
  intros Hn (a & Ha & Han). unfold invoice_row.
  destruct inv; try done; cbn -[jget]; rewrite Ha; destruct a; try done; by eexists.
Qed.

(** An invoice without a total stops the table: the rows of the
    invoices before it stay on screen, the others are missing, and
    nothing tells the user; compare [Expenses.loadExpenses], which
    shows the notice instead. *)
Theorem loadInvoices_keeps_prefix tok a b c d t net r pre inv post :
  net (invoices_request tok a b c d) = Fulfilled r → resp_ok r = true →
  rbody r = Some (JArr (pre ++ inv :: post)) →
  Forall (λ x, ∃ row, invoice_row toLocaleString toLocaleDateString x = Ret row) pre →
  inv ≠ JNull → jget "totalAmount" inv = None →
  loadInvoices toLocaleString toLocaleDateString tok a b c d t net =
    ([ELoading true; EFetch (invoices_request tok a b c d); ELoading false],
     IRows (js_forEach_rows (invoice_row toLocaleString toLocaleDateString) pre).1, Ret tt).
Proof.
  intros Hnet Hok Hb Hpre Hn Ht. rewrite loadInvoices_run. cbv zeta. rewrite Hnet, Hok, Hb.
  assert (invoice_row toLocaleString toLocaleDateString inv = Throw (TypeError ".toLocaleString")) as Hi.
  { unfold invoice_row. destruct inv; try done; by rewrite Ht. }
  destruct (pre ++ inv :: post) as [|x l] eqn:Hl; [by destruct pre|].
  rewrite renderInvoices_cons, <- Hl. simpl. by rewrite (forEach_rows_stop _ _ _ _ _ Hpre Hi).
Qed.
End TableProofs.

(** ** Properties of the invoice modal *)

Lemma invoice_subtotal_go items ps s :
  Forall2 (λ it p, item_product it = QFin (inject_Z p)) items ps → Forall (λ p, 0 ≤ p)%Z ps →
  (0 ≤ s)%Z → (s + sumZ id ps ≤ max_safe)%Z →
  foldl (λ sum item, d_add sum (item_product item)) (QFin (inject_Z s)) items = QFin (inject_Z (s + sumZ id ps)).
Proof.
  intros H. revert s. induction H as [|it p items ps Hp _ IH]; intros s Hnn Hs Hb; cbn [foldl]; [by rewrite sumZ_nil, Z.add_0_r|].
  inversion Hnn as [|? ? Hp0 Hnn']; subst.
  assert (0 ≤ sumZ id ps)%Z by (clear -Hnn'; induction Hnn'; rewrite ?sumZ_nil, ?sumZ_cons; unfold id in *; lia).
  rewrite sumZ_cons in Hb |- *. unfold id in *.
  rewrite Hp, d_add_int by (rewrite Z.abs_eq; lia). rewrite IH by (done || lia). by rewrite Z.add_assoc.
Qed.

(** The subtotal of non-negative integer products whose sum is a safe
    integer is their sum: every partial sum is exact. *)
Lemma invoice_subtotal_sum items ps :
  Forall2 (λ it p, item_product it = QFin (inject_Z p)) items ps → Forall (λ p, 0 ≤ p)%Z ps →
  (sumZ id ps ≤ max_safe)%Z → invoice_subtotal items = QFin (inject_Z (sumZ id ps)).
Proof.
  intros H Hnn Hb. unfold invoice_subtotal. change (QFin 0) with (QFin (inject_Z 0)).
  by rewrite (invoice_subtotal_go _ _ 0 H).
Qed.

(** An item the row template renders: not [null], with an amount. *)
Definition item_ok (it : jval) : Prop := it ≠ JNull ∧ ∃ a, jget "amount" it = Some a ∧ a ≠ JNull.

Lemma dom_texts_set_text id v p : dom_texts (set_text id v p) = <[id := v]> (dom_texts p).
Proof. done. Qed.
Lemma dom_texts_set_class id v p : dom_texts (set_class id v p) = dom_texts p.
Proof. done. Qed.
Lemma dom_texts_set_items l p : dom_texts (set_items l p) = dom_texts p.
Proof. done. Qed.
Lemma invoiceItems_set_text id v p : invoiceItems (set_text id v p) = invoiceItems p.
Proof. done. Qed.
Lemma invoiceItems_set_items l p : invoiceItems (set_items l p) = l.
Proof. done. Qed.

Create Rewrite HintDb page_rw.
#[export] Hint Rewrite dom_texts_set_text dom_texts_set_class dom_texts_set_items
  invoiceItems_set_text invoiceItems_set_items : page_rw.

Section ModalProofs.
Variable toLocaleString : jval → string.
Variable toLocaleDateString : option jval → string.
Variable numLocale : qnum → string.

Lemma item_row_ok it : item_ok it → ∃ r, item_row toLocaleString numLocale it = Ret r.
Proof.
  intros [Hn (a & Ha & Han)]. unfold item_row.
  destruct it; try done; cbn -[jget]; rewrite Ha; destruct a; try done; by eexists.
Qed.

Lemma s_itemRows_ok items net :
  Forall item_ok items →
  ∃ rows, (∀ p, s_itemRows toLocaleString numLocale (Some (JArr items)) p net = ([], set_items rows p, Ret items)) ∧
          length rows = length items.
Proof.
  intros H. destruct (forEach_rows_all (item_row toLocaleString numLocale) items) as (rows & Hr & Hl).
  { eapply Forall_impl; [exact H|]. apply item_row_ok. }
  exists rows. split; [|done]. intros p. unfold s_itemRows. by rewrite Hr.
Qed.

(** The invoice modal.  For a 2xx answer whose invoice has recipient
    details and a list of items that all have an amount and non-negative
    integer products [quantity * amount] [ps] whose sum is a safe
    integer, [viewInvoice] shows the modal with one item row per item,
    the subtotal [Σ ps] (exact), the tax [Σ ps * rate / 100] for the rate
    [invoice.taxRate || 0] and the total [subtotal + tax], both as
    doubles; the server's [totalAmount], which the invoices table shows,
    plays no part. *)
Theorem viewInvoice_totals tok invoiceId p net r inv rd items ps rate :
  let q := api_get tok ("/accounting/invoices/" +:+ invoiceId) in
  net q = Fulfilled r → resp_ok r = true → rbody r = Some inv → inv ≠ JNull →
  jget "recipientDetails" inv = Some rd → rd ≠ JNull →
  jget "items" inv = Some (JArr items) → Forall item_ok items →
  Forall2 (λ it x, item_product it = QFin (inject_Z x)) items ps → Forall (λ x, 0 ≤ x)%Z ps →
  (sumZ id ps ≤ max_safe)%Z → tax_rate inv = rate →
  let res := viewInvoice toLocaleString toLocaleDateString numLocale tok invoiceId p net in
  let s := QFin (inject_Z (sumZ id ps)) in
  res.1.1 = [EFetch q; EModal "viewInvoiceModal" true] ∧ res.2 = Ret tt ∧
  length (invoiceItems res.1.2) = length items ∧
  dom_texts res.1.2 !! "invoiceSubtotal" = Some (numLocale s +:+ " د.ج") ∧
  dom_texts res.1.2 !! "invoiceTax" = Some (numLocale (d_div (d_mul s rate) (QFin 100)) +:+ " د.ج") ∧
  dom_texts res.1.2 !! "invoiceTotal" =
    Some (numLocale (d_add s (d_div (d_mul s rate) (QFin 100))) +:+ " د.ج").
Proof.
  cbv zeta. intros Hnet Hok Hb Hn Hrd Hrdn Hit Hok_items Hps Hnn Hsafe Hrate.
  destruct (s_itemRows_ok items net Hok_items) as (rows & Hrows & Hlen).
  evar (res : (list effect * invoice_page * jsres unit)%type).
  assert (viewInvoice toLocaleString toLocaleDateString numLocale tok invoiceId p net = res) as ->.
  { subst res. unfold viewInvoice, s_text. eapply s_try_ok; [|reflexivity].
    srun_with @srun_fetch. rewrite Hok. cbv iota.
    srun_with @srun_json. srun_with @srun_get. do 3 srun_ret.
    rewrite Hrd. srun_with @srun_get. srun_ret.
    do 2 srun_with @srun_get. do 4 srun_ret.
    rewrite Hit. srun_with Hrows.
    rewrite (invoice_subtotal_sum _ _ Hps Hnn Hsafe), Hrate. do 4 srun_ret. reflexivity. }
  subst res. cbn -[jget set_text set_class set_items]. autorewrite with page_rw.
  split_and!; try done; by rewrite ?lookup_insert_ne, ?lookup_insert by done.
Qed.

(** An invoice without recipient details: [viewInvoice] reports the
    generic error and does not open the modal, but it has already written
    the new invoice's number and dates into the modal, beside the
    recipient, items and totals of the invoice shown before. *)
Theorem viewInvoice_no_recipient tok invoiceId p net r inv :
  let q := api_get tok ("/accounting/invoices/" +:+ invoiceId) in
  net q = Fulfilled r → resp_ok r = true → rbody r = Some inv → inv ≠ JNull →
  jget "recipientDetails" inv = None →
  viewInvoice toLocaleString toLocaleDateString numLocale tok invoiceId p net =
    ([EFetch q; EAlert view_invoice_failed],
     set_text "invoiceDueDate" (toLocaleDateString (jget "dueDate" inv))
       (set_text "invoiceDate" (toLocaleDateString (jget "date" inv))
          (set_text "invoiceNumber" (dom_text (jget "invoiceNumber" inv)) p)),
     Ret tt).
Proof.
  cbv zeta. intros Hnet Hok Hb Hn Hrd. unfold viewInvoice, s_text.
  etransitivity.
  { eapply s_try_err; [|reflexivity|reflexivity].
    srun_with @srun_fetch. rewrite Hok. cbv iota.
    srun_with @srun_json. srun_with @srun_get. do 3 srun_ret.
    rewrite Hrd. eapply srun_throw. reflexivity. }
  reflexivity.
Qed.
End ModalProofs.

(** ** Concrete runs *)

Definition empty_page : invoice_page := mkInvoicePage ∅ ∅ [].

(** Whole numbers print as their digits. *)
Definition whole_text (o : qnum) : string :=
  match o with
  | QFin q => let q' := Qred q in if (Zpos (Qden q') =? 1)%Z then pretty (Qnum q') else "?"
  | QInf _ => "Infinity"
  | QNaN => "NaN"
  end.

Definition ex_item (qty amount : Z) : jval :=
  JObj [("description", JStr "دفتر"); ("quantity", JNum qty); ("amount", JNum amount)].

Definition ex_invoice : jval :=
  JObj [("_id", JStr "i1"); ("invoiceNumber", JStr "F-12"); ("recipientDetails", JObj [("name", JStr "Sara")]);
        ("items", JArr [ex_item 2 500; ex_item 3 100]); ("taxRate", JNum 19); ("totalAmount", JNum 1000)].

(** Two items of 2 × 500 and 3 × 100 at 19%: subtotal 1300, tax 247,
    total 1547, while the invoices table shows the server's 1000. *)
Example invoice_modal_run :
  let res := viewInvoice js_string (λ _, "") whole_text None "i1" empty_page
               (λ _, Fulfilled (mkResponse 200 (Some ex_invoice))) in
  res.1.1 = [EFetch (api_get None "/accounting/invoices/i1"); EModal "viewInvoiceModal" true] ∧
  dom_texts res.1.2 !! "invoiceSubtotal" = Some "1300 د.ج" ∧
  dom_texts res.1.2 !! "invoiceTax" = Some "247 د.ج" ∧
  dom_texts res.1.2 !! "invoiceTotal" = Some "1547 د.ج" ∧
  (invoice_row js_string (λ _, "") ex_invoice ≫= λ r, Ret (ir_amount r)) = Ret "1000".
Proof. vm_compute. split_and!; reflexivity. Qed.

(** The second invoice has no total: the first row stays, the third is
    never rendered, and no message is shown. *)
Example invoices_cut_short :
  let invs := [ex_invoice; JObj [("_id", JStr "i2"); ("date", JStr "2024-05-02")]; ex_invoice] in
  ∃ row, (loadInvoices js_string (λ _, "") None "" "" "" "" INotice
            (λ _, Fulfilled (mkResponse 200 (Some (JArr invs))))).1.2 = IRows [row] ∧ ir_id row = "i1".
Proof. eexists. split; reflexivity. Qed.
