(* ===== verification/Dropdowns.v ===== *)
(** * The dropdowns: classes, teachers, students, months and years

    Five functions fill the [<select>] elements of the page.
    [populateClasses], [populateTeachers] and [populateStudents] (lines
    259-356) fetch a list from the server, empty their selects but for
    the first (placeholder) option with
    [while (select.options.length > 1) select.remove(1)], and append one
    option per record ([value = x._id], [textContent = x.name]).
    [populateMonths] (lines 580-614) fills the three month selects with
    the months of the current year up to the current month, then the
    twelve months of the previous year; [populateYears] (lines 616-633)
    lists the current year and the five before it in [#reportYear].

    The selects of the page are a finite map from element id to the
    list of their options; an id the map lacks is an element that
    [getElementById] does not find.  The clock ([new Date()]) is a
    parameter: the current year and the 0-based current month.  The
    clearing loop [remove_extra] runs on fuel with its guard
    [options.length > 1] as the code has it, answering [None] while it
    is still running; [clear_options] gives it the number of options,
    which C12 shows is enough. *)

From Stdlib Require Import ZArith Ascii.
From stdpp Require Import base list strings gmap pretty.
From S2P Require Import Prelude Fetch Prog Session Expenses.

Local Open Scope string_scope.
Local Open Scope acc_scope.
Local Open Scope list_scope.

(** ** Options and selects *)

Record opt : Type := mkOpt { o_value : string; o_text : string; o_selected : bool }.

Notation dropdowns := (gmap string (list opt)).

(** [select.remove(i)]: nothing when [i] is out of range. *)
Definition select_remove (i : nat) (l : list opt) : list opt := delete i l.

(** [while (select.options.length > 1) select.remove(1)], run for at
    most [fuel] iterations of its body: [Some] the options once the guard
    fails, [None] while the loop is still running when the fuel is
    spent. *)
Fixpoint remove_extra (fuel : nat) (l : list opt) : option (list opt) :=
  if bool_decide (1 < length l) then
    match fuel with
    | 0 => None
    | S f => remove_extra f (select_remove 1 l)
    end
  else Some l.

(** The loop as the page runs it, with one iteration per option, which
    [remove_extra_spec] proves to be enough for it to stop ([l] itself is
    never the answer). *)
Definition clear_options (l : list opt) : list opt := default l (remove_extra (length l) l).

(** [document.getElementById(id).options]: [null.options] throws. *)
Definition s_select (id : string) : sprog dropdowns (list opt) := λ d _,
  ([], d, match d !! id with Some l => Ret l | None => Throw (TypeError "null.options") end).

(** ** Lists from the server *)

(** [option.value = x._id; option.textContent = x.name]: [x._id] throws
    on a [null] record. *)
Definition option_of (x : jval) : jsres opt :=
  id ← js_get "_id" (Some x);
  mret (mkOpt (js_template id) (dom_text (jget "name" x)) false).

Fixpoint s_clear_all (ids : list string) : sprog dropdowns unit :=
  match ids with
  | [] => mret ()
  | id :: ids' => l ← s_select id; s_modify (insert id (clear_options l)) ;; s_clear_all ids'
  end.

(** [items.forEach(x => { ..; select.appendChild(option) })] for every
    select of [ids] (the class option is cloned into the filter): the
    options of the records before an exception stay. *)
Definition s_append_all (ids : list string) (items : jval) : sprog dropdowns unit := λ d _,
  match items with
  | JArr l =>
      let r := js_forEach_rows option_of l in
      ([], foldl (λ d' id, <[id := default [] (d' !! id) ++ r.1]> d') d ids, r.2)
  | _ => ([], d, Throw (TypeError "items.forEach"))
  end.

(** The shape of [populateClasses], [populateTeachers] and
    [populateStudents]: the [catch] only logs. *)
Definition populate (authToken : option string) (path : string) (ids : list string) : sprog dropdowns unit :=
  s_try
    (response ← s_lift (p_fetch (api_get authToken path));
     if resp_ok response then
       items ← s_lift (p_json response);
       s_clear_all ids ;;
       s_append_all ids items
     else mret ())
    (λ _, mret ())
    (mret ()).

(** [populateClasses()] (lines 259-292). *)
Definition populateClasses (authToken : option string) : sprog dropdowns unit :=
  populate authToken "/classes" ["paymentClassFilter"; "paymentClass"].
(** [populateTeachers()] (lines 297-325). *)
Definition populateTeachers (authToken : option string) : sprog dropdowns unit :=
  populate authToken "/teachers" ["teacherFilter"].
(** [populateStudents()] (lines 328-356). *)
Definition populateStudents (authToken : option string) : sprog dropdowns unit :=
  populate authToken "/students" ["paymentStudent"].

(** ** Months and years *)

(** [s.padStart(n, c)]. *)
Definition padStart (n : nat) (c : ascii) (s : string) : string :=
  String.append (String.concat "" (repeat (String c EmptyString) (n - String.length s))) s.

(** [(i + 1).toString().padStart(2, '0')]. *)
Definition month_number (i : nat) : string := padStart 2 "0" (pretty (S i)).

Definition month_names : list string :=
  ["يناير"; "فبراير"; "مارس"; "أبريل"; "مايو"; "يونيو";
   "يوليو"; "أغسطس"; "سبتمبر"; "أكتوبر"; "نوفمبر"; "ديسمبر"].

(** [`${months[i]}`]: [undefined] past the end. *)
Definition month_at (i : nat) : string := default "undefined" (month_names !! i).

(** The option of month [i] of [year] (lines 599-602, 608-611). *)
Definition month_option (year : Z) (i : nat) : opt :=
  mkOpt (pretty year +:+ "-" +:+ month_number i) (month_at i +:+ " " +:+ pretty year) false.

(** The two loops of lines 598-612. *)
Definition month_options (currentYear : Z) (currentMonth : nat) : list opt :=
  (month_option currentYear <$> seq 0 (S currentMonth)) ++ (month_option (currentYear - 1) <$> seq 0 12).

Definition month_selects : list string := ["paymentMonthFilter"; "teacherMonthFilter"; "paymentMonth"].

(** [selects.forEach(select => ..)] over the selects that exist, each
    replaced by [f] of its options. *)
Definition fill_selects (f : list opt → list opt) (ids : list string) (d : dropdowns) : dropdowns :=
  foldl (λ d' id, match d' !! id with Some l => <[id := f l]> d' | None => d' end) d ids.

(** [populateMonths()] (lines 580-614): [querySelectorAll] returns the
    selects that exist; each keeps its first option, then lists the
    months. *)
Definition populateMonths (currentYear : Z) (currentMonth : nat) (d : dropdowns) : dropdowns :=
  fill_selects (λ l, clear_options l ++ month_options currentYear currentMonth) month_selects d.

(** [for (let i = currentYear; i >= currentYear - 5; i--)] (lines 624-632). *)
Definition year_options (currentYear : Z) : list opt :=
  (λ k : nat, let i := (currentYear - Z.of_nat k)%Z in mkOpt (pretty i) (pretty i) (bool_decide (i = currentYear)))
    <$> seq 0 6.

(** [populateYears()] (lines 616-633): [yearSelect.innerHTML = ''] on a
    missing element throws. *)
Definition populateYears (currentYear : Z) (d : dropdowns) : dropdowns * jsres unit :=
  match d !! "reportYear" with
  | Some _ => (<["reportYear" := year_options currentYear]> d, Ret tt)
  | None => (d, Throw (TypeError "null.innerHTML"))
  end.

(** ** The loop that empties a select *)

Lemma length_select_remove l : (1 < length l)%nat → length (select_remove 1 l) = (length l - 1)%nat.
Proof. intros H. unfold select_remove. rewrite length_delete; [done|]. apply lookup_lt_is_Some. lia. Qed.

Lemma take_select_remove l : take 1 (select_remove 1 l) = take 1 l.
Proof. by destruct l as [|x [|y l]]. Qed.

(** Given [length l - 1] iterations, the loop stops with the first
    option. *)
Lemma remove_extra_run fuel l : (length l ≤ S fuel)%nat → remove_extra fuel l = Some (take 1 l).
Proof.
  revert l. induction fuel as [|fuel IH]; intros l Hl; cbn [remove_extra].
  - by destruct l as [|x [|y l]]; cbn in *; try lia.
  - case_bool_decide as H.
    + rewrite IH, take_select_remove; [done|]. rewrite length_select_remove; lia.
    + by destruct l as [|x [|y l]]; cbn in *; try lia.
Qed.

(** The [while] loop with one iteration per option stops, leaving the
    select with its placeholder only. *)
Lemma clear_options_take l : clear_options l = take 1 l.
Proof. unfold clear_options. by rewrite remove_extra_run by lia. Qed.

(** ** Running the fillers *)

(** The selects of [ids] cut down to their first option. *)
Definition cleared (ids : list string) (d : dropdowns) : dropdowns :=
  foldl (λ d' id, <[id := take 1 (default [] (d' !! id))]> d') d ids.

Lemma s_clear_all_run ids d net :
  Forall (λ id, is_Some (d !! id)) ids → s_clear_all ids d net = ([], cleared ids d, Ret tt).
Proof.
  revert d. induction ids as [|id ids IH]; intros d Hids; [done|].
  apply Forall_cons in Hids as [[l Hl] Hids]. simpl.
  etransitivity.
  { eapply srun_seq; [unfold s_select; by rewrite Hl|]. cbv beta.
    eapply srun_seq; [reflexivity|]. cbv beta. apply IH.
    eapply Forall_impl; [exact Hids|]. intros id' Hid'. by apply lookup_insert_is_Some'; right. }
  by rewrite Hl, clear_options_take.
Qed.

(** What a filler leaves: the old selects when the request fails, the
    answer is not 2xx or not JSON; otherwise the selects cut down to
    their placeholder, then the options of the records appended. *)
Lemma populate_state tok path ids d net :
  Forall (λ id, is_Some (d !! id)) ids →
  (populate tok path ids d net).1.2 =
    match net (api_get tok path) with
    | Fulfilled r =>
        if resp_ok r then
          match rbody r with
          | Some items => (s_append_all ids items (cleared ids d) net).1.2
          | None => d
          end
        else d
    | Rejected _ => d
    end.
Proof.
  intros Hids. unfold populate. rewrite s_try_quiet. rewrite srun_bind, srun_lift.
  unfold p_fetch. destruct (net _) as [r|e]; cbn -[s_clear_all s_append_all]; [|done].
  destruct (resp_ok r); [|done]. rewrite srun_bind, srun_lift. unfold p_json, p_lift, await_json.
  destruct (rbody r) as [items|]; cbn -[s_clear_all s_append_all]; [|done].
  rewrite srun_bind, s_clear_all_run by done. cbn -[s_append_all].
  by destruct (s_append_all ids items (cleared ids d) net) as [[]].
Qed.

(** A filler touches the selects of its own [ids] only. *)
Lemma s_clear_all_other ids d net id :
  id ∉ ids → (s_clear_all ids d net).1.2 !! id = d !! id.
Proof.
  revert d. induction ids as [|id0 ids IH]; intros d Hid; [done|].
  apply not_elem_of_cons in Hid as [Hne Hid]. simpl. rewrite srun_bind. unfold s_select.
  destruct (d !! id0) as [l|]; [|done]. cbn -[insert s_clear_all]. rewrite srun_modify, IH by done.
  by rewrite lookup_insert_ne.
Qed.

Lemma foldl_append_other ids (r : list opt) (d : dropdowns) id :
  id ∉ ids → foldl (λ d' id', <[id' := default [] (d' !! id') ++ r]> d') d ids !! id = d !! id.
Proof.
  revert d. induction ids as [|id0 ids IH]; intros d Hid; [done|].
  apply not_elem_of_cons in Hid as [Hne Hid]. simpl. rewrite IH by done. by rewrite lookup_insert_ne.
Qed.

Lemma populate_other tok path ids d net id :
  id ∉ ids → (populate tok path ids d net).1.2 !! id = d !! id.
Proof.
  intros Hid. unfold populate. rewrite s_try_quiet. rewrite srun_bind, srun_lift.
  unfold p_fetch. destruct (net _) as [r|e]; cbn -[s_clear_all s_append_all]; [|done].
  destruct (resp_ok r); [|done]. rewrite srun_bind, srun_lift. unfold p_json, p_lift, await_json.
  destruct (rbody r) as [items|]; cbn -[s_clear_all s_append_all]; [|done].
  rewrite srun_bind. destruct (s_clear_all ids d net) as [[es d1] [[]|e]] eqn:Hc;
    pose proof (s_clear_all_other ids d net id Hid) as H; rewrite Hc in H; simpl in *; [|done].
  rewrite <- H. unfold s_append_all. destruct items; simpl; try done. by apply foldl_append_other.
Qed.

Lemma fill_selects_other f ids d id : id ∉ ids → fill_selects f ids d !! id = d !! id.
Proof.
  unfold fill_selects. revert d. induction ids as [|id0 ids IH]; intros d Hid; [done|].
  apply not_elem_of_cons in Hid as [Hne Hid]. simpl. rewrite IH by done.
  destruct (d !! id0); [|done]. by rewrite lookup_insert_ne.
Qed.

Lemma fill_selects_lookup f ids d id l :
  NoDup ids → id ∈ ids → d !! id = Some l → fill_selects f ids d !! id = Some (f l).
Proof.
  unfold fill_selects. revert d. induction ids as [|id0 ids IH]; intros d Hnd Hid Hl; [set_solver|].
  apply NoDup_cons in Hnd as [Hn0 Hnd]. simpl. destruct (decide (id = id0)) as [->|Hne].
  - rewrite Hl. change (fill_selects f ids (<[id0 := f l]> d) !! id0 = Some (f l)).
    rewrite fill_selects_other by done. by rewrite lookup_insert_eq.
  - apply elem_of_cons in Hid as [|Hid]; [done|].
    destruct (d !! id0); apply IH; try done. rewrite lookup_insert_ne; [done|congruence].
Qed.

Lemma populateMonths_other y m d id : id ∉ month_selects → populateMonths y m d !! id = d !! id.
Proof. apply fill_selects_other. Qed.

Lemma populateYears_other y d id : id ≠ "reportYear" → (populateYears y d).1 !! id = d !! id.
Proof. intros Hne. unfold populateYears. destruct (d !! _); [|done]. simpl. by rewrite lookup_insert_ne. Qed.

(** ** The two class selects stay in step *)

(** What the user and the sections do to the dropdowns. *)
Inductive dd_event : Type :=
| PopClasses | PopTeachers | PopStudents
| PopMonths (currentYear : Z) (currentMonth : nat)
| PopYears (currentYear : Z).

Definition dd_step (authToken : option string) (ev : dd_event) (d : dropdowns) (net : network) : dropdowns :=
  match ev with
  | PopClasses => (populateClasses authToken d net).1.2
  | PopTeachers => (populateTeachers authToken d net).1.2
  | PopStudents => (populateStudents authToken d net).1.2
  | PopMonths y m => populateMonths y m d
  | PopYears y => (populateYears y d).1
  end.

Inductive dd_reachable (authToken : option string) (d0 : dropdowns) : dropdowns → Prop :=
| dd_init : dd_reachable authToken d0 d0
| dd_next d ev net : dd_reachable authToken d0 d → dd_reachable authToken d0 (dd_step authToken ev d net).

(** The class filter and the class input of the payment form: each keeps
    its placeholder [p1], [p2], and both list the same classes after it. *)
Definition class_selects_ok (p1 p2 : opt) (d : dropdowns) : Prop :=
  ∃ t, d !! "paymentClassFilter" = Some (p1 :: t) ∧ d !! "paymentClass" = Some (p2 :: t).

Lemma populateClasses_ok tok p1 p2 d net :
  class_selects_ok p1 p2 d → class_selects_ok p1 p2 (populateClasses tok d net).1.2.
Proof.
  intros (t & H1 & H2). unfold populateClasses. rewrite populate_state by (repeat constructor; by eexists).
  destruct (net _) as [r|e]; [|by exists t]. destruct (resp_ok r); [|by exists t].
  destruct (rbody r) as [items|]; [|by exists t].
  unfold s_append_all, cleared. simpl. rewrite H1. simplify_map_eq. rewrite ?H2.
  destruct items; simpl; try (exists []; by simplify_map_eq).
  eexists. by simplify_map_eq.
Qed.

Lemma class_selects_frame p1 p2 d d' :
  d' !! "paymentClassFilter" = d !! "paymentClassFilter" → d' !! "paymentClass" = d !! "paymentClass" →
  class_selects_ok p1 p2 d → class_selects_ok p1 p2 d'.
Proof. intros H1 H2 (t & Ht1 & Ht2). exists t. by rewrite H1, H2. Qed.

(** ** Properties *)

(** C12 (termination).  The loop [while (select.options.length > 1)
    select.remove(1)] stops exactly when it is given [length l - 1]
    iterations or more, and then the select holds its first option only;
    with less fuel it is still running. *)
Theorem remove_extra_spec fuel l :
  remove_extra fuel l = if bool_decide (length l ≤ S fuel)%nat then Some (take 1 l) else None.
Proof.
  revert l. induction fuel as [|fuel IH]; intros l; cbn [remove_extra].
  - destruct l as [|x [|y l]]; cbn; [done|done|]. repeat case_bool_decide; cbn in *; done || lia.
  - case_bool_decide as H.
    + rewrite IH, take_select_remove, length_select_remove by done.
      do 2 case_bool_decide; done || lia.
    + destruct l as [|x [|y l]]; cbn in *; [done|done|lia].
Qed.

(** C14 (invariant).  Whatever the fillers do, in any order and on any
    answers of the server, the class filter and the class input of the
    payment form keep their placeholders and list the same classes. *)
Theorem class_selects_in_sync tok p1 p2 d0 d :
  class_selects_ok p1 p2 d0 → dd_reachable tok d0 d → class_selects_ok p1 p2 d.
Proof.
  intros H0. induction 1 as [|d ev net _ IH]; [done|].
  destruct ev; simpl.
  - by apply populateClasses_ok.
  - apply (class_selects_frame _ _ d); [apply populate_other..|done]; set_solver.
  - apply (class_selects_frame _ _ d); [apply populate_other..|done]; set_solver.
  - apply (class_selects_frame _ _ d); [apply populateMonths_other..|done]; unfold month_selects; set_solver.
  - apply (class_selects_frame _ _ d); [apply populateYears_other..|done]; done.
Qed.

Lemma length_month_options y m : length (month_options y m) = (S m + 12)%nat.
Proof. unfold month_options. by rewrite length_app, !length_fmap, !length_seq. Qed.

(** After [populateMonths] each month select that exists
    keeps its first option and then lists [currentMonth + 13] months:
    at least 13 (in January) and at most 24 (in December). *)
Theorem populateMonths_bounds y m d id l :
  (m ≤ 11)%nat → id ∈ month_selects → d !! id = Some l →
  populateMonths y m d !! id = Some (take 1 l ++ month_options y m) ∧
  (13 ≤ length (month_options y m) ≤ 24)%nat.
Proof.
  intros Hm Hid Hl. split.
  - unfold populateMonths. rewrite (fill_selects_lookup _ _ _ _ l); [|unfold month_selects; by repeat constructor; set_solver|done|done].
    by rewrite clear_options_take.
  - rewrite length_month_options. lia.
Qed.




(** [populateYears] lists exactly six years, from the
    current one down to five years back, one per option in decreasing
    order, and selects the first (the current year) only. *)
Theorem populateYears_bounds y d l :
  d !! "reportYear" = Some l →
  (populateYears y d).2 = Ret tt ∧
  ∃ os, (populateYears y d).1 !! "reportYear" = Some os ∧ length os = 6%nat ∧
    ∀ k o, os !! k = Some o →
      (k < 6)%nat ∧ o_value o = pretty (y - Z.of_nat k)%Z ∧ o_text o = o_value o ∧ o_selected o = bool_decide (k = 0%nat).
Proof.
  intros Hl. unfold populateYears. rewrite Hl. split; [done|].
  exists (year_options y). simpl. rewrite lookup_insert_eq. split_and!; [done|reflexivity|].
  intros k o Hk. unfold year_options in Hk. rewrite list_lookup_fmap in Hk.
  destruct (seq 0 6 !! k) as [k'|] eqn:Hs; [|done]. apply lookup_seq in Hs as [-> Hk'].
  injection Hk as <-. simpl. split_and!; [lia|done|done|]. apply bool_decide_ext. lia.
Qed.

(** ** Concrete runs *)

Definition ph (text : string) : opt := mkOpt "" text false.

Definition ex_dd : dropdowns :=
  <["paymentClassFilter" := [ph "كل الحصص"]]> (<["paymentClass" := [ph "اختر الحصة"]]>
  (<["paymentMonthFilter" := [ph "كل الأشهر"; month_option 2020 0]]> (<["reportYear" := []]> ∅))).

Definition ex_net_classes : network := λ q,
  if rq_url q === "/api/classes" then
    Fulfilled (mkResponse 200 (Some (JArr [JObj [("_id", JStr "c1"); ("name", JStr "رياضيات")];
                                          JObj [("_id", JStr "c2"); ("name", JStr "فيزياء")]])))
  else Fulfilled (mkResponse 500 None).

Lemma class_selects_in_sync_witness :
  class_selects_ok (ph "كل الحصص") (ph "اختر الحصة") ex_dd ∧
  dd_reachable None ex_dd (dd_step None PopClasses (dd_step None (PopMonths 2025 2) ex_dd ex_net_classes) ex_net_classes) ∧
  class_selects_ok (ph "كل الحصص") (ph "اختر الحصة")
    (dd_step None PopClasses (dd_step None (PopMonths 2025 2) ex_dd ex_net_classes) ex_net_classes).
Proof.
  assert (class_selects_ok (ph "كل الحصص") (ph "اختر الحصة") ex_dd) as H0 by (exists []; split; reflexivity).
  assert (dd_reachable None ex_dd (dd_step None PopClasses (dd_step None (PopMonths 2025 2) ex_dd ex_net_classes)
                                    ex_net_classes)) as Hr by (repeat constructor).
  split_and!; [exact H0|exact Hr|exact (class_selects_in_sync None _ _ _ _ H0 Hr)].
Defined.

Lemma populateMonths_bounds_witness :
  (2 ≤ 11)%nat ∧ "paymentMonthFilter" ∈ month_selects ∧
  ex_dd !! "paymentMonthFilter" = Some [ph "كل الأشهر"; month_option 2020 0] ∧
  populateMonths 2025 2 ex_dd !! "paymentMonthFilter" = Some (take 1 [ph "كل الأشهر"; month_option 2020 0] ++ month_options 2025 2) ∧
  (13 ≤ length (month_options 2025 2) ≤ 24)%nat.
Proof.
  assert ((2 ≤ 11)%nat) as H1 by lia.
  assert ("paymentMonthFilter" ∈ month_selects) as H2 by (unfold month_selects; set_solver).
  assert (ex_dd !! "paymentMonthFilter" = Some [ph "كل الأشهر"; month_option 2020 0]) as H3 by reflexivity.
  destruct (populateMonths_bounds 2025 2 ex_dd _ _ H1 H2 H3) as [H4 H5].
  exact (conj H1 (conj H2 (conj H3 (conj H4 H5)))).
Defined.


Lemma populateYears_bounds_witness :
  ex_dd !! "reportYear" = Some [] ∧
  (populateYears 2025 ex_dd).2 = Ret tt ∧
  ∃ os, (populateYears 2025 ex_dd).1 !! "reportYear" = Some os ∧ length os = 6%nat ∧
    ∀ k o, os !! k = Some o →
      (k < 6)%nat ∧ o_value o = pretty (2025 - Z.of_nat k)%Z ∧ o_text o = o_value o ∧ o_selected o = bool_decide (k = 0%nat).
Proof.
  assert (ex_dd !! "reportYear" = Some []) as H by reflexivity.
  split; [exact H|exact (populateYears_bounds 2025 ex_dd [] H)].
Defined.

(** In March 2025 the month filters list January to March 2025, then
    January to December 2024: the two years are not in one order, and
    nothing older than January 2024 can be chosen. *)
Example months_in_march :
  o_value <$> month_options 2025 2 =
    ["2025-01"; "2025-02"; "2025-03"; "2024-01"; "2024-02"; "2024-03"; "2024-04"; "2024-05";
     "2024-06"; "2024-07"; "2024-08"; "2024-09"; "2024-10"; "2024-11"; "2024-12"].
Proof. reflexivity. Qed.

(** A 2xx answer that is not an array (an error object) empties the
    class selects but for their placeholders, and says nothing. *)
Example classes_error_object :
  let d := (populateClasses None ex_dd (λ _, Fulfilled (mkResponse 200 (Some (JObj [("error", JStr "x")]))))).1.2 in
  d !! "paymentClassFilter" = Some [ph "كل الحصص"] ∧ d !! "paymentClass" = Some [ph "اختر الحصة"].
Proof. split; reflexivity. Qed.
