(* ===== verification/Debounce.v ===== *)
(** * The debounced search box

    [debounce(func, wait)] (lines 1893-1903) returns [executedFunction],
    which cancels the timer of the previous call ([clearTimeout(timeout)])
    and arms a new one ([timeout = setTimeout(later, wait)]); [later]
    clears [timeout] and calls [func] with the arguments of the call that
    armed it.  [setupEventListeners] registers
    [debounce(loadPayments, 300)] for the [input] event of
    [#paymentStudentFilter] (line 107).

    The browser's timers are part of the model: a list of active timers
    with their ids and due times, the clock, and the id the next
    [setTimeout] returns.  An input event at time [t] runs after every
    timer due at [t] or before, earliest first; time then passes with no
    input ([settle]).

    [debounce_spec] says what debouncing promises: one call per input
    that is not followed by another within [wait], at its time plus
    [wait], with its arguments.  [debounce_refines] proves that the timer
    machine makes exactly these calls. *)

From Stdlib Require Import Arith Lia.
From stdpp Require Import base list strings.
From S2P Require Import Prelude.

Local Open Scope nat_scope.

Section Debounce.
(** The arguments of a call ([...args]: the input event). *)
Context {A : Type}.

Record timer : Type := mkTimer { t_id : nat; t_due : nat; t_args : A }.

Record world : Type := mkWorld {
  clock : nat;
  pending : list timer;   (* the browser's active timers, in creation order *)
  next_id : nat;          (* the id the next [setTimeout] returns *)
  timeout : option nat;   (* the closure's [let timeout;] *)
  calls : list (nat * A)  (* the calls [func(...args)], with their time *)
}.

Definition set_pending (l : list timer) (w : world) : world :=
  mkWorld (clock w) l (next_id w) (timeout w) (calls w).
Definition set_clock (t : nat) (w : world) : world :=
  mkWorld t (pending w) (next_id w) (timeout w) (calls w).

(** [clearTimeout(h)]: [undefined] and unknown ids are ignored. *)
Definition clearTimeout (h : option nat) (w : world) : world :=
  match h with
  | None => w
  | Some id => set_pending (List.filter (λ x, negb (t_id x =? id)) (pending w)) w
  end.

(** [setTimeout(later, wait)]: the new id and the world with the timer. *)
Definition setTimeout (args : A) (wait : nat) (w : world) : nat * world :=
  (next_id w,
   mkWorld (clock w) (pending w ++ [mkTimer (next_id w) (clock w + wait) args])
           (S (next_id w)) (timeout w) (calls w)).

(** [executedFunction(...args)]. *)
Definition executedFunction (wait : nat) (args : A) (w : world) : world :=
  let w1 := clearTimeout (timeout w) w in
  let r := setTimeout args wait w1 in
  mkWorld (clock r.2) (pending r.2) (next_id r.2) (Some r.1) (calls r.2).

(** [later()]: [clearTimeout(timeout); func(...args);]. *)
Definition later (args : A) (w : world) : world :=
  let w1 := clearTimeout (timeout w) w in
  mkWorld (clock w1) (pending w1) (next_id w1) (timeout w1) (calls w1 ++ [(clock w1, args)]).

(** The timer that fires first: the earliest due, the oldest on a tie. *)
Fixpoint earliest (l : list timer) : option timer :=
  match l with
  | [] => None
  | x :: l' =>
      match earliest l' with
      | Some y => if t_due y <? t_due x then Some y else Some x
      | None => Some x
      end
  end.

(** The browser fires a timer: it leaves the list, the clock reaches its
    due time, and [later] runs. *)
Definition fire (tm : timer) (w : world) : world :=
  later (t_args tm) (set_clock (t_due tm) (set_pending (List.filter (λ x, negb (t_id x =? t_id tm)) (pending w)) w)).

(** The timers due at [t] or before, earliest first; [fuel] bounds the
    number fired, and [length (pending w)] is enough ([run_timers_done]). *)
Fixpoint run_timers (fuel t : nat) (w : world) : world :=
  match fuel with
  | 0 => w
  | S f =>
      match earliest (pending w) with
      | Some tm => if t_due tm <=? t then run_timers f t (fire tm w) else w
      | None => w
      end
  end.

(** An [input] event at time [t]. *)
Definition input (wait t : nat) (args : A) (w : world) : world :=
  let w1 := run_timers (length (pending w)) t w in
  executedFunction wait args (set_clock t w1).

Fixpoint inputs (wait : nat) (ins : list (nat * A)) (w : world) : world :=
  match ins with
  | [] => w
  | (t, a) :: rest => inputs wait rest (input wait t a w)
  end.

(** Time passes with no further input: every timer fires. *)
Definition settle (w : world) : world :=
  run_timers (length (pending w)) (foldr max 0 (t_due <$> pending w)) w.

(** ** The specification *)

(** The calls after an input [(t, a)] followed by [rest]. *)
Fixpoint spec_after (wait t : nat) (a : A) (rest : list (nat * A)) : list (nat * A) :=
  match rest with
  | [] => [(t + wait, a)]
  | (t', a') :: rest' => (if t + wait <=? t' then [(t + wait, a)] else []) ++ spec_after wait t' a' rest'
  end.

Definition debounce_spec (wait : nat) (ins : list (nat * A)) : list (nat * A) :=
  match ins with [] => [] | (t, a) :: rest => spec_after wait t a rest end.

(** Input times that do not go back in time from [t0]. *)
Fixpoint nondecreasing (t0 : nat) (ins : list (nat * A)) : bool :=
  match ins with
  | [] => true
  | (t, _) :: rest => (t0 <=? t) && nondecreasing t rest
  end.
End Debounce.

Arguments timer : clear implicits.
Arguments world : clear implicits.

(** ** The timer machine *)

Section TimerProofs.
Context {A : Type}.

Lemma earliest_none (l : list (timer A)) : earliest l = None → l = [].
Proof. destruct l as [|x l]; simpl; [done|]. by destruct (earliest l) as [y|]; [destruct (_ <? _)|]. Qed.

Lemma earliest_some (l : list (timer A)) tm :
  earliest l = Some tm → tm ∈ l ∧ Forall (λ x, t_due tm <= t_due x) l.
Proof.
  revert tm. induction l as [|x l IH]; intros tm; simpl; [done|].
  destruct (earliest l) as [y|] eqn:Hy.
  - destruct (IH y eq_refl) as [Hin Hall].
    destruct (t_due y <? t_due x) eqn:Hlt; intros [= <-]; apply Nat.ltb_lt in Hlt || apply Nat.ltb_ge in Hlt.
    + split; [by right|]. constructor; [lia|done].
    + split; [by left|]. constructor; [lia|]. eapply Forall_impl; [exact Hall|]. simpl; lia.
  - intros [= <-]. rewrite (earliest_none _ Hy). split; [by left|]. by repeat constructor.
Qed.

Lemma length_filter_lt (l : list (timer A)) tm :
  tm ∈ l → length (List.filter (λ x, negb (t_id x =? t_id tm)) l) < length l.
Proof.
  induction l as [|x l IH]; intros Hin; [by apply not_elem_of_nil in Hin|].
  pose proof (List.filter_length_le (λ x, negb (t_id x =? t_id tm)) l).
  apply elem_of_cons in Hin as [->|Hin]; simpl.
  - rewrite Nat.eqb_refl. simpl. lia.
  - specialize (IH Hin). destruct (negb _); simpl; lia.
Qed.

Lemma length_clearTimeout h (w : world A) : length (pending (clearTimeout h w)) <= length (pending w).
Proof. destruct h; simpl; [apply List.filter_length_le|lia]. Qed.

Lemma length_fire tm (w : world A) : tm ∈ pending w → length (pending (fire tm w)) < length (pending w).
Proof.
  intros Hin. unfold fire, later. simpl.
  eapply Nat.le_lt_trans; [apply length_clearTimeout|]. by apply length_filter_lt.
Qed.

(** The browser's loop over due timers, run with as
    many steps as there are active timers, leaves no timer due at [t]:
    the fuel is always enough. *)
Theorem run_timers_done t (w : world A) :
  Forall (λ x, t < t_due x) (pending (run_timers (length (pending w)) t w)).
Proof.
  remember (length (pending w)) as n eqn:Hn. assert (length (pending w) <= n) as Hle by lia. clear Hn.
  revert w Hle. induction n as [|n IH]; intros w Hle; simpl.
  - destruct (pending w); [constructor|simpl in Hle; lia].
  - destruct (earliest (pending w)) as [tm|] eqn:He.
    + destruct (earliest_some _ _ He) as [Hin Hall].
      destruct (t_due tm <=? t) eqn:Hd.
      * apply IH. pose proof (length_fire tm w Hin). lia.
      * apply Nat.leb_gt in Hd. eapply Forall_impl; [exact Hall|]. simpl; lia.
    + rewrite (earliest_none _ He). constructor.
Qed.
End TimerProofs.

(** ** Debouncing refines its specification *)

Section Refinement.
Context {A : Type}.
Variable wait : nat.

(** No timer is armed; a stale [timeout] names an id already used. *)
Definition idle (w : world A) : Prop :=
  pending w = [] ∧ match timeout w with Some id => id < next_id w | None => True end.

(** The last input, at [t] with [a], armed the only timer. *)
Definition armed (w : world A) (t : nat) (a : A) : Prop :=
  ∃ id, pending w = [mkTimer id (t + wait) a] ∧ timeout w = Some id ∧ id < next_id w ∧ clock w = t.

Lemma filter_other_id (l : list (timer A)) id :
  Forall (λ x, t_id x < id) l → List.filter (λ x, negb (t_id x =? id)) l = l.
Proof.
  induction 1 as [|x l Hx _ IH]; simpl; [done|].
  replace (t_id x =? id) with false by (symmetry; apply Nat.eqb_neq; lia). simpl. by rewrite IH.
Qed.

Lemma input_idle w t a :
  idle w → armed (input wait t a w) t a ∧ calls (input wait t a w) = calls w.
Proof.
  destruct w as [c p n to cs]. intros [Hp Ht]. simpl in *. subst p. unfold armed, input.
  destruct to as [id|]; simpl; (split; [|done]); eexists; split_and!; try done; simpl; lia.
Qed.

Lemma input_armed w t a t' a' :
  armed w t a → t <= t' →
  armed (input wait t' a' w) t' a' ∧
  calls (input wait t' a' w) = calls w ++ (if t + wait <=? t' then [(t + wait, a)] else []).
Proof.
  destruct w as [c p n to cs]. intros (id & Hp & Ht & Hid & Hc) Hle. simpl in *. subst.
  unfold armed, input. simpl.
  destruct (t + wait <=? t') eqn:Hd; simpl; rewrite ?Nat.eqb_refl; simpl; rewrite ?Nat.eqb_refl, ?app_nil_r;
    (split; [eexists; split_and!; try done; simpl; lia|done]).
Qed.

Lemma settle_armed w t a : armed w t a → calls (settle w) = calls w ++ [(t + wait, a)].
Proof.
  destruct w as [c p n to cs]. intros (id & Hp & Ht & Hid & Hc). simpl in *. subst.
  unfold settle. simpl. rewrite Nat.max_0_r, Nat.leb_refl. simpl. by rewrite ?Nat.eqb_refl.
Qed.

Lemma inputs_armed ins w t a :
  armed w t a → nondecreasing t ins = true →
  calls (settle (inputs wait ins w)) = calls w ++ spec_after wait t a ins.
Proof.
  revert w t a. induction ins as [|[t' a'] ins IH]; intros w t a Hw Hnd; simpl.
  - by apply settle_armed.
  - apply andb_true_iff in Hnd as [Hle Hnd]. apply Nat.leb_le in Hle.
    destruct (input_armed w t a t' a' Hw Hle) as [Hw' Hc].
    rewrite (IH _ _ _ Hw' Hnd), Hc. by rewrite (assoc_L (++)).
Qed.

(** The calls made by the timer machine, from a state with no armed
    timer. *)
Lemma debounce_calls ins (w : world A) :
  idle w → nondecreasing (clock w) ins = true →
  calls (settle (inputs wait ins w)) = calls w ++ debounce_spec wait ins.
Proof.
  intros Hw Hnd. destruct ins as [|[t a] ins]; simpl.
  - destruct Hw as [Hp _]. unfold settle. rewrite Hp. by rewrite app_nil_r.
  - apply andb_true_iff in Hnd as [_ Hnd].
    destruct (input_idle w t a Hw) as [Hw' Hc]. by rewrite (inputs_armed ins _ t a Hw' Hnd), Hc.
Qed.

(** C8 (refinement).  Debouncing implements its specification: from a
    state with no armed timer, for input events at times that never go
    back, once time has passed the calls made are exactly
    [debounce_spec]: one per input not followed by another within
    [wait], made [wait] after it, with its arguments. *)
Theorem debounce_refines ins (w : world A) :
  idle w → nondecreasing (clock w) ins = true →
  calls (settle (inputs wait ins w)) = calls w ++ debounce_spec wait ins.
Proof. apply debounce_calls. Qed.
End Refinement.

Section Liveness.
Context {A : Type}.
Variable wait : nat.

Lemma spec_after_snoc t a rest t' (a' : A) :
  ∃ pre, spec_after wait t a (rest ++ [(t', a')]) = pre ++ [(t' + wait, a')].
Proof.
  revert t a. induction rest as [|[t1 a1] rest IH]; intros t a; simpl.
  - by exists (if t + wait <=? t' then [(t + wait, a)] else []).
  - destruct (IH t1 a1) as [pre Hpre]. rewrite Hpre.
    exists ((if t + wait <=? t1 then [(t + wait, a)] else []) ++ pre). by rewrite (assoc_L (++)).
Qed.

Lemma spec_after_length t (a : A) rest : length (spec_after wait t a rest) <= S (length rest).
Proof.
  revert t a. induction rest as [|[t1 a1] rest IH]; intros t a; simpl; [done|].
  rewrite length_app. specialize (IH t1 a1). destruct (t + wait <=? t1); simpl; lia.
Qed.

(** The last input is never lost: once time has passed,
    the last call is the one for the last input, [wait] after it, with
    its arguments; and there are never more calls than inputs. *)
Theorem debounce_last_input_called ins t a (w : world A) :
  idle w → nondecreasing (clock w) (ins ++ [(t, a)]) = true →
  (∃ pre, calls (settle (inputs wait (ins ++ [(t, a)]) w)) = calls w ++ pre ++ [(t + wait, a)]) ∧
  length (calls (settle (inputs wait (ins ++ [(t, a)]) w))) <= length (calls w) + S (length ins).
Proof.
  intros Hw Hnd. rewrite (debounce_calls wait _ w Hw Hnd). split.
  - destruct ins as [|[t0 a0] ins]; simpl; [by exists []|].
    destruct (spec_after_snoc t0 a0 ins t a) as [pre ->]. by exists pre.
  - rewrite length_app. destruct ins as [|[t0 a0] ins]; simpl; [lia|].
    pose proof (spec_after_length t0 a0 (ins ++ [(t, a)])) as H. rewrite length_app in H. simpl in H. lia.
Qed.
End Liveness.

(** ** The search box *)

(** A fresh page: no timer, nothing called. *)
Definition fresh_world {A} : world A := mkWorld 0 [] 1 None [].

(** Typing "Ali" quickly, pausing, then one more letter: two searches,
    300 ms after "Ali" and after "Alia". *)
Example search_box_calls :
  calls (settle (inputs 300 [(0, "A"); (100, "Al"); (250, "Ali"); (900, "Alia")] fresh_world)) =
    [(550, "Ali"); (1200, "Alia")]%string.
Proof. reflexivity. Qed.

Lemma debounce_refines_witness :
  idle (@fresh_world string) ∧
  nondecreasing (clock (@fresh_world string)) [(0, "A"); (100, "Al"); (250, "Ali"); (900, "Alia")]%string = true ∧
  calls (settle (inputs 300 [(0, "A"); (100, "Al"); (250, "Ali"); (900, "Alia")]%string fresh_world)) =
    debounce_spec 300 [(0, "A"); (100, "Al"); (250, "Ali"); (900, "Alia")]%string.
Proof.
  assert (idle (@fresh_world string)) as Hw by (split; [done|exact I]).
  assert (nondecreasing (clock (@fresh_world string)) [(0, "A"); (100, "Al"); (250, "Ali"); (900, "Alia")]%string = true)
    as Hnd by reflexivity.
  split; [exact Hw|]. split; [exact Hnd|]. exact (debounce_refines 300 _ _ Hw Hnd).
Defined.

Lemma debounce_last_input_called_witness :
  idle (@fresh_world string) ∧
  nondecreasing (clock (@fresh_world string)) ([(0, "A"%string); (100, "Al"%string)] ++ [(250, "Ali"%string)]) = true ∧
  ∃ pre, calls (settle (inputs 300 ([(0, "A"%string); (100, "Al"%string)] ++ [(250, "Ali"%string)]) fresh_world)) =
           [] ++ pre ++ [(550, "Ali"%string)].
Proof.
  assert (idle (@fresh_world string)) as Hw by (split; [done|exact I]).
  assert (nondecreasing (clock (@fresh_world string)) ([(0, "A"%string); (100, "Al"%string)] ++ [(250, "Ali"%string)]) = true)
    as Hnd by reflexivity.
  split; [exact Hw|]. split; [exact Hnd|].
  exact (proj1 (debounce_last_input_called 300 _ _ _ _ Hw Hnd)).
Defined.
