(* ===== verification/Dashboard.v ===== *)
(** * The dashboard

    [loadDashboardData] (lines 359-377) runs, under the loading overlay,
    [updateDashboardStats] (the second declaration, lines 2822-2873,
    which replaces the one of lines 380-398), [loadTransactions] (lines
    402-417) and [loadChartData] (lines 462-496).  The replaced first
    declaration is modelled too ([updateDashboardStats_first]): it takes
    the figures as an argument, which the call of line 364 does not pass.

    The statistics add up [amount] with JavaScript's [+], so the model
    keeps the three kinds of value such a sum can take: a number, [NaN],
    or a string once a string or an object has been added.  The number
    is kept as an exact integer: the amounts are integers, and the double
    sum equals the integer sum while it stays a safe integer
    ([Double.d_add_int]); a string amount is read with [ToNumber] where
    [-] converts it, and one that is not an integer is not modelled.
    The chart
    ([renderChart], lines 498-578) is modelled by the series it is given
    and by the lifecycle of [window.incomeExpenseChart]; drawing is
    Chart.js's. *)

From Stdlib Require Import ZArith QArith.
From stdpp Require Import base list strings pretty.
From S2P Require Import Prelude Double Fetch Prog Session Listing.

Local Open Scope string_scope.
Local Open Scope acc_scope.
Local Open Scope list_scope.

(** ** Arithmetic on parsed values *)

(** What [sum + payment.amount] and [a - b] evaluate to. *)
Inductive num : Type := NNum (z : Z) | NNaN | NStr (s : string).

(** [String(x)]. *)
Definition num_string (x : num) : string :=
  match x with NNum z => pretty z | NNaN => "NaN" | NStr s => s end.

(** [x + v]: a string on either side concatenates (arrays and objects
    print first), [undefined] makes [NaN], [null] is [0]. *)
Definition js_plus (x : num) (v : option jval) : num :=
  match x, v with
  | NStr s, _ => NStr (s +:+ js_template v)
  | _, Some (JStr s) => NStr (num_string x +:+ s)
  | _, Some (JArr l) => NStr (num_string x +:+ js_string (JArr l))
  | _, Some (JObj _) => NStr (num_string x +:+ "[object Object]")
  | NNum a, Some (JNum b) => NNum (a + b)
  | NNum a, Some JNull => NNum a
  | NNum a, Some (JBool b) => NNum (a + if b then 1 else 0)
  | NNum _, None => NNaN
  | NNaN, _ => NNaN
  end.

(** [ToNumber(x)] of a sum, as an integer: a string sum is read by
    [Double.str_to_number]; [None] for [NaN], and also for a string whose
    number is not an integer, which the integer sums of this file do not
    represent. *)
Definition to_num (x : num) : option Z :=
  match x with
  | NNum z => Some z
  | NNaN => None
  | NStr s => match str_to_number s with QFin q => if (Qden q =? 1)%positive then Some (Qnum q) else None | _ => None end
  end.

(** [x - y]. *)
Definition js_minus (x y : num) : num :=
  match to_num x, to_num y with Some a, Some b => NNum (a - b) | _, _ => NNaN end.

(** [l.reduce((sum, item) => sum + item[k], 0)] on an array. *)
Definition reduce_field (k : string) (l : list jval) : jsres num :=
  fold_left (λ acc item, s ← acc; a ← js_get k (Some item); mret (js_plus s a)) l (Ret (NNum 0)).

(** [list.reduce((sum, item) => sum + item.amount, 0)]. *)
Definition sum_amounts (v : jval) : jsres num :=
  match v with
  | JArr l => reduce_field "amount" l
  | _ => Throw (TypeError "list.reduce")
  end.

(** ** The page *)

(** A transaction row (lines 430-455). *)
Record trow : Type := mkTRow {
  tr_date : string; tr_type : string; tr_class : string; tr_sign : string;
  tr_description : string; tr_amount : string; tr_badge : badge
}.

Inductive ttable : Type := TNotice | TRows (rows : list trow).

(** The series given to Chart.js. *)
Record chart : Type := mkChart {
  ch_labels : list string;
  ch_income : list (option jval);
  ch_expense : list (option jval)
}.

(** [window.incomeExpenseChart]. *)
Inductive chart_state : Type := NoChart | Live (c : chart) | Destroyed (c : chart).

Record dashboard : Type := mkDashboard {
  totalIncome : string;
  totalExpenses : string;
  netProfit : string;
  pendingPayments : string;
  recentTransactions : option ttable;
  incomeExpenseChart : chart_state
}.

Definition set_stats (i e p : string) (d : dashboard) : dashboard :=
  mkDashboard i e p (pendingPayments d) (recentTransactions d) (incomeExpenseChart d).
Definition set_pending_count (s : string) (d : dashboard) : dashboard :=
  mkDashboard (totalIncome d) (totalExpenses d) (netProfit d) s (recentTransactions d) (incomeExpenseChart d).
Definition set_recent (t : ttable) (d : dashboard) : dashboard :=
  mkDashboard (totalIncome d) (totalExpenses d) (netProfit d) (pendingPayments d) (Some t) (incomeExpenseChart d).
Definition set_chart (c : chart_state) (d : dashboard) : dashboard :=
  mkDashboard (totalIncome d) (totalExpenses d) (netProfit d) (pendingPayments d) (recentTransactions d) c.

(** The month names of [renderChart] (lines 515-516). *)
Definition months : list string :=
  ["يناير"; "فبراير"; "مارس"; "أبريل"; "مايو"; "يونيو";
   "يوليو"; "أغسطس"; "سبتمبر"; "أكتوبر"; "نوفمبر"; "ديسمبر"].

(** [`${months[id - 1]}`]: [id - 1] is a number, and [months[k]] is a
    month only for an integer [k] from 0 to 11 ([undefined] otherwise,
    [NaN] included). *)
Definition month_name (id : option jval) : string :=
  match d_sub (val_number id) (QFin 1) with
  | QFin q =>
      if (Qden q =? 1)%positive && (0 <=? Qnum q)%Z && (Qnum q <=? 11)%Z
      then default "undefined" (months !! Z.to_nat (Qnum q)) else "undefined"
  | _ => "undefined"
  end.

(** [item => `${months[item._id - 1]}`]. *)
Definition month_label (item : jval) : jsres string :=
  id ← js_get "_id" (Some item);
  mret (month_name id).

(** [v.map(f)] on a property that is not an array throws. *)
Definition js_map {B} (f : jval → jsres B) (v : option jval) : jsres (list B) :=
  match v with
  | Some (JArr l) => mapM f l
  | _ => Throw (TypeError ".map")
  end.

(** [item => item.total]. *)
Definition item_total (item : jval) : jsres (option jval) := js_get "total" (Some item).

(** [window.incomeExpenseChart.destroy()] when there is one. *)
Definition destroy (c : chart_state) : chart_state :=
  match c with Live c => Destroyed c | c => c end.

(** [renderChart(data)] (lines 498-578): the old chart is destroyed
    before the data is checked; an invalid object returns with no chart
    drawn; the labels come from [monthlyIncome], the two series from
    both lists, by position. *)
Definition renderChart (data : jval) (c : chart_state) : chart_state * jsres unit :=
  let c1 := destroy c in
  if negb (js_truthy (Some data)) || negb (js_truthy (jget "monthlyIncome" data))
     || negb (js_truthy (jget "monthlyExpenses" data)) then (c1, Ret tt)
  else
    match labels ← js_map month_label (jget "monthlyIncome" data);
          incomeData ← js_map item_total (jget "monthlyIncome" data);
          expenseData ← js_map item_total (jget "monthlyExpenses" data);
          mret (mkChart labels incomeData expenseData) with
    | Ret ch => (Live ch, Ret tt)
    | Throw e => (c1, Throw e)
    end.

(** The figures [loadChartData] draws when anything fails (lines
    469-486). *)
Definition sample_chart_data : jval :=
  let series l := JArr ((λ p : Z * Z, JObj [("_id", JNum p.1); ("total", JNum p.2)]) <$> l) in
  JObj [("monthlyIncome", series [(1, 500000); (2, 750000); (3, 600000); (4, 900000); (5, 800000); (6, 950000)]%Z);
        ("monthlyExpenses", series [(1, 300000); (2, 400000); (3, 350000); (4, 500000); (5, 450000); (6, 550000)]%Z)].

Section Dashboard.
(** [n.toLocaleString()] and [new Date(d).toLocaleDateString('ar-EG')]
    ([new Date(undefined)] is an invalid date, [new Date(null)] is 1970). *)
Variable toLocaleString : jval → string.
Variable toLocaleDateString : option jval → string.

(** [x.toLocaleString()] of a sum: a string prints as itself. *)
Definition locale_text (x : num) : string :=
  match x with NNum z => toLocaleString (JNum z) | NNaN => "NaN" | NStr s => s end.

(** [updateDashboardStats()] (lines 2822-2873): its own [catch] logs
    every exception. *)
Definition updateDashboardStats (authToken : option string) : sprog dashboard unit :=
  s_try
    (paymentsResponse ← s_lift (p_fetch (api_get authToken "/payments?status=paid"));
     expensesResponse ← s_lift (p_fetch (api_get authToken "/accounting/expenses?status=paid"));
     totalIncome ← (if resp_ok paymentsResponse then
                      payments ← s_lift (p_json paymentsResponse);
                      s_lift (p_lift (sum_amounts payments))
                    else mret (NNum 0));
     totalExpenses ← (if resp_ok expensesResponse then
                        expenses ← s_lift (p_json expensesResponse);
                        s_lift (p_lift (sum_amounts expenses))
                      else mret (NNum 0));
     let netProfit := js_minus totalIncome totalExpenses in
     s_modify (set_stats (locale_text totalIncome +:+ " د.ج") (locale_text totalExpenses +:+ " د.ج")
                         (locale_text netProfit +:+ " د.ج")) ;;
     pendingResponse ← s_lift (p_fetch (api_get authToken "/payments?status=pending"));
     if resp_ok pendingResponse then
       pending ← s_lift (p_json pendingResponse);
       len ← s_lift (p_lift (js_length pending));
       s_modify (set_pending_count (if js_truthy len then dom_text len else "0"))
     else mret ())
    (λ _, mret ())
    (mret ()).

(** One row of [renderTransactions] (lines 430-455). *)
Definition transaction_row (t : jval) : jsres trow :=
  date ← js_get "date" (Some t);
  status ← js_get "status" (Some t);
  amount ← amount_text toLocaleString (jget "amount" t);
  let income := js_is (jget "type" t) "income" in
  mret (mkTRow (toLocaleDateString date)
               (if income then "إيراد" else "مصروف")
               (if income then "text-success" else "text-danger")
               (if income then "+" else "-")
               (js_template (jget "description" t))
               amount
               (if js_truthy status then status_badge status else NoBadge)).

(** [renderTransactions(transactions)] (lines 421-459): rows appended
    before an exception stay. *)
Definition renderTransactions (transactions : jval) : ttable * jsres unit :=
  match js_length transactions with
  | Throw e => (TRows [], Throw e)
  | Ret (Some (JNum 0)) => (TNotice, Ret tt)
  | Ret _ =>
      match transactions with
      | JArr l =>
          let r := foldl (λ acc t, match acc.2 with
                                   | Ret _ => match transaction_row t with
                                              | Ret row => (acc.1 ++ [row], Ret tt)
                                              | Throw e => (acc.1, Throw e)
                                              end
                                   | Throw e => acc
                                   end) ([], Ret tt) l in
          (TRows r.1, r.2)
      | _ => (TRows [], Throw (TypeError "transactions.forEach"))
      end
  end.

Definition s_renderTransactions (transactions : jval) : sprog dashboard unit := λ d _,
  let r := renderTransactions transactions in ([], set_recent r.1 d, r.2).

(** [loadTransactions()] (lines 402-417). *)
Definition loadTransactions (authToken : option string) : sprog dashboard unit :=
  s_try
    (response ← s_lift (p_fetch (api_get authToken "/accounting/all-transactions?limit=10"));
     if resp_ok response then
       transactions ← s_lift (p_json response);
       s_renderTransactions transactions
     else mret ())
    (λ _, mret ())
    (mret ()).

Definition s_renderChart (data : jval) : sprog dashboard unit := λ d _,
  let r := renderChart data (incomeExpenseChart d) in ([], set_chart r.1 d, r.2).

(** [loadChartData()] (lines 462-496): a network failure, a body that is
    not JSON and an exception of [renderChart] all draw the sample
    figures; a non-2xx answer draws nothing. *)
Definition loadChartData (authToken : option string) : sprog dashboard unit :=
  s_try
    (response ← s_lift (p_fetch (api_get authToken "/accounting/dashboard"));
     if resp_ok response then
       data ← s_lift (p_json response);
       s_renderChart data
     else mret ())
    (λ _, s_renderChart sample_chart_data)
    (mret ()).

(** [loadDashboardData()] (lines 359-377). *)
Definition loadDashboardData (authToken : option string) : sprog dashboard unit :=
  s_lift showLoading ;;
  s_try
    (updateDashboardStats authToken ;; loadTransactions authToken ;; loadChartData authToken)
    (λ _, mret ())
    (s_lift hideLoading).

(** ** The first [updateDashboardStats]

    The script declares [updateDashboardStats] twice; the second
    declaration (line 2822) replaces the first (lines 380-398) when the
    script is parsed.  The first takes the figures as an argument, is not
    [async], and does not wait for the request it starts. *)

(** [`${stats.currentMonthSummary.k.toLocaleString()} د.ج`]. *)
Definition summary_text (stats : option jval) (k : string) : jsres string :=
  summary ← js_get "currentMonthSummary" stats;
  v ← js_get k summary;
  match v with
  | None | Some JNull => Throw (TypeError (k +:+ ".toLocaleString"))
  | Some (JStr s) => Ret (s +:+ " د.ج")
  | Some x => Ret (toLocaleString x +:+ " د.ج")
  end.

(** The callbacks of [fetch(..).then(r => r.json()).then(..).catch(..)]
    (lines 391-397), run when the promise settles; every failure ends in
    the [catch], which only logs. *)
Definition pending_task (q : request) : sprog dashboard unit := λ d net,
  match r ← await_fetch (net q); payments ← await_json r; js_length payments with
  | Ret len => ([], set_pending_count (if js_truthy len then dom_text len else "0") d, Ret tt)
  | Throw _ => ([], d, Ret tt)
  end.

(** [updateDashboardStats(stats)] (lines 380-398): each figure is written
    before the next is read; the request is sent and the function returns
    the task its promise will run. *)
Definition updateDashboardStats_first (authToken : option string) (stats : option jval)
    : sprog dashboard (sprog dashboard unit) :=
  i ← s_lift (p_lift (summary_text stats "income"));
  s_modify (λ d, set_stats i (totalExpenses d) (netProfit d) d) ;;
  e ← s_lift (p_lift (summary_text stats "expenses"));
  s_modify (λ d, set_stats (totalIncome d) e (netProfit d) d) ;;
  p ← s_lift (p_lift (summary_text stats "profit"));
  s_modify (λ d, set_stats (totalIncome d) (totalExpenses d) p d) ;;
  let q := api_get authToken "/payments?status=pending" in
  s_lift (p_emit (EFetch q)) ;;
  mret (pending_task q).

(** [loadDashboardData] had the first declaration stayed in force: line
    364 calls [updateDashboardStats()] without an argument. *)
Definition loadDashboardData_first (authToken : option string) : sprog dashboard unit :=
  s_lift showLoading ;;
  s_try
    (_ ← updateDashboardStats_first authToken None;
     loadTransactions authToken ;; loadChartData authToken)
    (λ _, mret ())
    (s_lift hideLoading).
End Dashboard.

(** ** Sums *)

(** The items of [l] are objects whose field [k] is the number [z]. *)
Definition field_nums (k : string) (l : list jval) (zs : list Z) : Prop :=
  Forall2 (λ item z, item ≠ JNull ∧ jget k item = Some (JNum z)) l zs.

Definition amounts (l : list jval) (zs : list Z) : Prop := field_nums "amount" l zs.

Lemma reduce_field_go k l zs a :
  field_nums k l zs →
  fold_left (λ acc item, s ← acc; x ← js_get k (Some item); mret (js_plus s x)) l (Ret (NNum a)) =
    Ret (NNum (a + sumZ id zs)).
Proof.
  intros H. revert a. induction H as [|item z l zs [Hn Ha] _ IH]; intros a; simpl; [by rewrite Z.add_0_r|].
  destruct item; try done; simpl in *; rewrite Ha; simpl; rewrite IH; f_equal; f_equal; unfold id; lia.
Qed.

(** With numeric fields, the reduction is the sum. *)
Lemma reduce_field_numeric k l zs : field_nums k l zs → reduce_field k l = Ret (NNum (sumZ id zs)).
Proof. intros H. unfold reduce_field. by rewrite (reduce_field_go k l zs 0 H). Qed.

Lemma sum_amounts_numeric l zs : amounts l zs → sum_amounts (JArr l) = Ret (NNum (sumZ id zs)).
Proof. apply reduce_field_numeric. Qed.

(** ** Properties of the statistics *)

Definition q_paid (authToken : option string) : request := api_get authToken "/payments?status=paid".
Definition q_expenses (authToken : option string) : request := api_get authToken "/accounting/expenses?status=paid".
Definition q_pending (authToken : option string) : request := api_get authToken "/payments?status=pending".

Section StatsProofs.
Variable toLocaleString : jval → string.
Variable toLocaleDateString : option jval → string.

(** C21 (functional).  The three figures of the dashboard.  With the
    three answers in and numeric amounts, income is the sum of the paid
    payments, expenses the sum of the paid expenses, the profit their
    difference, and the pending count the length of the pending list;
    but a non-2xx answer for payments or expenses counts as a sum of 0,
    so a failed request reads as no income or no expenses. *)
Theorem updateDashboardStats_totals authToken d net r1 r2 r3 pl el ql zp ze :
  net (q_paid authToken) = Fulfilled r1 → net (q_expenses authToken) = Fulfilled r2 →
  net (q_pending authToken) = Fulfilled r3 →
  (resp_ok r1 = true → rbody r1 = Some (JArr pl)) → (resp_ok r2 = true → rbody r2 = Some (JArr el)) →
  resp_ok r3 = true → rbody r3 = Some (JArr ql) →
  amounts pl zp → amounts el ze →
  let income := if resp_ok r1 then sumZ id zp else 0%Z in
  let expenses := if resp_ok r2 then sumZ id ze else 0%Z in
  let r := updateDashboardStats toLocaleString authToken d net in
  requests_of r.1.1 = [q_paid authToken; q_expenses authToken; q_pending authToken] ∧ r.2 = Ret tt ∧
  totalIncome r.1.2 = toLocaleString (JNum income) +:+ " د.ج" ∧
  totalExpenses r.1.2 = toLocaleString (JNum expenses) +:+ " د.ج" ∧
  netProfit r.1.2 = toLocaleString (JNum (income - expenses)) +:+ " د.ج" ∧
  pendingPayments r.1.2 = pretty (Z.of_nat (length ql)).
Proof.
  intros H1 H2 H3 Hb1 Hb2 Hok3 Hb3 Hp He.
  pose proof (sum_amounts_numeric pl zp Hp) as Sp. pose proof (sum_amounts_numeric el ze He) as Se.
  unfold q_paid, q_expenses, q_pending in *.
  unfold updateDashboardStats, s_try, mbind, sprog_bind, mret, sprog_ret.
  cbn -[sum_amounts]. rewrite H1. cbn -[sum_amounts]. rewrite H2. cbn -[sum_amounts].
  destruct (resp_ok r1) eqn:O1, (resp_ok r2) eqn:O2; cbn -[sum_amounts];
    unfold await_json; rewrite ?Hb1, ?Hb2 by done; cbn -[sum_amounts]; rewrite ?Sp, ?Se; cbn -[sum_amounts];
    rewrite H3; cbn -[sum_amounts]; rewrite Hok3, Hb3; cbn -[sum_amounts];
    (split_and!; [done..|]); by destruct ql.
Qed.
(** The first [updateDashboardStats], given the figures, writes them,
    sends the request for the pending payments and returns without
    waiting for it: the count is written by the task it returns. *)
Theorem updateDashboardStats_first_run tok d net i e p :
  let stats := JObj [("currentMonthSummary", JObj [("income", JNum i); ("expenses", JNum e); ("profit", JNum p)])] in
  let q := api_get tok "/payments?status=pending" in
  updateDashboardStats_first toLocaleString tok (Some stats) d net =
    ([EFetch q], set_stats (toLocaleString (JNum i) +:+ " د.ج") (toLocaleString (JNum e) +:+ " د.ج")
                           (toLocaleString (JNum p) +:+ " د.ج") d, Ret (pending_task q)).
Proof. reflexivity. Qed.

(** Had the first declaration stayed in force, the dashboard would never
    load: line 364 calls it without an argument, [stats.currentMonthSummary]
    throws before any request, the [catch] of [loadDashboardData] only
    logs, and [loadTransactions] and [loadChartData] never run. *)
Theorem loadDashboardData_first_stops tok d net :
  loadDashboardData_first toLocaleString toLocaleDateString tok d net = ([ELoading true; ELoading false], d, Ret tt).
Proof. reflexivity. Qed.
End StatsProofs.

(** ** Properties of the chart *)

Lemma mapM_Ret {B} (f : jval → jsres B) (g : jval → B) l :
  Forall (λ x, f x = Ret (g x)) l → mapM f l = Ret (g <$> l).
Proof. induction 1 as [|x l Hx _ IH]; [done|]. simpl. by rewrite Hx, IH. Qed.

Lemma month_label_ok item : item ≠ JNull → month_label item = Ret (month_name (jget "_id" item)).
Proof. by destruct item. Qed.

Lemma item_total_ok item : item ≠ JNull → item_total item = Ret (jget "total" item).
Proof. by destruct item. Qed.

(** The chart's x axis is the months of
    [monthlyIncome]; both series are taken by position, so the expense
    plotted under a month is the one at the same index of
    [monthlyExpenses], whatever month it belongs to. *)
Theorem renderChart_by_position data inc exp c :
  data ≠ JNull → jget "monthlyIncome" data = Some (JArr inc) → jget "monthlyExpenses" data = Some (JArr exp) →
  Forall (λ x, x ≠ JNull) inc → Forall (λ x, x ≠ JNull) exp →
  renderChart data c =
    (Live (mkChart ((λ x, month_name (jget "_id" x)) <$> inc) ((λ x, jget "total" x) <$> inc)
                   ((λ x, jget "total" x) <$> exp)), Ret tt).
Proof.
  intros Hd Hi He Hinc Hexp. unfold renderChart. rewrite Hi, He.
  replace (js_truthy (Some data)) with true by (destruct data; done).
  simpl. unfold js_map.
  rewrite (mapM_Ret month_label (λ x, month_name (jget "_id" x)) inc),
          (mapM_Ret item_total (λ x, jget "total" x) inc), (mapM_Ret item_total (λ x, jget "total" x) exp).
  - done.
  - eapply Forall_impl; [exact Hexp|]. apply item_total_ok.
  - eapply Forall_impl; [exact Hinc|]. apply item_total_ok.
  - eapply Forall_impl; [exact Hinc|]. apply month_label_ok.
Qed.

(** The chart of the sample figures. *)
Definition sample_chart : chart :=
  mkChart ["يناير"; "فبراير"; "مارس"; "أبريل"; "مايو"; "يونيو"]
          (Some ∘ JNum <$> [500000; 750000; 600000; 900000; 800000; 950000]%Z)
          (Some ∘ JNum <$> [300000; 400000; 350000; 500000; 450000; 550000]%Z).

Lemma renderChart_sample c : renderChart sample_chart_data c = (Live sample_chart, Ret tt).
Proof. reflexivity. Qed.

Definition q_dashboard (authToken : option string) : request := api_get authToken "/accounting/dashboard".

(** When the request fails, the body is not JSON, or the
    data makes [renderChart] throw, [loadChartData] draws the built-in
    sample figures as if they were the school's. *)
Theorem loadChartData_fallback authToken d net :
  match net (q_dashboard authToken) with
  | Rejected _ => True
  | Fulfilled r =>
      resp_ok r = true ∧
      match rbody r with
      | None => True
      | Some data => ∃ e, (renderChart data (incomeExpenseChart d)).2 = Throw e
      end
  end →
  let r := loadChartData authToken d net in
  incomeExpenseChart r.1.2 = Live sample_chart ∧ r.2 = Ret tt ∧ requests_of r.1.1 = [q_dashboard authToken].
Proof.
  unfold loadChartData, q_dashboard, s_try, s_renderChart, mbind, sprog_bind, mret, sprog_ret. cbn -[renderChart].
  destruct (net _) as [r|e]; cbn -[renderChart].
  - intros [Hok Hb]. rewrite Hok. cbn -[renderChart]. unfold await_json.
    destruct (rbody r) as [data|]; cbn -[renderChart]; [|by rewrite renderChart_sample].
    destruct Hb as [e He]. destruct (renderChart data _) as [c' o]. simpl in He. subst o.
    cbn -[renderChart]. by rewrite renderChart_sample.
  - intros _. by rewrite renderChart_sample.
Qed.

(** ** Concrete runs *)

Definition ex_dash : dashboard := mkDashboard "" "" "" "" None NoChart.
Definition amount_item (z : Z) : jval := JObj [("amount", JNum z)].

(** Paid payments of 1500 and 2000, expenses refused by the server, two
    pending payments. *)
Definition ex_net_stats : network := λ q,
  if rq_url q === "/api/payments?status=paid" then
    Fulfilled (mkResponse 200 (Some (JArr [amount_item 1500; amount_item 2000])))
  else if rq_url q === "/api/accounting/expenses?status=paid" then
    Fulfilled (mkResponse 500 (Some (JObj [("error", JStr "db")])))
  else Fulfilled (mkResponse 200 (Some (JArr [JObj []; JObj []]))).

Lemma updateDashboardStats_totals_witness :
  let r := updateDashboardStats plain_text (Some "tok") ex_dash ex_net_stats in
  totalIncome r.1.2 = "3500 د.ج" ∧ totalExpenses r.1.2 = "0 د.ج" ∧ netProfit r.1.2 = "3500 د.ج" ∧
  pendingPayments r.1.2 = "2".
Proof.
  destruct (updateDashboardStats_totals plain_text (Some "tok") ex_dash ex_net_stats
              (mkResponse 200 (Some (JArr [amount_item 1500; amount_item 2000])))
              (mkResponse 500 (Some (JObj [("error", JStr "db")])))
              (mkResponse 200 (Some (JArr [JObj []; JObj []])))
              [amount_item 1500; amount_item 2000] [] [JObj []; JObj []] [1500; 2000]%Z []
              eq_refl eq_refl eq_refl (λ _, eq_refl) ltac:(done) eq_refl eq_refl
              ltac:(repeat (done || constructor)) ltac:(constructor)) as (_ & _ & Hi & He & Hp & Hn).
  cbv zeta. rewrite Hi, He, Hp, Hn. split_and!; reflexivity.
Defined.

(** Amounts stored as strings are concatenated: the income reads
    "015002000 د.ج" and the profit, read back as a number, 15002000. *)
Example string_amounts :
  let net : network := λ q,
    if rq_url q === "/api/payments?status=pending" then Fulfilled (mkResponse 200 (Some (JArr [])))
    else if rq_url q === "/api/payments?status=paid" then
      Fulfilled (mkResponse 200 (Some (JArr [JObj [("amount", JStr "1500")]; JObj [("amount", JStr "2000")]])))
    else Fulfilled (mkResponse 200 (Some (JArr []))) in
  let r := updateDashboardStats plain_text (Some "tok") ex_dash net in
  totalIncome r.1.2 = "015002000 د.ج" ∧ netProfit r.1.2 = "15002000 د.ج" ∧ pendingPayments r.1.2 = "0".
Proof. split_and!; reflexivity. Qed.

Definition month_item (m t : Z) : jval := JObj [("_id", JNum m); ("total", JNum t)].

(** Income for January and February, expenses for February only: the
    February expense is drawn under January. *)
Definition ex_chart_data : jval :=
  JObj [("monthlyIncome", JArr [month_item 1 100; month_item 2 200]);
        ("monthlyExpenses", JArr [month_item 2 50])].

Lemma renderChart_by_position_witness :
  renderChart ex_chart_data NoChart =
    (Live (mkChart ["يناير"; "فبراير"] [Some (JNum 100); Some (JNum 200)] [Some (JNum 50)]), Ret tt).
Proof.
  rewrite (renderChart_by_position ex_chart_data [month_item 1 100; month_item 2 200] [month_item 2 50] NoChart
             ltac:(done) eq_refl eq_refl ltac:(repeat (done || constructor)) ltac:(repeat (done || constructor))).
  reflexivity.
Defined.

Lemma loadChartData_fallback_witness :
  incomeExpenseChart (loadChartData (Some "tok") ex_dash (λ _, Rejected (TypeError "Failed to fetch"))).1.2 =
    Live sample_chart.
Proof. exact (proj1 (loadChartData_fallback (Some "tok") ex_dash (λ _, Rejected (TypeError "Failed to fetch")) I)). Defined.
