(* ===== verification/Reports.v ===== *)
(** * The reports and budgets sections

    [generateReport] (lines 2319-2373) reads the year, month and report
    type, builds the query string, chooses the endpoint by type (an
    unknown type leaves the endpoint [''], the page's own URL), fetches
    the report and hands it to [renderReport] (lines 2377-2427), which
    fills [#reportTable] with one row per entry (label, amount and share
    in percent, printed with [toFixed(2)]) and calls [renderReportChart]
    (lines 2429-2488), which draws a new bar chart on the report canvas
    without destroying the previous one: with Chart.js 3 or later (the
    option syntax the script uses), [new Chart] on a canvas in use
    throws, so every report after the first ends in the error alert
    with its table filled ([generateReport_financial]).  [loadReports] (line 2315) is
    empty.  The budgets section ([loadBudgets], [createBudget],
    [generateBudgetReport], lines 2778-2821 and 2876-2895) calls
    [renderBudgets] and [renderBudgetReport], which the script never
    defines.

    The share [((a / total) * 100).toFixed(2)] is computed with the
    doubles of [Double]: the quotient and the product are each rounded,
    a zero total gives an infinity or [NaN]; [toFixed(2)] is modelled by
    its definition in the ECMAScript specification on the value of the
    double.  The sum [total] of a financial or teacher report is the
    exact integer sum of the amounts, which is the double sum while it
    stays below [2^53] ([Double.d_add_int]). *)

From Stdlib Require Import ZArith QArith Qround Qabs Lqa.
From stdpp Require Import base list sets strings pretty.
From S2P Require Import Prelude Double Fetch Prog Session Listing Expenses Dashboard.

Local Open Scope string_scope.
Local Open Scope acc_scope.
Local Open Scope list_scope.

(** ** [toFixed(2)] *)

(** An integer sum as a number. *)
Definition z_num (o : option Z) : qnum := match o with Some z => QFin (inject_Z z) | None => QNaN end.

(** The digits of [n] with a point before the last two, at least one
    digit before it (steps 10.a-10.b of [Number.prototype.toFixed]). *)
Definition fixed_text (n : Z) : string :=
  let m := pretty n in
  let m := if (String.length m <=? 2)%nat
           then String.concat "" (repeat "0" (3 - String.length m)) +:+ m else m in
  String.substring 0 (String.length m - 2) m +:+ "." +:+ String.substring (String.length m - 2) 2 m.

(** The [n] of [toFixed(2)]: the integer closest to [100 x], the larger
    one on a tie. *)
Definition fixed_round (x : Q) : Z := Qfloor (x * inject_Z 100 + (1 # 2))%Q.

Section ToFixed.
(** [String(x)] for [|x| >= 10^21], where [toFixed] falls back to it. *)
Variable bigText : Q → string.

Definition toFixed2 (x : qnum) : string :=
  match x with
  | QNaN => "NaN"
  | QInf true => "Infinity"
  | QInf false => "-Infinity"
  | QFin q =>
      if Qle_bool (inject_Z (10 ^ 21)) (Qabs q) then bigText q
      else (if Qle_bool 0 q then "" else "-") +:+ fixed_text (fixed_round (Qabs q))
  end.
End ToFixed.

(** ** The report table and chart *)

(** One row of [#reportTable]: label, amount and share. *)
Record rrow : Type := mkRRow { rr_label : string; rr_amount : string; rr_share : string }.

(** A bar chart drawn on [#financialReportChart]: its labels and data. *)
Record rchart : Type := mkRChart { rc_labels : list string; rc_data : list (option jval) }.

(** The rows of the table, the chart drawn on [#financialReportChart]
    (the script keeps no handle on it and never destroys it), and whether
    the print and export buttons are enabled. *)
Record report_page : Type := mkReportPage {
  reportTable : list rrow;
  reportChart : option rchart;
  reportActions : bool
}.

Section ReportView.
Variable toLocaleString : jval → string.
Variable bigText : Q → string.

(** [${((a / total) * 100).toFixed(2)}%]: the quotient and the
    product are doubles. *)
Definition share_text (a : option jval) (total : qnum) : string :=
  toFixed2 bigText (d_mul (d_div (val_number a) total) (QFin 100)) +:+ "%".

(** A row of the financial report (lines 2384-2390): the sum is
    recomputed for every row. *)
Definition financial_row (report : list jval) (item : jval) : jsres rrow :=
  ty ← js_get "type" (Some item);
  amount ← amount_text toLocaleString (jget "totalAmount" item);
  total ← reduce_field "totalAmount" report;
  mret (mkRRow (js_template ty +:+ " - " +:+ js_template (jget "category" item))
               (amount +:+ " د.ج")
               (share_text (jget "totalAmount" item) (z_num (to_num total)))).

(** A row of the teacher report (lines 2415-2421). *)
Definition teacher_row (report : list jval) (payment : jval) : jsres rrow :=
  id ← js_get "_id" (Some payment);
  amount ← amount_text toLocaleString (jget "totalAmount" payment);
  total ← reduce_field "totalAmount" report;
  mret (mkRRow (js_template id) (amount +:+ " د.ج") (share_text (jget "totalAmount" payment) (z_num (to_num total)))).

(** A row of the expense report (lines 2404-2410): the share is taken of
    the server's [totalExpenses]. *)
Definition expense_report_row (report : jval) (expense : jval) : jsres rrow :=
  id ← js_get "_id" (Some expense);
  amount ← amount_text toLocaleString (jget "total" expense);
  mret (mkRRow (js_template id) (amount +:+ " د.ج")
               (share_text (jget "total" expense) (val_number (jget "totalExpenses" report)))).

(** [arr.forEach(..)]: a TypeError when [arr] is not an array. *)
Definition forEach_on {R} (f : jval → jsres R) (arr : option jval) : list R * jsres unit :=
  match arr with
  | Some (JArr l) => js_forEach_rows f l
  | _ => ([], Throw (TypeError ".forEach"))
  end.

(** The table part of [renderReport(report, type)] (lines 2378-2423). *)
Definition report_rows (report : jval) (type : string) : list rrow * jsres unit :=
  if type === "financial" then
    forEach_on (financial_row (match report with JArr l => l | _ => [] end)) (Some report)
  else if type === "income" then
    match js_get "income" (Some report) with
    | Ret inc =>
        match amount_text toLocaleString inc with
        | Ret a => ([mkRRow "الإيرادات" (a +:+ " د.ج") "100%"], Ret tt)
        | Throw e => ([], Throw e)
        end
    | Throw e => ([], Throw e)
    end
  else if type === "expense" then
    match js_get "expenses" (Some report) with
    | Ret exps => forEach_on (expense_report_row report) exps
    | Throw e => ([], Throw e)
    end
  else if type === "teacher" then
    forEach_on (teacher_row (match report with JArr l => l | _ => [] end)) (Some report)
  else ([], Ret tt).

(** [arr.map(f)] of a projection that reads a field: a TypeError on a
    [null] element or when [arr] is not an array. *)
Definition map_on {B} (f : jval → jsres B) (arr : option jval) : jsres (list B) :=
  match arr with Some (JArr l) => mapM f l | _ => Throw (TypeError ".map") end.

(** The chart of [renderReportChart(report, type)] (lines 2429-2488). *)
Definition report_chart (report : jval) (type : string) : jsres rchart :=
  if type === "financial" then
    labels ← map_on (λ item, ty ← js_get "type" (Some item);
                             mret (js_template ty +:+ " - " +:+ js_template (jget "category" item))) (Some report);
    data ← map_on (λ item, js_get "totalAmount" (Some item)) (Some report);
    mret (mkRChart labels data)
  else if type === "income" then
    inc ← js_get "income" (Some report); mret (mkRChart ["الإيرادات"] [inc])
  else if type === "expense" then
    exps ← js_get "expenses" (Some report);
    labels ← map_on (λ e, id ← js_get "_id" (Some e); mret (js_template id)) exps;
    data ← map_on (λ e, js_get "total" (Some e)) exps;
    mret (mkRChart labels data)
  else if type === "teacher" then
    labels ← map_on (λ p, id ← js_get "_id" (Some p); mret (js_template id)) (Some report);
    data ← map_on (λ p, js_get "totalAmount" (Some p)) (Some report);
    mret (mkRChart labels data)
  else mret (mkRChart [] []).

(** The message of the [Error] that [new Chart(ctx, ..)] throws when a
    chart already uses the canvas (Chart.js 3 and later, whose option
    syntax [plugins.title] the script uses); the text names the id
    Chart.js gave the old chart. *)
Variable chartInUse : string.

(** [renderReport(report, type)]: the table is emptied, filled, and the
    chart data computed once the table is complete; [new Chart] (line
    2449) then throws when the canvas already holds a chart, and draws
    the chart otherwise. *)
Definition s_renderReport (report : jval) (type : string) : sprog report_page unit := λ p _,
  let r := report_rows report type in
  let p1 := mkReportPage r.1 (reportChart p) (reportActions p) in
  match r.2 with
  | Throw e => ([], p1, Throw e)
  | Ret _ =>
      match report_chart report type with
      | Throw e => ([], p1, Throw e)
      | Ret c =>
          match reportChart p with
          | None => ([], mkReportPage r.1 (Some c) (reportActions p), Ret tt)
          | Some _ => ([], p1, Throw (JsError chartInUse))
          end
      end
  end.
End ReportView.

(** ** Generating a report *)

(** [fetch(endpoint, { headers: { 'Authorization': .. } })] for an
    endpoint given whole. *)
Definition get_url (authToken : option string) (url : string) : request :=
  mkRequest GET url false (Some (bearer authToken)) None.

(** The [switch (type)] of lines 2335-2348: no case matches an unknown
    type, and [endpoint] stays [''], the URL of the page itself. *)
Definition report_endpoint (type qs : string) : string :=
  if type === "financial" then API_BASE +:+ "/accounting/reports/financial" +:+ qs
  else if type === "income" then API_BASE +:+ "/accounting/reports/summary" +:+ qs
  else if type === "expense" then API_BASE +:+ "/accounting/expense-report" +:+ qs
  else if type === "teacher" then API_BASE +:+ "/accounting/reports/teacher-payments" +:+ qs
  else "".

(** The request of [generateReport] for the three inputs. *)
Definition report_request (authToken : option string) (year month type : string) : request :=
  get_url authToken (report_endpoint type (query_string (push_filters [] [("year", year); ("month", month)]))).

Definition report_failed : string := "فشل في إنشاء التقرير".
Definition report_error (e : exn) : string := "حدث خطأ أثناء إنشاء التقرير: " +:+ exn_message e.

Section Generate.
Variable toLocaleString : jval → string.
Variable bigText : Q → string.
Variable chartInUse : string.

(** [generateReport()] (lines 2319-2373). *)
Definition generateReport (authToken : option string) (year month type : string) : sprog report_page unit :=
  s_lift showLoading ;;
  s_try
    (response ← s_lift (p_fetch (report_request authToken year month type));
     if resp_ok response then
       report ← s_lift (p_json response);
       s_renderReport toLocaleString bigText chartInUse report type ;;
       s_modify (λ p, mkReportPage (reportTable p) (reportChart p) true)
     else s_lift (p_throw (JsError report_failed)))
    (λ e, s_lift (p_alert (report_error e)))
    (s_lift hideLoading).
End Generate.

(** ** Budgets *)

Definition budgets_request (authToken : option string) : request := api_get authToken "/accounting/budgets".

(** [loadBudgets()] (lines 2778-2793): [renderBudgets] is not defined
    anywhere, so a 2xx answer ends in a ReferenceError, only logged. *)
Definition loadBudgets (authToken : option string) : prog unit :=
  p_try
    (response ← p_fetch (budgets_request authToken);
     if resp_ok response then
       budgets ← p_json response;
       p_throw (ReferenceError "renderBudgets")
     else mret ())
    (λ _, mret ())
    (mret ()).

(** [new Error(error.error).message]: [undefined] gives [''].  *)
Definition error_field_message (err : option jval) : string :=
  match err with None => "" | Some v => js_string v end.

Definition budget_created : string := "تم إنشاء الميزانية بنجاح".
Definition budget_error (e : exn) : string := "حدث خطأ أثناء إنشاء الميزانية: " +:+ exn_message e.

(** [createBudget(budgetData)] (lines 2796-2821): the reload is not
    awaited; its request is sent before [createBudget] returns and the
    rest of it has no visible effect.  The [catch] alerts and rethrows. *)
Definition createBudget (authToken : option string) (budgetData : jval) : prog jval :=
  p_try
    (response ← p_fetch (api_send POST authToken "/accounting/budgets" budgetData);
     if resp_ok response then
       newBudget ← p_json response;
       p_alert budget_created ;;
       loadBudgets authToken ;;
       mret newBudget
     else
       err ← p_json response;
       msg ← p_lift (js_get "error" (Some err));
       p_throw (JsError (error_field_message msg)))
    (λ e, p_alert (budget_error e) ;; p_throw e)
    (mret ()).

Definition budget_report_request (authToken : option string) (startDate endDate : string) : request :=
  api_get authToken ("/accounting/budget-report?startDate=" +:+ startDate +:+ "&endDate=" +:+ endDate).

Definition budget_report_failed : string := "حدث خطأ أثناء توليد التقرير".

(** [generateBudgetReport()] (lines 2876-2895): [renderBudgetReport] is
    not defined either. *)
Definition generateBudgetReport (authToken : option string) (startDate endDate : string) : prog unit :=
  p_try
    (response ← p_fetch (budget_report_request authToken startDate endDate);
     if resp_ok response then
       report ← p_json response;
       p_throw (ReferenceError "renderBudgetReport")
     else mret ())
    (λ _, p_alert budget_report_failed)
    (mret ()).

(** ** Properties of the budgets section *)

(** C30 (error).  [generateBudgetReport] inverts its outcome: whenever
    the server answers 2xx the user is told that the report failed (the
    renderer does not exist), a refused report is passed over in
    silence, and only a failed request is reported as the failure it
    is. *)
Theorem generateBudgetReport_inverted tok startDate endDate net :
  let q := budget_report_request tok startDate endDate in
  outcome (generateBudgetReport tok startDate endDate) net = Ret tt ∧
  effects (generateBudgetReport tok startDate endDate) net =
    EFetch q :: match net q with
                | Fulfilled r => if resp_ok r then [EAlert budget_report_failed] else []
                | Rejected _ => [EAlert budget_report_failed]
                end.
Proof.
  unfold generateBudgetReport, outcome, effects. rewrite run_try. autorewrite with prog_rw. simpl.
  destruct (net _) as [r|e]; simpl; [|done].
  destruct (resp_ok r); simpl; [|done]. unfold p_json. autorewrite with prog_rw. unfold await_json.
  by destruct (rbody r).
Qed.

(** The reload started by [createBudget]: one request, and nothing the
    user sees whatever the answer. *)
Lemma loadBudgets_run tok net : loadBudgets tok net = ([EFetch (budgets_request tok)], Ret tt).
Proof.
  unfold loadBudgets. rewrite run_try. autorewrite with prog_rw. simpl.
  destruct (net _) as [r|e]; simpl; [|done]. destruct (resp_ok r); simpl; [|done].
  unfold p_json. autorewrite with prog_rw. unfold await_json. by destruct (rbody r).
Qed.

(** [createBudget] on every answer: the new budget is returned after
    the success alert and the reload request; otherwise the failure is
    alerted with its message and the exception is thrown again to the
    caller. *)
Theorem createBudget_run tok budgetData net :
  let q := api_send POST tok "/accounting/budgets" budgetData in
  createBudget tok budgetData net =
    match net q with
    | Rejected e => ([EFetch q; EAlert (budget_error e)], Throw e)
    | Fulfilled r =>
        if resp_ok r then
          match rbody r with
          | Some v => ([EFetch q; EAlert budget_created; EFetch (budgets_request tok)], Ret v)
          | None => ([EFetch q; EAlert (budget_error (SyntaxError "response.json()"))],
                     Throw (SyntaxError "response.json()"))
          end
        else
          match rbody r with
          | Some JNull => ([EFetch q; EAlert (budget_error (TypeError ".error"))], Throw (TypeError ".error"))
          | Some err => ([EFetch q; EAlert (budget_error (JsError (error_field_message (jget "error" err))))],
                         Throw (JsError (error_field_message (jget "error" err))))
          | None => ([EFetch q; EAlert (budget_error (SyntaxError "response.json()"))],
                     Throw (SyntaxError "response.json()"))
          end
    end.
Proof.
  cbv zeta. unfold createBudget. rewrite run_try. autorewrite with prog_rw. simpl.
  destruct (net _) as [r|e]; simpl; [|done].
  unfold p_json. destruct (resp_ok r); simpl; autorewrite with prog_rw; unfold await_json;
    destruct (rbody r) as [[]|]; simpl; try done; by rewrite run_bind, loadBudgets_run.
Qed.

(** ** Properties of the reports *)

Lemma forEach_rows_Forall2 {R} (f : jval → jsres R) l (ys : list R) :
  Forall2 (λ x y, f x = Ret y) l ys → js_forEach_rows f l = (ys, Ret tt).
Proof. induction 1 as [|x y l ys Hxy _ IH]; [done|]. simpl. by rewrite Hxy, IH. Qed.

Section ReportProofs.
Variable toLocaleString : jval → string.
Variable bigText : Q → string.
Variable chartInUse : string.

(** The label and the row of an entry of the financial report. *)
Definition entry_label (item : jval) : string :=
  js_template (jget "type" item) +:+ " - " +:+ js_template (jget "category" item).

Definition entry_row (total : Z) (iz : jval * Z) : rrow :=
  mkRRow (entry_label iz.1) (toLocaleString (JNum iz.2) +:+ " د.ج") (share_text bigText (Some (JNum iz.2)) (QFin (inject_Z total))).

Lemma financial_row_ok items total item z :
  reduce_field "totalAmount" items = Ret (NNum total) → item ≠ JNull → jget "totalAmount" item = Some (JNum z) →
  financial_row toLocaleString bigText items item = Ret (entry_row total (item, z)).
Proof.
  intros Hs Hn Ha. unfold financial_row.
  destruct item; try done; cbn -[jget reduce_field]; rewrite Ha; cbn -[jget reduce_field]; by rewrite Hs.
Qed.

Lemma financial_rows_ok items total l zs :
  reduce_field "totalAmount" items = Ret (NNum total) → field_nums "totalAmount" l zs →
  Forall2 (λ x y, financial_row toLocaleString bigText items x = Ret y) l (entry_row total <$> zip l zs).
Proof.
  intros Hs. induction 1 as [|item z l zs [Hn Ha] _ IH]; constructor; [|done].
  by apply financial_row_ok.
Qed.

(** The table of a financial report whose entries have numeric amounts:
    one row per entry, in order, each share taken of the sum of all
    amounts. *)
Lemma report_rows_financial items zs :
  field_nums "totalAmount" items zs →
  report_rows toLocaleString bigText (JArr items) "financial" =
    (entry_row (sumZ id zs) <$> zip items zs, Ret tt).
Proof.
  intros H. unfold report_rows. simpl. apply forEach_rows_Forall2.
  apply financial_rows_ok; [|done]. by apply reduce_field_numeric.
Qed.

Lemma report_chart_financial items zs :
  field_nums "totalAmount" items zs →
  report_chart (JArr items) "financial" =
    Ret (mkRChart (entry_label <$> items) ((λ item, jget "totalAmount" item) <$> items)).
Proof.
  intros H. unfold report_chart. simpl. unfold map_on.
  assert (Forall (λ item, item ≠ JNull) items) as Hn.
  { clear -H. induction H as [|x z l zs [Hx _] _ IH]; constructor; done. }
  rewrite (mapM_Ret _ entry_label), (mapM_Ret _ (λ item, jget "totalAmount" item)); [done| |];
    eapply Forall_impl; try exact Hn; intros [] ?; done.
Qed.

(** The renderer on a financial report whose amounts are numbers: the
    table gets one row per entry, and the chart is drawn when the canvas
    is free; otherwise [new Chart] throws, the table being already
    filled. *)
Lemma s_renderReport_financial items zs p net :
  field_nums "totalAmount" items zs →
  s_renderReport toLocaleString bigText chartInUse (JArr items) "financial" p net =
    let rows := entry_row (sumZ id zs) <$> zip items zs in
    match reportChart p with
    | None => ([], mkReportPage rows
                     (Some (mkRChart (entry_label <$> items) ((λ item, jget "totalAmount" item) <$> items)))
                     (reportActions p), Ret tt)
    | Some c => ([], mkReportPage rows (Some c) (reportActions p), Throw (JsError chartInUse))
    end.
Proof.
  intros Hz. unfold s_renderReport. rewrite (report_rows_financial _ _ Hz), (report_chart_financial _ _ Hz).
  by destruct (reportChart p).
Qed.

(** C11 (functional).  A financial report: [generateReport] sends one
    request under the overlay and fills the table with one row per entry
    in order (its label, amount and share of the sum of all amounts).
    On a free canvas (the first report of the page) it draws the chart
    and enables the print and export buttons; when a chart is already
    there (every later report, the script never destroying it),
    [new Chart] throws, the error alert is shown, the old chart stays
    and the buttons are left as they were. *)
Theorem generateReport_financial tok year month p net r items zs :
  let q := report_request tok year month "financial" in
  net q = Fulfilled r → resp_ok r = true → rbody r = Some (JArr items) →
  field_nums "totalAmount" items zs →
  let rows := entry_row (sumZ id zs) <$> zip items zs in
  generateReport toLocaleString bigText chartInUse tok year month "financial" p net =
    match reportChart p with
    | None => ([ELoading true; EFetch q; ELoading false],
               mkReportPage rows
                 (Some (mkRChart (entry_label <$> items) ((λ item, jget "totalAmount" item) <$> items))) true,
               Ret tt)
    | Some c => ([ELoading true; EFetch q; EAlert (report_error (JsError chartInUse)); ELoading false],
                 mkReportPage rows (Some c) (reportActions p), Ret tt)
    end.
Proof.
  cbv zeta. intros Hnet Hok Hb Hz. unfold generateReport.
  pose proof (s_renderReport_financial items zs p net Hz) as Hr. cbv zeta in Hr.
  destruct (reportChart p) as [c|] eqn:Hc; etransitivity.
  - srun_ret. eapply s_try_err; [|reflexivity|reflexivity].
    srun_with @srun_fetch. rewrite Hok. cbv iota. srun_with @srun_json.
    eapply srun_throw. exact Hr.
  - reflexivity.
  - srun_ret. eapply s_try_ok; [|reflexivity].
    srun_with @srun_fetch. rewrite Hok. cbv iota. srun_with @srun_json.
    eapply srun_seq; [exact Hr|]. cbv beta. reflexivity.
  - reflexivity.
Qed.

Lemma Qabs_nonneg_eq q : (0 <= q)%Q → Qabs q = q.
Proof. destruct q as [n d]. unfold Qle. simpl. intros H. unfold Qabs. f_equal. lia. Qed.

(** [toFixed(2)] of a number between 0 and [B] is the text of an
    integer [n] of hundredths between 0 and [100 B]. *)
Lemma toFixed2_bounds (q : Q) (B : Z) :
  (0 <= q)%Q → (q <= inject_Z B)%Q → (B < 10 ^ 19)%Z →
  ∃ n, toFixed2 bigText (QFin q) = fixed_text n ∧ (0 ≤ n ≤ 100 * B)%Z.
Proof.
  intros Hq0 HqB HB. cbn [toFixed2]. rewrite (Qabs_nonneg_eq _ Hq0).
  assert (inject_Z B < 10000000000000000000 # 1)%Q as HB'.
  { change (10000000000000000000 # 1)%Q with (inject_Z (10 ^ 19)). by rewrite <- Zlt_Qlt. }
  destruct (Qle_bool (inject_Z (10 ^ 21)) q) eqn:Hbig.
  { apply Qle_bool_iff in Hbig. exfalso. change (inject_Z (10 ^ 21)) with (1000000000000000000000 # 1) in Hbig. lra. }
  replace (Qle_bool 0 q) with true by (symmetry; by apply Qle_bool_iff).
  exists (fixed_round q). split; [reflexivity|]. unfold fixed_round.
  set (y := (q * inject_Z 100 + (1 # 2))%Q).
  pose proof (Qfloor_le y) as Hlo. pose proof (Qlt_floor y) as Hhi.
  rewrite inject_Z_plus in Hhi. change (inject_Z 1) with (1 # 1) in Hhi.
  assert (1 # 2 <= y /\ y <= inject_Z (100 * B) + (1 # 2))%Q as [Hy0 Hy1].
  { subst y. rewrite inject_Z_mult. change (inject_Z 100) with (100 # 1) in *. split; nra. }
  split.
  - assert (inject_Z (-1) < inject_Z (Qfloor y))%Q as H by (change (inject_Z (-1)) with (-1 # 1); lra).
    rewrite <- Zlt_Qlt in H. lia.
  - assert (inject_Z (Qfloor y) < inject_Z (100 * B + 1))%Q as H by (rewrite inject_Z_plus; change (inject_Z 1) with (1 # 1); lra).
    rewrite <- Zlt_Qlt in H. lia.
Qed.

(** [toFixed(2)] of a share of a non-negative part of a positive whole
    is the text of an integer [n] of hundredths between 0 and 10000,
    i.e. between [0.00] and [100.00]. *)
Lemma share_bounds z total :
  (0 ≤ z ≤ total)%Z → (0 < total)%Z →
  ∃ n, toFixed2 bigText (d_mul (d_div (QFin (inject_Z z)) (QFin (inject_Z total))) (QFin 100)) = fixed_text n ∧
       (0 ≤ n ≤ 10000)%Z.
Proof.
  intros Hz Ht. unfold d_div.
  assert (Qeq_bool (inject_Z total) 0 = false) as ->.
  { apply not_true_iff_false. intros H%Qeq_bool_eq. unfold Qeq in H. cbn in H. lia. }
  assert (0 < inject_Z total)%Q as Ht' by (unfold Qlt; cbn; lia).
  destruct (round64_between (inject_Z z / inject_Z total) 0 1) as (v & -> & Hv); [lia|lia| |].
  { split.
    - apply Qle_shift_div_l; [done|]. rewrite Qmult_0_l. unfold Qle; cbn; lia.
    - apply Qle_shift_div_r; [done|]. rewrite Qmult_1_l. unfold Qle; cbn; lia. }
  cbn [d_mul]. destruct (round64_between (v * 100) 0 100) as (w & -> & Hw); [lia|lia| |].
  { change (inject_Z 0) with 0%Q in *. change (inject_Z 1) with 1%Q in *. change (inject_Z 100) with 100%Q. lra. }
  apply (toFixed2_bounds _ 100); [..|lia]; change (inject_Z 0) with 0%Q in *; change (inject_Z 100) with (100 # 1) in *; lra.
Qed.

Lemma sumZ_elem_le (zs : list Z) z : Forall (λ x, 0 ≤ x)%Z zs → z ∈ zs → (z ≤ sumZ id zs)%Z.
Proof.
  induction 1 as [|x zs Hx Hzs IH]; intros Hin; [by apply elem_of_nil in Hin|]. rewrite sumZ_cons. unfold id at 1.
  apply elem_of_cons in Hin as [->|Hin]; [|specialize (IH Hin)];
    assert (0 ≤ sumZ id zs)%Z by (clear -Hzs; induction Hzs; rewrite ?sumZ_nil, ?sumZ_cons; unfold id in *; lia);
    lia.
Qed.

(** C13 (bounds).  In a financial report whose amounts are non-negative
    and not all zero, every row is rendered and its share reads between
    [0.00%] and [100.00%]: an integer number [n] of hundredths of a
    percent with [0 <= n <= 10000]. *)
Theorem report_shares_bounds items zs :
  field_nums "totalAmount" items zs → Forall (λ z, 0 ≤ z)%Z zs → (0 < sumZ id zs)%Z →
  let r := report_rows toLocaleString bigText (JArr items) "financial" in
  r.2 = Ret tt ∧ length r.1 = length items ∧
  ∀ row, row ∈ r.1 → ∃ n, rr_share row = fixed_text n +:+ "%" ∧ (0 ≤ n ≤ 10000)%Z.
Proof.
  intros Hf Hnn Hpos. cbv zeta. rewrite (report_rows_financial _ _ Hf). simpl. split_and!; [done| |].
  - rewrite length_fmap, length_zip. apply Forall2_length in Hf. lia.
  - intros row Hrow. apply list_elem_of_fmap in Hrow as ([item z] & -> & Hiz).
    apply elem_of_zip_r in Hiz.
    destruct (share_bounds z (sumZ id zs)) as (n & Hn & Hb); [|done|].
    + split; [by eapply Forall_forall in Hnn|by apply sumZ_elem_le].
    + exists n. split; [|done]. cbn [rr_share entry_row share_text fst snd].
      unfold share_text. change (val_number (Some (JNum z))) with (QFin (inject_Z z)). by rewrite Hn.
Qed.
(** The rows and the chart of a type no [case] names: the table is
    emptied, and an empty chart is drawn on a free canvas. *)
Lemma s_renderReport_unknown report type p net :
  type ∉ ["financial"; "income"; "expense"; "teacher"] →
  s_renderReport toLocaleString bigText chartInUse report type p net =
    match reportChart p with
    | None => ([], mkReportPage [] (Some (mkRChart [] [])) (reportActions p), Ret tt)
    | Some c => ([], mkReportPage [] (Some c) (reportActions p), Throw (JsError chartInUse))
    end.
Proof.
  intros Hty. unfold s_renderReport, report_rows, report_chart.
  rewrite !(proj2 (String.eqb_neq _ _)) by (intros ->; apply Hty; set_solver). by destruct (reportChart p).
Qed.

(** A report type that no [case] of the [switch] names
    leaves the endpoint [''], so [generateReport] fetches the page's own
    URL: a 2xx answer that parses empties the table and, on a free
    canvas, draws an empty chart and enables the print and export
    buttons as for a real report; any other answer ends in the error
    alert. *)
Theorem generateReport_unknown_type tok year month type p net :
  type ∉ ["financial"; "income"; "expense"; "teacher"] →
  let q := get_url tok "" in
  report_request tok year month type = q ∧
  generateReport toLocaleString bigText chartInUse tok year month type p net =
    match net q with
    | Fulfilled r =>
        if resp_ok r then
          match rbody r with
          | Some _ =>
              match reportChart p with
              | None => ([ELoading true; EFetch q; ELoading false], mkReportPage [] (Some (mkRChart [] [])) true, Ret tt)
              | Some c => ([ELoading true; EFetch q; EAlert (report_error (JsError chartInUse)); ELoading false],
                           mkReportPage [] (Some c) (reportActions p), Ret tt)
              end
          | None => ([ELoading true; EFetch q; EAlert (report_error (SyntaxError "response.json()")); ELoading false],
                     p, Ret tt)
          end
        else ([ELoading true; EFetch q; EAlert (report_error (JsError report_failed)); ELoading false], p, Ret tt)
    | Rejected e => ([ELoading true; EFetch q; EAlert (report_error e); ELoading false], p, Ret tt)
    end.
Proof.
  intros Hty. cbv zeta.
  assert (report_request tok year month type = get_url tok "") as Hq.
  { unfold report_request, report_endpoint.
    by rewrite !(proj2 (String.eqb_neq _ _)) by (intros ->; apply Hty; set_solver). }
  split; [done|]. unfold generateReport. rewrite Hq.
  destruct (net (get_url tok "")) as [r|e] eqn:Hn; [destruct (resp_ok r) eqn:Hok; [destruct (rbody r) as [v|] eqn:Hb|]|].
  - pose proof (s_renderReport_unknown v type p net Hty) as Hr.
    destruct (reportChart p) as [c|]; etransitivity.
    + srun_ret. eapply s_try_err; [|reflexivity|reflexivity].
      srun_with @srun_fetch. rewrite Hok. cbv iota. srun_with @srun_json. eapply srun_throw. exact Hr.
    + reflexivity.
    + srun_ret. eapply s_try_ok; [|reflexivity].
      srun_with @srun_fetch. rewrite Hok. cbv iota. srun_with @srun_json.
      eapply srun_seq; [exact Hr|]. reflexivity.
    + reflexivity.
  - etransitivity.
    { srun_ret. eapply s_try_err; [|reflexivity|reflexivity].
      srun_with @srun_fetch. rewrite Hok. cbv iota. eapply srun_throw.
      unfold s_lift, p_json, p_lift, await_json. by rewrite Hb. }
    reflexivity.
  - etransitivity.
    { srun_ret. eapply s_try_err; [|reflexivity|reflexivity].
      srun_with @srun_fetch. rewrite Hok. cbv iota. reflexivity. }
    reflexivity.
  - etransitivity.
    { srun_ret. eapply s_try_err; [|reflexivity|reflexivity].
      eapply srun_throw. unfold s_lift, p_fetch. by rewrite Hn. }
    reflexivity.
Qed.
End ReportProofs.

(** ** Concrete runs *)

Definition ex_big (q : Q) : string := "1e+21".
Definition ex_report_page : report_page := mkReportPage [] None false.
Definition ex_in_use : string :=
  "Canvas is already in use. Chart with ID '1' must be destroyed before the canvas with ID 'financialReportChart' can be reused.".
Definition fin_item (ty : string) (z : Z) : jval :=
  JObj [("type", JStr ty); ("category", JStr "fees"); ("totalAmount", JNum z)].

(** Three entries of 100: each share reads [33.33%], and the column
    sums to [99.99%]. *)
Definition ex_items : list jval := [fin_item "income" 100; fin_item "income" 100; fin_item "expense" 100].
Definition ex_net_report : network := λ q,
  if rq_url q === "/api/accounting/reports/financial?year=2025&month=3" then
    Fulfilled (mkResponse 200 (Some (JArr ex_items)))
  else Fulfilled (mkResponse 404 None).

(** The first report draws the chart and enables the buttons; the same
    report generated again refills the table and ends in the alert of
    [new Chart]. *)
Lemma generateReport_financial_witness :
  let r := generateReport plain_text ex_big ex_in_use (Some "t") "2025" "3" "financial" ex_report_page ex_net_report in
  let r2 := generateReport plain_text ex_big ex_in_use (Some "t") "2025" "3" "financial" r.1.2 ex_net_report in
  r.1.1 = [ELoading true; EFetch (report_request (Some "t") "2025" "3" "financial"); ELoading false] ∧
  rr_share <$> reportTable r.1.2 = ["33.33%"; "33.33%"; "33.33%"] ∧
  is_Some (reportChart r.1.2) ∧ reportActions r.1.2 = true ∧
  r2.1.1 = [ELoading true; EFetch (report_request (Some "t") "2025" "3" "financial");
            EAlert (report_error (JsError ex_in_use)); ELoading false] ∧
  reportChart r2.1.2 = reportChart r.1.2.
Proof.
  cbv zeta.
  rewrite (generateReport_financial plain_text ex_big ex_in_use (Some "t") "2025" "3" ex_report_page ex_net_report
             (mkResponse 200 (Some (JArr ex_items))) ex_items [100; 100; 100]%Z
             eq_refl eq_refl eq_refl ltac:(repeat (done || constructor))).
  cbn [reportChart ex_report_page].
  rewrite (generateReport_financial plain_text ex_big ex_in_use (Some "t") "2025" "3" _ ex_net_report
             (mkResponse 200 (Some (JArr ex_items))) ex_items [100; 100; 100]%Z
             eq_refl eq_refl eq_refl ltac:(repeat (done || constructor))).
  split_and!; try reflexivity. eexists; reflexivity.
Defined.

Lemma report_shares_bounds_witness :
  let r := report_rows plain_text ex_big (JArr ex_items) "financial" in
  r.2 = Ret tt ∧ length r.1 = length ex_items ∧
  ∀ row, row ∈ r.1 → ∃ n, rr_share row = fixed_text n +:+ "%" ∧ (0 ≤ n ≤ 10000)%Z.
Proof.
  exact (report_shares_bounds plain_text ex_big ex_items [100; 100; 100]%Z
           ltac:(repeat (done || constructor)) ltac:(repeat constructor; lia) ltac:(reflexivity)).
Defined.

Lemma generateReport_unknown_type_witness :
  report_request (Some "t") "2025" "3" "monthly" = get_url (Some "t") "" ∧
  generateReport plain_text ex_big ex_in_use (Some "t") "2025" "3" "monthly" ex_report_page ex_net_report =
    ([ELoading true; EFetch (get_url (Some "t") "");
      EAlert (report_error (JsError report_failed)); ELoading false], ex_report_page, Ret tt).
Proof.
  exact (generateReport_unknown_type plain_text ex_big ex_in_use (Some "t") "2025" "3" "monthly" ex_report_page ex_net_report
           ltac:(apply (bool_decide_unpack _); vm_compute; reflexivity)).
Defined.

(** [toFixed(2)] rounds half away from zero on the exact value and keeps
    the sign of a negative number that rounds to zero. *)
Example toFixed2_values :
  toFixed2 ex_big (d_mul (d_div (QFin 1) (QFin 3)) (QFin 100)) = "33.33" ∧
  toFixed2 ex_big (QFin (-1 # 8)) = "-0.13" ∧ toFixed2 ex_big (QFin (-1 # 1000)) = "-0.00".
Proof. split_and!; reflexivity. Qed.

(** An expense report whose [totalExpenses] is 0 shows [Infinity%]. *)
Example expense_share_infinity :
  report_rows plain_text ex_big
    (JObj [("expenses", JArr [JObj [("_id", JStr "rent"); ("total", JNum 50)]]); ("totalExpenses", JNum 0)]) "expense" =
    ([mkRRow "rent" "50 د.ج" "Infinity%"], Ret tt).
Proof. reflexivity. Qed.
