(* ===== verification/TeacherSalary.v ===== *)
(** * Paying a teacher's salary and printing the invoice

    [payTeacherCommissionsAndPrint(teacherId, month)] (lines 1994-2056),
    the button of a teacher card (line 2554), posts the salary payment,
    then fetches the teacher's paid commissions of the month, builds the
    invoice data from them and calls [generateInvoice] (lines 1951-1990),
    which fills the printable invoice template, prints it with
    [window.print()] and arms a timer that hides the template again.

    The printable template is modelled as the texts of its elements by
    id, its item rows, whether it is shown, the snapshots handed to
    [window.print()] in order, and the number of hiding timers armed.
    The clock is a Section variable: [now] is [Date.now()] (one instant
    for the whole handler), [iso] is [new Date().toISOString()], and
    [dateText] is [toLocaleDateString('ar-EG')] of a time in
    milliseconds. *)

From Stdlib Require Import ZArith.
From stdpp Require Import base list strings gmap pretty.
From S2P Require Import Prelude Fetch Prog Payments Commissions CommissionPay Session Listing Dashboard.

Local Open Scope string_scope.
Local Open Scope acc_scope.
Local Open Scope list_scope.

(** ** The printable invoice *)

(** One row of [#invoiceItemsList] (lines 1966-1971). *)
Record prow : Type := mkPRow { pr_index : string; pr_description : string; pr_amount : string }.

Record print_page : Type := mkPrintPage {
  pp_texts : gmap string string;          (* textContent by element id *)
  pp_items : list prow;                   (* the rows of #invoiceItemsList *)
  pp_shown : bool;                        (* #invoiceTemplate.style.display *)
  pp_printed : list (gmap string string * list prow);  (* what window.print() printed *)
  pp_hide_timers : nat                    (* setTimeout(() => display = 'none', 500) armed *)
}.

Definition pp_set_text (id v : string) (p : print_page) : print_page :=
  mkPrintPage (<[id := v]> (pp_texts p)) (pp_items p) (pp_shown p) (pp_printed p) (pp_hide_timers p).
Definition pp_set_items (l : list prow) (p : print_page) : print_page :=
  mkPrintPage (pp_texts p) l (pp_shown p) (pp_printed p) (pp_hide_timers p).
Definition pp_show (p : print_page) : print_page :=
  mkPrintPage (pp_texts p) (pp_items p) true (pp_printed p) (pp_hide_timers p).
(** [window.print()]: the template as it stands is printed. *)
Definition pp_print (p : print_page) : print_page :=
  mkPrintPage (pp_texts p) (pp_items p) (pp_shown p) (pp_printed p ++ [(pp_texts p, pp_items p)]) (pp_hide_timers p).
Definition pp_arm_hide (p : print_page) : print_page :=
  mkPrintPage (pp_texts p) (pp_items p) (pp_shown p) (pp_printed p) (S (pp_hide_timers p)).

(** Thirty days in milliseconds (line 1955). *)
Definition thirty_days : Z := 30 * 24 * 60 * 60 * 1000.

Section Invoice.
Variable toLocaleString : jval → string.
Variable dateText : Z → string.
Variable now : Z.

(** [invoiceData.items.forEach((item, index) => ..)] (lines 1965-1974):
    the row is appended, then [total += item.amount]; [item.description]
    throws on a [null] item and [item.amount.toLocaleString()] on a
    missing amount, keeping the rows before. *)
Fixpoint print_rows (index : nat) (l : list jval) (total : num) : list prow * jsres num :=
  match l with
  | [] => ([], Ret total)
  | item :: l' =>
      match js_get "description" (Some item) with
      | Throw e => ([], Throw e)
      | Ret d =>
          match amount_text toLocaleString (jget "amount" item) with
          | Throw e => ([], Throw e)
          | Ret a =>
              let r := print_rows (S index) l' (js_plus total (jget "amount" item)) in
              (mkPRow (pretty (S index)) (js_template d) a :: r.1, r.2)
          end
      end
  end.

(** [itemsList.innerHTML = ''] and the loop. *)
Definition s_print_rows (items : option jval) : sprog print_page num := λ p _,
  match items with
  | Some (JArr l) => let r := print_rows 0 l (NNum 0) in ([], pp_set_items r.1 p, r.2)
  | _ => ([], pp_set_items [] p, Throw (TypeError "invoiceData.items.forEach"))
  end.

Definition s_ptext (id v : string) : sprog print_page unit := s_modify (pp_set_text id v).

(** [generateInvoice(invoiceData)] (lines 1951-1990) on the object
    literal the caller builds. *)
Definition generateInvoice (invoiceData : jval) : sprog print_page unit :=
  let number := jget "invoiceNumber" invoiceData in
  s_ptext "invoiceNumber" (if js_truthy number then dom_text number else "INV-" +:+ pretty now) ;;
  s_ptext "invoiceDate" (dateText now) ;;
  s_ptext "invoiceDueDate" (dateText (now + thirty_days)) ;;
  s_ptext "invoiceRecipient" (dom_text (jget "recipient" invoiceData)) ;;
  s_ptext "invoiceDescription" (dom_text (jget "description" invoiceData)) ;;
  total ← s_print_rows (jget "items" invoiceData);
  s_ptext "invoiceTotalAmount" (locale_text toLocaleString total) ;;
  s_modify pp_show ;;
  s_modify pp_print ;;
  s_modify pp_arm_hide.
End Invoice.

(** ** The salary payment *)

Definition salary_no_data : string := "تم الدفع ولكن لا توجد بيانات للفاتورة".
Definition salary_failed : string := "فشل في دفع المستحقات".
Definition salary_error (e : exn) : string := "حدث خطأ أثناء دفع المستحقات: " +:+ exn_message e.
(** [`تم دفع ${commissions.length} مستحقات بإجمالي ${..} د.ج`]. *)
Definition salary_paid (n : option jval) (total : string) : string :=
  "تم دفع " +:+ js_template n +:+ " مستحقات بإجمالي " +:+ total +:+ " د.ج".

(** [commissions[0]]: the first element of an array, the ["0"] member
    of an object, the first character of a string, [undefined] else. *)
Definition js_first (v : jval) : option jval :=
  match v with
  | JArr (x :: _) => Some x
  | JObj _ => jget "0" v
  | JStr (String a _) => Some (JStr (String a EmptyString))
  | _ => None
  end.

(** The item literal of one commission (lines 2036-2039):
    [commission.class.name] and [commission.student.name] throw when the
    class or the student is missing. *)
Definition invoice_item (commission : jval) : jsres jval :=
  cls ← js_get "class" (Some commission);
  cname ← js_get "name" cls;
  st ← js_get "student" (Some commission);
  sname ← js_get "name" st;
  mret (json_obj [("description", Some (JStr ("حصة " +:+ js_template cname +:+ " - الطالب " +:+ js_template sname)));
                  ("amount", jget "amount" commission)]).

Section Salary.
Variable toLocaleString : jval → string.
Variable dateText : Z → string.
Variable now : Z.
Variable iso : string.

(** [POST /api/teachers/<id>/pay-salary] (lines 1999-2010). *)
Definition salary_request (authToken : option string) (teacherId month : string) : request :=
  api_send POST authToken ("/teachers/" +:+ teacherId +:+ "/pay-salary")
    (JObj [("month", JStr month); ("paymentMethod", JStr "cash"); ("paymentDate", JStr (split_T_0 iso))]).

(** [GET /api/accounting/teacher-commissions?..&status=paid] (line 2016). *)
Definition paid_commissions_request (authToken : option string) (teacherId month : string) : request :=
  api_get authToken ("/accounting/teacher-commissions?teacher=" +:+ teacherId +:+ "&month=" +:+ month +:+ "&status=paid").

(** The [invoiceData] literal (lines 2032-2040), its members in order. *)
Definition invoice_data (teacherId month : string) (commissions : jval) : jsres jval :=
  teacher ← js_get "teacher" (js_first commissions);
  name ← js_get "name" teacher;
  items ← (match commissions with JArr l => mapM invoice_item l | _ => Throw (TypeError "commissions.map") end);
  mret (json_obj [("invoiceNumber", Some (JStr ("TCH-" +:+ teacherId +:+ "-" +:+ month +:+ "-" +:+ pretty now)));
                  ("recipient", name);
                  ("description", Some (JStr ("مستحقات الحصص لشهر " +:+ month)));
                  ("items", Some (JArr items))]).

(** [payTeacherCommissionsAndPrint(teacherId, month)] (lines 1994-2056):
    the [return] of the empty case runs [hideLoading] before the
    [finally] runs it again. *)
Definition payTeacherCommissionsAndPrint (authToken : option string) (teacherId month : string)
    : sprog print_page unit :=
  s_try
    (s_lift showLoading ;;
     response ← s_lift (p_fetch (salary_request authToken teacherId month));
     if resp_ok response then
       result ← s_lift (p_json response);
       commissionsResponse ← s_lift (p_fetch (paid_commissions_request authToken teacherId month));
       if resp_ok commissionsResponse then
         commissions ← s_lift (p_json commissionsResponse);
         isEmpty ← s_lift (p_lift (js_length_zero commissions));
         if (isEmpty : bool) then (s_lift (p_alert salary_no_data) ;; s_lift hideLoading)
         else
           (invoiceData ← s_lift (p_lift (invoice_data teacherId month commissions));
            generateInvoice toLocaleString dateText now invoiceData ;;
            n ← s_lift (p_lift (js_length commissions));
            total ← s_lift (p_lift (js_get "totalAmount" (Some result) ≫= amount_text toLocaleString));
            s_lift (p_alert (salary_paid n total)))
       else mret ()
     else
       err ← s_lift (p_json response);
       msg ← s_lift (p_lift (js_get "error" (Some err)));
       s_lift (p_throw (JsError (if js_truthy msg then js_template msg else salary_failed))))
    (λ e, s_lift (p_alert (salary_error e)))
    (s_lift hideLoading).
End Salary.

(** ** Printing an invoice *)

Section InvoiceProofs.
Variable toLocaleString : jval → string.
Variable dateText : Z → string.
Variable now : Z.

(** The row printed for an item whose amount is the number [z]. *)
Definition print_row (k : nat) (iz : jval * Z) : prow :=
  mkPRow (pretty (S k)) (js_template (jget "description" iz.1)) (toLocaleString (JNum iz.2)).

(** The loop on items with numeric amounts: one row per item numbered
    from [index + 1], and the sum of the amounts. *)
Lemma print_rows_ok index l zs s :
  field_nums "amount" l zs →
  print_rows toLocaleString index l (NNum s) =
    (imap (λ k, print_row (index + k)) (zip l zs), Ret (NNum (s + sumZ id zs))).
Proof.
  intros H. revert index s. induction H as [|item z l zs [Hn Ha] _ IH]; intros index s.
  - simpl. by rewrite Z.add_0_r.
  - cbn [print_rows]. rewrite js_get_obj by done. cbn [jsres_bind mbind]. rewrite Ha. cbn [amount_text].
    cbn [js_plus]. rewrite IH, sumZ_cons. cbn [fst snd zip imap]. rewrite Nat.add_0_r. unfold id.
    f_equal; [f_equal|do 2 f_equal; lia].
    apply imap_ext. intros k x _. unfold compose. by rewrite Nat.add_succ_r.
Qed.

(** The five texts [generateInvoice] writes before the items. *)
Definition invoice_header (data : jval) (p : print_page) : print_page :=
  pp_set_text "invoiceDescription" (dom_text (jget "description" data))
  (pp_set_text "invoiceRecipient" (dom_text (jget "recipient" data))
  (pp_set_text "invoiceDueDate" (dateText (now + thirty_days))
  (pp_set_text "invoiceDate" (dateText now)
  (pp_set_text "invoiceNumber"
     (let number := jget "invoiceNumber" data in if js_truthy number then dom_text number else "INV-" +:+ pretty now) p)))).

(** [generateInvoice] on items with numeric amounts: the header, one row
    per item, the total, then the template is shown, printed as it
    stands and a hiding timer armed. *)
Lemma generateInvoice_ok data items zs p net :
  jget "items" data = Some (JArr items) → field_nums "amount" items zs →
  generateInvoice toLocaleString dateText now data p net =
    ([], pp_arm_hide (pp_print (pp_show (pp_set_text "invoiceTotalAmount" (toLocaleString (JNum (sumZ id zs)))
           (pp_set_items (imap print_row (zip items zs)) (invoice_header data p))))), Ret tt).
Proof.
  intros Hi Hz. unfold generateInvoice, s_ptext. cbv zeta. rewrite !srun_modify.
  etransitivity.
  { eapply srun_seq.
    - unfold s_print_rows. rewrite Hi, (print_rows_ok 0 _ _ 0 Hz). reflexivity.
    - cbv beta. rewrite !srun_modify. reflexivity. }
  reflexivity.
Qed.
End InvoiceProofs.

(** ** Paying the salary *)

(** A commission the invoice can be built from: not [null], with a
    class and a student. *)
Definition commission_ok (c : jval) : Prop :=
  c ≠ JNull ∧ (∃ cl, jget "class" c = Some cl ∧ cl ≠ JNull) ∧ (∃ st, jget "student" c = Some st ∧ st ≠ JNull).

(** The description of a commission's line (line 2037). *)
Definition item_text (c : jval) : string :=
  "حصة " +:+ js_template (js_opt_get "name" (jget "class" c)) +:+ " - الطالب " +:+
  js_template (js_opt_get "name" (jget "student" c)).

Definition salary_item (c : jval) : jval :=
  json_obj [("description", Some (JStr (item_text c))); ("amount", jget "amount" c)].

Lemma invoice_item_ok c : commission_ok c → invoice_item c = Ret (salary_item c).
Proof.
  intros (Hc & (cl & Hcl & Hcln) & (st & Hst & Hstn)). unfold invoice_item, salary_item, item_text.
  rewrite (js_get_obj "class" c), (js_get_obj "student" c) by done. cbn [mbind jsres_bind].
  rewrite Hcl, Hst, !(js_get_obj "name") by done. cbn [mbind jsres_bind]. by destruct cl, st.
Qed.

Lemma salary_item_amount c : jget "amount" (salary_item c) = jget "amount" c.
Proof. unfold salary_item. by destruct (jget "amount" c). Qed.

Lemma salary_items_nums cs zs : field_nums "amount" cs zs → field_nums "amount" (salary_item <$> cs) zs.
Proof.
  intros H. apply Forall2_fmap_l. eapply Forall2_impl; [exact H|]. intros c z [_ Ha].
  split; [by unfold salary_item, json_obj|by rewrite salary_item_amount].
Qed.

Section SalaryProofs.
Variable toLocaleString : jval → string.
Variable dateText : Z → string.
Variable now : Z.
Variable iso : string.

(** The printed row of a commission. *)
Definition salary_row (k : nat) (cz : jval * Z) : prow :=
  mkPRow (pretty (S k)) (item_text cz.1) (toLocaleString (JNum cz.2)).

Lemma salary_rows cs zs :
  imap (print_row toLocaleString) (zip (salary_item <$> cs) zs) = imap salary_row (zip cs zs).
Proof.
  rewrite zip_with_fmap_l, zip_with_zip, imap_fmap. apply imap_ext. intros k [c z] _.
  unfold print_row, salary_row, salary_item. simpl. by destruct (jget "amount" c).
Qed.

(** The invoice data of a non-empty list of commissions. *)
Definition salary_data (teacherId month : string) (tch : jval) (cs : list jval) : jval :=
  json_obj [("invoiceNumber", Some (JStr ("TCH-" +:+ teacherId +:+ "-" +:+ month +:+ "-" +:+ pretty now)));
            ("recipient", jget "name" tch);
            ("description", Some (JStr ("مستحقات الحصص لشهر " +:+ month)));
            ("items", Some (JArr (salary_item <$> cs)))].

Lemma invoice_data_ok teacherId month c0 cs tch :
  Forall commission_ok (c0 :: cs) → jget "teacher" c0 = Some tch → tch ≠ JNull →
  invoice_data now teacherId month (JArr (c0 :: cs)) = Ret (salary_data teacherId month tch (c0 :: cs)).
Proof.
  intros Hok Ht Htn. unfold invoice_data. cbn [js_first].
  rewrite js_get_obj by (apply Forall_inv in Hok; apply Hok). rewrite Ht. cbn [mbind jsres_bind].
  rewrite js_get_obj by done. cbn [mbind jsres_bind].
  rewrite (mapM_Ret _ salary_item); [done|]. eapply Forall_impl; [exact Hok|]. apply invoice_item_ok.
Qed.

Lemma salary_data_items teacherId month tch cs :
  jget "items" (salary_data teacherId month tch cs) = Some (JArr (salary_item <$> cs)).
Proof. unfold salary_data. by destruct (jget "name" tch). Qed.

(** C24 (functional).  A salary paid with its commissions: when the
    payment and the commissions request both answer 2xx and every
    commission has a class and a student, [payTeacherCommissionsAndPrint]
    sends the two requests under the overlay, prints an invoice with one
    numbered row per commission (its class, student and amount), the
    sum of the amounts as total and the teacher's name as recipient,
    then alerts the number of commissions and the server's total. *)
Theorem payTeacherCommissionsAndPrint_prints tok teacherId month p net r1 result t r2 c0 cs zs tch :
  let q1 := salary_request iso tok teacherId month in
  let q2 := paid_commissions_request tok teacherId month in
  net q1 = Fulfilled r1 → resp_ok r1 = true → rbody r1 = Some result → result ≠ JNull →
  jget "totalAmount" result = Some (JNum t) →
  net q2 = Fulfilled r2 → resp_ok r2 = true → rbody r2 = Some (JArr (c0 :: cs)) →
  Forall commission_ok (c0 :: cs) → jget "teacher" c0 = Some tch → tch ≠ JNull →
  field_nums "amount" (c0 :: cs) zs →
  let res := payTeacherCommissionsAndPrint toLocaleString dateText now iso tok teacherId month p net in
  res.1.1 = [ELoading true; EFetch q1; EFetch q2;
             EAlert (salary_paid (Some (JNum (Z.of_nat (length (c0 :: cs))))) (toLocaleString (JNum t)));
             ELoading false] ∧
  res.2 = Ret tt ∧
  pp_items res.1.2 = imap salary_row (zip (c0 :: cs) zs) ∧
  pp_texts res.1.2 !! "invoiceTotalAmount" = Some (toLocaleString (JNum (sumZ id zs))) ∧
  pp_texts res.1.2 !! "invoiceRecipient" = Some (dom_text (jget "name" tch)) ∧
  pp_printed res.1.2 = pp_printed p ++ [(pp_texts res.1.2, pp_items res.1.2)] ∧
  pp_shown res.1.2 = true.
Proof.
  cbv zeta. intros Hn1 Hok1 Hb1 Hr Ht Hn2 Hok2 Hb2 Hcs Htch Htn Hz.
  set (data := salary_data teacherId month tch (c0 :: cs)).
  set (items := salary_item <$> c0 :: cs).
  set (p1 := pp_set_items (imap (print_row toLocaleString) (zip items zs)) (invoice_header dateText now data p)).
  assert (payTeacherCommissionsAndPrint toLocaleString dateText now iso tok teacherId month p net =
            ([ELoading true; EFetch (salary_request iso tok teacherId month);
              EFetch (paid_commissions_request tok teacherId month);
              EAlert (salary_paid (Some (JNum (Z.of_nat (length (c0 :: cs))))) (toLocaleString (JNum t)));
              ELoading false],
             pp_arm_hide (pp_print (pp_show (pp_set_text "invoiceTotalAmount" (toLocaleString (JNum (sumZ id zs))) p1))),
             Ret tt)) as ->.
  { etransitivity.
    { eapply s_try_ok; [|reflexivity].
      srun_ret. srun_with @srun_fetch. rewrite Hok1. cbv iota. srun_with @srun_json.
      srun_with @srun_fetch. rewrite Hok2. cbv iota. srun_with @srun_json.
      eapply srun_seq; [apply (srun_pure _ false); reflexivity|]. cbv beta iota.
      eapply srun_seq; [apply srun_pure; by apply invoice_data_ok|]. cbv beta.
      eapply srun_seq; [apply generateInvoice_ok; [apply salary_data_items|by apply salary_items_nums]|]. cbv beta.
      srun_ret. eapply srun_seq; [apply srun_pure; rewrite js_get_obj by done; cbn [mbind jsres_bind]; by rewrite Ht|].
      cbv beta. reflexivity. }
    reflexivity. }
  cbn [fst snd pp_items pp_texts pp_printed pp_shown pp_arm_hide pp_print pp_show pp_set_text].
  split_and!; try done.
  - subst p1. cbn [pp_items pp_set_items]. apply salary_rows.
  - by rewrite lookup_insert_eq.
  - subst p1. cbn [pp_texts pp_set_items invoice_header pp_set_text].
    rewrite !lookup_insert_ne by done. rewrite lookup_insert_eq. subst data. unfold salary_data. by destruct (jget "name" tch).
Qed.

(** Once the server has accepted the payment, what the user
    is told does not say so: a failed commissions request ends in the
    alert that paying failed; a refused one ends with no message at all;
    an empty list gives the no-data alert and hides the overlay twice
    (the [return] runs [hideLoading] before the [finally] does).  No
    invoice is printed in any of these cases. *)
Theorem payTeacherCommissionsAndPrint_after_payment tok teacherId month p net r1 result :
  let q1 := salary_request iso tok teacherId month in
  let q2 := paid_commissions_request tok teacherId month in
  let res := payTeacherCommissionsAndPrint toLocaleString dateText now iso tok teacherId month p net in
  net q1 = Fulfilled r1 → resp_ok r1 = true → rbody r1 = Some result →
  (∀ e, net q2 = Rejected e →
     res = ([ELoading true; EFetch q1; EFetch q2; EAlert (salary_error e); ELoading false], p, Ret tt)) ∧
  (∀ r2, net q2 = Fulfilled r2 → resp_ok r2 = false →
     res = ([ELoading true; EFetch q1; EFetch q2; ELoading false], p, Ret tt)) ∧
  (∀ r2, net q2 = Fulfilled r2 → resp_ok r2 = true → rbody r2 = Some (JArr []) →
     res = ([ELoading true; EFetch q1; EFetch q2; EAlert salary_no_data; ELoading false; ELoading false], p, Ret tt)).
Proof.
  cbv zeta. intros Hn1 Hok1 Hb1. unfold payTeacherCommissionsAndPrint. split_and!.
  - intros e Hn2. etransitivity.
    { eapply s_try_err; [|reflexivity|reflexivity].
      srun_ret. srun_with @srun_fetch. rewrite Hok1. cbv iota. srun_with @srun_json.
      eapply srun_throw. unfold s_lift, p_fetch. by rewrite Hn2. }
    reflexivity.
  - intros r2 Hn2 Hok2. etransitivity.
    { eapply s_try_ok; [|reflexivity].
      srun_ret. srun_with @srun_fetch. rewrite Hok1. cbv iota. srun_with @srun_json.
      srun_with @srun_fetch. rewrite Hok2. cbv iota. reflexivity. }
    reflexivity.
  - intros r2 Hn2 Hok2 Hb2. etransitivity.
    { eapply s_try_ok; [|reflexivity].
      srun_ret. srun_with @srun_fetch. rewrite Hok1. cbv iota. srun_with @srun_json.
      srun_with @srun_fetch. rewrite Hok2. cbv iota. srun_with @srun_json.
      eapply srun_seq; [apply (srun_pure _ true); reflexivity|]. cbv beta iota. reflexivity. }
    reflexivity.
Qed.
End SalaryProofs.

(** ** Concrete runs *)

Definition ex_now : Z := 1730000000000.
Definition ex_iso : string := "2024-11-09T10:00:00.000Z".
Definition ex_print_page : print_page := mkPrintPage ∅ [] false [] 0.
Definition ex_teacher : jval := JObj [("name", JStr "أحمد")].

(** A commission of teacher أحمد, with or without its student. *)
Definition ex_commission (cls : string) (st : option string) (z : Z) : jval :=
  JObj ([("teacher", ex_teacher); ("class", JObj [("name", JStr cls)])] ++
        (match st with Some n => [("student", JObj [("name", JStr n)])] | None => [("student", JNull)] end) ++
        [("amount", JNum z)])%list.

Definition ex_salary_ok : response := mkResponse 200 (Some (JObj [("totalAmount", JNum 2500)])).

(** The server accepts the payment (its total is 2500) and answers the
    commissions request with [cs], or refuses it when [cs] is [None]. *)
Definition ex_net_salary (cs : option (list jval)) : network := λ q,
  if rq_url q === "/api/teachers/t1/pay-salary" then Fulfilled ex_salary_ok
  else if rq_url q === "/api/accounting/teacher-commissions?teacher=t1&month=2024-11&status=paid" then
    match cs with
    | Some l => Fulfilled (mkResponse 200 (Some (JArr l)))
    | None => Rejected (TypeError "Failed to fetch")
    end
  else Fulfilled (mkResponse 404 None).

Definition ex_two : list jval := [ex_commission "رياضيات" (Some "علي") 1500; ex_commission "فيزياء" (Some "سارة") 1500].

(** Two commissions of 1500: the invoice lists both and totals 3000,
    while the alert reports the server's total, 2500. *)
Lemma payTeacherCommissionsAndPrint_prints_witness :
  let res := payTeacherCommissionsAndPrint plain_text pretty ex_now ex_iso (Some "tok") "t1" "2024-11"
               ex_print_page (ex_net_salary (Some ex_two)) in
  alerts_of res.1.1 = ["تم دفع 2 مستحقات بإجمالي 2500 د.ج"] ∧
  pr_description <$> pp_items res.1.2 = ["حصة رياضيات - الطالب علي"; "حصة فيزياء - الطالب سارة"] ∧
  pp_texts res.1.2 !! "invoiceTotalAmount" = Some "3000" ∧ length (pp_printed res.1.2) = 1%nat.
Proof.
  cbv zeta.
  destruct (payTeacherCommissionsAndPrint_prints plain_text pretty ex_now ex_iso (Some "tok") "t1" "2024-11"
              ex_print_page (ex_net_salary (Some ex_two)) ex_salary_ok (JObj [("totalAmount", JNum 2500)]) 2500
              (mkResponse 200 (Some (JArr ex_two))) (ex_commission "رياضيات" (Some "علي") 1500)
              [ex_commission "فيزياء" (Some "سارة") 1500] [1500; 1500]%Z ex_teacher
              eq_refl eq_refl eq_refl ltac:(done) eq_refl eq_refl eq_refl eq_refl
              ltac:(repeat constructor; repeat split; try done; eexists; split; done)
              eq_refl ltac:(done) ltac:(repeat (done || constructor)))
    as (H1 & _ & H3 & H4 & _ & H6 & _).
  rewrite H1, H3, H4, H6. split_and!; reflexivity.
Defined.

Lemma payTeacherCommissionsAndPrint_after_payment_witness :
  payTeacherCommissionsAndPrint plain_text pretty ex_now ex_iso (Some "tok") "t1" "2024-11" ex_print_page
    (ex_net_salary None) =
  ([ELoading true; EFetch (salary_request ex_iso (Some "tok") "t1" "2024-11");
    EFetch (paid_commissions_request (Some "tok") "t1" "2024-11");
    EAlert (salary_error (TypeError "Failed to fetch")); ELoading false], ex_print_page, Ret tt).
Proof.
  exact (proj1 (payTeacherCommissionsAndPrint_after_payment plain_text pretty ex_now ex_iso (Some "tok") "t1" "2024-11"
                  ex_print_page (ex_net_salary None) ex_salary_ok (JObj [("totalAmount", JNum 2500)])
                  eq_refl eq_refl eq_refl) (TypeError "Failed to fetch") eq_refl).
Defined.

(** A commission whose student is [null]: the payment went through, but
    the user is told that paying failed, and nothing is printed. *)
Example salary_missing_student :
  let res := payTeacherCommissionsAndPrint plain_text pretty ex_now ex_iso (Some "tok") "t1" "2024-11" ex_print_page
               (ex_net_salary (Some [ex_commission "رياضيات" (Some "علي") 1500; ex_commission "فيزياء" None 1500])) in
  alerts_of res.1.1 = ["حدث خطأ أثناء دفع المستحقات: .name"] ∧ pp_printed res.1.2 = [].
Proof. split; reflexivity. Qed.
