(* ===== verification/Forms.v ===== *)
(** * The payment forms, and the helpers around them

    [showPayCommissionModal(commissionId)] (lines 1466-1489) fetches one
    commission and fills the inputs of [#payCommissionModal];
    [showPayClassCommissionModal(teacherId, classId, month, totalAmount)]
    (lines 1197-1239) fetches the teacher and the class together
    ([Promise.all]), fills the inputs of [#payClassCommissionModal],
    among them the teacher's percentage ([salaryPercentage || 70]), and
    calls [calculateCommissionAmount] (lines 1242-1250), which reads the
    total and the percentage back with [parseFloat] and writes
    [(total * (percentage / 100)).toFixed(2)] into [#commissionAmount].

    The inputs are a map from element id to their [value] text.
    [parseFloat] and the arithmetic are those of [Double]: the texts are
    read as the doubles nearest to the literals, and [percentage / 100]
    and the product are each rounded to a double before [toFixed(2)]
    prints the result, so a total that is not a safe integer, or a
    product that is not a multiple of [1/100], prints what the browser
    prints ([commission_amount_rounding]).

    The file also holds the other form openers ([showAddPaymentModal],
    [showAddExpenseModal]), [clearExpenseFilters], [addNewExpense] (lines 2246-2276, which
    nothing calls), the placeholders [printInvoice] and
    [showCreateInvoiceModal], and the print handlers [printPayments] and
    [printReport] over the markup of the page. *)

From Stdlib Require Import ZArith QArith Qround Qabs Lqa Ascii.
From stdpp Require Import base list strings gmap pretty.
From S2P Require Import Prelude Double Fetch Prog Payments Commissions CommissionPay Session Listing Dashboard Reports.

Local Open Scope string_scope.
Local Open Scope acc_scope.
Local Open Scope list_scope.

(** ** The inputs of the modals *)

Notation inputs := (gmap string string).

(** [input.value = v]: [null] empties the input, [undefined] writes
    ["undefined"]. *)
Definition value_text (v : option jval) : string :=
  match v with None => "undefined" | Some JNull => "" | Some v => js_string v end.

(** [document.getElementById(id).value = v]: a missing input throws. *)
Definition s_set_value (id v : string) : sprog inputs unit := λ d _,
  match d !! id with
  | Some _ => ([], <[id := v]> d, Ret tt)
  | None => ([], d, Throw (TypeError "null.value"))
  end.

(** [document.getElementById(id).value]. *)
Definition s_get_value (id : string) : sprog inputs string := λ d _,
  ([], d, match d !! id with Some v => Ret v | None => Throw (TypeError "null.value") end).

Definition is_nan (x : qnum) : bool := match x with QNaN => true | _ => false end.

Definition commission_load_failed : string := "حدث خطأ أثناء تحميل بيانات العمولة".

(** [await Promise.all([fetch(q1), fetch(q2)])]: both requests are
    sent; a rejection of either rejects the whole (the alert that follows
    does not depend on which). *)
Definition p_fetch_both (q1 q2 : request) : prog (response * response) := λ net,
  ([EFetch q1; EFetch q2],
   match await_fetch (net q1), await_fetch (net q2) with
   | Ret r1, Ret r2 => Ret (r1, r2)
   | Throw e, _ | _, Throw e => Throw e
   end).

Section Forms.
(** [String(x)] for [|x| >= 10^21], as in [Reports.toFixed2]. *)
Variable bigText : Q → string.
(** [new Date().toISOString()]. *)
Variable iso : string.

(** [calculateCommissionAmount()] (lines 1242-1250). *)
Definition calculateCommissionAmount : sprog inputs unit :=
  t ← s_get_value "commissionTotalAmount";
  p ← s_get_value "commissionPercentage";
  let totalAmount := parseFloat t in
  let percentage := parseFloat p in
  if negb (is_nan totalAmount) && negb (is_nan percentage) then
    s_set_value "commissionAmount" (toFixed2 bigText (d_mul totalAmount (d_div percentage (QFin 100))))
  else mret ().

(** [showPayClassCommissionModal(teacherId, classId, month, totalAmount)]
    (lines 1197-1239); [totalAmount] is the number the card's button
    passes. *)
Definition showPayClassCommissionModal (authToken : option string) (teacherId classId month : string)
    (totalAmount : Z) : sprog inputs unit :=
  s_try
    (rs ← s_lift (p_fetch_both (api_get authToken ("/teachers/" +:+ teacherId))
                               (api_get authToken ("/classes/" +:+ classId)));
     if resp_ok rs.1 && resp_ok rs.2 then
       teacher ← s_lift (p_json rs.1);
       classObj ← s_lift (p_json rs.2);
       s_set_value "commissionTeacherId" teacherId ;;
       s_set_value "commissionClassId" classId ;;
       tname ← s_lift (p_lift (js_get "name" (Some teacher)));
       s_set_value "commissionTeacherName" (value_text tname) ;;
       cname ← s_lift (p_lift (js_get "name" (Some classObj)));
       s_set_value "commissionClassName" (value_text cname) ;;
       s_set_value "commissionMonth" month ;;
       s_set_value "commissionTotalAmount" (pretty totalAmount) ;;
       s_set_value "commissionPercentage" (value_text (Some (commission_percentage (jget "teacher" classObj)))) ;;
       calculateCommissionAmount ;;
       s_set_value "commissionPaymentDate" (split_T_0 iso) ;;
       s_lift (showModal "payClassCommissionModal")
     else mret ())
    (λ _, s_lift (p_alert commission_load_failed))
    (mret ()).

(** [showPayCommissionModal(commissionId)] (lines 1466-1489). *)
Definition showPayCommissionModal (authToken : option string) (commissionId : string) : sprog inputs unit :=
  s_try
    (response ← s_lift (p_fetch (api_get authToken ("/accounting/teacher-commissions/" +:+ commissionId)));
     if resp_ok response then
       commission ← s_lift (p_json response);
       cid ← s_lift (p_lift (js_get "_id" (Some commission)));
       s_set_value "commissionId" (value_text cid) ;;
       tch ← s_lift (p_lift (js_get "teacher" (Some commission)));
       tname ← s_lift (p_lift (js_get "name" tch));
       s_set_value "commissionTeacher" (value_text tname) ;;
       s_set_value "commissionMonth" (value_text (jget "month" commission)) ;;
       s_set_value "commissionAmount" (value_text (jget "amount" commission)) ;;
       s_set_value "commissionPaymentDate" (split_T_0 iso) ;;
       s_lift (showModal "payCommissionModal")
     else mret ())
    (λ _, s_lift (p_alert commission_load_failed))
    (mret ()).

(** [showAddPaymentModal()] (lines 941-943). *)
Definition showAddPaymentModal : sprog inputs unit := s_lift (showModal "addPaymentModal").

(** [showAddExpenseModal()] (lines 2663-2667): today's date as default. *)
Definition showAddExpenseModal : sprog inputs unit :=
  s_set_value "expenseDate" (split_T_0 iso) ;;
  s_lift (showModal "addExpenseModal").
End Forms.

(** [clearExpenseFilters()] (lines 760-766): the four filters are
    emptied, then the list is reloaded. *)
Definition clearExpenseFilters : sprog inputs unit :=
  s_set_value "expenseTypeFilter" "" ;;
  s_set_value "expenseCategoryFilter" "" ;;
  s_set_value "expenseStartDate" "" ;;
  s_set_value "expenseEndDate" "" ;;
  s_lift (p_load LoadExpenses).

(** ** Helpers nothing calls, and placeholders *)

Definition expense_added : string := "تم إضافة المصروف بنجاح".
Definition add_expense_failed : string := "فشل في إضافة المصروف".
Definition add_expense_error (e : exn) : string := "حدث خطأ أثناء إضافة المصروف: " +:+ exn_message e.

(** [addNewExpense(expenseData)] (lines 2246-2276): [showLoading] is
    inside the [try]; the [catch] alerts and rethrows. *)
Definition addNewExpense (authToken : option string) (expenseData : jval) : prog jval :=
  p_try
    (showLoading ;;
     response ← p_fetch (api_send POST authToken "/accounting/expenses" expenseData);
     if resp_ok response then
       newExpense ← p_json response;
       p_alert expense_added ;;
       p_load LoadExpenses ;;
       mret newExpense
     else
       err ← p_json response;
       msg ← p_lift (js_get "error" (Some err));
       p_throw (JsError (if js_truthy msg then js_template msg else add_expense_failed)))
    (λ e, p_alert (add_expense_error e) ;; p_throw e)
    hideLoading.

(** [printInvoice(invoiceId)] (lines 1882-1885) and
    [showCreateInvoiceModal()] (lines 1886-1889) only alert. *)
Definition printInvoice (invoiceId : string) : prog unit := p_alert ("طباعة الفاتورة: " +:+ invoiceId).
Definition showCreateInvoiceModal : prog unit := p_alert "إنشاء فاتورة جديدة".

(** The page as the two print handlers see it: the markup of the body,
    that of [#reportsSection] ([None] when it is missing), what
    [window.print()] printed, and the reloads asked for. *)
Record print_doc : Type := mkPrintDoc {
  pd_body : string;
  pd_reports : option string;
  pd_printed : list string;
  pd_reloads : nat
}.

(** [printPayments()] (lines 1043-1046): the whole page is printed. *)
Definition printPayments (d : print_doc) : print_doc :=
  mkPrintDoc (pd_body d) (pd_reports d) (pd_printed d ++ [pd_body d]) (pd_reloads d).

(** [printReport()] (lines 927-937): the body is replaced by the reports
    section, printed, restored from its markup, and the page reloaded. *)
Definition printReport (d : print_doc) : print_doc * jsres unit :=
  match pd_reports d with
  | None => (d, Throw (TypeError "null.innerHTML"))
  | Some printContent =>
      let originalContent := pd_body d in
      let d1 := mkPrintDoc printContent (pd_reports d) (pd_printed d) (pd_reloads d) in
      let d2 := mkPrintDoc (pd_body d1) (pd_reports d1) (pd_printed d1 ++ [pd_body d1]) (pd_reloads d1) in
      let d3 := mkPrintDoc originalContent (pd_reports d2) (pd_printed d2) (pd_reloads d2) in
      (mkPrintDoc (pd_body d3) (pd_reports d3) (pd_printed d3) (S (pd_reloads d3)), Ret tt)
  end.

(** ** Properties of the forms *)

#[export] Instance Qle_bool_proper : Proper (Qeq ==> Qeq ==> eq) Qle_bool.
Proof. intros a a' Ha b b' Hb. apply Bool.eq_iff_eq_true. by rewrite !Qle_bool_iff, Ha, Hb. Qed.

Lemma srun_set_value id v (d : inputs) net : is_Some (d !! id) → s_set_value id v d net = ([], <[id := v]> d, Ret tt).
Proof. intros [x Hx]. unfold s_set_value. by rewrite Hx. Qed.

Lemma srun_get_value id v (d : inputs) net : d !! id = Some v → s_get_value id d net = ([], d, Ret v).
Proof. intros Hx. unfold s_get_value. by rewrite Hx. Qed.

(** An input of [ids] is still there after any number of writes. *)
Ltac input_present Hd :=
  repeat (apply lookup_insert_is_Some'; right);
  eapply (Forall_forall (λ id, is_Some (_ !! id))); [exact Hd|];
  repeat (apply list_elem_of_here || apply list_elem_of_further).

(** A lookup through writes: the last write of the key, or the map
    below. *)
Ltac lookup_writes :=
  repeat (rewrite lookup_insert_eq || (rewrite lookup_insert_ne by done)).

(** The inputs of [#payClassCommissionModal] the script writes. *)
Definition class_form_ids : list string :=
  ["commissionTeacherId"; "commissionClassId"; "commissionTeacherName"; "commissionClassName";
   "commissionMonth"; "commissionTotalAmount"; "commissionPercentage"; "commissionAmount";
   "commissionPaymentDate"].

Lemma is_nan_of_Z z : is_nan (of_Z z) = false.
Proof. pose proof (round64_not_nan (inject_Z z)). unfold of_Z. by destruct (round64 _). Qed.

(** [p / 100] lies between 0 and 1 for a percentage [p]. *)
Lemma percent_unit p : (0 ≤ p ≤ 100)%Z → (inject_Z 0 <= inject_Z p / inject_Z 100 <= inject_Z 1)%Q.
Proof.
  intros Hp. split.
  - apply Qle_shift_div_l; [by compute|]. rewrite <- inject_Z_mult, <- Zle_Qle. lia.
  - apply Qle_shift_div_r; [by compute|]. rewrite <- inject_Z_mult, <- Zle_Qle. lia.
Qed.

(** [t * r] lies between 0 and [t] for [r] between 0 and 1. *)
Lemma scale_unit t r : (0 ≤ t)%Z → (inject_Z 0 <= r <= inject_Z 1)%Q → (inject_Z 0 <= inject_Z t * r <= inject_Z t)%Q.
Proof.
  intros Ht [Hr0 Hr1]. assert (inject_Z 0 <= inject_Z t)%Q by (rewrite <- Zle_Qle; lia).
  change (inject_Z 0) with 0%Q in *. change (inject_Z 1) with 1%Q in *. split; nra.
Qed.

Section FormProofs.
Variable bigText : Q → string.
Variable iso : string.
(** [String(x)] depends on the value of [x] only. *)
Context `{!Proper (Qeq ==> eq) bigText}.

Lemma toFixed2_Qeq q q' : (q == q')%Q → toFixed2 bigText (QFin q) = toFixed2 bigText (QFin q').
Proof. intros H. unfold toFixed2, fixed_round. by rewrite !H. Qed.

(** [calculateCommissionAmount] on a total and a percentage written as
    the texts of two integers: both are read as the doubles nearest to
    them, and the amount is [toFixed(2)] of the double
    [total * (percentage / 100)], each operation rounded. *)
Lemma calculateCommissionAmount_run (d : inputs) net t p :
  d !! "commissionTotalAmount" = Some (pretty t) → d !! "commissionPercentage" = Some (pretty p) →
  is_Some (d !! "commissionAmount") →
  calculateCommissionAmount bigText d net =
    ([], <["commissionAmount" := toFixed2 bigText (d_mul (of_Z t) (d_div (of_Z p) (QFin 100)))]> d, Ret tt).
Proof.
  intros Ht Hp Ha. unfold calculateCommissionAmount. etransitivity.
  { srun_with @srun_get_value. srun_with @srun_get_value. rewrite !parseFloat_pretty, !is_nan_of_Z.
    apply srun_set_value, Ha. }
  reflexivity.
Qed.

(** C26 (functional).  [showPayClassCommissionModal] with both answers
    2xx: the two requests go out together, the form shows the total the
    button passed and the class teacher's percentage ([70] when it is
    missing or 0), the amount input holds [toFixed(2)] of the double
    [total * (percentage / 100)] computed from the doubles [parseFloat]
    reads, and the modal is shown. *)
Theorem showPayClassCommissionModal_fills tok teacherId classId month t (d : inputs) net r1 r2 teacher classObj p :
  let q1 := api_get tok ("/teachers/" +:+ teacherId) in
  let q2 := api_get tok ("/classes/" +:+ classId) in
  net q1 = Fulfilled r1 → net q2 = Fulfilled r2 → resp_ok r1 = true → resp_ok r2 = true →
  rbody r1 = Some teacher → rbody r2 = Some classObj → teacher ≠ JNull → classObj ≠ JNull →
  commission_percentage (jget "teacher" classObj) = JNum p →
  Forall (λ id, is_Some (d !! id)) class_form_ids →
  let res := showPayClassCommissionModal bigText iso tok teacherId classId month t d net in
  res.1.1 = [EFetch q1; EFetch q2; EModal "payClassCommissionModal" true] ∧ res.2 = Ret tt ∧
  res.1.2 !! "commissionTotalAmount" = Some (pretty t) ∧
  res.1.2 !! "commissionPercentage" = Some (pretty p) ∧
  res.1.2 !! "commissionAmount" = Some (toFixed2 bigText (d_mul (of_Z t) (d_div (of_Z p) (QFin 100)))) ∧
  res.1.2 !! "commissionTeacherName" = Some (value_text (jget "name" teacher)).
Proof.
  cbv zeta. intros Hn1 Hn2 Hok1 Hok2 Hb1 Hb2 Ht Hc Hpct Hd.
  evar (res : (list effect * inputs * jsres unit)%type).
  assert (showPayClassCommissionModal bigText iso tok teacherId classId month t d net = res) as ->.
  { unfold showPayClassCommissionModal, res. eapply s_try_ok; [|reflexivity].
    eapply srun_seq; [unfold s_lift, p_fetch_both; rewrite Hn1, Hn2; cbn [await_fetch fst snd]; reflexivity|].
    cbv beta. cbn [fst snd].
    rewrite Hok1, Hok2. cbv iota. srun_with @srun_json. srun_with @srun_json.
    do 2 (eapply srun_seq; [apply srun_set_value; input_present Hd|]; cbv beta).
    srun_with @srun_get. eapply srun_seq; [apply srun_set_value; input_present Hd|]; cbv beta.
    srun_with @srun_get.
    do 4 (eapply srun_seq; [apply srun_set_value; input_present Hd|]; cbv beta).
    eapply srun_seq.
    { apply (calculateCommissionAmount_run _ _ t p); lookup_writes; try done.
      - by rewrite Hpct.
      - input_present Hd. }
    cbv beta.
    eapply srun_seq; [apply srun_set_value; input_present Hd|]; cbv beta. reflexivity. }
  unfold res. cbn [fst snd app]. rewrite Hpct. split_and!; try done; lookup_writes; done.
Qed.

(** C27 (bounds).  For a total that is a safe integer ([0 <= total <=
    2^53 - 1], where [parseFloat] reads it exactly) and a percentage
    between 0 and 100, [calculateCommissionAmount] writes an amount
    between [0.00] and the total: an integer number [n] of hundredths
    with [0 <= n <= 100 * total], the roundings of [p / 100] and of the
    product included. *)
Theorem calculateCommissionAmount_bounds (d : inputs) net t p :
  d !! "commissionTotalAmount" = Some (pretty t) → d !! "commissionPercentage" = Some (pretty p) →
  is_Some (d !! "commissionAmount") → (0 ≤ t ≤ max_safe)%Z → (0 ≤ p ≤ 100)%Z →
  (calculateCommissionAmount bigText d net).2 = Ret tt ∧
  ∃ n, (calculateCommissionAmount bigText d net).1.2 !! "commissionAmount" = Some (fixed_text n) ∧
       (0 ≤ n ≤ 100 * t)%Z.
Proof.
  intros Ht Hp Ha Htb Hpb. unfold max_safe in Htb.
  rewrite (calculateCommissionAmount_run _ _ t p) by assumption. split; [done|]. cbn [fst snd].
  rewrite lookup_insert_eq. unfold of_Z. rewrite !round64_int by (unfold max_safe; lia).
  rewrite d_div_fin by (by compute).
  destruct (round64_between (inject_Z p / 100) 0 1) as (r & -> & Hr); [lia|lia|by apply percent_unit|].
  cbn [d_mul]. destruct (round64_between (inject_Z t * r) 0 t) as (a & -> & Ha0 & Ha1); [lia|lia|apply scale_unit; [lia|done]|].
  destruct (toFixed2_bounds bigText a t) as (n & Hn & Hb); [done|done|lia|].
  exists n. split; [f_equal; exact Hn|exact Hb].
Qed.
End FormProofs.

(** [addNewExpense] on every answer: the new expense is returned after
    the success alert and the reload of the list; otherwise the failure
    is alerted with its message and thrown again to the caller; the
    overlay is hidden in every case. *)
Theorem addNewExpense_run tok expenseData net :
  let q := api_send POST tok "/accounting/expenses" expenseData in
  addNewExpense tok expenseData net =
    match net q with
    | Rejected e => ([ELoading true; EFetch q; EAlert (add_expense_error e); ELoading false], Throw e)
    | Fulfilled r =>
        match resp_ok r, rbody r with
        | true, Some v => ([ELoading true; EFetch q; EAlert expense_added; ELoad LoadExpenses; ELoading false], Ret v)
        | false, Some err =>
            let e := match err with
                     | JNull => TypeError ".error"
                     | _ => JsError (let msg := jget "error" err in
                                     if js_truthy msg then js_template msg else add_expense_failed)
                     end in
            ([ELoading true; EFetch q; EAlert (add_expense_error e); ELoading false], Throw e)
        | _, None => ([ELoading true; EFetch q; EAlert (add_expense_error (SyntaxError "response.json()"));
                      ELoading false], Throw (SyntaxError "response.json()"))
        end
    end.
Proof.
  cbv zeta. unfold addNewExpense. rewrite run_try. autorewrite with prog_rw. simpl.
  destruct (net _) as [r|e]; simpl; [|done].
  unfold p_json. destruct (resp_ok r); simpl; autorewrite with prog_rw; unfold await_json;
    destruct (rbody r) as [[]|]; done.
Qed.

(** ** Concrete runs *)

#[export] Instance ex_big_proper : Proper (Qeq ==> eq) ex_big.
Proof. by intros ???. Qed.

Definition ex_form : inputs := list_to_map ((λ id, (id, "")) <$> class_form_ids).

(** Teacher [t1]; class [c1] whose teacher's percentage is [pct]. *)
Definition ex_net_form (pct : option jval) : network := λ q,
  if rq_url q === "/api/teachers/t1" then Fulfilled (mkResponse 200 (Some (JObj [("name", JStr "أحمد")])))
  else if rq_url q === "/api/classes/c1" then
    Fulfilled (mkResponse 200 (Some (JObj [("name", JStr "رياضيات");
                                           ("teacher", JObj (match pct with Some v => [("salaryPercentage", v)] | None => [] end))])))
  else Rejected (TypeError "Failed to fetch").

(** A total of 4500 at 60%: the amount reads [2700.00]. *)
Lemma showPayClassCommissionModal_fills_witness :
  let res := showPayClassCommissionModal ex_big "2024-11-09T10:00:00.000Z" (Some "tok") "t1" "c1" "2024-11" 4500
               ex_form (ex_net_form (Some (JNum 60))) in
  res.1.2 !! "commissionAmount" = Some "2700.00" ∧ res.1.2 !! "commissionPercentage" = Some "60".
Proof.
  cbv zeta.
  destruct (showPayClassCommissionModal_fills ex_big "2024-11-09T10:00:00.000Z" (Some "tok") "t1" "c1" "2024-11" 4500
              ex_form (ex_net_form (Some (JNum 60)))
              (mkResponse 200 (Some (JObj [("name", JStr "أحمد")])))
              (mkResponse 200 (Some (JObj [("name", JStr "رياضيات"); ("teacher", JObj [("salaryPercentage", JNum 60)])])))
              (JObj [("name", JStr "أحمد")])
              (JObj [("name", JStr "رياضيات"); ("teacher", JObj [("salaryPercentage", JNum 60)])]) 60
              eq_refl eq_refl eq_refl eq_refl eq_refl eq_refl ltac:(done) ltac:(done) eq_refl
              ltac:(repeat apply Forall_cons_2; try apply Forall_nil; eexists; reflexivity))
    as (_ & _ & _ & H4 & H5 & _).
  rewrite H4, H5. split; reflexivity.
Defined.

Lemma calculateCommissionAmount_bounds_witness :
  let d := <["commissionTotalAmount" := "4500"]> (<["commissionPercentage" := "60"]> ex_form) in
  (calculateCommissionAmount ex_big d (ex_net_form None)).2 = Ret tt ∧
  ∃ n, (calculateCommissionAmount ex_big d (ex_net_form None)).1.2 !! "commissionAmount" = Some (fixed_text n) ∧
       (0 ≤ n ≤ 100 * 4500)%Z.
Proof.
  cbv zeta. apply (calculateCommissionAmount_bounds ex_big _ _ 4500 60); [reflexivity|reflexivity|eexists; reflexivity|unfold max_safe; lia|lia].
Defined.

(** A total of [1000000000000001] at 70%: [70 / 100] is the double
    nearest to [0.7], the product rounds to the double
    [700000000000000.625], and [toFixed(2)] prints it as
    [700000000000000.63], where the exact product [700000000000000.7]
    would print [.70]. *)
Example commission_amount_rounding :
  (calculateCommissionAmount ex_big
     (<["commissionTotalAmount" := "1000000000000001"]> (<["commissionPercentage" := "70"]> ex_form))
     (ex_net_form None)).1.2 !! "commissionAmount" = Some "700000000000000.63".
Proof. vm_compute. reflexivity. Qed.

(** A class teacher recorded at 0% is paid at 70% ([0 || 70]); a
    percentage stored as the text ["62.5"] is read by [parseFloat]. *)
Example class_form_percentages :
  (showPayClassCommissionModal ex_big "2024-11-09T10:00:00.000Z" (Some "tok") "t1" "c1" "2024-11" 4500
     ex_form (ex_net_form (Some (JNum 0)))).1.2 !! "commissionAmount" = Some "3150.00" ∧
  (showPayClassCommissionModal ex_big "2024-11-09T10:00:00.000Z" (Some "tok") "t1" "c1" "2024-11" 4500
     ex_form (ex_net_form (Some (JStr "62.5")))).1.2 !! "commissionAmount" = Some "2812.50" ∧
  (showPayClassCommissionModal ex_big "2024-11-09T10:00:00.000Z" (Some "tok") "t1" "c1" "2024-11" 4500
     ex_form (ex_net_form None)).1.2 !! "commissionAmount" = Some "3150.00".
Proof. split_and!; reflexivity. Qed.

(** A failed request of either answer ends in the alert and leaves the
    form as it was. *)
Example class_form_failed :
  showPayClassCommissionModal ex_big "2024-11-09T10:00:00.000Z" (Some "tok") "t1" "c2" "2024-11" 4500
    ex_form (ex_net_form None) =
  ([EFetch (api_get (Some "tok") "/teachers/t1"); EFetch (api_get (Some "tok") "/classes/c2");
    EAlert commission_load_failed], ex_form, Ret tt).
Proof. reflexivity. Qed.
