(* ===== verification/Exports.v ===== *)
(** * Exports

    [exportData(endpoint, fileName, filters)] (lines 2201-2242) fetches
    [/api/${endpoint}] with every non-empty filter pushed as
    [`${key}=${encodeURIComponent(value)}`], turns the JSON array into a
    sheet with SheetJS and downloads it as
    [`${fileName}_${date}.xlsx`]; [exportPayments] (lines 993-1005),
    [exportExpenses] (lines 2278-2290) and [exportInvoices] (lines
    2296-2308) call it with the filters of their section.
    [exportToExcel] (lines 1917-1948) is the same without filters,
    [exportClassCommissions] (lines 1330-1353) downloads the server's
    file for one card, and [exportReport] (lines 944-947) only alerts.

    Unlike the list loaders ([Listing]), [exportData] encodes the values,
    so what the server reads is the filters as typed, whatever they hold
    ([export_query_roundtrip]); but [exportPayments] leaves out the
    student search of the table it exports. *)

From Stdlib Require Import ZArith Ascii Lia.
From stdpp Require Import base list sets strings.
From S2P Require Import Prelude Fetch Prog Listing.

Local Open Scope string_scope.
Local Open Scope acc_scope.
Local Open Scope list_scope.

(** ** [encodeURIComponent] *)

(** The characters [encodeURIComponent] keeps: letters, digits and
    [- _ . ! ~ * ' ( )]. *)
Definition unreserved (a : ascii) : bool :=
  let n := nat_of_ascii a in
  (((65 <=? n) && (n <=? 90)) || ((97 <=? n) && (n <=? 122)) || ((48 <=? n) && (n <=? 57)))%nat ||
  bool_decide (a ∈ ["-"; "_"; "."; "!"; "~"; "*"; "'"; "("; ")"]%char).

(** An upper-case hex digit. *)
Definition hex_digit (n : nat) : ascii :=
  ascii_of_nat (if n <? 10 then 48 + n else 55 + n)%nat.

(** Every other byte becomes [%XX]; the strings are UTF-8 bytes, so this
    is the encoding of each code point's UTF-8 bytes. *)
Fixpoint encodeURIComponent (s : string) : string :=
  match s with
  | EmptyString => EmptyString
  | String a s' =>
      if unreserved a then String a (encodeURIComponent s')
      else String "%" (String (hex_digit (nat_of_ascii a / 16)%nat) (String (hex_digit (nat_of_ascii a mod 16)%nat)
             (encodeURIComponent s')))
  end.

(** [if (filters[key]) queryParams.push(`${key}=${encodeURIComponent(filters[key])}`)]. *)
Definition push_encoded (queryParams : list string) (kv : string * string) : list string :=
  if truthy kv.2 then queryParams ++ [param kv.1 (encodeURIComponent kv.2)] else queryParams.

(** [for (const key in filters)]: the keys of an object literal whose keys
    are not array indices, in the order written. *)
Definition export_params (filters : list (string * string)) : list string :=
  foldl push_encoded [] filters.

(** ** The handlers *)

(** [XLSX.utils.json_to_sheet(data)] walks an array; on anything else it
    throws. *)
Definition json_to_sheet (data : jval) : jsres unit :=
  match data with JArr _ => Ret tt | _ => Throw (TypeError "js.forEach") end.

Definition export_failed : string := "فشل في جلب البيانات".

(** [exportData(endpoint, fileName, filters)] at the time [now] (an ISO
    timestamp). *)
Definition exportData (authToken : option string) (now endpoint fileName : string)
    (filters : list (string * string)) : prog unit :=
  p_try
    (showLoading ;;
     response ← p_fetch (api_get authToken ("/" +:+ endpoint +:+ query_string (export_params filters)));
     if resp_ok response then
       data ← p_json response;
       p_lift (json_to_sheet data) ;;
       p_emit (EDownload (fileName +:+ "_" +:+ split_T_0 now +:+ ".xlsx")) ;;
       p_alert ("تم تصدير " +:+ fileName +:+ " بنجاح")
     else p_throw (JsError export_failed))
    (λ e, p_alert ("حدث خطأ أثناء التصدير: " +:+ exn_message e))
    hideLoading.

(** [exportPayments()]: the status, month, method and class filters. *)
Definition exportPayments (authToken : option string) (now : string) (f : payment_filters) : prog unit :=
  exportData authToken now "payments" "المدفوعات"
    [("status", paymentStatusFilter f); ("month", paymentMonthFilter f);
     ("paymentMethod", paymentMethodFilter f); ("class", paymentClassFilter f)].

Definition exportExpenses (authToken : option string) (now typeFilter categoryFilter startDate endDate : string)
    : prog unit :=
  exportData authToken now "accounting/expenses" "المصروفات"
    [("type", typeFilter); ("category", categoryFilter); ("startDate", startDate); ("endDate", endDate)].

Definition exportInvoices (authToken : option string) (now typeFilter statusFilter startDate endDate : string)
    : prog unit :=
  exportData authToken now "accounting/invoices" "الفواتير"
    [("type", typeFilter); ("status", statusFilter); ("startDate", startDate); ("endDate", endDate)].

(** [exportToExcel(endpoint, fileName)] (lines 1917-1948). *)
Definition exportToExcel (authToken : option string) (now endpoint fileName : string) : prog unit :=
  p_try
    (showLoading ;;
     response ← p_fetch (api_get authToken ("/" +:+ endpoint));
     if resp_ok response then
       data ← p_json response;
       p_lift (json_to_sheet data) ;;
       p_emit (EDownload (fileName +:+ "_" +:+ split_T_0 now +:+ ".xlsx")) ;;
       p_alert ("تم تصدير " +:+ fileName +:+ " بنجاح")
     else p_throw (JsError export_failed))
    (λ e, p_alert ("حدث خطأ أثناء التصدير: " +:+ exn_message e))
    hideLoading.

(** [exportClassCommissions(teacherId, classId, month)] (lines 1330-1353):
    the ids are put in the URL as they are; a non-2xx answer does
    nothing. *)
Definition exportClassCommissions (authToken : option string) (teacherId classId month : string) : prog unit :=
  p_try
    (response ← p_fetch (api_get authToken ("/accounting/teacher-commissions/export?teacher=" +:+ teacherId +:+
                                            "&class=" +:+ classId +:+ "&month=" +:+ month));
     if resp_ok response then p_emit (EDownload ("عمولة_الحصة_" +:+ month +:+ ".xlsx")) else mret ())
    (λ _, p_alert "حدث خطأ أثناء تصدير التقرير")
    (mret ()).

(** [exportReport()] (lines 944-947). *)
Definition exportReport : prog unit :=
  p_alert "سيتم تصدير التقرير كملف PDF. هذه الميزة تحتاج إلى إعداد إضافي.".

(** ** Encoding and decoding *)

Lemma hex_val_digit n : (n < 16)%nat → hex_val (hex_digit n) = Some n.
Proof. intros Hn. do 16 (destruct n; [reflexivity|]). lia. Qed.

Lemma unreserved_plain a : unreserved a = true → a ∉ ["%"; "+"; "&"; "="; "#"]%char.
Proof.
  intros Ha Hin. repeat (apply elem_of_cons in Hin as [->|Hin]; [discriminate|]).
  by apply not_elem_of_nil in Hin.
Qed.

(** The server reads [%XX] back as the byte it encodes. *)
Lemma decode_escape a s :
  percent_decode (String "%" (String (hex_digit (nat_of_ascii a / 16)) (String (hex_digit (nat_of_ascii a mod 16)) s)))
  = String a (percent_decode s).
Proof.
  pose proof (nat_ascii_bounded a) as Hb.
  assert (hex_val (hex_digit (nat_of_ascii a / 16)) = Some (nat_of_ascii a / 16)%nat) as H1
    by (apply hex_val_digit, Nat.Div0.div_lt_upper_bound; lia).
  assert (hex_val (hex_digit (nat_of_ascii a mod 16)) = Some (nat_of_ascii a mod 16)%nat) as H2
    by (apply hex_val_digit, Nat.mod_upper_bound; lia).
  pose proof (Nat.div_mod_eq (nat_of_ascii a) 16) as Hdm.
  remember (hex_digit (nat_of_ascii a / 16)) as h1. remember (hex_digit (nat_of_ascii a mod 16)) as h2.
  remember (nat_of_ascii a / 16)%nat as q. remember (nat_of_ascii a mod 16)%nat as r.
  simpl. rewrite H1, H2.
  match goal with |- String (ascii_of_nat ?e) _ = _ => replace e with (nat_of_ascii a) by lia end.
  by rewrite ascii_nat_embedding.
Qed.

(** The server's decoding undoes [encodeURIComponent]:
    every string comes back as it was. *)
Theorem percent_decode_encode s : percent_decode (encodeURIComponent s) = s.
Proof.
  induction s as [|a s IH]; [done|]. cbn [encodeURIComponent]. destruct (unreserved a) eqn:Hu.
  - pose proof (unreserved_plain a Hu) as Hp. simpl.
    rewrite !bool_decide_false by set_solver. by rewrite IH.
  - by rewrite decode_escape, IH.
Qed.

Lemma hex_digit_plain n : (n < 16)%nat → avoids ["&"; "="; "#"; "+"]%char (String (hex_digit n) "") = true.
Proof. intros Hn. do 16 (destruct n; [reflexivity|]). lia. Qed.

Lemma encode_plain s : avoids ["&"; "="; "#"; "+"]%char (encodeURIComponent s) = true.
Proof.
  induction s as [|a s IH]; simpl; [done|]. destruct (unreserved a) eqn:Hu; simpl.
  - rewrite IH, andb_true_r. apply negb_true_iff, bool_decide_eq_false.
    pose proof (unreserved_plain a Hu). set_solver.
  - pose proof (nat_ascii_bounded a).
    pose proof (hex_digit_plain (nat_of_ascii a / 16) ltac:(apply Nat.Div0.div_lt_upper_bound; lia)) as H1.
    pose proof (hex_digit_plain (nat_of_ascii a mod 16) ltac:(apply Nat.mod_upper_bound; lia)) as H2.
    simpl in H1, H2. rewrite andb_true_r in H1, H2. by rewrite H1, H2, IH.
Qed.

Lemma truthy_encode v : truthy (encodeURIComponent v) = truthy v.
Proof. destruct v as [|a v]; [done|]. simpl. by destruct (unreserved a). Qed.

Lemma export_params_spec filters :
  export_params filters = push_filters [] ((λ kv, (kv.1, encodeURIComponent kv.2)) <$> filters).
Proof.
  unfold export_params, push_filters. generalize (@nil string) as acc.
  induction filters as [|[k v] fl IH]; intros acc; [done|]. simpl. rewrite IH. f_equal.
  unfold push_encoded, push_if. simpl. by rewrite truthy_encode.
Qed.

Lemma filter_fmap_encode (fl : list (string * string)) :
  List.filter (λ kv, truthy kv.2) ((λ kv, (kv.1, encodeURIComponent kv.2)) <$> fl) =
  (λ kv, (kv.1, encodeURIComponent kv.2)) <$> List.filter (λ kv, truthy kv.2) fl.
Proof.
  induction fl as [|[k v] fl IH]; [done|]. rewrite !fmap_cons. cbn [List.filter]. simpl.
  rewrite truthy_encode. destruct (truthy v); by rewrite IH.
Qed.

(** The server reads back the filters of [exportData]. *)
Lemma export_server_params filters :
  Forall (λ kv, plain_key kv.1) filters →
  server_params (query_string (export_params filters)) = List.filter (λ kv, truthy kv.2) filters.
Proof.
  intros Hk. rewrite export_params_spec, push_filters_spec, filter_fmap_encode, app_nil_l.
  set (fl := List.filter (λ kv, truthy kv.2) filters).
  assert (Forall (λ kv, plain_key kv.1) fl) as Hfl by (apply Forall_List_filter, Hk).
  set (enc := (λ kv : string * string, (kv.1, encodeURIComponent kv.2)) <$> fl).
  assert (Forall (λ kv, avoids ["&"; "="; "#"]%char kv.1 = true ∧ avoids ["&"; "="; "#"; "+"]%char kv.2 = true) enc)
    as Henc.
  { apply Forall_fmap, (Forall_impl _ _ _ Hfl). intros [k v] Hkv. split; [|apply encode_plain].
    eapply avoids_weaken; [|exact Hkv]. unfold key_seps, val_seps. set_solver. }
  assert (Forall splits_back enc) as Hsplit.
  { eapply Forall_impl; [exact Henc|]. intros [k v] [Hk' Hv]. split; simpl.
    - apply (avoids_weaken ["&"; "="; "#"]%char); [set_solver|exact Hk'].
    - apply (avoids_weaken ["&"; "="; "#"; "+"]%char); [set_solver|exact Hv]. }
  assert (avoids ["#"%char] (query_string (uncurry param <$> enc)) = true) as Hhash.
  { apply query_string_avoids; [set_solver|set_solver|]. apply Forall_fmap, (Forall_impl _ _ _ Henc).
    intros [k v] [Hk' Hv]. simpl in *. unfold param. rewrite !avoids_app.
    rewrite (avoids_weaken ["&"; "="; "#"]%char ["#"%char] k), (avoids_weaken ["&"; "="; "#"; "+"]%char ["#"%char] v);
      [done|set_solver|exact Hv|set_solver|exact Hk']. }
  unfold server_params. rewrite before_hash_id, parse_query_string by done.
  subst enc. rewrite <- list_fmap_compose.
  rewrite (list_fmap_ext _ id fl); [apply list_fmap_id|]. intros i [k v] Hi. simpl. rewrite percent_decode_encode, percent_decode_id; [done|].
  eapply Forall_lookup_1 in Hfl; [|exact Hi]. eapply avoids_weaken; [|exact Hfl].
  unfold key_seps, val_seps. set_solver.
Qed.

(** C10 (roundtrip).  What the server reads from the URL of [exportData]:
    every non-empty filter under its key with its value exactly as typed,
    in the order written, whatever characters the values hold. *)
Theorem export_query_roundtrip filters :
  Forall (λ kv, plain_key kv.1) filters →
  server_params (query_string (export_params filters)) = List.filter (λ kv, truthy kv.2) filters.
Proof. apply export_server_params. Qed.

(** ** The export handler *)

Definition export_error (e : exn) : string := "حدث خطأ أثناء التصدير: " +:+ exn_message e.

(** The effects of [exportData] between the request and [hideLoading()]
    for each answer of the network. *)
Definition export_outcome (fileName now : string) (s : settled) : list effect :=
  match s with
  | Rejected e => [EAlert (export_error e)]
  | Fulfilled r =>
      if resp_ok r then
        match rbody r with
        | Some (JArr _) => [EDownload (fileName +:+ "_" +:+ split_T_0 now +:+ ".xlsx");
                            EAlert ("تم تصدير " +:+ fileName +:+ " بنجاح")]
        | Some _ => [EAlert (export_error (TypeError "js.forEach"))]
        | None => [EAlert (export_error (SyntaxError "response.json()"))]
        end
      else [EAlert (export_error (JsError export_failed))]
  end.

(** [exportData] on every answer: one request, a
    download and the success alert for a JSON array, the failure alert
    with the error's message otherwise, always under the overlay, and no
    exception escapes. *)
Theorem exportData_run authToken now endpoint fileName filters net :
  let q := api_get authToken ("/" +:+ endpoint +:+ query_string (export_params filters)) in
  outcome (exportData authToken now endpoint fileName filters) net = Ret tt ∧
  effects (exportData authToken now endpoint fileName filters) net =
    [ELoading true; EFetch q] ++ export_outcome fileName now (net q) ++ [ELoading false].
Proof.
  unfold exportData, outcome, effects, export_outcome. rewrite run_try. autorewrite with prog_rw. simpl.
  autorewrite with prog_rw. destruct (net _) as [r|e]; simpl; [|done].
  destruct (resp_ok r); simpl; [|done]. unfold p_json. autorewrite with prog_rw. unfold await_json.
  destruct (rbody r) as [[]|]; simpl; done.
Qed.

(** [exportPayments] sends the status, month, method
    and class filters, which the server reads exactly as typed, but not
    the student search: the file holds every student's payments of the
    filtered table. *)
Theorem exportPayments_drops_student authToken now f net :
  let q := api_get authToken ("/payments" +:+
             query_string (export_params (take 4 (payment_filter_list f)))) in
  requests_of (effects (exportPayments authToken now f) net) = [q] ∧
  server_params (query_string (export_params (take 4 (payment_filter_list f)))) =
    List.filter (λ kv, truthy kv.2) (take 4 (payment_filter_list f)).
Proof.
  split.
  - destruct (exportData_run authToken now "payments" "المدفوعات"
                (take 4 (payment_filter_list f)) net) as [_ He].
    change (exportPayments authToken now f)
      with (exportData authToken now "payments" "المدفوعات" (take 4 (payment_filter_list f))).
    rewrite He, !requests_of_app. unfold export_outcome.
    destruct (net _) as [r|e]; [|done]. destruct (resp_ok r); [|done]. by destruct (rbody r) as [[]|].
  - apply export_server_params. repeat constructor.
Qed.

(** ** Concrete runs *)

Definition ex_filters : list (string * string) :=
  [("type", "supplies"); ("category", "كتب & أقلام"); ("startDate", ""); ("endDate", "2024-06-30")].

Lemma export_query_roundtrip_witness :
  Forall (λ kv, plain_key kv.1) ex_filters ∧
  server_params (query_string (export_params ex_filters)) =
    [("type", "supplies"); ("category", "كتب & أقلام"); ("endDate", "2024-06-30")].
Proof.
  assert (Forall (λ kv, plain_key kv.1) ex_filters) as H by repeat constructor.
  split; [exact H|]. exact (export_query_roundtrip ex_filters H).
Defined.

(** The expenses table and its export read the same category filter
    differently: the list asks for the category [كتب ] and a parameter
    [ أقلام], the export for the category as typed. *)
Example export_and_list_disagree :
  server_params (query_string (expenses_params "supplies" "كتب & أقلام" "" "")) =
    [("type", "supplies"); ("category", "كتب "); (" أقلام", "")] ∧
  server_params (query_string (export_params [("type", "supplies"); ("category", "كتب & أقلام");
                                               ("startDate", ""); ("endDate", "")])) =
    [("type", "supplies"); ("category", "كتب & أقلام")].
Proof. split; reflexivity. Qed.

(** A failed export reports the script's own message. *)
Example export_refused :
  effects (exportPayments (Some "tok") "2024-05-01T10:00:00Z" (mkPaymentFilters "paid" "" "" "" "Ali"))
          (λ _, Fulfilled (mkResponse 500 None)) =
    [ELoading true;
     EFetch (api_get (Some "tok") "/payments?status=paid");
     EAlert "حدث خطأ أثناء التصدير: فشل في جلب البيانات"; ELoading false].
Proof. reflexivity. Qed.
