(* ===== verification/Settings.v ===== *)
(** * The settings kept in [localStorage]

    [saveSettings] (line 2730) writes the eight inputs of the settings
    section into [localStorage] under [accountingSettings];
    [loadSettings] (line 2714) reads them back, falling back to a default
    for every field that is missing or empty.  Nothing is sent to the
    server. *)

From Stdlib Require Import ZArith.
From stdpp Require Import base list strings.
From S2P Require Import Prelude Fetch Prog Session.

Local Open Scope string_scope.
Local Open Scope acc_scope.
Local Open Scope list_scope.

(** The values of the eight inputs. *)
Record settings_form : Type := mkSettingsForm {
  schoolName : string;
  currency : string;
  taxRate : string;
  invoicePrefix : string;
  paymentTerms : string;
  lateFee : string;
  schoolAddress : string;
  schoolContact : string
}.

(** [input.value = settings.k || d]: a truthy stored value, written as a
    string, or the default. *)
Definition field_or (settings : jval) (k d : string) : string :=
  let v := jget k settings in
  if js_truthy v then dom_text v else d.

Definition default_contact : string :=
  "هاتف: 0000000000" +:+ LF +:+ "بريد إلكتروني: info@school.com".

(** [loadSettings()] (lines 2714-2726): [JSON.parse(null)] is [null], and
    [null || {}] is the empty object. *)
Definition loadSettings (st : storage) : settings_form :=
  let parsed := match ls_settings st with None => JNull | Some v => v end in
  let settings := if js_truthy (Some parsed) then parsed else JObj [] in
  (mkSettingsForm
          (field_or settings "schoolName" "المؤسسة التعليمية")
          (field_or settings "currency" "DZD")
          (field_or settings "taxRate" "0")
          (field_or settings "invoicePrefix" "INV")
          (field_or settings "paymentTerms" "30")
          (field_or settings "lateFee" "5")
          (field_or settings "schoolAddress" "العنوان: الجزائر")
          (field_or settings "schoolContact" default_contact)).

(** The object of lines 2731-2740. *)
Definition settings_object (f : settings_form) : jval :=
  JObj [("schoolName", JStr (schoolName f)); ("currency", JStr (currency f));
        ("taxRate", JStr (taxRate f)); ("invoicePrefix", JStr (invoicePrefix f));
        ("paymentTerms", JStr (paymentTerms f)); ("lateFee", JStr (lateFee f));
        ("schoolAddress", JStr (schoolAddress f)); ("schoolContact", JStr (schoolContact f))].

Definition settings_saved_alert : string := "تم حفظ الإعدادات بنجاح".

(** [saveSettings()] (lines 2730-2744): the new storage and the alert. *)
Definition saveSettings (f : settings_form) (st : storage) : storage * list effect :=
  (mkStorage (ls_authToken st) (ls_user st) (Some (settings_object f)),
   [EAlert settings_saved_alert]).

(** ** Properties *)

(** A field read back: the text saved, or the default when it was
    empty. *)
Definition kept_or (s d : string) : string := if truthy s then s else d.

(** Saving the settings and loading them back gives
    every input its saved text, except that an input saved empty comes
    back with its default; the session entries of [localStorage] are
    untouched. *)
Theorem settings_roundtrip f st :
  let st' := (saveSettings f st).1 in
  ls_authToken st' = ls_authToken st ∧ ls_user st' = ls_user st ∧
  loadSettings st' =
    (mkSettingsForm (kept_or (schoolName f) "المؤسسة التعليمية") (kept_or (currency f) "DZD")
           (kept_or (taxRate f) "0") (kept_or (invoicePrefix f) "INV")
           (kept_or (paymentTerms f) "30") (kept_or (lateFee f) "5")
           (kept_or (schoolAddress f) "العنوان: الجزائر") (kept_or (schoolContact f) default_contact)).
Proof.
  split; [done|]. split; [done|]. reflexivity.
Qed.

(** With nothing stored, every input gets its default. *)
Example loadSettings_defaults :
  loadSettings (mkStorage None None None) =
    (mkSettingsForm "المؤسسة التعليمية" "DZD" "0" "INV" "30" "5" "العنوان: الجزائر" default_contact).
Proof. reflexivity. Qed.
