(* ===== verification/Router.v ===== *)
(** * The section router

    [showSection(sectionId)] (lines 189-225) removes the class [active]
    from every [.section], adds it to [#${sectionId}Section], and starts
    the loader of the section; the click listener of every [.nav-link]
    (lines 62-70) calls it and then moves the class [active] to the link
    clicked.

    The router only owns the two sets of active elements; what the
    [settings] case does ([loadSettings()], which fills the settings
    form) belongs to the page that hosts it.  The class [RouterHost]
    is that contract: the host gives access to the router's state and
    runs [loadSettings], and its laws say that [loadSettings] leaves the
    router alone, emits nothing and does not throw.  The properties are proved for every
    lawful host; [Page] is the page of the script. *)

From Stdlib Require Import ZArith.
From stdpp Require Import base list strings.
From S2P Require Import Prelude Fetch Prog.

Local Open Scope string_scope.
Local Open Scope acc_scope.
Local Open Scope list_scope.

(** The [.section] elements and [.nav-link] elements that hold the class
    [active]: sections by id, links by their [data-section]. *)
Record router : Type := mkRouter { active_sections : list string; active_nav : list string }.

Class RouterHost (P : Type) := {
  host_router : P → router;
  host_set_router : router → P → P;
  host_loadSettings : sprog P unit
}.

Class RouterHostLaws (P : Type) `{RouterHost P} := {
  host_get_set r p : host_router (host_set_router r p) = r;
  host_loadSettings_router p net : host_router (host_loadSettings p net).1.2 = host_router p;
  host_loadSettings_quiet p net : (host_loadSettings p net).1.1 = [] ∧ (host_loadSettings p net).2 = Ret tt
}.

(** What the [switch] of lines 199-224 does for a section. *)
Inductive case_action : Type := CaseLoad (l : loader) | CaseSettings | CaseNone.

(** The cases in source order; the second [case 'expenses'] can never be
    reached. *)
Definition section_case (sectionId : string) : case_action :=
  if sectionId === "dashboard" then CaseLoad LoadDashboardData
  else if sectionId === "payments" then CaseLoad LoadPayments
  else if sectionId === "expenses" then CaseLoad LoadExpenses
  else if sectionId === "reports" then CaseLoad LoadReports
  else if sectionId === "teachers" then CaseLoad LoadTeacherCommissions
  else if sectionId === "invoices" then CaseLoad LoadInvoices
  else if sectionId === "settings" then CaseSettings
  else if sectionId === "expenses" then CaseLoad LoadExpenses
  else CaseNone.

Section Router.
Context {P : Type} `{RouterHost P}.
(** The ids of the [.section] elements of the page. *)
Variable sections : list string.

Definition set_sections (l : list string) (p : P) : P :=
  host_set_router (mkRouter l (active_nav (host_router p))) p.
Definition set_nav (l : list string) (p : P) : P :=
  host_set_router (mkRouter (active_sections (host_router p)) l) p.

(** [showSection(sectionId)] (lines 189-225): a missing element makes
    [.classList] of [null] throw after every section was deactivated. *)
Definition showSection (sectionId : string) : sprog P unit :=
  s_modify (set_sections []) ;;
  (if bool_decide (sectionId +:+ "Section" ∈ sections)
   then s_modify (set_sections [sectionId +:+ "Section"])
   else s_lift (p_throw (TypeError "document.getElementById(..).classList"))) ;;
  match section_case sectionId with
  | CaseLoad l => s_lift (p_load l)
  | CaseSettings => host_loadSettings
  | CaseNone => mret ()
  end.

(** The click listener of a [.nav-link] whose [data-section] is
    [sectionId] (lines 62-70). *)
Definition nav_click (sectionId : string) : sprog P unit :=
  showSection sectionId ;;
  s_modify (set_nav [sectionId]).
End Router.

(** An event whose listener was added [k] times: the listeners run one
    after the other, and an exception in one is reported without stopping
    the next. *)
Fixpoint dispatch {P} (k : nat) (listener : sprog P unit) : sprog P unit :=
  match k with
  | 0 => mret ()
  | S k' => λ p net,
      let r := listener p net in
      let r' := dispatch k' listener r.1.2 net in
      (r.1.1 ++ r'.1.1, r'.1.2, Ret tt)
  end.

(** ** Properties *)

(** One more registration: the first copy runs, then the others. *)
Lemma dispatch_S {P} k (l : sprog P unit) p net :
  dispatch (S k) l p net = ((l p net).1.1 ++ (dispatch k l (l p net).1.2 net).1.1,
                            (dispatch k l (l p net).1.2 net).1.2, Ret tt).
Proof. done. Qed.

(** The loader a section starts, as an effect. *)
Definition loader_effects (sectionId : string) : list effect :=
  match section_case sectionId with CaseLoad l => [ELoad l] | _ => [] end.

Section RouterProofs.
Context {P : Type} `{RouterHostLaws P}.
Variable sections : list string.

Lemma section_case_run sectionId p net :
  let r := (match section_case sectionId with
            | CaseLoad l => s_lift (p_load l)
            | CaseSettings => host_loadSettings
            | CaseNone => mret ()
            end : sprog P unit) p net in
  r.1.1 = loader_effects sectionId ∧ host_router r.1.2 = host_router p ∧ r.2 = Ret tt.
Proof.
  unfold loader_effects. destruct (section_case sectionId); simpl; [done| |done].
  destruct (host_loadSettings_quiet p net) as [Hq Hr].
  split; [done|]. split; [apply host_loadSettings_router|done].
Qed.

Lemma showSection_present sectionId p net :
  sectionId +:+ "Section" ∈ sections →
  let r := showSection sections sectionId p net in
  r.1.1 = loader_effects sectionId ∧
  host_router r.1.2 = mkRouter [sectionId +:+ "Section"] (active_nav (host_router p)) ∧
  r.2 = Ret tt.
Proof.
  intros Hin. unfold showSection. rewrite srun_bind. simpl. rewrite srun_bind.
  rewrite bool_decide_true by done. simpl.
  destruct (section_case_run sectionId (set_sections [sectionId +:+ "Section"] (set_sections [] p)) net)
    as (He & Hr & Ho).
  rewrite He, Hr, Ho. unfold set_sections. rewrite !host_get_set. done.
Qed.

Lemma showSection_missing sectionId p net :
  sectionId +:+ "Section" ∉ sections →
  let r := showSection sections sectionId p net in
  r.1.1 = [] ∧ host_router r.1.2 = mkRouter [] (active_nav (host_router p)) ∧
  r.2 = Throw (TypeError "document.getElementById(..).classList").
Proof.
  intros Hin. unfold showSection. rewrite srun_bind. simpl. rewrite srun_bind.
  rewrite bool_decide_false by done. simpl. unfold set_sections. by rewrite host_get_set.
Qed.

(** One click, on both branches. *)
Lemma nav_click_run sectionId p net :
  let r := nav_click sections sectionId p net in
  if bool_decide (sectionId +:+ "Section" ∈ sections)
  then host_router r.1.2 = mkRouter [sectionId +:+ "Section"] [sectionId] ∧
       r.1.1 = loader_effects sectionId ∧ r.2 = Ret tt
  else host_router r.1.2 = mkRouter [] (active_nav (host_router p)) ∧
       r.1.1 = [] ∧ r.2 = Throw (TypeError "document.getElementById(..).classList").
Proof.
  unfold nav_click. rewrite srun_bind.
  case_bool_decide as Hin.
  - destruct (showSection_present sectionId p net Hin) as (He & Hr & Ho).
    destruct (showSection sections sectionId p net) as [[es p1] o]. simpl in *. subst o. simpl.
    unfold set_nav. rewrite host_get_set, Hr, He, app_nil_r. done.
  - destruct (showSection_missing sectionId p net Hin) as (He & Hr & Ho).
    destruct (showSection sections sectionId p net) as [[es p1] o]. simpl in *. by subst.
Qed.

(** A click on the link of a section that exists
    leaves exactly that section and that link active and starts the
    loader of the section (none for an unknown name, [loadSettings] for
    the settings). *)
Theorem nav_click_present sectionId p net :
  sectionId +:+ "Section" ∈ sections →
  let r := nav_click sections sectionId p net in
  host_router r.1.2 = mkRouter [sectionId +:+ "Section"] [sectionId] ∧
  r.1.1 = loader_effects sectionId ∧ r.2 = Ret tt.
Proof. intros Hin. pose proof (nav_click_run sectionId p net) as Hr. by rewrite bool_decide_true in Hr. Qed.

(** A click on a link whose section element does not exist
    deactivates every section, then throws a [TypeError]: no section is
    shown, the active link does not move and no loader is started. *)
Theorem nav_click_missing sectionId p net :
  sectionId +:+ "Section" ∉ sections →
  let r := nav_click sections sectionId p net in
  host_router r.1.2 = mkRouter [] (active_nav (host_router p)) ∧
  r.1.1 = [] ∧ r.2 = Throw (TypeError "document.getElementById(..).classList").
Proof. intros Hin. pose proof (nav_click_run sectionId p net) as Hr. by rewrite bool_decide_false in Hr. Qed.

(** The pages the router can reach from [p0] by clicks on links. *)
Inductive reachable (p0 : P) : P → Prop :=
| reach_init : reachable p0 p0
| reach_click p sectionId net :
    reachable p0 p → reachable p0 (nav_click sections sectionId p net).1.2.

(** C32 (invariant).  Whatever links the user clicks, at most one
    section and at most one link are active, provided the page starts
    that way (a click on a missing section leaves none active). *)
Theorem router_at_most_one p0 p :
  (length (active_sections (host_router p0)) ≤ 1)%nat → (length (active_nav (host_router p0)) ≤ 1)%nat →
  reachable p0 p →
  (length (active_sections (host_router p)) ≤ 1)%nat ∧ (length (active_nav (host_router p)) ≤ 1)%nat.
Proof.
  intros Hs Hn. induction 1 as [|p sectionId net _ [IHs IHn]]; [done|].
  pose proof (nav_click_run sectionId p net) as Hr.
  case_bool_decide; destruct Hr as (-> & _); simpl; lia.
Qed.
(** Navigation is idempotent: a click on the link of
    the section already shown leaves the active section and link as they
    are, and starts the section's loader again. *)
Theorem nav_click_idempotent sectionId p net :
  sectionId +:+ "Section" ∈ sections →
  host_router p = mkRouter [sectionId +:+ "Section"] [sectionId] →
  host_router (nav_click sections sectionId p net).1.2 = host_router p ∧
  (nav_click sections sectionId p net).1.1 = loader_effects sectionId.
Proof.
  intros Hin Hp. pose proof (nav_click_run sectionId p net) as Hr.
  rewrite bool_decide_true in Hr by done. destruct Hr as (-> & -> & _). by rewrite Hp.
Qed.
End RouterProofs.
