(* ===== verification/Modals.v ===== *)
(** * Modals: showing them and the two ways of closing them

    [showModal] and [hideModal] (lines 227-236) set [style.display] of a
    modal to ['block'] and ['none']; the handlers of the other files emit
    them as [EModal] effects.  [setupEventListeners] adds two listeners
    that close a modal (lines 75-89):
    - a [click] listener on every element matching
      ['.close, [data-dismiss="modal"]'] when the listeners are set up,
      which hides [this.closest('.modal')];
    - a [click] listener on [window], which hides every element of the
      NodeList [modals] (line 27, taken when the script loads) that is the
      target of the click.
    A click runs the listeners of its target first and those of [window]
    last (the event bubbles); the listeners were added once per run of
    [setupEventListeners] ([Page.initApp] runs twice), and each copy runs
    through [Router.dispatch], which reports an exception and goes on.
    The other [click] listeners on the way up (the sidebar's listener on
    [document]) act on other state and are not part of this file. *)

From Stdlib Require Import ZArith.
From stdpp Require Import base list sets strings gmap.
From S2P Require Import Prelude Fetch Prog Router.

Local Open Scope string_scope.
Local Open Scope acc_scope.
Local Open Scope list_scope.

(** The modals of the page and their inline [style.display]: [true] for
    ['block'], [false] for ['none'], absent while the code has not set
    it. *)
Record modal_view : Type := mkModalView {
  modals : list string;                          (* line 27, by element id *)
  close_buttons : list (string * option string); (* line 76: a button and the modal it sits in *)
  display : gmap string bool
}.

Definition set_display (m : string) (b : bool) (v : modal_view) : modal_view :=
  mkModalView (modals v) (close_buttons v) (<[m := b]> (display v)).

(** [showModal(id)] and [hideModal(id)] as they act on the page. *)
Definition apply_effect (v : modal_view) (e : effect) : modal_view :=
  match e with EModal m b => set_display m b v | _ => v end.

Definition apply_effects (es : list effect) (v : modal_view) : modal_view :=
  foldl apply_effect v es.

(** Where a click lands: a close button, a modal element itself (its
    backdrop, outside the dialog box), or any other element. *)
Inductive click_target : Type :=
| OnCloseButton (button : string)
| OnModal (m : string)
| OnOther.

(** The listener of a close button (lines 77-79): [closest] gives [null]
    for a button outside every modal, and [.style] of it throws. *)
Definition button_listener (enclosing : option string) : sprog modal_view unit := λ v _,
  match enclosing with
  | Some m => ([], set_display m false v, Ret tt)
  | None => ([], v, Throw (TypeError "this.closest('.modal').style"))
  end.

(** [e.target === modal] *)
Definition is_target (t : click_target) (m : string) : bool :=
  match t with OnModal m' => m' === m | _ => false end.

(** The listener on [window] (lines 83-89): [modals.forEach]. *)
Definition window_listener (t : click_target) : sprog modal_view unit :=
  s_modify (λ v, foldl (λ v m, if is_target t m then set_display m false v else v) v (modals v)).

(** The listeners of the target: the close button's, when the button was
    there when the listeners were set up. *)
Definition target_listener (t : click_target) (v : modal_view) : option (sprog modal_view unit) :=
  match t with
  | OnCloseButton b => button_listener <$> (list_to_map (close_buttons v) : gmap string (option string)) !! b
  | _ => None
  end.

(** A click with the listeners added [k] times. *)
Definition modal_click (k : nat) (t : click_target) : sprog modal_view unit := λ v net,
  let r := match target_listener t v with Some l => dispatch k l v net | None => ([], v, Ret tt) end in
  let r' := dispatch k (window_listener t) r.1.2 net in
  (r.1.1 ++ r'.1.1, r'.1.2, Ret tt).

(** ** What a click leaves *)

(** The page after a click whose listeners each ran at least once. *)
Definition after_click (t : click_target) (v : modal_view) : modal_view :=
  match t with
  | OnCloseButton b =>
      match (list_to_map (close_buttons v) : gmap string (option string)) !! b with
      | Some (Some m) => set_display m false v
      | _ => v
      end
  | OnModal m => if bool_decide (m ∈ modals v) then set_display m false v else v
  | OnOther => v
  end.

Arguments set_display : simpl never.

Lemma set_display_idem m b v : set_display m b (set_display m b v) = set_display m b v.
Proof. unfold set_display. cbn. by rewrite insert_insert_eq. Qed.

(** A listener that emits nothing, does not throw observably after
    [dispatch], and whose change is idempotent, acts as once however many
    times it was added. *)
Lemma dispatch_idem {P} (l : sprog P unit) (f : P → P) :
  (∀ p net, (l p net).1 = ([], f p)) → (∀ p, f (f p) = f p) →
  ∀ k p net, dispatch (S k) l p net = ([], f p, Ret tt).
Proof.
  intros Hl Hf k. induction k as [|k IH]; intros p net; rewrite dispatch_S, Hl; [done|].
  cbn [fst snd]. by rewrite IH, Hf.
Qed.

Lemma window_fold m ms v :
  foldl (λ v x, if is_target (OnModal m) x then set_display x false v else v) v ms =
    if bool_decide (m ∈ ms) then set_display m false v else v.
Proof.
  revert v. induction ms as [|x ms IH]; intros v; [done|]. cbn [foldl]. rewrite IH.
  cbn [is_target]. destruct (String.eqb_spec m x) as [<-|Hne].
  - rewrite (bool_decide_true (m ∈ m :: ms)) by apply list_elem_of_here.
    case_bool_decide; [apply set_display_idem|done].
  - assert (m ∈ x :: ms ↔ m ∈ ms) as Hiff by (rewrite elem_of_cons; naive_solver).
    by rewrite (bool_decide_ext _ _ Hiff).
Qed.

Lemma window_listener_run t v net :
  (window_listener t v net).1 = ([], match t with OnModal _ => after_click t v | _ => v end).
Proof.
  unfold window_listener, s_modify. cbn [fst snd]. destruct t as [b|m|]; cbn [fst snd].
  - by induction (modals v).
  - by rewrite window_fold.
  - by induction (modals v).
Qed.

Lemma modals_set_display m b v : modals (set_display m b v) = modals v.
Proof. done. Qed.
Lemma close_buttons_set_display m b v : close_buttons (set_display m b v) = close_buttons v.
Proof. done. Qed.

Lemma after_click_idem t v : after_click t (after_click t v) = after_click t v.
Proof.
  destruct t as [b|m|]; unfold after_click; [| |done].
  2:{ destruct (bool_decide (m ∈ modals v)) eqn:E; rewrite ?modals_set_display, E; [apply set_display_idem|done]. }
  destruct ((list_to_map (close_buttons v) : gmap string (option string)) !! b) as [[m|]|] eqn:Hb;
    rewrite ?close_buttons_set_display, ?Hb; [apply set_display_idem|done|done].
Qed.

Lemma button_listener_run enc v net :
  (button_listener enc v net).1 = ([], match enc with Some m => set_display m false v | None => v end).
Proof. by destruct enc. Qed.

(** Whatever the number of registrations, a click acts as one run of
    each listener: the target's, then the window's. *)
Lemma modal_click_run k t v net : modal_click (S k) t v net = ([], after_click t v, Ret tt).
Proof.
  unfold modal_click.
  rewrite (dispatch_idem (window_listener t) (λ v, match t with OnModal _ => after_click t v | _ => v end)
             (window_listener_run t)).
  2:{ intros w. destruct t; [done|apply after_click_idem|done]. }
  destruct t as [b|m|]; cbn [target_listener]; [|done|done].
  destruct (_ !! b) as [enc|] eqn:Hb; cbn -[dispatch after_click]; [|by cbn; rewrite Hb].
  rewrite (dispatch_idem (button_listener enc) (λ v, match enc with Some m => set_display m false v | None => v end)
             (button_listener_run enc)).
  2:{ intros w. destruct enc; [apply set_display_idem|done]. }
  cbn. rewrite Hb. by destruct enc.
Qed.

Lemma display_set_display m m' b v :
  display (set_display m b v) !! m' = if bool_decide (m = m') then Some b else display v !! m'.
Proof.
  unfold set_display. cbn. case_bool_decide; subst; [by rewrite lookup_insert_eq|by rewrite lookup_insert_ne].
Qed.

(** C34 (functional).  A click on a modal's backdrop, when the modal was
    on the page at load, or on a close button that was there when the
    listeners were set up and sits in the modal, hides that modal and no
    other, whatever the number of times the listeners were added, and
    without any other effect. *)
Theorem modal_click_closes k t v net m :
  (t = OnModal m ∧ m ∈ modals v) ∨
  (∃ b, t = OnCloseButton b ∧ (list_to_map (close_buttons v) : gmap string (option string)) !! b = Some (Some m)) →
  let r := modal_click (S k) t v net in
  r.1.1 = [] ∧ r.2 = Ret tt ∧ display r.1.2 !! m = Some false ∧
  ∀ m', m' ≠ m → display r.1.2 !! m' = display v !! m'.
Proof.
  intros Ht. cbv zeta. rewrite modal_click_run. cbn [fst snd]. split_and!; [done|done| |];
    destruct Ht as [[-> Hm]|(b & -> & Hb)]; cbn [after_click];
    rewrite ?Hb, ?(bool_decide_true (m ∈ modals v)) by done; intros;
    rewrite display_set_display; by case_bool_decide.
Qed.

(** ** Concrete runs *)

Definition ex_modals : modal_view :=
  mkModalView ["addPaymentModal"; "addExpenseModal"]
    [("closePayment", Some "addPaymentModal"); ("strayClose", None)] ∅.

Definition ex_net : network := λ _, Rejected (TypeError "Failed to fetch").

Lemma modal_click_closes_witness :
  let r := modal_click 1 (OnModal "addPaymentModal")
             (apply_effects [EModal "addPaymentModal" true; EModal "addExpenseModal" true] ex_modals) ex_net in
  display r.1.2 !! "addPaymentModal" = Some false ∧ display r.1.2 !! "addExpenseModal" = Some true.
Proof.
  cbv zeta.
  destruct (modal_click_closes 0 (OnModal "addPaymentModal")
              (apply_effects [EModal "addPaymentModal" true; EModal "addExpenseModal" true] ex_modals) ex_net
              "addPaymentModal") as (_ & _ & Hm & Ho).
  { left. split; [reflexivity|]. apply list_elem_of_here. }
  split; [exact Hm|]. rewrite Ho; [reflexivity|discriminate].
Defined.

(** Shown by two handlers, closed by its own X button (the listeners
    added twice at load); a close button outside every modal throws in
    each copy of its listener, and the click changes nothing. *)
Example close_button_runs :
  let v := apply_effects [EModal "addPaymentModal" true; EModal "addExpenseModal" true] ex_modals in
  display (modal_click 2 (OnCloseButton "closePayment") v ex_net).1.2 !! "addPaymentModal" = Some false ∧
  (modal_click 2 (OnCloseButton "strayClose") v ex_net).1.2 = v ∧
  (modal_click 2 OnOther v ex_net).1.2 = v.
Proof. split_and!; reflexivity. Qed.
