(* ===== verification/Page.v ===== *)
(** * The page: start-up and event listeners

    The page state gathers the session, the settings form, the router
    and the number of times the listeners of [setupEventListeners]
    (lines 55-107) were added.  [initApp] (lines 31-51) restores the
    session, adds the listeners, starts the initial loads when a token
    was restored, and fills the settings form.

    The script registers two [DOMContentLoaded] listeners that both run
    [initApp]: [document.addEventListener('DOMContentLoaded', initApp)]
    (line 1906) and the listener of lines 2751-2775, which wires the
    sidebar toggle and calls [initApp()] again.  So [setupEventListeners]
    runs twice.  [addEventListener] ignores a second registration of the
    same function on the same target and event: the named [handleLogin]
    and [handleLogout] are registered once, while the function
    expressions written inside [setupEventListeners] (the links' click
    listeners among them) are new objects at each run and are added
    twice, so every click on a link runs its handler twice.

    Event dispatch runs the listeners one after the other
    ([Router.dispatch]); the copies of a link's listener are synchronous,
    so this is the order the browser runs them in. *)

From Stdlib Require Import ZArith.
From stdpp Require Import base list strings.
From S2P Require Import Prelude Fetch Prog Session Settings Router.

Local Open Scope string_scope.
Local Open Scope acc_scope.
Local Open Scope list_scope.

Record page : Type := mkPage {
  pg_session : session;
  pg_form : settings_form;
  pg_router : router;
  pg_listeners : nat
}.

Definition set_session (s : session) (p : page) : page :=
  mkPage s (pg_form p) (pg_router p) (pg_listeners p).
Definition set_form (f : settings_form) (p : page) : page :=
  mkPage (pg_session p) f (pg_router p) (pg_listeners p).

(** A session handler run on the page. *)
Definition on_session {A} (m : sprog session A) : sprog page A := λ p net,
  let r := m (pg_session p) net in (r.1.1, set_session r.1.2 p, r.2).

(** [loadSettings()] / [initializeSettings()] on the page. *)
Definition page_loadSettings : sprog page unit :=
  s_modify (λ p, set_form (loadSettings (store (pg_session p))) p).

#[export] Instance page_router_host : RouterHost page := {
  host_router := pg_router;
  host_set_router r p := mkPage (pg_session p) (pg_form p) r (pg_listeners p);
  host_loadSettings := page_loadSettings
}.

#[export] Instance page_router_laws : RouterHostLaws page.
Proof. split; done. Qed.

(** [setupEventListeners()]: one more copy of each listener. *)
Definition setupEventListeners : sprog page unit :=
  s_modify (λ p, mkPage (pg_session p) (pg_form p) (pg_router p) (S (pg_listeners p))).

(** [initApp()] (lines 31-51). *)
Definition initApp : sprog page unit :=
  on_session restoreSession ;;
  setupEventListeners ;;
  p ← s_get;
  (match authToken (pg_session p) with
   | Some t => if truthy t then s_lift loadInitialData else mret ()
   | None => mret ()
   end) ;;
  page_loadSettings.

(** The two [DOMContentLoaded] listeners (lines 1906 and 2751-2775). *)
Definition page_load : sprog page unit := dispatch 2 initApp.

(** The user's actions after the load. *)
Inductive ui_event : Type :=
| ClickNav (sectionId : string)
| SubmitLogin (username password : string)
| ClickLogout.

Section Events.
(** The ids of the [.section] elements of the page. *)
Variable sections : list string.

Definition ui_listener (ev : ui_event) : sprog page unit :=
  match ev with
  | ClickNav sectionId => nav_click sections sectionId
  | SubmitLogin u pw => on_session (handleLogin u pw)
  | ClickLogout => on_session handleLogout
  end.

(** The registrations of an event's listener after [k] runs of
    [setupEventListeners]: one for the named handlers, which
    [addEventListener] does not add twice; [k] for a link's function
    expression. *)
Definition registrations (ev : ui_event) (k : nat) : nat :=
  match ev with ClickNav _ => k | SubmitLogin _ _ | ClickLogout => Nat.min 1 k end.

(** An event runs its listener once per registration. *)
Definition ui_event_run (ev : ui_event) : sprog page unit := λ p net,
  dispatch (registrations ev (pg_listeners p)) (ui_listener ev) p net.
End Events.

(** ** Properties *)

Lemma restoreSession_no_token s net :
  ls_authToken (store s) = None → restoreSession s net = ([], set_shown LoginScreen s, Ret tt).
Proof. intros Ht. unfold restoreSession. rewrite srun_bind. simpl. by rewrite Ht. Qed.

(** [initApp] for a visitor without a stored token. *)
Lemma initApp_no_token p net :
  ls_authToken (store (pg_session p)) = None → authToken (pg_session p) = None →
  initApp p net =
    ([], mkPage (set_shown LoginScreen (pg_session p)) (loadSettings (store (pg_session p)))
               (pg_router p) (S (pg_listeners p)), Ret tt).
Proof.
  intros Ht Ha. unfold initApp. rewrite srun_bind. unfold on_session at 1.
  rewrite restoreSession_no_token by done. simpl. by rewrite Ha.
Qed.

Lemma page_load_no_token p net :
  ls_authToken (store (pg_session p)) = None → authToken (pg_session p) = None →
  page_load p net =
    ([], mkPage (set_shown LoginScreen (pg_session p)) (loadSettings (store (pg_session p)))
               (pg_router p) (S (S (pg_listeners p))), Ret tt).
Proof.
  intros Ht Ha. unfold page_load. simpl. rewrite initApp_no_token by done. simpl.
  rewrite initApp_no_token by done. done.
Qed.

(** [handleLogin] sends exactly the login request, whatever the answer. *)
Lemma handleLogin_requests u pw s net :
  requests_of (handleLogin u pw s net).1.1 = [login_request u pw].
Proof.
  unfold handleLogin. repeat (rewrite srun_bind; cbn -[showApp]).
  destruct (net (login_request u pw)) as [r|e]; cbn -[showApp]; [|done].
  unfold p_json, await_json. destruct (rbody r) as [data|]; cbn -[showApp]; [|done].
  destruct (resp_ok r), data; cbn -[showApp]; try done;
  repeat (rewrite srun_bind; cbn -[showApp]);
  match goal with |- context [showApp ?s1 net] =>
    pose proof (showApp_quiet s1 net) as Hq; destruct (showApp s1 net) as [[es s2] [[]|e]] end;
  simpl in Hq; subst es; done.
Qed.

(** C33 (error).  Because [initApp] runs twice at load, the listeners of
    [setupEventListeners] are added twice: for a visitor without a
    stored session, after the page has loaded, a click on the link of an
    existing section starts its loader twice; the login form, whose
    listener is the named [handleLogin], sends the login request once. *)
Theorem listeners_added_twice sections p0 net net' sectionId username password :
  ls_authToken (store (pg_session p0)) = None → authToken (pg_session p0) = None →
  pg_listeners p0 = 0 → sectionId +:+ "Section" ∈ sections →
  let p1 := (page_load p0 net).1.2 in
  pg_listeners p1 = 2 ∧
  (ui_event_run sections (ClickNav sectionId) p1 net').1.1 = loader_effects sectionId ++ loader_effects sectionId ∧
  requests_of (ui_event_run sections (SubmitLogin username password) p1 net').1.1
    = [login_request username password].
Proof.
  intros Ht Ha H0 Hin. rewrite page_load_no_token by done. cbn -[nav_click handleLogin]. rewrite H0.
  split; [done|]. unfold ui_event_run. cbn [pg_listeners]. split.
  - set (q := mkPage _ _ _ _).
    pose proof (nav_click_run sections sectionId q net') as Hr1.
    rewrite bool_decide_true in Hr1 by done. destruct Hr1 as (_ & He1 & _).
    pose proof (nav_click_run sections sectionId (nav_click sections sectionId q net').1.2 net') as Hr2.
    rewrite bool_decide_true in Hr2 by done. destruct Hr2 as (_ & He2 & _).
    rewrite He1, He2. simpl. by rewrite app_nil_r.
  - unfold on_session. cbn -[handleLogin requests_of]. rewrite !requests_of_app, !handleLogin_requests. done.
Qed.

Lemma initApp_broken_user p net t :
  ls_authToken (store (pg_session p)) = Some t → truthy t = true →
  ls_user (store (pg_session p)) = Some None →
  (initApp p net).1.1 = [] ∧ pg_listeners (initApp p net).1.2 = pg_listeners p ∧
  store (pg_session (initApp p net).1.2) = store (pg_session p) ∧
  (initApp p net).2 = Throw (SyntaxError "JSON.parse").
Proof.
  intros Ht Htr Hu. unfold initApp. rewrite srun_bind. unfold on_session at 1.
  unfold restoreSession. rewrite srun_bind. simpl. rewrite Ht, Hu, Htr. done.
Qed.

(** After the login of C29, whose stored user is the text
    ["undefined"], every load of the page fails: both runs of [initApp]
    stop with a [SyntaxError] before [setupEventListeners], so no
    listener is added and no click on a link, login or logout has any
    effect. *)
Theorem page_load_broken_user sections p0 net t :
  ls_authToken (store (pg_session p0)) = Some t → truthy t = true →
  ls_user (store (pg_session p0)) = Some None → pg_listeners p0 = 0 →
  let p1 := (page_load p0 net).1.2 in
  pg_listeners p1 = 0 ∧
  ∀ ev net', ui_event_run sections ev p1 net' = ([], p1, Ret tt).
Proof.
  intros Ht Htr Hu H0. unfold page_load. rewrite !dispatch_S.
  destruct (initApp_broken_user p0 net t Ht Htr Hu) as (_ & Hl1 & Hs1 & _).
  destruct (initApp_broken_user (initApp p0 net).1.2 net t) as (_ & Hl2 & _ & _);
    [by rewrite Hs1|done|by rewrite Hs1|].
  simpl. rewrite Hl2, Hl1, H0. split; [done|]. intros ev net'. unfold ui_event_run. rewrite Hl2, Hl1, H0. by destruct ev.
Qed.

(** ** Concrete runs *)

(** The sections of the dashboard's HTML. *)
Definition ex_sections : list string :=
  ["dashboardSection"; "paymentsSection"; "expensesSection"; "teachersSection";
   "invoicesSection"; "reportsSection"; "settingsSection"].

Definition ex_page : page :=
  mkPage ex_session (loadSettings (mkStorage None None None)) (mkRouter ["dashboardSection"] ["dashboard"]) 0.

Lemma nav_click_present_witness :
  "payments" +:+ "Section" ∈ ex_sections ∧
  let r := nav_click ex_sections "payments" ex_page ex_net_login in
  host_router r.1.2 = mkRouter ["payments" +:+ "Section"] ["payments"] ∧
  r.1.1 = loader_effects "payments" ∧ r.2 = Ret tt.
Proof.
  assert ("payments" +:+ "Section" ∈ ex_sections) as H1 by (apply (bool_decide_unpack _); vm_compute; exact I).
  split; [exact H1|]. exact (nav_click_present ex_sections "payments" ex_page ex_net_login H1).
Defined.

Lemma nav_click_missing_witness :
  ("budgets" +:+ "Section" ∉ ex_sections) ∧
  let r := nav_click ex_sections "budgets" ex_page ex_net_login in
  host_router r.1.2 = mkRouter [] (active_nav (host_router ex_page)) ∧
  r.1.1 = [] ∧ r.2 = Throw (TypeError "document.getElementById(..).classList").
Proof.
  assert ("budgets" +:+ "Section" ∉ ex_sections) as H1 by (apply (bool_decide_unpack _); vm_compute; exact I).
  split; [exact H1|]. exact (nav_click_missing ex_sections "budgets" ex_page ex_net_login H1).
Defined.

Lemma router_at_most_one_witness :
  (length (active_sections (host_router ex_page)) ≤ 1)%nat ∧
  (length (active_nav (host_router ex_page)) ≤ 1)%nat ∧
  reachable ex_sections ex_page
    (nav_click ex_sections "budgets" (nav_click ex_sections "teachers" ex_page ex_net_login).1.2 ex_net_login).1.2 ∧
  let p := (nav_click ex_sections "budgets" (nav_click ex_sections "teachers" ex_page ex_net_login).1.2 ex_net_login).1.2 in
  (length (active_sections (host_router p)) ≤ 1)%nat ∧ (length (active_nav (host_router p)) ≤ 1)%nat.
Proof.
  assert ((length (active_sections (host_router ex_page)) ≤ 1)%nat) as H1 by (simpl; lia).
  assert ((length (active_nav (host_router ex_page)) ≤ 1)%nat) as H2 by (simpl; lia).
  assert (reachable ex_sections ex_page
    (nav_click ex_sections "budgets" (nav_click ex_sections "teachers" ex_page ex_net_login).1.2 ex_net_login).1.2)
    as H3 by (apply reach_click, reach_click, reach_init).
  split; [exact H1|split; [exact H2|split; [exact H3|]]].
  exact (router_at_most_one ex_sections ex_page _ H1 H2 H3).
Defined.

Lemma nav_click_idempotent_witness :
  "dashboard" +:+ "Section" ∈ ex_sections ∧
  host_router ex_page = mkRouter ["dashboard" +:+ "Section"] ["dashboard"] ∧
  host_router (nav_click ex_sections "dashboard" ex_page ex_net_login).1.2 = host_router ex_page ∧
  (nav_click ex_sections "dashboard" ex_page ex_net_login).1.1 = loader_effects "dashboard".
Proof.
  assert ("dashboard" +:+ "Section" ∈ ex_sections) as H1 by (apply (bool_decide_unpack _); vm_compute; exact I).
  assert (host_router ex_page = mkRouter ["dashboard" +:+ "Section"] ["dashboard"]) as H2 by reflexivity.
  split; [exact H1|split; [exact H2|]].
  exact (nav_click_idempotent ex_sections "dashboard" ex_page ex_net_login H1 H2).
Defined.

Lemma listeners_added_twice_witness :
  ls_authToken (store (pg_session ex_page)) = None ∧ authToken (pg_session ex_page) = None ∧
  pg_listeners ex_page = 0 ∧ "teachers" +:+ "Section" ∈ ex_sections ∧
  let p1 := (page_load ex_page ex_net_login).1.2 in
  pg_listeners p1 = 2 ∧
  (ui_event_run ex_sections (ClickNav "teachers") p1 ex_net_login).1.1
    = loader_effects "teachers" ++ loader_effects "teachers" ∧
  requests_of (ui_event_run ex_sections (SubmitLogin "amina" "secret") p1 ex_net_login).1.1
    = [login_request "amina" "secret"].
Proof.
  assert (ls_authToken (store (pg_session ex_page)) = None) as H1 by reflexivity.
  assert (authToken (pg_session ex_page) = None) as H2 by reflexivity.
  assert (pg_listeners ex_page = 0) as H3 by reflexivity.
  assert ("teachers" +:+ "Section" ∈ ex_sections) as H4 by (apply (bool_decide_unpack _); vm_compute; exact I).
  do 4 (split; [assumption|]).
  exact (listeners_added_twice ex_sections ex_page ex_net_login ex_net_login _ _ _ H1 H2 H3 H4).
Defined.

(** The storage left by the login of [Session.login_without_user_witness]. *)
Definition ex_broken_page : page :=
  mkPage (fresh_session (mkStorage (Some "t0k") (Some None) None))
    (loadSettings (mkStorage None None None)) (mkRouter [] []) 0.

Lemma page_load_broken_user_witness :
  ls_authToken (store (pg_session ex_broken_page)) = Some "t0k" ∧ truthy "t0k" = true ∧
  ls_user (store (pg_session ex_broken_page)) = Some None ∧ pg_listeners ex_broken_page = 0 ∧
  let p1 := (page_load ex_broken_page ex_net_login).1.2 in
  pg_listeners p1 = 0 ∧
  ∀ ev net', ui_event_run ex_sections ev p1 net' = ([], p1, Ret tt).
Proof.
  assert (ls_authToken (store (pg_session ex_broken_page)) = Some "t0k") as H1 by reflexivity.
  assert (truthy "t0k" = true) as H2 by reflexivity.
  assert (ls_user (store (pg_session ex_broken_page)) = Some None) as H3 by reflexivity.
  assert (pg_listeners ex_broken_page = 0) as H4 by reflexivity.
  do 4 (split; [assumption|]).
  exact (page_load_broken_user ex_sections ex_broken_page ex_net_login "t0k" H1 H2 H3 H4).
Defined.
