(* ===== verification/Sidebar.v ===== *)
(** * The sidebar toggle

    The second [DOMContentLoaded] listener (lines 2751-2769) adds a click
    listener to [#menuToggle] that toggles the class [active] of
    [#sidebar], when both elements exist, and in any case a click
    listener on the document that removes [active] when the window is
    narrower than 992 pixels and the click landed outside the sidebar
    and outside the toggle.  A click on the toggle reaches the toggle's
    listener first and then, bubbling up, the document's.

    The state is which of the two elements exist and whether the sidebar
    is active; a click is the window's width and where it landed. *)

From Stdlib Require Import ZArith.
From stdpp Require Import base list strings.
From S2P Require Import Prelude.

Local Open Scope string_scope.

Record sidebar : Type := mkSidebar {
  toggle_present : bool;     (* #menuToggle exists *)
  sidebar_present : bool;    (* #sidebar exists *)
  active : bool              (* sidebar.classList.contains('active') *)
}.

(** Where a click lands. *)
Inductive target : Type := OnToggle | InSidebar | Elsewhere.

#[export] Instance target_eq_dec : EqDecision target.
Proof. solve_decision. Defined.

Definition set_active (b : bool) (s : sidebar) : sidebar := mkSidebar (toggle_present s) (sidebar_present s) b.

(** [if (menuToggle && sidebar)]: the toggle listener is added. *)
Definition toggle_wired (s : sidebar) : bool := toggle_present s && sidebar_present s.

(** [sidebar.classList.toggle('active')] (line 2757). *)
Definition toggle_listener (s : sidebar) : sidebar := set_active (negb (active s)) s.

(** The document listener (lines 2762-2769): the conditions are read
    left to right and stop at the first false one; [sidebar] is [null]
    when the element is missing. *)
Definition document_listener (innerWidth : Z) (t : target) (s : sidebar) : sidebar * jsres unit :=
  if (innerWidth <? 992)%Z then
    if negb (sidebar_present s) then (s, Throw (TypeError "sidebar.classList"))
    else if active s then
      match t with
      | InSidebar => (s, Ret tt)
      | OnToggle => if toggle_present s then (s, Ret tt) else (s, Throw (TypeError "menuToggle.contains"))
      | Elsewhere =>
          if toggle_present s then (set_active false s, Ret tt)
          else (s, Throw (TypeError "menuToggle.contains"))
      end
    else (s, Ret tt)
  else (s, Ret tt).

(** A click: the toggle's listener when it landed on the wired toggle,
    then the document's. *)
Definition click (innerWidth : Z) (t : target) (s : sidebar) : sidebar * jsres unit :=
  let s1 := match t with OnToggle => if toggle_wired s then toggle_listener s else s | _ => s end in
  document_listener innerWidth t s1.

(** ** Properties *)

(** With both elements, a click on the toggle flips the sidebar at any
    width: the document listener does not undo it. *)
Theorem click_toggle_flips w a :
  click w OnToggle (mkSidebar true true a) = (mkSidebar true true (negb a), Ret tt).
Proof. unfold click, document_listener. simpl. destruct (w <? 992)%Z, a; reflexivity. Qed.

(** With both elements, on a narrow window a click outside the sidebar
    and the toggle closes it; a click inside leaves it as it is; on a
    wide window no click but the toggle's changes it. *)
Theorem click_outside_closes w t a :
  t ≠ OnToggle →
  click w t (mkSidebar true true a) =
    (mkSidebar true true (if (w <? 992)%Z && bool_decide (t = Elsewhere) then false else a), Ret tt).
Proof. intros Ht. unfold click, document_listener. destruct t, (w <? 992)%Z, a; simpl; done. Qed.

(** Without [#sidebar], every click on a narrow window throws in the
    document listener, whatever it landed on. *)
Theorem click_without_sidebar w t tp a :
  (w < 992)%Z → (click w t (mkSidebar tp false a)).2 = Throw (TypeError "sidebar.classList").
Proof.
  intros Hw. unfold click, document_listener, toggle_wired. replace (w <? 992)%Z with true by lia.
  by destruct t, tp.
Qed.

Lemma click_without_sidebar_witness :
  (980 < 992)%Z ∧ (click 980 Elsewhere (mkSidebar true false false)).2 = Throw (TypeError "sidebar.classList").
Proof. split; [lia|apply (click_without_sidebar 980 Elsewhere true false); lia]. Defined.

Lemma click_outside_closes_witness :
  OnToggle ≠ Elsewhere ∧ click 800 Elsewhere (mkSidebar true true true) = (mkSidebar true true false, Ret tt).
Proof. split; [done|]. exact (click_outside_closes 800 Elsewhere true ltac:(done)). Defined.
